(** * Tegra234 pin controller: register model of the pinmux / pinconf driver

    A shallow embedding of the Tegra pin-multiplexing and pin-configuration
    driver (the [tegra_pinctrl_*] and [tegra_pinconf_*] functions and the
    [tegra234_groups] catalog).  Registers are 32-bit words addressed by
    (bank, offset); the driver state [tegra_pmx] carries the register file,
    the per-pin GPIO shadow area and a trace of every register access and
    diagnostic the driver emits.  C shifts whose count is negative or not
    smaller than the width of the shifted type have no defined result; the
    embedding makes that explicit with the [Undefined] outcome. *)

From Stdlib Require Import ZArith Lia List Bool Ascii String.
From stdpp Require Import gmap strings list.

Local Open Scope Z_scope.

(** ** Machine integers *)

(** Conversion to [u32] and [u16]: the value modulo the width. *)
Definition u32 (z : Z) : Z := z mod 2 ^ 32.
Definition u16 (z : Z) : Z := z mod 2 ^ 16.

(** C's logical negation [!x] on an integer. *)
Definition lnot_c (x : Z) : Z := if x =? 0 then 1 else 0.

(** Errno values returned (negated) by the driver. *)
Definition EINVAL : Z := 22.
Definition ENOTSUPP : Z := 524.

(** ** Configuration parameters *)

(** [enum tegra_pinconf_param], as far as [tegra_pinconf_reg] switches on
    it.  [TEGRA_PINCONF_PARAM_OTHER] stands for any other value of the
    enum's integer type; it reaches the [default:] branch. *)
Inductive tegra_pinconf_param : Type :=
| TEGRA_PINCONF_PARAM_PULL
| TEGRA_PINCONF_PARAM_TRISTATE
| TEGRA_PINCONF_PARAM_ENABLE_INPUT
| TEGRA_PINCONF_PARAM_OPEN_DRAIN
| TEGRA_PINCONF_PARAM_LOCK
| TEGRA_PINCONF_PARAM_IORESET
| TEGRA_PINCONF_PARAM_RCV_SEL
| TEGRA_PINCONF_PARAM_LOOPBACK
| TEGRA_PINCONF_PARAM_HIGH_SPEED_MODE
| TEGRA_PINCONF_PARAM_SCHMITT
| TEGRA_PINCONF_PARAM_LOW_POWER_MODE
| TEGRA_PINCONF_PARAM_DRIVE_DOWN_STRENGTH
| TEGRA_PINCONF_PARAM_DRIVE_UP_STRENGTH
| TEGRA_PINCONF_PARAM_SLEW_RATE_FALLING
| TEGRA_PINCONF_PARAM_SLEW_RATE_RISING
| TEGRA_PINCONF_PARAM_DRIVE_TYPE
| TEGRA_PINCONF_PARAM_FUNCTION
| TEGRA_PINCONF_PARAM_PAD_POWER
| TEGRA_PINCONF_PARAM_OTHER (code : Z).

#[global] Instance tegra_pinconf_param_eq_dec : EqDecision tegra_pinconf_param.
Proof. solve_decision. Defined.

(** Modelled from the spec: the macros [TEGRA_PINCONF_PACK],
    [TEGRA_PINCONF_UNPACK_PARAM] and [TEGRA_PINCONF_UNPACK_ARG] live in
    [pinctrl-tegra234.h], which is not among the sources.  The spec
    describes a configuration item as a packed (parameter, argument) pair
    with [unpack (pack p a) = (p, a)]; the pair itself is used. *)
Definition pinconf : Type := (tegra_pinconf_param * Z)%type.
Definition TEGRA_PINCONF_PACK (param : tegra_pinconf_param) (arg : Z) : pinconf :=
  (param, arg).
Definition TEGRA_PINCONF_UNPACK_PARAM (config : pinconf) : tegra_pinconf_param :=
  fst config.
Definition TEGRA_PINCONF_UNPACK_ARG (config : pinconf) : Z := snd config.

(** The device-tree property table [cfg_params]. *)
Definition cfg_params : list (string * tegra_pinconf_param) :=
  [ ("nvidia,pull"%string, TEGRA_PINCONF_PARAM_PULL);
    ("nvidia,tristate"%string, TEGRA_PINCONF_PARAM_TRISTATE);
    ("nvidia,enable-input"%string, TEGRA_PINCONF_PARAM_ENABLE_INPUT);
    ("nvidia,open-drain"%string, TEGRA_PINCONF_PARAM_OPEN_DRAIN);
    ("nvidia,lock"%string, TEGRA_PINCONF_PARAM_LOCK);
    ("nvidia,io-reset"%string, TEGRA_PINCONF_PARAM_IORESET);
    ("nvidia,rcv-sel"%string, TEGRA_PINCONF_PARAM_RCV_SEL);
    ("nvidia,io-hv"%string, TEGRA_PINCONF_PARAM_RCV_SEL);
    ("nvidia,loopback"%string, TEGRA_PINCONF_PARAM_LOOPBACK);
    ("nvidia,high-speed-mode"%string, TEGRA_PINCONF_PARAM_HIGH_SPEED_MODE);
    ("nvidia,schmitt"%string, TEGRA_PINCONF_PARAM_SCHMITT);
    ("nvidia,low-power-mode"%string, TEGRA_PINCONF_PARAM_LOW_POWER_MODE);
    ("nvidia,pull-down-strength"%string, TEGRA_PINCONF_PARAM_DRIVE_DOWN_STRENGTH);
    ("nvidia,pull-up-strength"%string, TEGRA_PINCONF_PARAM_DRIVE_UP_STRENGTH);
    ("nvidia,slew-rate-falling"%string, TEGRA_PINCONF_PARAM_SLEW_RATE_FALLING);
    ("nvidia,slew-rate-rising"%string, TEGRA_PINCONF_PARAM_SLEW_RATE_RISING);
    ("nvidia,drive-type"%string, TEGRA_PINCONF_PARAM_DRIVE_TYPE);
    ("nvidia,func"%string, TEGRA_PINCONF_PARAM_FUNCTION);
    ("nvidia,pad-power"%string, TEGRA_PINCONF_PARAM_PAD_POWER) ].

(** The property-name lookup loop of [tegra_pinconf_reg]. *)
Fixpoint cfg_param_property (tbl : list (string * tegra_pinconf_param))
    (param : tegra_pinconf_param) : string :=
  match tbl with
  | [] => "unknown"%string
  | (prop, p) :: rest =>
      if bool_decide (p = param) then prop else cfg_param_property rest param
  end.

(** ** Pin groups and the SoC catalog *)

(** [struct tegra_pingroup], restricted to the members the driver reads.
    Register offsets and bit positions use [-1] as the absent sentinel.
    [npins] is [ARRAY_SIZE] of the pin array in every table entry, so it is
    the length of [pins] here. *)
Record tegra_pingroup : Type := {
  name : string;
  pins : list Z;
  funcs : list Z;
  mux_reg : Z;  mux_bank : Z;  mux_bit : Z;
  pupd_reg : Z; pupd_bank : Z; pupd_bit : Z;
  tri_reg : Z;  tri_bank : Z;  tri_bit : Z;
  lpbk_reg : Z; lpbk_bank : Z; lpbk_bit : Z;
  pad_reg : Z;  pad_bank : Z;  pad_bit : Z;
  drv_reg : Z;  drv_bank : Z;
  einput_bit : Z; odrain_bit : Z; lock_bit : Z; ioreset_bit : Z;
  rcv_sel_bit : Z; hsm_bit : Z; sfsel_bit : Z; schmitt_bit : Z;
  lpmd_bit : Z; drvtype_bit : Z;
  drvdn_bit : Z; drvdn_width : Z;
  drvup_bit : Z; drvup_width : Z;
  slwr_bit : Z;  slwr_width : Z;
  slwf_bit : Z;  slwf_width : Z;
  parked_bitmask : Z
}.

Definition npins (g : tegra_pingroup) : Z := Z.of_nat (length (pins g)).

(** [ARRAY_SIZE] of an array held as a list. *)
Definition ARRAY_SIZE {A : Type} (l : list A) : Z := Z.of_nat (length l).

(** [struct tegra_pinctrl_soc_data]: the group table and the catalog-wide
    flags.  [ngroups] is [ARRAY_SIZE(groups)]. *)
Record tegra_pinctrl_soc_data : Type := {
  ngpios : Z;
  groups : list tegra_pingroup;
  hsm_in_mux : bool;
  schmitt_in_mux : bool;
  drvtype_in_mux : bool;
  sfsel_in_mux : bool
}.

Definition ngroups (soc : tegra_pinctrl_soc_data) : nat := length (groups soc).

(** ** Driver state and the execution monad *)

(** Diagnostics: the [WARN_ON] and [dev_err] sites of the driver. *)
Inductive diag : Type :=
| WarnMuxRegAbsent
| WarnFunctionNotInGroup
| ErrPingroupNotFound (pin : Z)
| ErrInvalidParam (param : tegra_pinconf_param)
| ErrNotSupported (param : tegra_pinconf_param) (prop group_name : string)
| ErrLockCannotBeCleared
| ErrTooBig (config : pinconf) (arg width : Z).

(** What the driver does to the outside world, newest event first. *)
Inductive event : Type :=
| EvReadl (bank reg : Z)
| EvWritel (val bank reg : Z)
| EvDiag (d : diag).

(** [struct tegra_pmx] without the immutable [soc] pointer: the register
    banks, the [gpio_conf] shadow array and the trace. *)
Record tegra_pmx : Type := {
  regs : gmap (Z * Z) Z;
  gpio_conf : gmap Z Z;
  trace : list event
}.

(** A run either returns a value and a new state, or has no defined
    behaviour in C. *)
Inductive result (A : Type) : Type :=
| Ret (a : A) (st : tegra_pmx)
| Undefined.
Arguments Ret {A} a st.
Arguments Undefined {A}.

Definition M (A : Type) : Type := tegra_pmx -> result A.

Definition ret {A : Type} (a : A) : M A := fun st => Ret a st.

Definition bind {A B : Type} (c : M A) (k : A -> M B) : M B :=
  fun st => match c st with
            | Ret a st' => k a st'
            | Undefined => Undefined
            end.

Definition undefined {A : Type} : M A := fun _ => Undefined.

Notation "'let*' x ':=' c 'in' k" := (bind c (fun x => k))
  (at level 10, x name, c at level 100, k at level 200).
Notation "c ';;' k" := (bind c (fun _ => k))
  (at level 100, k at level 200, right associativity).

Definition emit (e : event) : M unit :=
  fun st => Ret tt {| regs := regs st; gpio_conf := gpio_conf st;
                      trace := e :: trace st |}.

Definition WARN_ON (d : diag) : M unit := emit (EvDiag d).
Definition dev_err (d : diag) : M unit := emit (EvDiag d).

(** [a << n] and [a >> n] on a type of [w] bits: defined only for
    [0 <= n < w].  The caller converts the result to the type it assigns
    to. *)
Definition c_shl (w a n : Z) : M Z :=
  if (0 <=? n) && (n <? w) then ret (Z.shiftl a n) else undefined.
Definition c_shr (w a n : Z) : M Z :=
  if (0 <=? n) && (n <? w) then ret (Z.shiftr a n) else undefined.

(** [BIT(nr)] is [1UL << nr], on a 64-bit [unsigned long]. *)
Definition BIT (nr : Z) : M Z := c_shl 64 1 nr.

(** The current content of a register; a register never written reads 0.
    [pmx_readl] and [pmx_writel] take [bank] and [reg] as [u32]. *)
Definition reg_val (st : tegra_pmx) (bank reg : Z) : Z :=
  u32 (default 0 (regs st !! (u32 bank, u32 reg))).

Definition pmx_readl (bank reg : Z) : M Z :=
  fun st => Ret (reg_val st bank reg)
                {| regs := regs st; gpio_conf := gpio_conf st;
                   trace := EvReadl (u32 bank) (u32 reg) :: trace st |}.

Definition writel_relaxed (val bank reg : Z) : M unit :=
  fun st => Ret tt {| regs := <[(u32 bank, u32 reg) := u32 val]> (regs st);
                      gpio_conf := gpio_conf st;
                      trace := EvWritel (u32 val) (u32 bank) (u32 reg) :: trace st |}.

(** The write is followed by a read-back of the same register. *)
Definition pmx_writel (val bank reg : Z) : M unit :=
  writel_relaxed val bank reg ;;
  pmx_readl bank reg ;;
  ret tt.

Definition gpio_conf_load (offset : Z) : M Z :=
  fun st => Ret (default 0 (gpio_conf st !! offset)) st.

Definition gpio_conf_store (offset val : Z) : M unit :=
  fun st => Ret tt {| regs := regs st;
                      gpio_conf := <[offset := val]> (gpio_conf st);
                      trace := trace st |}.

(** ** The driver *)

Section Driver.

Variable soc : tegra_pinctrl_soc_data.

(** [&pmx->soc->groups[group]]; indexing past the table is not defined. *)
Definition group_at (group : nat) : M tegra_pingroup :=
  match groups soc !! group with
  | Some g => ret g
  | None => undefined
  end.

(** The slot search of [tegra_pinctrl_set_mux]: the index at which the loop
    breaks, [ARRAY_SIZE(g->funcs)] when it runs to the end.  [i] is the
    index of the head of [fs]. *)
Fixpoint find_func (fs : list Z) (function : Z) (i : Z) : Z :=
  match fs with
  | [] => i
  | f :: rest => if f =? function then i else find_func rest function (i + 1)
  end.

Definition tegra_pinctrl_set_mux (function : Z) (group : nat) : M Z :=
  let* g := group_at group in
  if mux_reg g <? 0 then WARN_ON WarnMuxRegAbsent ;; ret (- EINVAL) else
  let i := find_func (funcs g) function 0 in
  if i =? ARRAY_SIZE (funcs g)
  then WARN_ON WarnFunctionNotInGroup ;; ret (- EINVAL) else
  let* val := pmx_readl (mux_bank g) (mux_reg g) in
  let* m := c_shl 32 3 (mux_bit g) in
  let val := u32 (Z.land val (Z.lnot m)) in
  let* v := c_shl 32 i (mux_bit g) in
  let val := u32 (Z.lor val v) in
  let* val :=
    (if sfsel_in_mux soc
     then let* s := c_shl 32 1 (sfsel_bit g) in ret (u32 (Z.lor val s))
     else ret val) in
  pmx_writel val (mux_bank g) (mux_reg g) ;;
  ret 0.

(** The group search shared by the GPIO save, restore and request paths:
    the first group with exactly one pin, that pin being [offset]; the
    loop ends at [ngroups] when there is none.  [group] is the index of
    the head of [gs]. *)
Fixpoint find_pin_group (gs : list tegra_pingroup) (offset : Z) (group : nat)
    : nat :=
  match gs with
  | [] => group
  | g :: rest =>
      if negb (npins g =? 1) then find_pin_group rest offset (S group)
      else if offset =? nth 0%nat (pins g) 0 then group
      else find_pin_group rest offset (S group)
  end.

Definition tegra_pinctrl_gpio_save_config (offset : Z) : M Z :=
  let group := find_pin_group (groups soc) offset 0%nat in
  if bool_decide (group = ngroups soc)
  then dev_err (ErrPingroupNotFound offset) ;; ret (- EINVAL) else
  let* g := group_at group in
  (if 0 <=? mux_reg g
   then let* v := pmx_readl (mux_bank g) (mux_reg g) in
        gpio_conf_store offset v
   else ret tt) ;;
  ret 0.

Definition tegra_pinctrl_gpio_restore_config (offset : Z) : M Z :=
  let group := find_pin_group (groups soc) offset 0%nat in
  if bool_decide (group = ngroups soc)
  then dev_err (ErrPingroupNotFound offset) ;; ret (- EINVAL) else
  let* g := group_at group in
  (if 0 <=? mux_reg g
   then let* v := gpio_conf_load offset in
        pmx_writel v (mux_bank g) (mux_reg g)
   else ret tt) ;;
  ret 0.

Definition tegra_pinctrl_gpio_request_enable (offset : Z) : M Z :=
  let* r := tegra_pinctrl_gpio_save_config offset in
  if negb (r =? 0) then ret r else
  if negb (sfsel_in_mux soc) then ret 0 else
  let group := find_pin_group (groups soc) offset 0%nat in
  let* g := group_at group in
  if (mux_reg g <? 0) || (sfsel_bit g <? 0) then ret (- EINVAL) else
  let* value := pmx_readl (mux_bank g) (mux_reg g) in
  let* b := BIT (sfsel_bit g) in
  let value := u32 (Z.land value (Z.lnot b)) in
  pmx_writel value (mux_bank g) (mux_reg g) ;;
  ret 0.

Definition tegra_pinctrl_gpio_disable_free (offset : Z) : M unit :=
  tegra_pinctrl_gpio_restore_config offset ;;
  ret tt.

(** The [switch] of [tegra_pinconf_reg]: the (bank, reg, bit, width) the
    parameter selects on this group, [None] in the [default:] branch.  The
    members are copied into [s8] and [s32] locals; the catalog's values fit
    them. *)
Definition pinconf_switch (g : tegra_pingroup) (param : tegra_pinconf_param)
    : option (Z * Z * Z * Z) :=
  match param with
  | TEGRA_PINCONF_PARAM_PULL => Some (pupd_bank g, pupd_reg g, pupd_bit g, 2)
  | TEGRA_PINCONF_PARAM_TRISTATE => Some (tri_bank g, tri_reg g, tri_bit g, 1)
  | TEGRA_PINCONF_PARAM_ENABLE_INPUT =>
      Some (mux_bank g, mux_reg g, einput_bit g, 1)
  | TEGRA_PINCONF_PARAM_OPEN_DRAIN =>
      Some (mux_bank g, mux_reg g, odrain_bit g, 1)
  | TEGRA_PINCONF_PARAM_LOCK => Some (mux_bank g, mux_reg g, lock_bit g, 1)
  | TEGRA_PINCONF_PARAM_IORESET =>
      Some (mux_bank g, mux_reg g, ioreset_bit g, 1)
  | TEGRA_PINCONF_PARAM_RCV_SEL =>
      Some (mux_bank g, mux_reg g, rcv_sel_bit g, 1)
  | TEGRA_PINCONF_PARAM_LOOPBACK =>
      Some (lpbk_bank g, lpbk_reg g, lpbk_bit g, 1)
  | TEGRA_PINCONF_PARAM_HIGH_SPEED_MODE =>
      if hsm_in_mux soc then Some (mux_bank g, mux_reg g, hsm_bit g, 1)
      else Some (drv_bank g, drv_reg g, hsm_bit g, 1)
  | TEGRA_PINCONF_PARAM_SCHMITT =>
      if schmitt_in_mux soc then Some (mux_bank g, mux_reg g, schmitt_bit g, 1)
      else Some (drv_bank g, drv_reg g, schmitt_bit g, 1)
  | TEGRA_PINCONF_PARAM_LOW_POWER_MODE =>
      Some (drv_bank g, drv_reg g, lpmd_bit g, 2)
  | TEGRA_PINCONF_PARAM_DRIVE_DOWN_STRENGTH =>
      Some (drv_bank g, drv_reg g, drvdn_bit g, drvdn_width g)
  | TEGRA_PINCONF_PARAM_DRIVE_UP_STRENGTH =>
      Some (drv_bank g, drv_reg g, drvup_bit g, drvup_width g)
  | TEGRA_PINCONF_PARAM_SLEW_RATE_FALLING =>
      Some (drv_bank g, drv_reg g, slwf_bit g, slwf_width g)
  | TEGRA_PINCONF_PARAM_SLEW_RATE_RISING =>
      Some (drv_bank g, drv_reg g, slwr_bit g, slwr_width g)
  | TEGRA_PINCONF_PARAM_DRIVE_TYPE =>
      if drvtype_in_mux soc then Some (mux_bank g, mux_reg g, drvtype_bit g, 2)
      else Some (drv_bank g, drv_reg g, drvtype_bit g, 2)
  | TEGRA_PINCONF_PARAM_FUNCTION => Some (mux_bank g, mux_reg g, mux_bit g, 2)
  | TEGRA_PINCONF_PARAM_PAD_POWER => Some (pad_bank g, pad_reg g, pad_bit g, 1)
  | TEGRA_PINCONF_PARAM_OTHER _ => None
  end.

(** [tegra_pinconf_reg]: [inl] carries the negative errno, [inr] the
    location written through the out-pointers on success. *)
Definition tegra_pinconf_reg (g : tegra_pingroup) (param : tegra_pinconf_param)
    (report_err : bool) : M (Z + Z * Z * Z * Z) :=
  match pinconf_switch g param with
  | None => dev_err (ErrInvalidParam param) ;; ret (inl (- ENOTSUPP))
  | Some (bank, reg, bit, width) =>
      if (reg <? 0) || (bit <? 0) then
        (if report_err
         then dev_err (ErrNotSupported param
                         (cfg_param_property cfg_params param) (name g))
         else ret tt) ;;
        ret (inl (- ENOTSUPP))
      else ret (inr (bank, reg, bit, width))
  end.

(** [tegra_pinconf_group_get]: the return code and the content of
    [*config] on return. *)
Definition tegra_pinconf_group_get (group : nat) (config : pinconf)
    : M (Z * pinconf) :=
  let param := TEGRA_PINCONF_UNPACK_PARAM config in
  let* g := group_at group in
  let* r := tegra_pinconf_reg g param true in
  match r with
  | inl e => ret (e, config)
  | inr (bank, reg, bit, width) =>
      let* val := pmx_readl bank reg in
      let* m := c_shl 32 1 width in
      let mask := u32 (m - 1) in
      let* v := c_shr 32 val bit in
      let arg := u16 (Z.land v mask) in
      let arg :=
        if bool_decide (param = TEGRA_PINCONF_PARAM_PAD_POWER)
        then lnot_c arg else arg in
      ret (0, TEGRA_PINCONF_PACK param arg)
  end.

(** One iteration of the loop of [tegra_pinconf_group_set]: [Some e] when
    the iteration returns [e] from the function, [None] when it reaches
    the end of the loop body. *)
Definition tegra_pinconf_group_set_one (g : tegra_pingroup) (config : pinconf)
    : M (option Z) :=
  let param := TEGRA_PINCONF_UNPACK_PARAM config in
  let arg := u16 (TEGRA_PINCONF_UNPACK_ARG config) in
  let arg :=
    if bool_decide (param = TEGRA_PINCONF_PARAM_PAD_POWER)
    then lnot_c arg else arg in
  let* r := tegra_pinconf_reg g param true in
  match r with
  | inl e => ret (Some e)
  | inr (bank, reg, bit, width) =>
      let* val := pmx_readl bank reg in
      let* locked :=
        (if bool_decide (param = TEGRA_PINCONF_PARAM_LOCK)
         then let* b := BIT bit in
              ret (negb (Z.land val b =? 0) && negb (lnot_c arg =? 0))
         else ret false) in
      if locked
      then dev_err ErrLockCannotBeCleared ;; ret (Some (- EINVAL)) else
      let arg := if width =? 1 then lnot_c (lnot_c arg) else arg in
      let* m := c_shl 32 1 width in
      let mask := u32 (m - 1) in
      if negb (Z.land arg (u32 (Z.lnot mask)) =? 0)
      then dev_err (ErrTooBig config arg width) ;; ret (Some (- EINVAL)) else
      let* mb := c_shl 32 mask bit in
      let val := u32 (Z.land val (Z.lnot (u32 mb))) in
      let* ab := c_shl 32 arg bit in
      let val := u32 (Z.lor val ab) in
      pmx_writel val bank reg ;;
      ret None
  end.

Fixpoint tegra_pinconf_group_set_loop (g : tegra_pingroup)
    (configs : list pinconf) : M Z :=
  match configs with
  | [] => ret 0
  | config :: rest =>
      let* r := tegra_pinconf_group_set_one g config in
      match r with
      | Some e => ret e
      | None => tegra_pinconf_group_set_loop g rest
      end
  end.

Definition tegra_pinconf_group_set (group : nat) (configs : list pinconf)
    : M Z :=
  let* g := group_at group in
  tegra_pinconf_group_set_loop g configs.

(** One iteration of the loop of [tegra_pinctrl_clear_parked_bits].  The
    locals [bank] and [reg] are [unsigned int]. *)
Definition clear_parked_bits_one (g : tegra_pingroup) : M unit :=
  if 0 <? parked_bitmask g then
    let bank := u32 (if negb (mux_reg g =? -1) then mux_bank g else drv_bank g) in
    let reg := u32 (if negb (mux_reg g =? -1) then mux_reg g else drv_reg g) in
    let* val := pmx_readl bank reg in
    let val := u32 (Z.land val (Z.lnot (parked_bitmask g))) in
    pmx_writel val bank reg
  else ret tt.

Fixpoint clear_parked_bits_loop (gs : list tegra_pingroup) : M unit :=
  match gs with
  | [] => ret tt
  | g :: rest => clear_parked_bits_one g ;; clear_parked_bits_loop rest
  end.

Definition tegra_pinctrl_clear_parked_bits : M unit :=
  clear_parked_bits_loop (groups soc).

End Driver.
(** ** The Tegra234 catalog *)

(** [enum pin_id], from [T234_PIN_TABLE]. *)
Definition _GPIO (offset : Z) : Z := offset.
Definition TEGRA_PIN_DAP6_SCLK_PA0 : Z := _GPIO 0.
Definition TEGRA_PIN_DAP6_DOUT_PA1 : Z := _GPIO 1.
Definition TEGRA_PIN_DAP6_DIN_PA2 : Z := _GPIO 2.
Definition TEGRA_PIN_DAP6_FS_PA3 : Z := _GPIO 3.
Definition TEGRA_PIN_DAP4_SCLK_PA4 : Z := _GPIO 4.
Definition TEGRA_PIN_DAP4_DOUT_PA5 : Z := _GPIO 5.
Definition TEGRA_PIN_DAP4_DIN_PA6 : Z := _GPIO 6.
Definition TEGRA_PIN_DAP4_FS_PA7 : Z := _GPIO 7.
Definition TEGRA_PIN_SOC_GPIO08_PB0 : Z := _GPIO 8.
Definition TEGRA_PIN_QSPI0_SCK_PC0 : Z := _GPIO 9.
Definition TEGRA_PIN_QSPI0_CS_N_PC1 : Z := _GPIO 10.
Definition TEGRA_PIN_QSPI0_IO0_PC2 : Z := _GPIO 11.
Definition TEGRA_PIN_QSPI0_IO1_PC3 : Z := _GPIO 12.
Definition TEGRA_PIN_QSPI0_IO2_PC4 : Z := _GPIO 13.
Definition TEGRA_PIN_QSPI0_IO3_PC5 : Z := _GPIO 14.
Definition TEGRA_PIN_QSPI1_SCK_PC6 : Z := _GPIO 15.
Definition TEGRA_PIN_QSPI1_CS_N_PC7 : Z := _GPIO 16.
Definition TEGRA_PIN_QSPI1_IO0_PD0 : Z := _GPIO 17.
Definition TEGRA_PIN_QSPI1_IO1_PD1 : Z := _GPIO 18.
Definition TEGRA_PIN_QSPI1_IO2_PD2 : Z := _GPIO 19.
Definition TEGRA_PIN_QSPI1_IO3_PD3 : Z := _GPIO 20.
Definition TEGRA_PIN_EQOS_TXC_PE0 : Z := _GPIO 21.
Definition TEGRA_PIN_EQOS_TD0_PE1 : Z := _GPIO 22.
Definition TEGRA_PIN_EQOS_TD1_PE2 : Z := _GPIO 23.
Definition TEGRA_PIN_EQOS_TD2_PE3 : Z := _GPIO 24.
Definition TEGRA_PIN_EQOS_TD3_PE4 : Z := _GPIO 25.
Definition TEGRA_PIN_EQOS_TX_CTL_PE5 : Z := _GPIO 26.
Definition TEGRA_PIN_EQOS_RD0_PE6 : Z := _GPIO 27.
Definition TEGRA_PIN_EQOS_RD1_PE7 : Z := _GPIO 28.
Definition TEGRA_PIN_EQOS_RD2_PF0 : Z := _GPIO 29.
Definition TEGRA_PIN_EQOS_RD3_PF1 : Z := _GPIO 30.
Definition TEGRA_PIN_EQOS_RX_CTL_PF2 : Z := _GPIO 31.
Definition TEGRA_PIN_EQOS_RXC_PF3 : Z := _GPIO 32.
Definition TEGRA_PIN_EQOS_SMA_MDIO_PF4 : Z := _GPIO 33.
Definition TEGRA_PIN_EQOS_SMA_MDC_PF5 : Z := _GPIO 34.
Definition TEGRA_PIN_SOC_GPIO13_PG0 : Z := _GPIO 35.
Definition TEGRA_PIN_SOC_GPIO14_PG1 : Z := _GPIO 36.
Definition TEGRA_PIN_SOC_GPIO15_PG2 : Z := _GPIO 37.
Definition TEGRA_PIN_SOC_GPIO16_PG3 : Z := _GPIO 38.
Definition TEGRA_PIN_SOC_GPIO17_PG4 : Z := _GPIO 39.
Definition TEGRA_PIN_SOC_GPIO18_PG5 : Z := _GPIO 40.
Definition TEGRA_PIN_SOC_GPIO19_PG6 : Z := _GPIO 41.
Definition TEGRA_PIN_SOC_GPIO20_PG7 : Z := _GPIO 42.
Definition TEGRA_PIN_SOC_GPIO21_PH0 : Z := _GPIO 43.
Definition TEGRA_PIN_SOC_GPIO22_PH1 : Z := _GPIO 44.
Definition TEGRA_PIN_SOC_GPIO06_PH2 : Z := _GPIO 45.
Definition TEGRA_PIN_UART4_TX_PH3 : Z := _GPIO 46.
Definition TEGRA_PIN_UART4_RX_PH4 : Z := _GPIO 47.
Definition TEGRA_PIN_UART4_RTS_PH5 : Z := _GPIO 48.
Definition TEGRA_PIN_UART4_CTS_PH6 : Z := _GPIO 49.
Definition TEGRA_PIN_SOC_GPIO41_PH7 : Z := _GPIO 50.
Definition TEGRA_PIN_SOC_GPIO42_PI0 : Z := _GPIO 51.
Definition TEGRA_PIN_SOC_GPIO43_PI1 : Z := _GPIO 52.
Definition TEGRA_PIN_SOC_GPIO44_PI2 : Z := _GPIO 53.
Definition TEGRA_PIN_GEN1_I2C_SCL_PI3 : Z := _GPIO 54.
Definition TEGRA_PIN_GEN1_I2C_SDA_PI4 : Z := _GPIO 55.
Definition TEGRA_PIN_CPU_PWR_REQ_PI5 : Z := _GPIO 56.
Definition TEGRA_PIN_SOC_GPIO07_PI6 : Z := _GPIO 57.
Definition TEGRA_PIN_SDMMC1_CLK_PJ0 : Z := _GPIO 58.
Definition TEGRA_PIN_SDMMC1_CMD_PJ1 : Z := _GPIO 59.
Definition TEGRA_PIN_SDMMC1_DAT0_PJ2 : Z := _GPIO 60.
Definition TEGRA_PIN_SDMMC1_DAT1_PJ3 : Z := _GPIO 61.
Definition TEGRA_PIN_SDMMC1_DAT2_PJ4 : Z := _GPIO 62.
Definition TEGRA_PIN_SDMMC1_DAT3_PJ5 : Z := _GPIO 63.
Definition TEGRA_PIN_PEX_L0_CLKREQ_N_PK0 : Z := _GPIO 64.
Definition TEGRA_PIN_PEX_L0_RST_N_PK1 : Z := _GPIO 65.
Definition TEGRA_PIN_PEX_L1_CLKREQ_N_PK2 : Z := _GPIO 66.
Definition TEGRA_PIN_PEX_L1_RST_N_PK3 : Z := _GPIO 67.
Definition TEGRA_PIN_PEX_L2_CLKREQ_N_PK4 : Z := _GPIO 68.
Definition TEGRA_PIN_PEX_L2_RST_N_PK5 : Z := _GPIO 69.
Definition TEGRA_PIN_PEX_L3_CLKREQ_N_PK6 : Z := _GPIO 70.
Definition TEGRA_PIN_PEX_L3_RST_N_PK7 : Z := _GPIO 71.
Definition TEGRA_PIN_PEX_L4_CLKREQ_N_PL0 : Z := _GPIO 72.
Definition TEGRA_PIN_PEX_L4_RST_N_PL1 : Z := _GPIO 73.
Definition TEGRA_PIN_PEX_WAKE_N_PL2 : Z := _GPIO 74.
Definition TEGRA_PIN_SOC_GPIO34_PL3 : Z := _GPIO 75.
Definition TEGRA_PIN_DP_AUX_CH0_HPD_PM0 : Z := _GPIO 76.
Definition TEGRA_PIN_DP_AUX_CH1_HPD_PM1 : Z := _GPIO 77.
Definition TEGRA_PIN_DP_AUX_CH2_HPD_PM2 : Z := _GPIO 78.
Definition TEGRA_PIN_DP_AUX_CH3_HPD_PM3 : Z := _GPIO 79.
Definition TEGRA_PIN_SOC_GPIO55_PM4 : Z := _GPIO 80.
Definition TEGRA_PIN_SOC_GPIO36_PM5 : Z := _GPIO 81.
Definition TEGRA_PIN_SOC_GPIO53_PM6 : Z := _GPIO 82.
Definition TEGRA_PIN_SOC_GPIO38_PM7 : Z := _GPIO 83.
Definition TEGRA_PIN_DP_AUX_CH3_N_PN0 : Z := _GPIO 84.
Definition TEGRA_PIN_SOC_GPIO39_PN1 : Z := _GPIO 85.
Definition TEGRA_PIN_SOC_GPIO40_PN2 : Z := _GPIO 86.
Definition TEGRA_PIN_DP_AUX_CH1_P_PN3 : Z := _GPIO 87.
Definition TEGRA_PIN_DP_AUX_CH1_N_PN4 : Z := _GPIO 88.
Definition TEGRA_PIN_DP_AUX_CH2_P_PN5 : Z := _GPIO 89.
Definition TEGRA_PIN_DP_AUX_CH2_N_PN6 : Z := _GPIO 90.
Definition TEGRA_PIN_DP_AUX_CH3_P_PN7 : Z := _GPIO 91.
Definition TEGRA_PIN_EXTPERIPH1_CLK_PP0 : Z := _GPIO 92.
Definition TEGRA_PIN_EXTPERIPH2_CLK_PP1 : Z := _GPIO 93.
Definition TEGRA_PIN_CAM_I2C_SCL_PP2 : Z := _GPIO 94.
Definition TEGRA_PIN_CAM_I2C_SDA_PP3 : Z := _GPIO 95.
Definition TEGRA_PIN_SOC_GPIO23_PP4 : Z := _GPIO 96.
Definition TEGRA_PIN_SOC_GPIO24_PP5 : Z := _GPIO 97.
Definition TEGRA_PIN_SOC_GPIO25_PP6 : Z := _GPIO 98.
Definition TEGRA_PIN_PWR_I2C_SCL_PP7 : Z := _GPIO 99.
Definition TEGRA_PIN_PWR_I2C_SDA_PQ0 : Z := _GPIO 100.
Definition TEGRA_PIN_SOC_GPIO28_PQ1 : Z := _GPIO 101.
Definition TEGRA_PIN_SOC_GPIO29_PQ2 : Z := _GPIO 102.
Definition TEGRA_PIN_SOC_GPIO30_PQ3 : Z := _GPIO 103.
Definition TEGRA_PIN_SOC_GPIO31_PQ4 : Z := _GPIO 104.
Definition TEGRA_PIN_SOC_GPIO32_PQ5 : Z := _GPIO 105.
Definition TEGRA_PIN_SOC_GPIO33_PQ6 : Z := _GPIO 106.
Definition TEGRA_PIN_SOC_GPIO35_PQ7 : Z := _GPIO 107.
Definition TEGRA_PIN_SOC_GPIO37_PR0 : Z := _GPIO 108.
Definition TEGRA_PIN_SOC_GPIO56_PR1 : Z := _GPIO 109.
Definition TEGRA_PIN_UART1_TX_PR2 : Z := _GPIO 110.
Definition TEGRA_PIN_UART1_RX_PR3 : Z := _GPIO 111.
Definition TEGRA_PIN_UART1_RTS_PR4 : Z := _GPIO 112.
Definition TEGRA_PIN_UART1_CTS_PR5 : Z := _GPIO 113.
Definition TEGRA_PIN_CAN2_DOUT_PS0 : Z := _GPIO 114.
Definition TEGRA_PIN_CAN2_DIN_PS1 : Z := _GPIO 115.
Definition TEGRA_PIN_CAN2_STB_PS2 : Z := _GPIO 116.
Definition TEGRA_PIN_CAN2_EN_PS3 : Z := _GPIO 117.
Definition TEGRA_PIN_CAN2_ERR_PS4 : Z := _GPIO 118.
Definition TEGRA_PIN_CAN3_DOUT_PS5 : Z := _GPIO 119.
Definition TEGRA_PIN_CAN3_DIN_PS6 : Z := _GPIO 120.
Definition TEGRA_PIN_CAN3_STB_PS7 : Z := _GPIO 121.
Definition TEGRA_PIN_CAN3_EN_PT0 : Z := _GPIO 122.
Definition TEGRA_PIN_CAN3_ERR_PT1 : Z := _GPIO 123.
Definition TEGRA_PIN_SOC_ERROR_PU0 : Z := _GPIO 124.
Definition TEGRA_PIN_UART7_TX_PU1 : Z := _GPIO 125.
Definition TEGRA_PIN_UART7_RX_PU2 : Z := _GPIO 126.
Definition TEGRA_PIN_SPI7_SCK_PU3 : Z := _GPIO 127.
Definition TEGRA_PIN_SPI7_MISO_PU4 : Z := _GPIO 128.
Definition TEGRA_PIN_SPI7_MOSI_PU5 : Z := _GPIO 129.
Definition TEGRA_PIN_SPI7_CS0_PU6 : Z := _GPIO 130.
Definition TEGRA_PIN_SOC_GPIO51_PU7 : Z := _GPIO 131.
Definition TEGRA_PIN_SOC_GPIO52_PV0 : Z := _GPIO 132.
Definition TEGRA_PIN_SOC_GPIO61_PW0 : Z := _GPIO 133.
Definition TEGRA_PIN_SOC_GPIO62_PW1 : Z := _GPIO 134.
Definition TEGRA_PIN_GPU_PWR_REQ_PX0 : Z := _GPIO 135.
Definition TEGRA_PIN_CV_PWR_REQ_PX1 : Z := _GPIO 136.
Definition TEGRA_PIN_GP_PWM2_PX2 : Z := _GPIO 137.
Definition TEGRA_PIN_GP_PWM3_PX3 : Z := _GPIO 138.
Definition TEGRA_PIN_UART2_TX_PX4 : Z := _GPIO 139.
Definition TEGRA_PIN_UART2_RX_PX5 : Z := _GPIO 140.
Definition TEGRA_PIN_UART2_RTS_PX6 : Z := _GPIO 141.
Definition TEGRA_PIN_UART2_CTS_PX7 : Z := _GPIO 142.
Definition TEGRA_PIN_SPI3_SCK_PY0 : Z := _GPIO 143.
Definition TEGRA_PIN_SPI3_MISO_PY1 : Z := _GPIO 144.
Definition TEGRA_PIN_SPI3_MOSI_PY2 : Z := _GPIO 145.
Definition TEGRA_PIN_SPI3_CS0_PY3 : Z := _GPIO 146.
Definition TEGRA_PIN_SPI3_CS1_PY4 : Z := _GPIO 147.
Definition TEGRA_PIN_UART5_TX_PY5 : Z := _GPIO 148.
Definition TEGRA_PIN_UART5_RX_PY6 : Z := _GPIO 149.
Definition TEGRA_PIN_UART5_RTS_PY7 : Z := _GPIO 150.
Definition TEGRA_PIN_UART5_CTS_PZ0 : Z := _GPIO 151.
Definition TEGRA_PIN_USB_VBUS_EN0_PZ1 : Z := _GPIO 152.
Definition TEGRA_PIN_USB_VBUS_EN1_PZ2 : Z := _GPIO 153.
Definition TEGRA_PIN_SPI1_SCK_PZ3 : Z := _GPIO 154.
Definition TEGRA_PIN_SPI1_MISO_PZ4 : Z := _GPIO 155.
Definition TEGRA_PIN_SPI1_MOSI_PZ5 : Z := _GPIO 156.
Definition TEGRA_PIN_SPI1_CS0_PZ6 : Z := _GPIO 157.
Definition TEGRA_PIN_SPI1_CS1_PZ7 : Z := _GPIO 158.
Definition TEGRA_PIN_CAN0_DOUT_PAA0 : Z := _GPIO 159.
Definition TEGRA_PIN_CAN0_DIN_PAA1 : Z := _GPIO 160.
Definition TEGRA_PIN_CAN1_DOUT_PAA2 : Z := _GPIO 161.
Definition TEGRA_PIN_CAN1_DIN_PAA3 : Z := _GPIO 162.
Definition TEGRA_PIN_CAN0_STB_PAA4 : Z := _GPIO 163.
Definition TEGRA_PIN_CAN0_EN_PAA5 : Z := _GPIO 164.
Definition TEGRA_PIN_SOC_GPIO49_PAA6 : Z := _GPIO 165.
Definition TEGRA_PIN_CAN0_ERR_PAA7 : Z := _GPIO 166.
Definition TEGRA_PIN_SPI5_SCK_PAC0 : Z := _GPIO 167.
Definition TEGRA_PIN_SPI5_MISO_PAC1 : Z := _GPIO 168.
Definition TEGRA_PIN_SPI5_MOSI_PAC2 : Z := _GPIO 169.
Definition TEGRA_PIN_SPI5_CS0_PAC3 : Z := _GPIO 170.
Definition TEGRA_PIN_SOC_GPIO57_PAC4 : Z := _GPIO 171.
Definition TEGRA_PIN_SOC_GPIO58_PAC5 : Z := _GPIO 172.
Definition TEGRA_PIN_SOC_GPIO59_PAC6 : Z := _GPIO 173.
Definition TEGRA_PIN_SOC_GPIO60_PAC7 : Z := _GPIO 174.
Definition TEGRA_PIN_SOC_GPIO45_PAD0 : Z := _GPIO 175.
Definition TEGRA_PIN_SOC_GPIO46_PAD1 : Z := _GPIO 176.
Definition TEGRA_PIN_SOC_GPIO47_PAD2 : Z := _GPIO 177.
Definition TEGRA_PIN_SOC_GPIO48_PAD3 : Z := _GPIO 178.
Definition TEGRA_PIN_UFS0_REF_CLK_PAE0 : Z := _GPIO 179.
Definition TEGRA_PIN_UFS0_RST_N_PAE1 : Z := _GPIO 180.
Definition TEGRA_PIN_PEX_L5_CLKREQ_N_PAF0 : Z := _GPIO 181.
Definition TEGRA_PIN_PEX_L5_RST_N_PAF1 : Z := _GPIO 182.
Definition TEGRA_PIN_PEX_L6_CLKREQ_N_PAF2 : Z := _GPIO 183.
Definition TEGRA_PIN_PEX_L6_RST_N_PAF3 : Z := _GPIO 184.
Definition TEGRA_PIN_PEX_L7_CLKREQ_N_PAG0 : Z := _GPIO 185.
Definition TEGRA_PIN_PEX_L7_RST_N_PAG1 : Z := _GPIO 186.
Definition TEGRA_PIN_PEX_L8_CLKREQ_N_PAG2 : Z := _GPIO 187.
Definition TEGRA_PIN_PEX_L8_RST_N_PAG3 : Z := _GPIO 188.
Definition TEGRA_PIN_PEX_L9_CLKREQ_N_PAG4 : Z := _GPIO 189.
Definition TEGRA_PIN_PEX_L9_RST_N_PAG5 : Z := _GPIO 190.
Definition TEGRA_PIN_PEX_L10_CLKREQ_N_PAG6 : Z := _GPIO 191.
Definition TEGRA_PIN_PEX_L10_RST_N_PAG7 : Z := _GPIO 192.
Definition TEGRA_PIN_CAN1_STB_PBB0 : Z := _GPIO 193.
Definition TEGRA_PIN_CAN1_EN_PBB1 : Z := _GPIO 194.
Definition TEGRA_PIN_SOC_GPIO50_PBB2 : Z := _GPIO 195.
Definition TEGRA_PIN_CAN1_ERR_PBB3 : Z := _GPIO 196.
Definition TEGRA_PIN_SPI2_SCK_PCC0 : Z := _GPIO 197.
Definition TEGRA_PIN_SPI2_MISO_PCC1 : Z := _GPIO 198.
Definition TEGRA_PIN_SPI2_MOSI_PCC2 : Z := _GPIO 199.
Definition TEGRA_PIN_SPI2_CS0_PCC3 : Z := _GPIO 200.
Definition TEGRA_PIN_TOUCH_CLK_PCC4 : Z := _GPIO 201.
Definition TEGRA_PIN_UART3_TX_PCC5 : Z := _GPIO 202.
Definition TEGRA_PIN_UART3_RX_PCC6 : Z := _GPIO 203.
Definition TEGRA_PIN_GEN2_I2C_SCL_PCC7 : Z := _GPIO 204.
Definition TEGRA_PIN_GEN2_I2C_SDA_PDD0 : Z := _GPIO 205.
Definition TEGRA_PIN_GEN8_I2C_SCL_PDD1 : Z := _GPIO 206.
Definition TEGRA_PIN_GEN8_I2C_SDA_PDD2 : Z := _GPIO 207.
Definition TEGRA_PIN_SCE_ERROR_PEE0 : Z := _GPIO 208.
Definition TEGRA_PIN_VCOMP_ALERT_PEE1 : Z := _GPIO 209.
Definition TEGRA_PIN_AO_RETENTION_N_PEE2 : Z := _GPIO 210.
Definition TEGRA_PIN_BATT_OC_PEE3 : Z := _GPIO 211.
Definition TEGRA_PIN_POWER_ON_PEE4 : Z := _GPIO 212.
Definition TEGRA_PIN_SOC_GPIO26_PEE5 : Z := _GPIO 213.
Definition TEGRA_PIN_SOC_GPIO27_PEE6 : Z := _GPIO 214.
Definition TEGRA_PIN_BOOTV_CTL_N_PEE7 : Z := _GPIO 215.
Definition TEGRA_PIN_HDMI_CEC_PGG0 : Z := _GPIO 216.
Definition NUM_GPIOS : Z := TEGRA_PIN_HDMI_CEC_PGG0 + 1.
Definition _PIN (offset : Z) : Z := NUM_GPIOS + offset.
Definition TEGRA_PIN_EQOS_COMP : Z := _PIN 0.
Definition TEGRA_PIN_QSPI_COMP : Z := _PIN 1.
Definition TEGRA_PIN_SDMMC1_COMP : Z := _PIN 2.

(** [enum tegra_mux_dt], from [T234_FUNCTION_TABLE]. *)
Definition TEGRA_MUX_GP : Z := 0.
Definition TEGRA_MUX_UARTC : Z := 1.
Definition TEGRA_MUX_I2C8 : Z := 2.
Definition TEGRA_MUX_SPI2 : Z := 3.
Definition TEGRA_MUX_I2C2 : Z := 4.
Definition TEGRA_MUX_CAN1 : Z := 5.
Definition TEGRA_MUX_CAN0 : Z := 6.
Definition TEGRA_MUX_RSVD0 : Z := 7.
Definition TEGRA_MUX_ETH0 : Z := 8.
Definition TEGRA_MUX_ETH2 : Z := 9.
Definition TEGRA_MUX_ETH1 : Z := 10.
Definition TEGRA_MUX_DP : Z := 11.
Definition TEGRA_MUX_ETH3 : Z := 12.
Definition TEGRA_MUX_I2C4 : Z := 13.
Definition TEGRA_MUX_I2C7 : Z := 14.
Definition TEGRA_MUX_I2C9 : Z := 15.
Definition TEGRA_MUX_EQOS : Z := 16.
Definition TEGRA_MUX_PE2 : Z := 17.
Definition TEGRA_MUX_PE1 : Z := 18.
Definition TEGRA_MUX_PE0 : Z := 19.
Definition TEGRA_MUX_PE3 : Z := 20.
Definition TEGRA_MUX_PE4 : Z := 21.
Definition TEGRA_MUX_PE5 : Z := 22.
Definition TEGRA_MUX_PE6 : Z := 23.
Definition TEGRA_MUX_PE10 : Z := 24.
Definition TEGRA_MUX_PE7 : Z := 25.
Definition TEGRA_MUX_PE8 : Z := 26.
Definition TEGRA_MUX_PE9 : Z := 27.
Definition TEGRA_MUX_QSPI0 : Z := 28.
Definition TEGRA_MUX_QSPI1 : Z := 29.
Definition TEGRA_MUX_QSPI : Z := 30.
Definition TEGRA_MUX_SDMMC1 : Z := 31.
Definition TEGRA_MUX_SCE : Z := 32.
Definition TEGRA_MUX_SOC : Z := 33.
Definition TEGRA_MUX_GPIO : Z := 34.
Definition TEGRA_MUX_HDMI : Z := 35.
Definition TEGRA_MUX_UFS0 : Z := 36.
Definition TEGRA_MUX_SPI3 : Z := 37.
Definition TEGRA_MUX_SPI1 : Z := 38.
Definition TEGRA_MUX_UARTB : Z := 39.
Definition TEGRA_MUX_UARTE : Z := 40.
Definition TEGRA_MUX_USB : Z := 41.
Definition TEGRA_MUX_EXTPERIPH2 : Z := 42.
Definition TEGRA_MUX_EXTPERIPH1 : Z := 43.
Definition TEGRA_MUX_I2C3 : Z := 44.
Definition TEGRA_MUX_VI0 : Z := 45.
Definition TEGRA_MUX_I2C5 : Z := 46.
Definition TEGRA_MUX_UARTA : Z := 47.
Definition TEGRA_MUX_UARTD : Z := 48.
Definition TEGRA_MUX_I2C1 : Z := 49.
Definition TEGRA_MUX_I2S4 : Z := 50.
Definition TEGRA_MUX_I2S6 : Z := 51.
Definition TEGRA_MUX_AUD : Z := 52.
Definition TEGRA_MUX_SPI5 : Z := 53.
Definition TEGRA_MUX_TOUCH : Z := 54.
Definition TEGRA_MUX_UARTJ : Z := 55.
Definition TEGRA_MUX_RSVD1 : Z := 56.
Definition TEGRA_MUX_WDT : Z := 57.
Definition TEGRA_MUX_TSC : Z := 58.
Definition TEGRA_MUX_DMIC3 : Z := 59.
Definition TEGRA_MUX_LED : Z := 60.
Definition TEGRA_MUX_VI0_ALT : Z := 61.
Definition TEGRA_MUX_I2S5 : Z := 62.
Definition TEGRA_MUX_NV : Z := 63.
Definition TEGRA_MUX_EXTPERIPH3 : Z := 64.
Definition TEGRA_MUX_EXTPERIPH4 : Z := 65.
Definition TEGRA_MUX_SPI4 : Z := 66.
Definition TEGRA_MUX_CCLA : Z := 67.
Definition TEGRA_MUX_I2S2 : Z := 68.
Definition TEGRA_MUX_I2S1 : Z := 69.
Definition TEGRA_MUX_I2S8 : Z := 70.
Definition TEGRA_MUX_I2S3 : Z := 71.
Definition TEGRA_MUX_RSVD2 : Z := 72.
Definition TEGRA_MUX_DMIC5 : Z := 73.
Definition TEGRA_MUX_DCA : Z := 74.
Definition TEGRA_MUX_DISPLAYB : Z := 75.
Definition TEGRA_MUX_DISPLAYA : Z := 76.
Definition TEGRA_MUX_VI1 : Z := 77.
Definition TEGRA_MUX_DCB : Z := 78.
Definition TEGRA_MUX_DMIC1 : Z := 79.
Definition TEGRA_MUX_DMIC4 : Z := 80.
Definition TEGRA_MUX_I2S7 : Z := 81.
Definition TEGRA_MUX_DMIC2 : Z := 82.
Definition TEGRA_MUX_DSPK0 : Z := 83.
Definition TEGRA_MUX_RSVD3 : Z := 84.
Definition TEGRA_MUX_TSC_ALT : Z := 85.
Definition TEGRA_MUX_ISTCTRL : Z := 86.
Definition TEGRA_MUX_VI1_ALT : Z := 87.
Definition TEGRA_MUX_DSPK1 : Z := 88.
Definition TEGRA_MUX_IGPU : Z := 89.

(** The drive-group part of a table entry: [DRV_PINGROUP_ENTRY_N] leaves
    the widths uninitialised, that is zero. *)
Inductive drive_entry : Type :=
| DRV_PINGROUP_ENTRY_N
| DRV_PINGROUP_ENTRY_Y (r drvdn_b drvdn_w drvup_b drvup_w
                        slwr_b slwr_w slwf_b slwf_w bank : Z).

(** The [Y] / [N] argument choosing [PINGROUP_REG_Y] or [PINGROUP_REG_N]. *)
Inductive pingroup_reg_sel : Type := PINGROUP_REG_Y | PINGROUP_REG_N.

Definition PINGROUP_REG (sel : pingroup_reg_sel) (r : Z) : Z :=
  match sel with PINGROUP_REG_Y => r | PINGROUP_REG_N => -1 end.

(** The [PINGROUP] macro with [PIN_PINGROUP_ENTRY_Y] and the drive entry
    expanded.  A later designated initialiser overrides an earlier one
    ([drv_reg]), and members the macros never name ([pad_reg], [pad_bank],
    [pad_bit], [odrain_bit], [ioreset_bit], [rcv_sel_bit],
    [parked_bitmask]) are zero.  The macro arguments [e_io_hv], [e_lpdr]
    and [e_pbias_buf] reach no member the driver reads. *)
Definition PINGROUP (pg_name : string) (pg_pins : list Z) (f0 f1 f2 f3 : Z)
    (r bank : Z) (pupd : pingroup_reg_sel)
    (e_io_hv e_lpbk e_input e_lpdr e_pbias_buf gpio_sfio_sel schmitt_b : Z)
    (drive : drive_entry) : tegra_pingroup :=
  let d := match drive with
           | DRV_PINGROUP_ENTRY_N => (-1, -1, (-1, 0), (-1, 0), (-1, 0), (-1, 0))
           | DRV_PINGROUP_ENTRY_Y dr dn_b dn_w up_b up_w wr_b wr_w wf_b wf_w db =>
               (dr, db, (dn_b, dn_w), (up_b, up_w), (wr_b, wr_w), (wf_b, wf_w))
           end in
  let '(d_reg, d_bank, dn, up, wr, wf) := d in
  {| name := pg_name; pins := pg_pins; funcs := [f0; f1; f2; f3];
     mux_reg := PINGROUP_REG PINGROUP_REG_Y r; mux_bank := bank; mux_bit := 0;
     pupd_reg := PINGROUP_REG pupd r; pupd_bank := bank; pupd_bit := 2;
     tri_reg := PINGROUP_REG PINGROUP_REG_Y r; tri_bank := bank; tri_bit := 4;
     lpbk_reg := PINGROUP_REG PINGROUP_REG_Y r; lpbk_bank := bank;
     lpbk_bit := e_lpbk;
     pad_reg := 0; pad_bank := 0; pad_bit := 0;
     drv_reg := d_reg; drv_bank := d_bank;
     einput_bit := e_input; odrain_bit := 0; lock_bit := -1; ioreset_bit := 0;
     rcv_sel_bit := 0; hsm_bit := -1; sfsel_bit := gpio_sfio_sel;
     schmitt_bit := schmitt_b; lpmd_bit := -1; drvtype_bit := 13;
     drvdn_bit := fst dn; drvdn_width := snd dn;
     drvup_bit := fst up; drvup_width := snd up;
     slwr_bit := fst wr; slwr_width := snd wr;
     slwf_bit := fst wf; slwf_width := snd wf;
     parked_bitmask := 0 |}.

(** The [drive_<group>] macros. *)
Definition drive_touch_clk_pcc4 : drive_entry := DRV_PINGROUP_ENTRY_Y 0x2004 12 5 20 5 (-1) (-1) (-1) (-1) 1.
Definition drive_uart3_rx_pcc6 : drive_entry := DRV_PINGROUP_ENTRY_Y 0x200c 12 5 20 5 (-1) (-1) (-1) (-1) 1.
Definition drive_uart3_tx_pcc5 : drive_entry := DRV_PINGROUP_ENTRY_Y 0x2014 12 5 20 5 (-1) (-1) (-1) (-1) 1.
Definition drive_gen8_i2c_sda_pdd2 : drive_entry := DRV_PINGROUP_ENTRY_Y 0x201c 12 5 20 5 (-1) (-1) (-1) (-1) 1.
Definition drive_gen8_i2c_scl_pdd1 : drive_entry := DRV_PINGROUP_ENTRY_Y 0x2024 12 5 20 5 (-1) (-1) (-1) (-1) 1.
Definition drive_spi2_mosi_pcc2 : drive_entry := DRV_PINGROUP_ENTRY_Y 0x202c 12 5 20 5 (-1) (-1) (-1) (-1) 1.
Definition drive_gen2_i2c_scl_pcc7 : drive_entry := DRV_PINGROUP_ENTRY_Y 0x2034 12 5 20 5 (-1) (-1) (-1) (-1) 1.
Definition drive_spi2_cs0_pcc3 : drive_entry := DRV_PINGROUP_ENTRY_Y 0x203c 12 5 20 5 (-1) (-1) (-1) (-1) 1.
Definition drive_gen2_i2c_sda_pdd0 : drive_entry := DRV_PINGROUP_ENTRY_Y 0x2044 12 5 20 5 (-1) (-1) (-1) (-1) 1.
Definition drive_spi2_sck_pcc0 : drive_entry := DRV_PINGROUP_ENTRY_Y 0x204c 12 5 20 5 (-1) (-1) (-1) (-1) 1.
Definition drive_spi2_miso_pcc1 : drive_entry := DRV_PINGROUP_ENTRY_Y 0x2054 12 5 20 5 (-1) (-1) (-1) (-1) 1.
Definition drive_can1_dout_paa2 : drive_entry := DRV_PINGROUP_ENTRY_Y 0x3004 28 2 30 2 (-1) (-1) (-1) (-1) 1.
Definition drive_can1_din_paa3 : drive_entry := DRV_PINGROUP_ENTRY_Y 0x300c 28 2 30 2 (-1) (-1) (-1) (-1) 1.
Definition drive_can0_dout_paa0 : drive_entry := DRV_PINGROUP_ENTRY_Y 0x3014 28 2 30 2 (-1) (-1) (-1) (-1) 1.
Definition drive_can0_din_paa1 : drive_entry := DRV_PINGROUP_ENTRY_Y 0x301c 28 2 30 2 (-1) (-1) (-1) (-1) 1.
Definition drive_can0_stb_paa4 : drive_entry := DRV_PINGROUP_ENTRY_Y 0x3024 28 2 30 2 (-1) (-1) (-1) (-1) 1.
Definition drive_can0_en_paa5 : drive_entry := DRV_PINGROUP_ENTRY_Y 0x302c 28 2 30 2 (-1) (-1) (-1) (-1) 1.
Definition drive_soc_gpio49_paa6 : drive_entry := DRV_PINGROUP_ENTRY_Y 0x3034 28 2 30 2 (-1) (-1) (-1) (-1) 1.
Definition drive_can0_err_paa7 : drive_entry := DRV_PINGROUP_ENTRY_Y 0x303c 28 2 30 2 (-1) (-1) (-1) (-1) 1.
Definition drive_can1_stb_pbb0 : drive_entry := DRV_PINGROUP_ENTRY_Y 0x3044 28 2 30 2 (-1) (-1) (-1) (-1) 1.
Definition drive_can1_en_pbb1 : drive_entry := DRV_PINGROUP_ENTRY_Y 0x304c 28 2 30 2 (-1) (-1) (-1) (-1) 1.
Definition drive_soc_gpio50_pbb2 : drive_entry := DRV_PINGROUP_ENTRY_Y 0x3054 28 2 30 2 (-1) (-1) (-1) (-1) 1.
Definition drive_can1_err_pbb3 : drive_entry := DRV_PINGROUP_ENTRY_Y 0x305c 28 2 30 2 (-1) (-1) (-1) (-1) 1.
Definition drive_soc_gpio08_pb0 : drive_entry := DRV_PINGROUP_ENTRY_Y 0x500c 12 5 20 5 (-1) (-1) (-1) (-1) 0.
Definition drive_soc_gpio36_pm5 : drive_entry := DRV_PINGROUP_ENTRY_Y 0x10004 12 5 20 5 (-1) (-1) (-1) (-1) 0.
Definition drive_soc_gpio53_pm6 : drive_entry := DRV_PINGROUP_ENTRY_Y 0x1000c 12 5 20 5 (-1) (-1) (-1) (-1) 0.
Definition drive_soc_gpio55_pm4 : drive_entry := DRV_PINGROUP_ENTRY_Y 0x10014 12 5 20 5 (-1) (-1) (-1) (-1) 0.
Definition drive_soc_gpio38_pm7 : drive_entry := DRV_PINGROUP_ENTRY_Y 0x1001c 12 5 20 5 (-1) (-1) (-1) (-1) 0.
Definition drive_soc_gpio39_pn1 : drive_entry := DRV_PINGROUP_ENTRY_Y 0x10024 12 5 20 5 (-1) (-1) (-1) (-1) 0.
Definition drive_soc_gpio40_pn2 : drive_entry := DRV_PINGROUP_ENTRY_Y 0x1002c 12 5 20 5 (-1) (-1) (-1) (-1) 0.
Definition drive_dp_aux_ch0_hpd_pm0 : drive_entry := DRV_PINGROUP_ENTRY_Y 0x10034 12 5 20 5 (-1) (-1) (-1) (-1) 0.
Definition drive_dp_aux_ch1_hpd_pm1 : drive_entry := DRV_PINGROUP_ENTRY_Y 0x1003c 12 5 20 5 (-1) (-1) (-1) (-1) 0.
Definition drive_dp_aux_ch2_hpd_pm2 : drive_entry := DRV_PINGROUP_ENTRY_Y 0x10044 12 5 20 5 (-1) (-1) (-1) (-1) 0.
Definition drive_dp_aux_ch3_hpd_pm3 : drive_entry := DRV_PINGROUP_ENTRY_Y 0x1004c 12 5 20 5 (-1) (-1) (-1) (-1) 0.
Definition drive_dp_aux_ch1_p_pn3 : drive_entry := DRV_PINGROUP_ENTRY_Y 0x10054 12 5 20 5 (-1) (-1) (-1) (-1) 0.
Definition drive_dp_aux_ch1_n_pn4 : drive_entry := DRV_PINGROUP_ENTRY_Y 0x1005c 12 5 20 5 (-1) (-1) (-1) (-1) 0.
Definition drive_dp_aux_ch2_p_pn5 : drive_entry := DRV_PINGROUP_ENTRY_Y 0x10064 12 5 20 5 (-1) (-1) (-1) (-1) 0.
Definition drive_dp_aux_ch2_n_pn6 : drive_entry := DRV_PINGROUP_ENTRY_Y 0x1006c 12 5 20 5 (-1) (-1) (-1) (-1) 0.
Definition drive_dp_aux_ch3_p_pn7 : drive_entry := DRV_PINGROUP_ENTRY_Y 0x10074 12 5 20 5 (-1) (-1) (-1) (-1) 0.
Definition drive_dp_aux_ch3_n_pn0 : drive_entry := DRV_PINGROUP_ENTRY_Y 0x1007c 12 5 20 5 (-1) (-1) (-1) (-1) 0.
Definition drive_pex_l2_clkreq_n_pk4 : drive_entry := DRV_PINGROUP_ENTRY_Y 0x7004 12 5 20 5 (-1) (-1) (-1) (-1) 0.
Definition drive_pex_wake_n_pl2 : drive_entry := DRV_PINGROUP_ENTRY_Y 0x700c 12 5 20 5 (-1) (-1) (-1) (-1) 0.
Definition drive_pex_l1_clkreq_n_pk2 : drive_entry := DRV_PINGROUP_ENTRY_Y 0x7014 12 5 20 5 (-1) (-1) (-1) (-1) 0.
Definition drive_pex_l1_rst_n_pk3 : drive_entry := DRV_PINGROUP_ENTRY_Y 0x701c 12 5 20 5 (-1) (-1) (-1) (-1) 0.
Definition drive_pex_l0_clkreq_n_pk0 : drive_entry := DRV_PINGROUP_ENTRY_Y 0x7024 12 5 20 5 (-1) (-1) (-1) (-1) 0.
Definition drive_pex_l0_rst_n_pk1 : drive_entry := DRV_PINGROUP_ENTRY_Y 0x702c 12 5 20 5 (-1) (-1) (-1) (-1) 0.
Definition drive_pex_l2_rst_n_pk5 : drive_entry := DRV_PINGROUP_ENTRY_Y 0x7034 12 5 20 5 (-1) (-1) (-1) (-1) 0.
Definition drive_pex_l3_clkreq_n_pk6 : drive_entry := DRV_PINGROUP_ENTRY_Y 0x703c 12 5 20 5 (-1) (-1) (-1) (-1) 0.
Definition drive_pex_l3_rst_n_pk7 : drive_entry := DRV_PINGROUP_ENTRY_Y 0x7044 12 5 20 5 (-1) (-1) (-1) (-1) 0.
Definition drive_pex_l4_clkreq_n_pl0 : drive_entry := DRV_PINGROUP_ENTRY_Y 0x704c 12 5 20 5 (-1) (-1) (-1) (-1) 0.
Definition drive_pex_l4_rst_n_pl1 : drive_entry := DRV_PINGROUP_ENTRY_Y 0x7054 12 5 20 5 (-1) (-1) (-1) (-1) 0.
Definition drive_soc_gpio34_pl3 : drive_entry := DRV_PINGROUP_ENTRY_Y 0x705c 12 5 20 5 (-1) (-1) (-1) (-1) 0.
Definition drive_pex_l5_clkreq_n_paf0 : drive_entry := DRV_PINGROUP_ENTRY_Y 0x14004 12 5 20 5 (-1) (-1) (-1) (-1) 0.
Definition drive_pex_l5_rst_n_paf1 : drive_entry := DRV_PINGROUP_ENTRY_Y 0x1400c 12 5 20 5 (-1) (-1) (-1) (-1) 0.
Definition drive_pex_l6_clkreq_n_paf2 : drive_entry := DRV_PINGROUP_ENTRY_Y 0x14014 12 5 20 5 (-1) (-1) (-1) (-1) 0.
Definition drive_pex_l6_rst_n_paf3 : drive_entry := DRV_PINGROUP_ENTRY_Y 0x1401c 12 5 20 5 (-1) (-1) (-1) (-1) 0.
Definition drive_pex_l10_clkreq_n_pag6 : drive_entry := DRV_PINGROUP_ENTRY_Y 0x19004 12 5 20 5 (-1) (-1) (-1) (-1) 0.
Definition drive_pex_l10_rst_n_pag7 : drive_entry := DRV_PINGROUP_ENTRY_Y 0x1900c 12 5 20 5 (-1) (-1) (-1) (-1) 0.
Definition drive_pex_l7_clkreq_n_pag0 : drive_entry := DRV_PINGROUP_ENTRY_Y 0x19014 12 5 20 5 (-1) (-1) (-1) (-1) 0.
Definition drive_pex_l7_rst_n_pag1 : drive_entry := DRV_PINGROUP_ENTRY_Y 0x1901c 12 5 20 5 (-1) (-1) (-1) (-1) 0.
Definition drive_pex_l8_clkreq_n_pag2 : drive_entry := DRV_PINGROUP_ENTRY_Y 0x19024 12 5 20 5 (-1) (-1) (-1) (-1) 0.
Definition drive_pex_l8_rst_n_pag3 : drive_entry := DRV_PINGROUP_ENTRY_Y 0x1902c 12 5 20 5 (-1) (-1) (-1) (-1) 0.
Definition drive_pex_l9_clkreq_n_pag4 : drive_entry := DRV_PINGROUP_ENTRY_Y 0x19034 12 5 20 5 (-1) (-1) (-1) (-1) 0.
Definition drive_pex_l9_rst_n_pag5 : drive_entry := DRV_PINGROUP_ENTRY_Y 0x1903c 12 5 20 5 (-1) (-1) (-1) (-1) 0.
Definition drive_sdmmc1_clk_pj0 : drive_entry := DRV_PINGROUP_ENTRY_Y 0x8004 28 2 30 2 (-1) (-1) (-1) (-1) 0.
Definition drive_sdmmc1_cmd_pj1 : drive_entry := DRV_PINGROUP_ENTRY_Y 0x800c 28 2 30 2 (-1) (-1) (-1) (-1) 0.
Definition drive_sdmmc1_dat3_pj5 : drive_entry := DRV_PINGROUP_ENTRY_Y 0x801c 28 2 30 2 (-1) (-1) (-1) (-1) 0.
Definition drive_sdmmc1_dat2_pj4 : drive_entry := DRV_PINGROUP_ENTRY_Y 0x8024 28 2 30 2 (-1) (-1) (-1) (-1) 0.
Definition drive_sdmmc1_dat1_pj3 : drive_entry := DRV_PINGROUP_ENTRY_Y 0x802c 28 2 30 2 (-1) (-1) (-1) (-1) 0.
Definition drive_sdmmc1_dat0_pj2 : drive_entry := DRV_PINGROUP_ENTRY_Y 0x8034 28 2 30 2 (-1) (-1) (-1) (-1) 0.
Definition drive_sce_error_pee0 : drive_entry := DRV_PINGROUP_ENTRY_Y 0x1014 12 5 20 5 (-1) (-1) (-1) (-1) 1.
Definition drive_batt_oc_pee3 : drive_entry := DRV_PINGROUP_ENTRY_Y 0x1024 12 5 20 5 (-1) (-1) (-1) (-1) 1.
Definition drive_bootv_ctl_n_pee7 : drive_entry := DRV_PINGROUP_ENTRY_Y 0x102c 12 5 20 5 (-1) (-1) (-1) (-1) 1.
Definition drive_power_on_pee4 : drive_entry := DRV_PINGROUP_ENTRY_Y 0x103c 12 5 20 5 (-1) (-1) (-1) (-1) 1.
Definition drive_soc_gpio26_pee5 : drive_entry := DRV_PINGROUP_ENTRY_Y 0x1044 12 5 20 5 (-1) (-1) (-1) (-1) 1.
Definition drive_soc_gpio27_pee6 : drive_entry := DRV_PINGROUP_ENTRY_Y 0x104c 12 5 20 5 (-1) (-1) (-1) (-1) 1.
Definition drive_ao_retention_n_pee2 : drive_entry := DRV_PINGROUP_ENTRY_Y 0x1054 12 5 20 5 (-1) (-1) (-1) (-1) 1.
Definition drive_vcomp_alert_pee1 : drive_entry := DRV_PINGROUP_ENTRY_Y 0x105c 12 5 20 5 (-1) (-1) (-1) (-1) 1.
Definition drive_hdmi_cec_pgg0 : drive_entry := DRV_PINGROUP_ENTRY_Y 0x1064 12 5 20 5 (-1) (-1) (-1) (-1) 1.
Definition drive_ufs0_rst_n_pae1 : drive_entry := DRV_PINGROUP_ENTRY_Y 0x11004 12 5 24 5 (-1) (-1) (-1) (-1) 0.
Definition drive_ufs0_ref_clk_pae0 : drive_entry := DRV_PINGROUP_ENTRY_Y 0x1100c 12 5 24 5 (-1) (-1) (-1) (-1) 0.
Definition drive_spi3_miso_py1 : drive_entry := DRV_PINGROUP_ENTRY_Y 0xd004 12 5 20 5 (-1) (-1) (-1) (-1) 0.
Definition drive_spi1_cs0_pz6 : drive_entry := DRV_PINGROUP_ENTRY_Y 0xd00c 12 5 20 5 (-1) (-1) (-1) (-1) 0.
Definition drive_spi3_cs0_py3 : drive_entry := DRV_PINGROUP_ENTRY_Y 0xd014 12 5 20 5 (-1) (-1) (-1) (-1) 0.
Definition drive_spi1_miso_pz4 : drive_entry := DRV_PINGROUP_ENTRY_Y 0xd01c 12 5 20 5 (-1) (-1) (-1) (-1) 0.
Definition drive_spi3_cs1_py4 : drive_entry := DRV_PINGROUP_ENTRY_Y 0xd024 12 5 20 5 (-1) (-1) (-1) (-1) 0.
Definition drive_spi1_sck_pz3 : drive_entry := DRV_PINGROUP_ENTRY_Y 0xd02c 12 5 20 5 (-1) (-1) (-1) (-1) 0.
Definition drive_spi3_sck_py0 : drive_entry := DRV_PINGROUP_ENTRY_Y 0xd034 12 5 20 5 (-1) (-1) (-1) (-1) 0.
Definition drive_spi1_cs1_pz7 : drive_entry := DRV_PINGROUP_ENTRY_Y 0xd03c 12 5 20 5 (-1) (-1) (-1) (-1) 0.
Definition drive_spi1_mosi_pz5 : drive_entry := DRV_PINGROUP_ENTRY_Y 0xd044 12 5 20 5 (-1) (-1) (-1) (-1) 0.
Definition drive_spi3_mosi_py2 : drive_entry := DRV_PINGROUP_ENTRY_Y 0xd04c 12 5 20 5 (-1) (-1) (-1) (-1) 0.
Definition drive_uart2_tx_px4 : drive_entry := DRV_PINGROUP_ENTRY_Y 0xd054 12 5 20 5 (-1) (-1) (-1) (-1) 0.
Definition drive_uart2_rx_px5 : drive_entry := DRV_PINGROUP_ENTRY_Y 0xd05c 12 5 20 5 (-1) (-1) (-1) (-1) 0.
Definition drive_uart2_rts_px6 : drive_entry := DRV_PINGROUP_ENTRY_Y 0xd064 12 5 20 5 (-1) (-1) (-1) (-1) 0.
Definition drive_uart2_cts_px7 : drive_entry := DRV_PINGROUP_ENTRY_Y 0xd06c 12 5 20 5 (-1) (-1) (-1) (-1) 0.
Definition drive_uart5_tx_py5 : drive_entry := DRV_PINGROUP_ENTRY_Y 0xd074 12 5 20 5 (-1) (-1) (-1) (-1) 0.
Definition drive_uart5_rx_py6 : drive_entry := DRV_PINGROUP_ENTRY_Y 0xd07c 12 5 20 5 (-1) (-1) (-1) (-1) 0.
Definition drive_uart5_rts_py7 : drive_entry := DRV_PINGROUP_ENTRY_Y 0xd084 12 5 20 5 (-1) (-1) (-1) (-1) 0.
Definition drive_uart5_cts_pz0 : drive_entry := DRV_PINGROUP_ENTRY_Y 0xd08c 12 5 20 5 (-1) (-1) (-1) (-1) 0.
Definition drive_gpu_pwr_req_px0 : drive_entry := DRV_PINGROUP_ENTRY_Y 0xd094 12 5 20 5 (-1) (-1) (-1) (-1) 0.
Definition drive_gp_pwm3_px3 : drive_entry := DRV_PINGROUP_ENTRY_Y 0xd09c 12 5 20 5 (-1) (-1) (-1) (-1) 0.
Definition drive_gp_pwm2_px2 : drive_entry := DRV_PINGROUP_ENTRY_Y 0xd0a4 12 5 20 5 (-1) (-1) (-1) (-1) 0.
Definition drive_cv_pwr_req_px1 : drive_entry := DRV_PINGROUP_ENTRY_Y 0xd0ac 12 5 20 5 (-1) (-1) (-1) (-1) 0.
Definition drive_usb_vbus_en0_pz1 : drive_entry := DRV_PINGROUP_ENTRY_Y 0xd0b4 12 5 20 5 (-1) (-1) (-1) (-1) 0.
Definition drive_usb_vbus_en1_pz2 : drive_entry := DRV_PINGROUP_ENTRY_Y 0xd0bc 12 5 20 5 (-1) (-1) (-1) (-1) 0.
Definition drive_extperiph2_clk_pp1 : drive_entry := DRV_PINGROUP_ENTRY_Y 0x0004 12 5 20 5 (-1) (-1) (-1) (-1) 0.
Definition drive_extperiph1_clk_pp0 : drive_entry := DRV_PINGROUP_ENTRY_Y 0x000c 12 5 20 5 (-1) (-1) (-1) (-1) 0.
Definition drive_cam_i2c_sda_pp3 : drive_entry := DRV_PINGROUP_ENTRY_Y 0x0014 12 5 20 5 (-1) (-1) (-1) (-1) 0.
Definition drive_cam_i2c_scl_pp2 : drive_entry := DRV_PINGROUP_ENTRY_Y 0x001c 12 5 20 5 (-1) (-1) (-1) (-1) 0.
Definition drive_soc_gpio23_pp4 : drive_entry := DRV_PINGROUP_ENTRY_Y 0x0024 12 5 20 5 (-1) (-1) (-1) (-1) 0.
Definition drive_soc_gpio24_pp5 : drive_entry := DRV_PINGROUP_ENTRY_Y 0x002c 12 5 20 5 (-1) (-1) (-1) (-1) 0.
Definition drive_soc_gpio25_pp6 : drive_entry := DRV_PINGROUP_ENTRY_Y 0x0034 12 5 20 5 (-1) (-1) (-1) (-1) 0.
Definition drive_pwr_i2c_scl_pp7 : drive_entry := DRV_PINGROUP_ENTRY_Y 0x003c 12 5 20 5 (-1) (-1) (-1) (-1) 0.
Definition drive_pwr_i2c_sda_pq0 : drive_entry := DRV_PINGROUP_ENTRY_Y 0x0044 12 5 20 5 (-1) (-1) (-1) (-1) 0.
Definition drive_soc_gpio28_pq1 : drive_entry := DRV_PINGROUP_ENTRY_Y 0x004c 12 5 20 5 (-1) (-1) (-1) (-1) 0.
Definition drive_soc_gpio29_pq2 : drive_entry := DRV_PINGROUP_ENTRY_Y 0x0054 12 5 20 5 (-1) (-1) (-1) (-1) 0.
Definition drive_soc_gpio30_pq3 : drive_entry := DRV_PINGROUP_ENTRY_Y 0x005c 12 5 20 5 (-1) (-1) (-1) (-1) 0.
Definition drive_soc_gpio31_pq4 : drive_entry := DRV_PINGROUP_ENTRY_Y 0x0064 12 5 20 5 (-1) (-1) (-1) (-1) 0.
Definition drive_soc_gpio32_pq5 : drive_entry := DRV_PINGROUP_ENTRY_Y 0x006c 12 5 20 5 (-1) (-1) (-1) (-1) 0.
Definition drive_soc_gpio33_pq6 : drive_entry := DRV_PINGROUP_ENTRY_Y 0x0074 12 5 20 5 (-1) (-1) (-1) (-1) 0.
Definition drive_soc_gpio35_pq7 : drive_entry := DRV_PINGROUP_ENTRY_Y 0x007c 12 5 20 5 (-1) (-1) (-1) (-1) 0.
Definition drive_soc_gpio37_pr0 : drive_entry := DRV_PINGROUP_ENTRY_Y 0x0084 12 5 20 5 (-1) (-1) (-1) (-1) 0.
Definition drive_soc_gpio56_pr1 : drive_entry := DRV_PINGROUP_ENTRY_Y 0x008c 12 5 20 5 (-1) (-1) (-1) (-1) 0.
Definition drive_uart1_cts_pr5 : drive_entry := DRV_PINGROUP_ENTRY_Y 0x0094 12 5 20 5 (-1) (-1) (-1) (-1) 0.
Definition drive_uart1_rts_pr4 : drive_entry := DRV_PINGROUP_ENTRY_Y 0x009c 12 5 20 5 (-1) (-1) (-1) (-1) 0.
Definition drive_uart1_rx_pr3 : drive_entry := DRV_PINGROUP_ENTRY_Y 0x00a4 12 5 20 5 (-1) (-1) (-1) (-1) 0.
Definition drive_uart1_tx_pr2 : drive_entry := DRV_PINGROUP_ENTRY_Y 0x00ac 12 5 20 5 (-1) (-1) (-1) (-1) 0.
Definition drive_cpu_pwr_req_pi5 : drive_entry := DRV_PINGROUP_ENTRY_Y 0x4004 12 5 20 5 (-1) (-1) (-1) (-1) 0.
Definition drive_uart4_cts_ph6 : drive_entry := DRV_PINGROUP_ENTRY_Y 0x400c 12 5 20 5 (-1) (-1) (-1) (-1) 0.
Definition drive_uart4_rts_ph5 : drive_entry := DRV_PINGROUP_ENTRY_Y 0x4014 12 5 20 5 (-1) (-1) (-1) (-1) 0.
Definition drive_uart4_rx_ph4 : drive_entry := DRV_PINGROUP_ENTRY_Y 0x401c 12 5 20 5 (-1) (-1) (-1) (-1) 0.
Definition drive_uart4_tx_ph3 : drive_entry := DRV_PINGROUP_ENTRY_Y 0x4024 12 5 20 5 (-1) (-1) (-1) (-1) 0.
Definition drive_gen1_i2c_scl_pi3 : drive_entry := DRV_PINGROUP_ENTRY_Y 0x402c 12 5 20 5 (-1) (-1) (-1) (-1) 0.
Definition drive_gen1_i2c_sda_pi4 : drive_entry := DRV_PINGROUP_ENTRY_Y 0x4034 12 5 20 5 (-1) (-1) (-1) (-1) 0.
Definition drive_soc_gpio20_pg7 : drive_entry := DRV_PINGROUP_ENTRY_Y 0x403c 12 5 20 5 (-1) (-1) (-1) (-1) 0.
Definition drive_soc_gpio21_ph0 : drive_entry := DRV_PINGROUP_ENTRY_Y 0x4044 12 5 20 5 (-1) (-1) (-1) (-1) 0.
Definition drive_soc_gpio22_ph1 : drive_entry := DRV_PINGROUP_ENTRY_Y 0x404c 12 5 20 5 (-1) (-1) (-1) (-1) 0.
Definition drive_soc_gpio13_pg0 : drive_entry := DRV_PINGROUP_ENTRY_Y 0x4054 12 5 20 5 (-1) (-1) (-1) (-1) 0.
Definition drive_soc_gpio14_pg1 : drive_entry := DRV_PINGROUP_ENTRY_Y 0x405c 12 5 20 5 (-1) (-1) (-1) (-1) 0.
Definition drive_soc_gpio15_pg2 : drive_entry := DRV_PINGROUP_ENTRY_Y 0x4064 12 5 20 5 (-1) (-1) (-1) (-1) 0.
Definition drive_soc_gpio16_pg3 : drive_entry := DRV_PINGROUP_ENTRY_Y 0x406c 12 5 20 5 (-1) (-1) (-1) (-1) 0.
Definition drive_soc_gpio17_pg4 : drive_entry := DRV_PINGROUP_ENTRY_Y 0x4074 12 5 20 5 (-1) (-1) (-1) (-1) 0.
Definition drive_soc_gpio18_pg5 : drive_entry := DRV_PINGROUP_ENTRY_Y 0x407c 12 5 20 5 (-1) (-1) (-1) (-1) 0.
Definition drive_soc_gpio19_pg6 : drive_entry := DRV_PINGROUP_ENTRY_Y 0x4084 12 5 20 5 (-1) (-1) (-1) (-1) 0.
Definition drive_soc_gpio41_ph7 : drive_entry := DRV_PINGROUP_ENTRY_Y 0x408c 12 5 20 5 (-1) (-1) (-1) (-1) 0.
Definition drive_soc_gpio42_pi0 : drive_entry := DRV_PINGROUP_ENTRY_Y 0x4094 12 5 20 5 (-1) (-1) (-1) (-1) 0.
Definition drive_soc_gpio43_pi1 : drive_entry := DRV_PINGROUP_ENTRY_Y 0x409c 12 5 20 5 (-1) (-1) (-1) (-1) 0.
Definition drive_soc_gpio44_pi2 : drive_entry := DRV_PINGROUP_ENTRY_Y 0x40a4 12 5 20 5 (-1) (-1) (-1) (-1) 0.
Definition drive_soc_gpio06_ph2 : drive_entry := DRV_PINGROUP_ENTRY_Y 0x40ac 12 5 20 5 (-1) (-1) (-1) (-1) 0.
Definition drive_soc_gpio07_pi6 : drive_entry := DRV_PINGROUP_ENTRY_Y 0x40b4 12 5 20 5 (-1) (-1) (-1) (-1) 0.
Definition drive_dap4_sclk_pa4 : drive_entry := DRV_PINGROUP_ENTRY_Y 0x2004 12 5 20 5 (-1) (-1) (-1) (-1) 0.
Definition drive_dap4_dout_pa5 : drive_entry := DRV_PINGROUP_ENTRY_Y 0x200c 12 5 20 5 (-1) (-1) (-1) (-1) 0.
Definition drive_dap4_din_pa6 : drive_entry := DRV_PINGROUP_ENTRY_Y 0x2014 12 5 20 5 (-1) (-1) (-1) (-1) 0.
Definition drive_dap4_fs_pa7 : drive_entry := DRV_PINGROUP_ENTRY_Y 0x201c 12 5 20 5 (-1) (-1) (-1) (-1) 0.
Definition drive_dap6_sclk_pa0 : drive_entry := DRV_PINGROUP_ENTRY_Y 0x2024 12 5 20 5 (-1) (-1) (-1) (-1) 0.
Definition drive_dap6_dout_pa1 : drive_entry := DRV_PINGROUP_ENTRY_Y 0x202c 12 5 20 5 (-1) (-1) (-1) (-1) 0.
Definition drive_dap6_din_pa2 : drive_entry := DRV_PINGROUP_ENTRY_Y 0x2034 12 5 20 5 (-1) (-1) (-1) (-1) 0.
Definition drive_dap6_fs_pa3 : drive_entry := DRV_PINGROUP_ENTRY_Y 0x203c 12 5 20 5 (-1) (-1) (-1) (-1) 0.
Definition drive_soc_gpio45_pad0 : drive_entry := DRV_PINGROUP_ENTRY_Y 0x18004 12 5 20 5 (-1) (-1) (-1) (-1) 0.
Definition drive_soc_gpio46_pad1 : drive_entry := DRV_PINGROUP_ENTRY_Y 0x1800c 12 5 20 5 (-1) (-1) (-1) (-1) 0.
Definition drive_soc_gpio47_pad2 : drive_entry := DRV_PINGROUP_ENTRY_Y 0x18014 12 5 20 5 (-1) (-1) (-1) (-1) 0.
Definition drive_soc_gpio48_pad3 : drive_entry := DRV_PINGROUP_ENTRY_Y 0x1801c 12 5 20 5 (-1) (-1) (-1) (-1) 0.
Definition drive_soc_gpio57_pac4 : drive_entry := DRV_PINGROUP_ENTRY_Y 0x18024 12 5 20 5 (-1) (-1) (-1) (-1) 0.
Definition drive_soc_gpio58_pac5 : drive_entry := DRV_PINGROUP_ENTRY_Y 0x1802c 12 5 20 5 (-1) (-1) (-1) (-1) 0.
Definition drive_soc_gpio59_pac6 : drive_entry := DRV_PINGROUP_ENTRY_Y 0x18034 12 5 20 5 (-1) (-1) (-1) (-1) 0.
Definition drive_soc_gpio60_pac7 : drive_entry := DRV_PINGROUP_ENTRY_Y 0x1803c 12 5 20 5 (-1) (-1) (-1) (-1) 0.
Definition drive_spi5_cs0_pac3 : drive_entry := DRV_PINGROUP_ENTRY_Y 0x18044 12 5 20 5 (-1) (-1) (-1) (-1) 0.
Definition drive_spi5_miso_pac1 : drive_entry := DRV_PINGROUP_ENTRY_Y 0x1804c 12 5 20 5 (-1) (-1) (-1) (-1) 0.
Definition drive_spi5_mosi_pac2 : drive_entry := DRV_PINGROUP_ENTRY_Y 0x18054 12 5 20 5 (-1) (-1) (-1) (-1) 0.
Definition drive_spi5_sck_pac0 : drive_entry := DRV_PINGROUP_ENTRY_Y 0x1805c 12 5 20 5 (-1) (-1) (-1) (-1) 0.
Definition drive_eqos_td3_pe4 : drive_entry := DRV_PINGROUP_ENTRY_N.
Definition drive_eqos_td2_pe3 : drive_entry := DRV_PINGROUP_ENTRY_N.
Definition drive_eqos_td1_pe2 : drive_entry := DRV_PINGROUP_ENTRY_N.
Definition drive_eqos_td0_pe1 : drive_entry := DRV_PINGROUP_ENTRY_N.
Definition drive_eqos_rd3_pf1 : drive_entry := DRV_PINGROUP_ENTRY_N.
Definition drive_eqos_rd2_pf0 : drive_entry := DRV_PINGROUP_ENTRY_N.
Definition drive_eqos_rd1_pe7 : drive_entry := DRV_PINGROUP_ENTRY_N.
Definition drive_eqos_sma_mdio_pf4 : drive_entry := DRV_PINGROUP_ENTRY_N.
Definition drive_eqos_rd0_pe6 : drive_entry := DRV_PINGROUP_ENTRY_N.
Definition drive_eqos_sma_mdc_pf5 : drive_entry := DRV_PINGROUP_ENTRY_N.
Definition drive_eqos_comp : drive_entry := DRV_PINGROUP_ENTRY_N.
Definition drive_eqos_txc_pe0 : drive_entry := DRV_PINGROUP_ENTRY_N.
Definition drive_eqos_rxc_pf3 : drive_entry := DRV_PINGROUP_ENTRY_N.
Definition drive_eqos_tx_ctl_pe5 : drive_entry := DRV_PINGROUP_ENTRY_N.
Definition drive_eqos_rx_ctl_pf2 : drive_entry := DRV_PINGROUP_ENTRY_N.
Definition drive_qspi0_io3_pc5 : drive_entry := DRV_PINGROUP_ENTRY_N.
Definition drive_qspi0_io2_pc4 : drive_entry := DRV_PINGROUP_ENTRY_N.
Definition drive_qspi0_io1_pc3 : drive_entry := DRV_PINGROUP_ENTRY_N.
Definition drive_qspi0_io0_pc2 : drive_entry := DRV_PINGROUP_ENTRY_N.
Definition drive_qspi0_sck_pc0 : drive_entry := DRV_PINGROUP_ENTRY_N.
Definition drive_qspi0_cs_n_pc1 : drive_entry := DRV_PINGROUP_ENTRY_N.
Definition drive_qspi1_io3_pd3 : drive_entry := DRV_PINGROUP_ENTRY_N.
Definition drive_qspi1_io2_pd2 : drive_entry := DRV_PINGROUP_ENTRY_N.
Definition drive_qspi1_io1_pd1 : drive_entry := DRV_PINGROUP_ENTRY_N.
Definition drive_qspi1_io0_pd0 : drive_entry := DRV_PINGROUP_ENTRY_N.
Definition drive_qspi1_sck_pc6 : drive_entry := DRV_PINGROUP_ENTRY_N.
Definition drive_qspi1_cs_n_pc7 : drive_entry := DRV_PINGROUP_ENTRY_N.
Definition drive_qspi_comp : drive_entry := DRV_PINGROUP_ENTRY_N.
Definition drive_sdmmc1_comp : drive_entry := DRV_PINGROUP_ENTRY_N.

(** [tegra234_groups], in table order. *)
Definition tegra234_groups : list tegra_pingroup :=
  [ PINGROUP "touch_clk_pcc4" [TEGRA_PIN_TOUCH_CLK_PCC4] TEGRA_MUX_GP TEGRA_MUX_TOUCH TEGRA_MUX_RSVD2 TEGRA_MUX_RSVD3 0x2000 1 PINGROUP_REG_Y 5 7 6 8 (-1) 10 12 drive_touch_clk_pcc4;
    PINGROUP "uart3_rx_pcc6" [TEGRA_PIN_UART3_RX_PCC6] TEGRA_MUX_UARTC TEGRA_MUX_UARTJ TEGRA_MUX_RSVD2 TEGRA_MUX_RSVD3 0x2008 1 PINGROUP_REG_Y 5 7 6 8 (-1) 10 12 drive_uart3_rx_pcc6;
    PINGROUP "uart3_tx_pcc5" [TEGRA_PIN_UART3_TX_PCC5] TEGRA_MUX_UARTC TEGRA_MUX_UARTJ TEGRA_MUX_RSVD2 TEGRA_MUX_RSVD3 0x2010 1 PINGROUP_REG_Y 5 7 6 8 (-1) 10 12 drive_uart3_tx_pcc5;
    PINGROUP "gen8_i2c_sda_pdd2" [TEGRA_PIN_GEN8_I2C_SDA_PDD2] TEGRA_MUX_I2C8 TEGRA_MUX_RSVD1 TEGRA_MUX_RSVD2 TEGRA_MUX_RSVD3 0x2018 1 PINGROUP_REG_Y 5 7 6 8 (-1) 10 12 drive_gen8_i2c_sda_pdd2;
    PINGROUP "gen8_i2c_scl_pdd1" [TEGRA_PIN_GEN8_I2C_SCL_PDD1] TEGRA_MUX_I2C8 TEGRA_MUX_RSVD1 TEGRA_MUX_RSVD2 TEGRA_MUX_RSVD3 0x2020 1 PINGROUP_REG_Y 5 7 6 8 (-1) 10 12 drive_gen8_i2c_scl_pdd1;
    PINGROUP "spi2_mosi_pcc2" [TEGRA_PIN_SPI2_MOSI_PCC2] TEGRA_MUX_SPI2 TEGRA_MUX_RSVD1 TEGRA_MUX_RSVD2 TEGRA_MUX_RSVD3 0x2028 1 PINGROUP_REG_Y 5 7 6 8 (-1) 10 12 drive_spi2_mosi_pcc2;
    PINGROUP "gen2_i2c_scl_pcc7" [TEGRA_PIN_GEN2_I2C_SCL_PCC7] TEGRA_MUX_I2C2 TEGRA_MUX_RSVD1 TEGRA_MUX_RSVD2 TEGRA_MUX_RSVD3 0x2030 1 PINGROUP_REG_Y 5 7 6 8 (-1) 10 12 drive_gen2_i2c_scl_pcc7;
    PINGROUP "spi2_cs0_pcc3" [TEGRA_PIN_SPI2_CS0_PCC3] TEGRA_MUX_SPI2 TEGRA_MUX_RSVD1 TEGRA_MUX_RSVD2 TEGRA_MUX_RSVD3 0x2038 1 PINGROUP_REG_Y 5 7 6 8 (-1) 10 12 drive_spi2_cs0_pcc3;
    PINGROUP "gen2_i2c_sda_pdd0" [TEGRA_PIN_GEN2_I2C_SDA_PDD0] TEGRA_MUX_I2C2 TEGRA_MUX_RSVD1 TEGRA_MUX_RSVD2 TEGRA_MUX_RSVD3 0x2040 1 PINGROUP_REG_Y 5 7 6 8 (-1) 10 12 drive_gen2_i2c_sda_pdd0;
    PINGROUP "spi2_sck_pcc0" [TEGRA_PIN_SPI2_SCK_PCC0] TEGRA_MUX_SPI2 TEGRA_MUX_RSVD1 TEGRA_MUX_RSVD2 TEGRA_MUX_RSVD3 0x2048 1 PINGROUP_REG_Y 5 7 6 8 (-1) 10 12 drive_spi2_sck_pcc0;
    PINGROUP "spi2_miso_pcc1" [TEGRA_PIN_SPI2_MISO_PCC1] TEGRA_MUX_SPI2 TEGRA_MUX_RSVD1 TEGRA_MUX_RSVD2 TEGRA_MUX_RSVD3 0x2050 1 PINGROUP_REG_Y 5 7 6 8 (-1) 10 12 drive_spi2_miso_pcc1;
    PINGROUP "can1_dout_paa2" [TEGRA_PIN_CAN1_DOUT_PAA2] TEGRA_MUX_CAN1 TEGRA_MUX_RSVD1 TEGRA_MUX_RSVD2 TEGRA_MUX_RSVD3 0x3000 1 PINGROUP_REG_Y (-1) 5 6 (-1) 9 10 12 drive_can1_dout_paa2;
    PINGROUP "can1_din_paa3" [TEGRA_PIN_CAN1_DIN_PAA3] TEGRA_MUX_CAN1 TEGRA_MUX_RSVD1 TEGRA_MUX_RSVD2 TEGRA_MUX_RSVD3 0x3008 1 PINGROUP_REG_Y (-1) 5 6 (-1) 9 10 12 drive_can1_din_paa3;
    PINGROUP "can0_dout_paa0" [TEGRA_PIN_CAN0_DOUT_PAA0] TEGRA_MUX_CAN0 TEGRA_MUX_RSVD1 TEGRA_MUX_RSVD2 TEGRA_MUX_RSVD3 0x3010 1 PINGROUP_REG_Y (-1) 5 6 (-1) 9 10 12 drive_can0_dout_paa0;
    PINGROUP "can0_din_paa1" [TEGRA_PIN_CAN0_DIN_PAA1] TEGRA_MUX_CAN0 TEGRA_MUX_RSVD1 TEGRA_MUX_RSVD2 TEGRA_MUX_RSVD3 0x3018 1 PINGROUP_REG_Y (-1) 5 6 (-1) 9 10 12 drive_can0_din_paa1;
    PINGROUP "can0_stb_paa4" [TEGRA_PIN_CAN0_STB_PAA4] TEGRA_MUX_RSVD0 TEGRA_MUX_WDT TEGRA_MUX_TSC TEGRA_MUX_TSC_ALT 0x3020 1 PINGROUP_REG_Y (-1) 5 6 (-1) 9 10 12 drive_can0_stb_paa4;
    PINGROUP "can0_en_paa5" [TEGRA_PIN_CAN0_EN_PAA5] TEGRA_MUX_RSVD0 TEGRA_MUX_RSVD1 TEGRA_MUX_RSVD2 TEGRA_MUX_RSVD3 0x3028 1 PINGROUP_REG_Y (-1) 5 6 (-1) 9 10 12 drive_can0_en_paa5;
    PINGROUP "soc_gpio49_paa6" [TEGRA_PIN_SOC_GPIO49_PAA6] TEGRA_MUX_RSVD0 TEGRA_MUX_RSVD1 TEGRA_MUX_RSVD2 TEGRA_MUX_RSVD3 0x3030 1 PINGROUP_REG_Y (-1) 5 6 (-1) 9 10 12 drive_soc_gpio49_paa6;
    PINGROUP "can0_err_paa7" [TEGRA_PIN_CAN0_ERR_PAA7] TEGRA_MUX_RSVD0 TEGRA_MUX_TSC TEGRA_MUX_RSVD2 TEGRA_MUX_TSC_ALT 0x3038 1 PINGROUP_REG_Y (-1) 5 6 (-1) 9 10 12 drive_can0_err_paa7;
    PINGROUP "can1_stb_pbb0" [TEGRA_PIN_CAN1_STB_PBB0] TEGRA_MUX_RSVD0 TEGRA_MUX_DMIC3 TEGRA_MUX_DMIC5 TEGRA_MUX_RSVD3 0x3040 1 PINGROUP_REG_Y (-1) 5 6 (-1) 9 10 12 drive_can1_stb_pbb0;
    PINGROUP "can1_en_pbb1" [TEGRA_PIN_CAN1_EN_PBB1] TEGRA_MUX_RSVD0 TEGRA_MUX_DMIC3 TEGRA_MUX_DMIC5 TEGRA_MUX_RSVD3 0x3048 1 PINGROUP_REG_Y (-1) 5 6 (-1) 9 10 12 drive_can1_en_pbb1;
    PINGROUP "soc_gpio50_pbb2" [TEGRA_PIN_SOC_GPIO50_PBB2] TEGRA_MUX_RSVD0 TEGRA_MUX_TSC TEGRA_MUX_RSVD2 TEGRA_MUX_TSC_ALT 0x3050 1 PINGROUP_REG_Y (-1) 5 6 (-1) 9 10 12 drive_soc_gpio50_pbb2;
    PINGROUP "can1_err_pbb3" [TEGRA_PIN_CAN1_ERR_PBB3] TEGRA_MUX_RSVD0 TEGRA_MUX_TSC TEGRA_MUX_RSVD2 TEGRA_MUX_TSC_ALT 0x3058 1 PINGROUP_REG_Y (-1) 5 6 (-1) 9 10 12 drive_can1_err_pbb3;
    PINGROUP "soc_gpio08_pb0" [TEGRA_PIN_SOC_GPIO08_PB0] TEGRA_MUX_RSVD0 TEGRA_MUX_RSVD1 TEGRA_MUX_RSVD2 TEGRA_MUX_RSVD3 0x5008 0 PINGROUP_REG_Y (-1) 7 6 8 (-1) 10 12 drive_soc_gpio08_pb0;
    PINGROUP "soc_gpio36_pm5" [TEGRA_PIN_SOC_GPIO36_PM5] TEGRA_MUX_ETH0 TEGRA_MUX_RSVD1 TEGRA_MUX_DCA TEGRA_MUX_RSVD3 0x10000 0 PINGROUP_REG_Y (-1) 7 6 8 (-1) 10 12 drive_soc_gpio36_pm5;
    PINGROUP "soc_gpio53_pm6" [TEGRA_PIN_SOC_GPIO53_PM6] TEGRA_MUX_ETH0 TEGRA_MUX_RSVD1 TEGRA_MUX_DCA TEGRA_MUX_RSVD3 0x10008 0 PINGROUP_REG_Y (-1) 7 6 8 (-1) 10 12 drive_soc_gpio53_pm6;
    PINGROUP "soc_gpio55_pm4" [TEGRA_PIN_SOC_GPIO55_PM4] TEGRA_MUX_ETH2 TEGRA_MUX_RSVD1 TEGRA_MUX_RSVD2 TEGRA_MUX_RSVD3 0x10010 0 PINGROUP_REG_Y (-1) 7 6 8 (-1) 10 12 drive_soc_gpio55_pm4;
    PINGROUP "soc_gpio38_pm7" [TEGRA_PIN_SOC_GPIO38_PM7] TEGRA_MUX_ETH1 TEGRA_MUX_RSVD1 TEGRA_MUX_RSVD2 TEGRA_MUX_RSVD3 0x10018 0 PINGROUP_REG_Y (-1) 7 6 8 (-1) 10 12 drive_soc_gpio38_pm7;
    PINGROUP "soc_gpio39_pn1" [TEGRA_PIN_SOC_GPIO39_PN1] TEGRA_MUX_GP TEGRA_MUX_RSVD1 TEGRA_MUX_RSVD2 TEGRA_MUX_RSVD3 0x10020 0 PINGROUP_REG_Y (-1) 7 6 8 (-1) 10 12 drive_soc_gpio39_pn1;
    PINGROUP "soc_gpio40_pn2" [TEGRA_PIN_SOC_GPIO40_PN2] TEGRA_MUX_ETH1 TEGRA_MUX_RSVD1 TEGRA_MUX_RSVD2 TEGRA_MUX_RSVD3 0x10028 0 PINGROUP_REG_Y (-1) 7 6 8 (-1) 10 12 drive_soc_gpio40_pn2;
    PINGROUP "dp_aux_ch0_hpd_pm0" [TEGRA_PIN_DP_AUX_CH0_HPD_PM0] TEGRA_MUX_DP TEGRA_MUX_RSVD1 TEGRA_MUX_RSVD2 TEGRA_MUX_RSVD3 0x10030 0 PINGROUP_REG_Y 5 7 6 8 (-1) 10 12 drive_dp_aux_ch0_hpd_pm0;
    PINGROUP "dp_aux_ch1_hpd_pm1" [TEGRA_PIN_DP_AUX_CH1_HPD_PM1] TEGRA_MUX_ETH3 TEGRA_MUX_RSVD1 TEGRA_MUX_RSVD2 TEGRA_MUX_RSVD3 0x10038 0 PINGROUP_REG_Y 5 7 6 8 (-1) 10 12 drive_dp_aux_ch1_hpd_pm1;
    PINGROUP "dp_aux_ch2_hpd_pm2" [TEGRA_PIN_DP_AUX_CH2_HPD_PM2] TEGRA_MUX_ETH3 TEGRA_MUX_RSVD1 TEGRA_MUX_DISPLAYB TEGRA_MUX_RSVD3 0x10040 0 PINGROUP_REG_Y 5 7 6 8 (-1) 10 12 drive_dp_aux_ch2_hpd_pm2;
    PINGROUP "dp_aux_ch3_hpd_pm3" [TEGRA_PIN_DP_AUX_CH3_HPD_PM3] TEGRA_MUX_ETH2 TEGRA_MUX_RSVD1 TEGRA_MUX_DISPLAYA TEGRA_MUX_RSVD3 0x10048 0 PINGROUP_REG_Y 5 7 6 8 (-1) 10 12 drive_dp_aux_ch3_hpd_pm3;
    PINGROUP "dp_aux_ch1_p_pn3" [TEGRA_PIN_DP_AUX_CH1_P_PN3] TEGRA_MUX_I2C4 TEGRA_MUX_RSVD1 TEGRA_MUX_RSVD2 TEGRA_MUX_RSVD3 0x10050 0 PINGROUP_REG_Y 5 7 6 8 (-1) 10 12 drive_dp_aux_ch1_p_pn3;
    PINGROUP "dp_aux_ch1_n_pn4" [TEGRA_PIN_DP_AUX_CH1_N_PN4] TEGRA_MUX_I2C4 TEGRA_MUX_RSVD1 TEGRA_MUX_RSVD2 TEGRA_MUX_RSVD3 0x10058 0 PINGROUP_REG_Y 5 7 6 8 (-1) 10 12 drive_dp_aux_ch1_n_pn4;
    PINGROUP "dp_aux_ch2_p_pn5" [TEGRA_PIN_DP_AUX_CH2_P_PN5] TEGRA_MUX_I2C7 TEGRA_MUX_RSVD1 TEGRA_MUX_RSVD2 TEGRA_MUX_RSVD3 0x10060 0 PINGROUP_REG_Y 5 7 6 8 (-1) 10 12 drive_dp_aux_ch2_p_pn5;
    PINGROUP "dp_aux_ch2_n_pn6" [TEGRA_PIN_DP_AUX_CH2_N_PN6] TEGRA_MUX_I2C7 TEGRA_MUX_RSVD1 TEGRA_MUX_RSVD2 TEGRA_MUX_RSVD3 0x10068 0 PINGROUP_REG_Y 5 7 6 8 (-1) 10 12 drive_dp_aux_ch2_n_pn6;
    PINGROUP "dp_aux_ch3_p_pn7" [TEGRA_PIN_DP_AUX_CH3_P_PN7] TEGRA_MUX_I2C9 TEGRA_MUX_RSVD1 TEGRA_MUX_RSVD2 TEGRA_MUX_RSVD3 0x10070 0 PINGROUP_REG_Y 5 7 6 8 (-1) 10 12 drive_dp_aux_ch3_p_pn7;
    PINGROUP "dp_aux_ch3_n_pn0" [TEGRA_PIN_DP_AUX_CH3_N_PN0] TEGRA_MUX_I2C9 TEGRA_MUX_RSVD1 TEGRA_MUX_RSVD2 TEGRA_MUX_RSVD3 0x10078 0 PINGROUP_REG_Y 5 7 6 8 (-1) 10 12 drive_dp_aux_ch3_n_pn0;
    PINGROUP "eqos_td3_pe4" [TEGRA_PIN_EQOS_TD3_PE4] TEGRA_MUX_EQOS TEGRA_MUX_RSVD1 TEGRA_MUX_RSVD2 TEGRA_MUX_RSVD3 0x15000 0 PINGROUP_REG_Y (-1) 5 6 (-1) (-1) 10 12 drive_eqos_td3_pe4;
    PINGROUP "eqos_td2_pe3" [TEGRA_PIN_EQOS_TD2_PE3] TEGRA_MUX_EQOS TEGRA_MUX_RSVD1 TEGRA_MUX_RSVD2 TEGRA_MUX_RSVD3 0x15008 0 PINGROUP_REG_Y (-1) 5 6 (-1) (-1) 10 12 drive_eqos_td2_pe3;
    PINGROUP "eqos_td1_pe2" [TEGRA_PIN_EQOS_TD1_PE2] TEGRA_MUX_EQOS TEGRA_MUX_RSVD1 TEGRA_MUX_RSVD2 TEGRA_MUX_RSVD3 0x15010 0 PINGROUP_REG_Y (-1) 5 6 (-1) (-1) 10 12 drive_eqos_td1_pe2;
    PINGROUP "eqos_td0_pe1" [TEGRA_PIN_EQOS_TD0_PE1] TEGRA_MUX_EQOS TEGRA_MUX_RSVD1 TEGRA_MUX_RSVD2 TEGRA_MUX_RSVD3 0x15018 0 PINGROUP_REG_Y (-1) 5 6 (-1) (-1) 10 12 drive_eqos_td0_pe1;
    PINGROUP "eqos_rd3_pf1" [TEGRA_PIN_EQOS_RD3_PF1] TEGRA_MUX_EQOS TEGRA_MUX_RSVD1 TEGRA_MUX_RSVD2 TEGRA_MUX_RSVD3 0x15020 0 PINGROUP_REG_Y (-1) 5 6 (-1) (-1) 10 12 drive_eqos_rd3_pf1;
    PINGROUP "eqos_rd2_pf0" [TEGRA_PIN_EQOS_RD2_PF0] TEGRA_MUX_EQOS TEGRA_MUX_RSVD1 TEGRA_MUX_RSVD2 TEGRA_MUX_RSVD3 0x15028 0 PINGROUP_REG_Y (-1) 5 6 (-1) (-1) 10 12 drive_eqos_rd2_pf0;
    PINGROUP "eqos_rd1_pe7" [TEGRA_PIN_EQOS_RD1_PE7] TEGRA_MUX_EQOS TEGRA_MUX_RSVD1 TEGRA_MUX_RSVD2 TEGRA_MUX_RSVD3 0x15030 0 PINGROUP_REG_Y (-1) 5 6 (-1) (-1) 10 12 drive_eqos_rd1_pe7;
    PINGROUP "eqos_sma_mdio_pf4" [TEGRA_PIN_EQOS_SMA_MDIO_PF4] TEGRA_MUX_EQOS TEGRA_MUX_RSVD1 TEGRA_MUX_RSVD2 TEGRA_MUX_RSVD3 0x15038 0 PINGROUP_REG_Y (-1) 5 6 (-1) (-1) 10 12 drive_eqos_sma_mdio_pf4;
    PINGROUP "eqos_rd0_pe6" [TEGRA_PIN_EQOS_RD0_PE6] TEGRA_MUX_EQOS TEGRA_MUX_RSVD1 TEGRA_MUX_RSVD2 TEGRA_MUX_RSVD3 0x15040 0 PINGROUP_REG_Y (-1) 5 6 (-1) (-1) 10 12 drive_eqos_rd0_pe6;
    PINGROUP "eqos_sma_mdc_pf5" [TEGRA_PIN_EQOS_SMA_MDC_PF5] TEGRA_MUX_EQOS TEGRA_MUX_RSVD1 TEGRA_MUX_RSVD2 TEGRA_MUX_RSVD3 0x15048 0 PINGROUP_REG_Y (-1) 5 6 (-1) (-1) 10 12 drive_eqos_sma_mdc_pf5;
    PINGROUP "eqos_comp" [TEGRA_PIN_EQOS_COMP] TEGRA_MUX_EQOS TEGRA_MUX_RSVD1 TEGRA_MUX_RSVD2 TEGRA_MUX_RSVD3 0x15050 0 PINGROUP_REG_N (-1) (-1) (-1) (-1) (-1) (-1) (-1) drive_eqos_comp;
    PINGROUP "eqos_txc_pe0" [TEGRA_PIN_EQOS_TXC_PE0] TEGRA_MUX_EQOS TEGRA_MUX_RSVD1 TEGRA_MUX_RSVD2 TEGRA_MUX_RSVD3 0x15058 0 PINGROUP_REG_Y (-1) 5 6 (-1) (-1) 10 12 drive_eqos_txc_pe0;
    PINGROUP "eqos_rxc_pf3" [TEGRA_PIN_EQOS_RXC_PF3] TEGRA_MUX_EQOS TEGRA_MUX_RSVD1 TEGRA_MUX_RSVD2 TEGRA_MUX_RSVD3 0x15060 0 PINGROUP_REG_Y (-1) 5 6 (-1) (-1) 10 12 drive_eqos_rxc_pf3;
    PINGROUP "eqos_tx_ctl_pe5" [TEGRA_PIN_EQOS_TX_CTL_PE5] TEGRA_MUX_EQOS TEGRA_MUX_RSVD1 TEGRA_MUX_RSVD2 TEGRA_MUX_RSVD3 0x15068 0 PINGROUP_REG_Y (-1) 5 6 (-1) (-1) 10 12 drive_eqos_tx_ctl_pe5;
    PINGROUP "eqos_rx_ctl_pf2" [TEGRA_PIN_EQOS_RX_CTL_PF2] TEGRA_MUX_EQOS TEGRA_MUX_RSVD1 TEGRA_MUX_RSVD2 TEGRA_MUX_RSVD3 0x15070 0 PINGROUP_REG_Y (-1) 5 6 (-1) (-1) 10 12 drive_eqos_rx_ctl_pf2;
    PINGROUP "pex_l2_clkreq_n_pk4" [TEGRA_PIN_PEX_L2_CLKREQ_N_PK4] TEGRA_MUX_PE2 TEGRA_MUX_RSVD1 TEGRA_MUX_RSVD2 TEGRA_MUX_RSVD3 0x7000 0 PINGROUP_REG_Y 5 7 6 8 (-1) 10 12 drive_pex_l2_clkreq_n_pk4;
    PINGROUP "pex_wake_n_pl2" [TEGRA_PIN_PEX_WAKE_N_PL2] TEGRA_MUX_RSVD0 TEGRA_MUX_RSVD1 TEGRA_MUX_RSVD2 TEGRA_MUX_RSVD3 0x7008 0 PINGROUP_REG_Y 5 7 6 8 (-1) 10 12 drive_pex_wake_n_pl2;
    PINGROUP "pex_l1_clkreq_n_pk2" [TEGRA_PIN_PEX_L1_CLKREQ_N_PK2] TEGRA_MUX_PE1 TEGRA_MUX_RSVD1 TEGRA_MUX_RSVD2 TEGRA_MUX_RSVD3 0x7010 0 PINGROUP_REG_Y 5 7 6 8 (-1) 10 12 drive_pex_l1_clkreq_n_pk2;
    PINGROUP "pex_l1_rst_n_pk3" [TEGRA_PIN_PEX_L1_RST_N_PK3] TEGRA_MUX_PE1 TEGRA_MUX_RSVD1 TEGRA_MUX_RSVD2 TEGRA_MUX_RSVD3 0x7018 0 PINGROUP_REG_Y 5 7 6 8 (-1) 10 12 drive_pex_l1_rst_n_pk3;
    PINGROUP "pex_l0_clkreq_n_pk0" [TEGRA_PIN_PEX_L0_CLKREQ_N_PK0] TEGRA_MUX_PE0 TEGRA_MUX_RSVD1 TEGRA_MUX_RSVD2 TEGRA_MUX_RSVD3 0x7020 0 PINGROUP_REG_Y 5 7 6 8 (-1) 10 12 drive_pex_l0_clkreq_n_pk0;
    PINGROUP "pex_l0_rst_n_pk1" [TEGRA_PIN_PEX_L0_RST_N_PK1] TEGRA_MUX_PE0 TEGRA_MUX_RSVD1 TEGRA_MUX_RSVD2 TEGRA_MUX_RSVD3 0x7028 0 PINGROUP_REG_Y 5 7 6 8 (-1) 10 12 drive_pex_l0_rst_n_pk1;
    PINGROUP "pex_l2_rst_n_pk5" [TEGRA_PIN_PEX_L2_RST_N_PK5] TEGRA_MUX_PE2 TEGRA_MUX_RSVD1 TEGRA_MUX_RSVD2 TEGRA_MUX_RSVD3 0x7030 0 PINGROUP_REG_Y 5 7 6 8 (-1) 10 12 drive_pex_l2_rst_n_pk5;
    PINGROUP "pex_l3_clkreq_n_pk6" [TEGRA_PIN_PEX_L3_CLKREQ_N_PK6] TEGRA_MUX_PE3 TEGRA_MUX_RSVD1 TEGRA_MUX_RSVD2 TEGRA_MUX_RSVD3 0x7038 0 PINGROUP_REG_Y 5 7 6 8 (-1) 10 12 drive_pex_l3_clkreq_n_pk6;
    PINGROUP "pex_l3_rst_n_pk7" [TEGRA_PIN_PEX_L3_RST_N_PK7] TEGRA_MUX_PE3 TEGRA_MUX_RSVD1 TEGRA_MUX_RSVD2 TEGRA_MUX_RSVD3 0x7040 0 PINGROUP_REG_Y 5 7 6 8 (-1) 10 12 drive_pex_l3_rst_n_pk7;
    PINGROUP "pex_l4_clkreq_n_pl0" [TEGRA_PIN_PEX_L4_CLKREQ_N_PL0] TEGRA_MUX_PE4 TEGRA_MUX_RSVD1 TEGRA_MUX_RSVD2 TEGRA_MUX_RSVD3 0x7048 0 PINGROUP_REG_Y 5 7 6 8 (-1) 10 12 drive_pex_l4_clkreq_n_pl0;
    PINGROUP "pex_l4_rst_n_pl1" [TEGRA_PIN_PEX_L4_RST_N_PL1] TEGRA_MUX_PE4 TEGRA_MUX_RSVD1 TEGRA_MUX_RSVD2 TEGRA_MUX_RSVD3 0x7050 0 PINGROUP_REG_Y 5 7 6 8 (-1) 10 12 drive_pex_l4_rst_n_pl1;
    PINGROUP "soc_gpio34_pl3" [TEGRA_PIN_SOC_GPIO34_PL3] TEGRA_MUX_RSVD0 TEGRA_MUX_RSVD1 TEGRA_MUX_RSVD2 TEGRA_MUX_RSVD3 0x7058 0 PINGROUP_REG_Y 5 7 6 8 (-1) 10 12 drive_soc_gpio34_pl3;
    PINGROUP "pex_l5_clkreq_n_paf0" [TEGRA_PIN_PEX_L5_CLKREQ_N_PAF0] TEGRA_MUX_PE5 TEGRA_MUX_RSVD1 TEGRA_MUX_RSVD2 TEGRA_MUX_RSVD3 0x14000 0 PINGROUP_REG_Y 5 7 6 8 (-1) 10 12 drive_pex_l5_clkreq_n_paf0;
    PINGROUP "pex_l5_rst_n_paf1" [TEGRA_PIN_PEX_L5_RST_N_PAF1] TEGRA_MUX_PE5 TEGRA_MUX_RSVD1 TEGRA_MUX_RSVD2 TEGRA_MUX_RSVD3 0x14008 0 PINGROUP_REG_Y 5 7 6 8 (-1) 10 12 drive_pex_l5_rst_n_paf1;
    PINGROUP "pex_l6_clkreq_n_paf2" [TEGRA_PIN_PEX_L6_CLKREQ_N_PAF2] TEGRA_MUX_PE6 TEGRA_MUX_RSVD1 TEGRA_MUX_RSVD2 TEGRA_MUX_RSVD3 0x14010 0 PINGROUP_REG_Y 5 7 6 8 (-1) 10 12 drive_pex_l6_clkreq_n_paf2;
    PINGROUP "pex_l6_rst_n_paf3" [TEGRA_PIN_PEX_L6_RST_N_PAF3] TEGRA_MUX_PE6 TEGRA_MUX_RSVD1 TEGRA_MUX_RSVD2 TEGRA_MUX_RSVD3 0x14018 0 PINGROUP_REG_Y 5 7 6 8 (-1) 10 12 drive_pex_l6_rst_n_paf3;
    PINGROUP "pex_l10_clkreq_n_pag6" [TEGRA_PIN_PEX_L10_CLKREQ_N_PAG6] TEGRA_MUX_PE10 TEGRA_MUX_RSVD1 TEGRA_MUX_RSVD2 TEGRA_MUX_RSVD3 0x19000 0 PINGROUP_REG_Y 5 7 6 8 (-1) 10 12 drive_pex_l10_clkreq_n_pag6;
    PINGROUP "pex_l10_rst_n_pag7" [TEGRA_PIN_PEX_L10_RST_N_PAG7] TEGRA_MUX_PE10 TEGRA_MUX_RSVD1 TEGRA_MUX_RSVD2 TEGRA_MUX_RSVD3 0x19008 0 PINGROUP_REG_Y 5 7 6 8 (-1) 10 12 drive_pex_l10_rst_n_pag7;
    PINGROUP "pex_l7_clkreq_n_pag0" [TEGRA_PIN_PEX_L7_CLKREQ_N_PAG0] TEGRA_MUX_PE7 TEGRA_MUX_RSVD1 TEGRA_MUX_RSVD2 TEGRA_MUX_RSVD3 0x19010 0 PINGROUP_REG_Y 5 7 6 8 (-1) 10 12 drive_pex_l7_clkreq_n_pag0;
    PINGROUP "pex_l7_rst_n_pag1" [TEGRA_PIN_PEX_L7_RST_N_PAG1] TEGRA_MUX_PE7 TEGRA_MUX_RSVD1 TEGRA_MUX_RSVD2 TEGRA_MUX_RSVD3 0x19018 0 PINGROUP_REG_Y 5 7 6 8 (-1) 10 12 drive_pex_l7_rst_n_pag1;
    PINGROUP "pex_l8_clkreq_n_pag2" [TEGRA_PIN_PEX_L8_CLKREQ_N_PAG2] TEGRA_MUX_PE8 TEGRA_MUX_RSVD1 TEGRA_MUX_RSVD2 TEGRA_MUX_RSVD3 0x19020 0 PINGROUP_REG_Y 5 7 6 8 (-1) 10 12 drive_pex_l8_clkreq_n_pag2;
    PINGROUP "pex_l8_rst_n_pag3" [TEGRA_PIN_PEX_L8_RST_N_PAG3] TEGRA_MUX_PE8 TEGRA_MUX_RSVD1 TEGRA_MUX_RSVD2 TEGRA_MUX_RSVD3 0x19028 0 PINGROUP_REG_Y 5 7 6 8 (-1) 10 12 drive_pex_l8_rst_n_pag3;
    PINGROUP "pex_l9_clkreq_n_pag4" [TEGRA_PIN_PEX_L9_CLKREQ_N_PAG4] TEGRA_MUX_PE9 TEGRA_MUX_RSVD1 TEGRA_MUX_RSVD2 TEGRA_MUX_RSVD3 0x19030 0 PINGROUP_REG_Y 5 7 6 8 (-1) 10 12 drive_pex_l9_clkreq_n_pag4;
    PINGROUP "pex_l9_rst_n_pag5" [TEGRA_PIN_PEX_L9_RST_N_PAG5] TEGRA_MUX_PE9 TEGRA_MUX_RSVD1 TEGRA_MUX_RSVD2 TEGRA_MUX_RSVD3 0x19038 0 PINGROUP_REG_Y 5 7 6 8 (-1) 10 12 drive_pex_l9_rst_n_pag5;
    PINGROUP "qspi0_io3_pc5" [TEGRA_PIN_QSPI0_IO3_PC5] TEGRA_MUX_QSPI0 TEGRA_MUX_RSVD1 TEGRA_MUX_RSVD2 TEGRA_MUX_RSVD3 0xb000 0 PINGROUP_REG_Y (-1) 5 6 (-1) (-1) 10 12 drive_qspi0_io3_pc5;
    PINGROUP "qspi0_io2_pc4" [TEGRA_PIN_QSPI0_IO2_PC4] TEGRA_MUX_QSPI0 TEGRA_MUX_RSVD1 TEGRA_MUX_RSVD2 TEGRA_MUX_RSVD3 0xb008 0 PINGROUP_REG_Y (-1) 5 6 (-1) (-1) 10 12 drive_qspi0_io2_pc4;
    PINGROUP "qspi0_io1_pc3" [TEGRA_PIN_QSPI0_IO1_PC3] TEGRA_MUX_QSPI0 TEGRA_MUX_RSVD1 TEGRA_MUX_RSVD2 TEGRA_MUX_RSVD3 0xb010 0 PINGROUP_REG_Y (-1) 5 6 (-1) (-1) 10 12 drive_qspi0_io1_pc3;
    PINGROUP "qspi0_io0_pc2" [TEGRA_PIN_QSPI0_IO0_PC2] TEGRA_MUX_QSPI0 TEGRA_MUX_RSVD1 TEGRA_MUX_RSVD2 TEGRA_MUX_RSVD3 0xb018 0 PINGROUP_REG_Y (-1) 5 6 (-1) (-1) 10 12 drive_qspi0_io0_pc2;
    PINGROUP "qspi0_sck_pc0" [TEGRA_PIN_QSPI0_SCK_PC0] TEGRA_MUX_QSPI0 TEGRA_MUX_RSVD1 TEGRA_MUX_RSVD2 TEGRA_MUX_RSVD3 0xb020 0 PINGROUP_REG_Y (-1) 5 6 (-1) (-1) 10 12 drive_qspi0_sck_pc0;
    PINGROUP "qspi0_cs_n_pc1" [TEGRA_PIN_QSPI0_CS_N_PC1] TEGRA_MUX_QSPI0 TEGRA_MUX_RSVD1 TEGRA_MUX_RSVD2 TEGRA_MUX_RSVD3 0xb028 0 PINGROUP_REG_Y (-1) 5 6 (-1) (-1) 10 12 drive_qspi0_cs_n_pc1;
    PINGROUP "qspi1_io3_pd3" [TEGRA_PIN_QSPI1_IO3_PD3] TEGRA_MUX_QSPI1 TEGRA_MUX_RSVD1 TEGRA_MUX_RSVD2 TEGRA_MUX_RSVD3 0xb030 0 PINGROUP_REG_Y (-1) 5 6 (-1) (-1) 10 12 drive_qspi1_io3_pd3;
    PINGROUP "qspi1_io2_pd2" [TEGRA_PIN_QSPI1_IO2_PD2] TEGRA_MUX_QSPI1 TEGRA_MUX_RSVD1 TEGRA_MUX_RSVD2 TEGRA_MUX_RSVD3 0xb038 0 PINGROUP_REG_Y (-1) 5 6 (-1) (-1) 10 12 drive_qspi1_io2_pd2;
    PINGROUP "qspi1_io1_pd1" [TEGRA_PIN_QSPI1_IO1_PD1] TEGRA_MUX_QSPI1 TEGRA_MUX_RSVD1 TEGRA_MUX_RSVD2 TEGRA_MUX_RSVD3 0xb040 0 PINGROUP_REG_Y (-1) 5 6 (-1) (-1) 10 12 drive_qspi1_io1_pd1;
    PINGROUP "qspi1_io0_pd0" [TEGRA_PIN_QSPI1_IO0_PD0] TEGRA_MUX_QSPI1 TEGRA_MUX_RSVD1 TEGRA_MUX_RSVD2 TEGRA_MUX_RSVD3 0xb048 0 PINGROUP_REG_Y (-1) 5 6 (-1) (-1) 10 12 drive_qspi1_io0_pd0;
    PINGROUP "qspi1_sck_pc6" [TEGRA_PIN_QSPI1_SCK_PC6] TEGRA_MUX_QSPI1 TEGRA_MUX_RSVD1 TEGRA_MUX_RSVD2 TEGRA_MUX_RSVD3 0xb050 0 PINGROUP_REG_Y (-1) 5 6 (-1) (-1) 10 12 drive_qspi1_sck_pc6;
    PINGROUP "qspi1_cs_n_pc7" [TEGRA_PIN_QSPI1_CS_N_PC7] TEGRA_MUX_QSPI1 TEGRA_MUX_RSVD1 TEGRA_MUX_RSVD2 TEGRA_MUX_RSVD3 0xb058 0 PINGROUP_REG_Y (-1) 5 6 (-1) (-1) 10 12 drive_qspi1_cs_n_pc7;
    PINGROUP "qspi_comp" [TEGRA_PIN_QSPI_COMP] TEGRA_MUX_QSPI TEGRA_MUX_RSVD1 TEGRA_MUX_RSVD2 TEGRA_MUX_RSVD3 0xb060 0 PINGROUP_REG_N (-1) (-1) (-1) (-1) (-1) (-1) (-1) drive_qspi_comp;
    PINGROUP "sdmmc1_clk_pj0" [TEGRA_PIN_SDMMC1_CLK_PJ0] TEGRA_MUX_SDMMC1 TEGRA_MUX_RSVD1 TEGRA_MUX_RSVD2 TEGRA_MUX_RSVD3 0x8000 0 PINGROUP_REG_Y (-1) 5 6 (-1) 9 10 12 drive_sdmmc1_clk_pj0;
    PINGROUP "sdmmc1_cmd_pj1" [TEGRA_PIN_SDMMC1_CMD_PJ1] TEGRA_MUX_SDMMC1 TEGRA_MUX_RSVD1 TEGRA_MUX_RSVD2 TEGRA_MUX_RSVD3 0x8008 0 PINGROUP_REG_Y (-1) 5 6 (-1) 9 10 12 drive_sdmmc1_cmd_pj1;
    PINGROUP "sdmmc1_comp" [TEGRA_PIN_SDMMC1_COMP] TEGRA_MUX_SDMMC1 TEGRA_MUX_RSVD1 TEGRA_MUX_RSVD2 TEGRA_MUX_RSVD3 0x8010 0 PINGROUP_REG_N (-1) (-1) (-1) (-1) (-1) (-1) (-1) drive_sdmmc1_comp;
    PINGROUP "sdmmc1_dat3_pj5" [TEGRA_PIN_SDMMC1_DAT3_PJ5] TEGRA_MUX_SDMMC1 TEGRA_MUX_RSVD1 TEGRA_MUX_RSVD2 TEGRA_MUX_RSVD3 0x8018 0 PINGROUP_REG_Y (-1) 5 6 (-1) 9 10 12 drive_sdmmc1_dat3_pj5;
    PINGROUP "sdmmc1_dat2_pj4" [TEGRA_PIN_SDMMC1_DAT2_PJ4] TEGRA_MUX_SDMMC1 TEGRA_MUX_RSVD1 TEGRA_MUX_RSVD2 TEGRA_MUX_RSVD3 0x8020 0 PINGROUP_REG_Y (-1) 5 6 (-1) 9 10 12 drive_sdmmc1_dat2_pj4;
    PINGROUP "sdmmc1_dat1_pj3" [TEGRA_PIN_SDMMC1_DAT1_PJ3] TEGRA_MUX_SDMMC1 TEGRA_MUX_RSVD1 TEGRA_MUX_RSVD2 TEGRA_MUX_RSVD3 0x8028 0 PINGROUP_REG_Y (-1) 5 6 (-1) 9 10 12 drive_sdmmc1_dat1_pj3;
    PINGROUP "sdmmc1_dat0_pj2" [TEGRA_PIN_SDMMC1_DAT0_PJ2] TEGRA_MUX_SDMMC1 TEGRA_MUX_RSVD1 TEGRA_MUX_RSVD2 TEGRA_MUX_RSVD3 0x8030 0 PINGROUP_REG_Y (-1) 5 6 (-1) 9 10 12 drive_sdmmc1_dat0_pj2;
    PINGROUP "sce_error_pee0" [TEGRA_PIN_SCE_ERROR_PEE0] TEGRA_MUX_SCE TEGRA_MUX_RSVD1 TEGRA_MUX_RSVD2 TEGRA_MUX_RSVD3 0x1010 1 PINGROUP_REG_Y 5 7 6 8 (-1) 10 12 drive_sce_error_pee0;
    PINGROUP "batt_oc_pee3" [TEGRA_PIN_BATT_OC_PEE3] TEGRA_MUX_SOC TEGRA_MUX_RSVD1 TEGRA_MUX_RSVD2 TEGRA_MUX_RSVD3 0x1020 1 PINGROUP_REG_Y 5 7 6 8 (-1) 10 12 drive_batt_oc_pee3;
    PINGROUP "bootv_ctl_n_pee7" [TEGRA_PIN_BOOTV_CTL_N_PEE7] TEGRA_MUX_RSVD0 TEGRA_MUX_RSVD1 TEGRA_MUX_RSVD2 TEGRA_MUX_RSVD3 0x1028 1 PINGROUP_REG_Y (-1) 7 6 8 (-1) 10 12 drive_bootv_ctl_n_pee7;
    PINGROUP "power_on_pee4" [TEGRA_PIN_POWER_ON_PEE4] TEGRA_MUX_RSVD0 TEGRA_MUX_RSVD1 TEGRA_MUX_RSVD2 TEGRA_MUX_RSVD3 0x1038 1 PINGROUP_REG_Y 5 7 6 8 (-1) 10 12 drive_power_on_pee4;
    PINGROUP "soc_gpio26_pee5" [TEGRA_PIN_SOC_GPIO26_PEE5] TEGRA_MUX_RSVD0 TEGRA_MUX_RSVD1 TEGRA_MUX_RSVD2 TEGRA_MUX_RSVD3 0x1040 1 PINGROUP_REG_Y 5 7 6 8 (-1) 10 12 drive_soc_gpio26_pee5;
    PINGROUP "soc_gpio27_pee6" [TEGRA_PIN_SOC_GPIO27_PEE6] TEGRA_MUX_RSVD0 TEGRA_MUX_RSVD1 TEGRA_MUX_RSVD2 TEGRA_MUX_RSVD3 0x1048 1 PINGROUP_REG_Y 5 7 6 8 (-1) 10 12 drive_soc_gpio27_pee6;
    PINGROUP "ao_retention_n_pee2" [TEGRA_PIN_AO_RETENTION_N_PEE2] TEGRA_MUX_GPIO TEGRA_MUX_LED TEGRA_MUX_RSVD2 TEGRA_MUX_ISTCTRL 0x1050 1 PINGROUP_REG_Y 5 7 6 8 (-1) 10 12 drive_ao_retention_n_pee2;
    PINGROUP "vcomp_alert_pee1" [TEGRA_PIN_VCOMP_ALERT_PEE1] TEGRA_MUX_SOC TEGRA_MUX_RSVD1 TEGRA_MUX_RSVD2 TEGRA_MUX_RSVD3 0x1058 1 PINGROUP_REG_Y 5 7 6 8 (-1) 10 12 drive_vcomp_alert_pee1;
    PINGROUP "hdmi_cec_pgg0" [TEGRA_PIN_HDMI_CEC_PGG0] TEGRA_MUX_HDMI TEGRA_MUX_RSVD1 TEGRA_MUX_RSVD2 TEGRA_MUX_RSVD3 0x1060 1 PINGROUP_REG_Y 5 7 6 8 (-1) 10 12 drive_hdmi_cec_pgg0;
    PINGROUP "ufs0_rst_n_pae1" [TEGRA_PIN_UFS0_RST_N_PAE1] TEGRA_MUX_UFS0 TEGRA_MUX_RSVD1 TEGRA_MUX_RSVD2 TEGRA_MUX_RSVD3 0x11000 0 PINGROUP_REG_Y (-1) 5 6 (-1) (-1) 10 12 drive_ufs0_rst_n_pae1;
    PINGROUP "ufs0_ref_clk_pae0" [TEGRA_PIN_UFS0_REF_CLK_PAE0] TEGRA_MUX_UFS0 TEGRA_MUX_RSVD1 TEGRA_MUX_RSVD2 TEGRA_MUX_RSVD3 0x11008 0 PINGROUP_REG_Y (-1) 5 6 (-1) (-1) 10 12 drive_ufs0_ref_clk_pae0;
    PINGROUP "spi3_miso_py1" [TEGRA_PIN_SPI3_MISO_PY1] TEGRA_MUX_SPI3 TEGRA_MUX_RSVD1 TEGRA_MUX_RSVD2 TEGRA_MUX_RSVD3 0xd000 0 PINGROUP_REG_Y 5 7 6 8 (-1) 10 12 drive_spi3_miso_py1;
    PINGROUP "spi1_cs0_pz6" [TEGRA_PIN_SPI1_CS0_PZ6] TEGRA_MUX_SPI1 TEGRA_MUX_RSVD1 TEGRA_MUX_RSVD2 TEGRA_MUX_RSVD3 0xd008 0 PINGROUP_REG_Y 5 7 6 8 (-1) 10 12 drive_spi1_cs0_pz6;
    PINGROUP "spi3_cs0_py3" [TEGRA_PIN_SPI3_CS0_PY3] TEGRA_MUX_SPI3 TEGRA_MUX_RSVD1 TEGRA_MUX_RSVD2 TEGRA_MUX_RSVD3 0xd010 0 PINGROUP_REG_Y 5 7 6 8 (-1) 10 12 drive_spi3_cs0_py3;
    PINGROUP "spi1_miso_pz4" [TEGRA_PIN_SPI1_MISO_PZ4] TEGRA_MUX_SPI1 TEGRA_MUX_RSVD1 TEGRA_MUX_RSVD2 TEGRA_MUX_RSVD3 0xd018 0 PINGROUP_REG_Y 5 7 6 8 (-1) 10 12 drive_spi1_miso_pz4;
    PINGROUP "spi3_cs1_py4" [TEGRA_PIN_SPI3_CS1_PY4] TEGRA_MUX_SPI3 TEGRA_MUX_RSVD1 TEGRA_MUX_RSVD2 TEGRA_MUX_RSVD3 0xd020 0 PINGROUP_REG_Y 5 7 6 8 (-1) 10 12 drive_spi3_cs1_py4;
    PINGROUP "spi1_sck_pz3" [TEGRA_PIN_SPI1_SCK_PZ3] TEGRA_MUX_SPI1 TEGRA_MUX_RSVD1 TEGRA_MUX_RSVD2 TEGRA_MUX_RSVD3 0xd028 0 PINGROUP_REG_Y 5 7 6 8 (-1) 10 12 drive_spi1_sck_pz3;
    PINGROUP "spi3_sck_py0" [TEGRA_PIN_SPI3_SCK_PY0] TEGRA_MUX_SPI3 TEGRA_MUX_RSVD1 TEGRA_MUX_RSVD2 TEGRA_MUX_RSVD3 0xd030 0 PINGROUP_REG_Y 5 7 6 8 (-1) 10 12 drive_spi3_sck_py0;
    PINGROUP "spi1_cs1_pz7" [TEGRA_PIN_SPI1_CS1_PZ7] TEGRA_MUX_SPI1 TEGRA_MUX_RSVD1 TEGRA_MUX_RSVD2 TEGRA_MUX_RSVD3 0xd038 0 PINGROUP_REG_Y 5 7 6 8 (-1) 10 12 drive_spi1_cs1_pz7;
    PINGROUP "spi1_mosi_pz5" [TEGRA_PIN_SPI1_MOSI_PZ5] TEGRA_MUX_SPI1 TEGRA_MUX_RSVD1 TEGRA_MUX_RSVD2 TEGRA_MUX_RSVD3 0xd040 0 PINGROUP_REG_Y 5 7 6 8 (-1) 10 12 drive_spi1_mosi_pz5;
    PINGROUP "spi3_mosi_py2" [TEGRA_PIN_SPI3_MOSI_PY2] TEGRA_MUX_SPI3 TEGRA_MUX_RSVD1 TEGRA_MUX_RSVD2 TEGRA_MUX_RSVD3 0xd048 0 PINGROUP_REG_Y 5 7 6 8 (-1) 10 12 drive_spi3_mosi_py2;
    PINGROUP "uart2_tx_px4" [TEGRA_PIN_UART2_TX_PX4] TEGRA_MUX_UARTB TEGRA_MUX_RSVD1 TEGRA_MUX_RSVD2 TEGRA_MUX_RSVD3 0xd050 0 PINGROUP_REG_Y 5 7 6 8 (-1) 10 12 drive_uart2_tx_px4;
    PINGROUP "uart2_rx_px5" [TEGRA_PIN_UART2_RX_PX5] TEGRA_MUX_UARTB TEGRA_MUX_RSVD1 TEGRA_MUX_RSVD2 TEGRA_MUX_RSVD3 0xd058 0 PINGROUP_REG_Y 5 7 6 8 (-1) 10 12 drive_uart2_rx_px5;
    PINGROUP "uart2_rts_px6" [TEGRA_PIN_UART2_RTS_PX6] TEGRA_MUX_UARTB TEGRA_MUX_RSVD1 TEGRA_MUX_RSVD2 TEGRA_MUX_RSVD3 0xd060 0 PINGROUP_REG_Y (-1) 7 6 8 (-1) 10 12 drive_uart2_rts_px6;
    PINGROUP "uart2_cts_px7" [TEGRA_PIN_UART2_CTS_PX7] TEGRA_MUX_UARTB TEGRA_MUX_RSVD1 TEGRA_MUX_RSVD2 TEGRA_MUX_RSVD3 0xd068 0 PINGROUP_REG_Y (-1) 7 6 8 (-1) 10 12 drive_uart2_cts_px7;
    PINGROUP "uart5_tx_py5" [TEGRA_PIN_UART5_TX_PY5] TEGRA_MUX_UARTE TEGRA_MUX_RSVD1 TEGRA_MUX_RSVD2 TEGRA_MUX_RSVD3 0xd070 0 PINGROUP_REG_Y (-1) 7 6 8 (-1) 10 12 drive_uart5_tx_py5;
    PINGROUP "uart5_rx_py6" [TEGRA_PIN_UART5_RX_PY6] TEGRA_MUX_UARTE TEGRA_MUX_RSVD1 TEGRA_MUX_RSVD2 TEGRA_MUX_RSVD3 0xd078 0 PINGROUP_REG_Y (-1) 7 6 8 (-1) 10 12 drive_uart5_rx_py6;
    PINGROUP "uart5_rts_py7" [TEGRA_PIN_UART5_RTS_PY7] TEGRA_MUX_UARTE TEGRA_MUX_RSVD1 TEGRA_MUX_RSVD2 TEGRA_MUX_RSVD3 0xd080 0 PINGROUP_REG_Y (-1) 7 6 8 (-1) 10 12 drive_uart5_rts_py7;
    PINGROUP "uart5_cts_pz0" [TEGRA_PIN_UART5_CTS_PZ0] TEGRA_MUX_UARTE TEGRA_MUX_RSVD1 TEGRA_MUX_RSVD2 TEGRA_MUX_RSVD3 0xd088 0 PINGROUP_REG_Y (-1) 7 6 8 (-1) 10 12 drive_uart5_cts_pz0;
    PINGROUP "gpu_pwr_req_px0" [TEGRA_PIN_GPU_PWR_REQ_PX0] TEGRA_MUX_RSVD0 TEGRA_MUX_RSVD1 TEGRA_MUX_RSVD2 TEGRA_MUX_RSVD3 0xd090 0 PINGROUP_REG_Y (-1) 7 6 8 (-1) 10 12 drive_gpu_pwr_req_px0;
    PINGROUP "gp_pwm3_px3" [TEGRA_PIN_GP_PWM3_PX3] TEGRA_MUX_GP TEGRA_MUX_RSVD1 TEGRA_MUX_RSVD2 TEGRA_MUX_RSVD3 0xd098 0 PINGROUP_REG_Y 5 7 6 8 (-1) 10 12 drive_gp_pwm3_px3;
    PINGROUP "gp_pwm2_px2" [TEGRA_PIN_GP_PWM2_PX2] TEGRA_MUX_GP TEGRA_MUX_RSVD1 TEGRA_MUX_RSVD2 TEGRA_MUX_RSVD3 0xd0a0 0 PINGROUP_REG_Y 5 7 6 8 (-1) 10 12 drive_gp_pwm2_px2;
    PINGROUP "cv_pwr_req_px1" [TEGRA_PIN_CV_PWR_REQ_PX1] TEGRA_MUX_RSVD0 TEGRA_MUX_RSVD1 TEGRA_MUX_RSVD2 TEGRA_MUX_RSVD3 0xd0a8 0 PINGROUP_REG_Y (-1) 7 6 8 (-1) 10 12 drive_cv_pwr_req_px1;
    PINGROUP "usb_vbus_en0_pz1" [TEGRA_PIN_USB_VBUS_EN0_PZ1] TEGRA_MUX_USB TEGRA_MUX_RSVD1 TEGRA_MUX_RSVD2 TEGRA_MUX_RSVD3 0xd0b0 0 PINGROUP_REG_Y 5 7 6 8 (-1) 10 12 drive_usb_vbus_en0_pz1;
    PINGROUP "usb_vbus_en1_pz2" [TEGRA_PIN_USB_VBUS_EN1_PZ2] TEGRA_MUX_USB TEGRA_MUX_RSVD1 TEGRA_MUX_RSVD2 TEGRA_MUX_RSVD3 0xd0b8 0 PINGROUP_REG_Y 5 7 6 8 (-1) 10 12 drive_usb_vbus_en1_pz2;
    PINGROUP "extperiph2_clk_pp1" [TEGRA_PIN_EXTPERIPH2_CLK_PP1] TEGRA_MUX_EXTPERIPH2 TEGRA_MUX_RSVD1 TEGRA_MUX_RSVD2 TEGRA_MUX_RSVD3 0x0000 0 PINGROUP_REG_Y (-1) 7 6 8 (-1) 10 12 drive_extperiph2_clk_pp1;
    PINGROUP "extperiph1_clk_pp0" [TEGRA_PIN_EXTPERIPH1_CLK_PP0] TEGRA_MUX_EXTPERIPH1 TEGRA_MUX_RSVD1 TEGRA_MUX_RSVD2 TEGRA_MUX_RSVD3 0x0008 0 PINGROUP_REG_Y (-1) 7 6 8 (-1) 10 12 drive_extperiph1_clk_pp0;
    PINGROUP "cam_i2c_sda_pp3" [TEGRA_PIN_CAM_I2C_SDA_PP3] TEGRA_MUX_I2C3 TEGRA_MUX_VI0 TEGRA_MUX_RSVD2 TEGRA_MUX_VI1 0x0010 0 PINGROUP_REG_Y 5 7 6 8 (-1) 10 12 drive_cam_i2c_sda_pp3;
    PINGROUP "cam_i2c_scl_pp2" [TEGRA_PIN_CAM_I2C_SCL_PP2] TEGRA_MUX_I2C3 TEGRA_MUX_VI0 TEGRA_MUX_VI0_ALT TEGRA_MUX_VI1 0x0018 0 PINGROUP_REG_Y 5 7 6 8 (-1) 10 12 drive_cam_i2c_scl_pp2;
    PINGROUP "soc_gpio23_pp4" [TEGRA_PIN_SOC_GPIO23_PP4] TEGRA_MUX_VI0 TEGRA_MUX_VI0_ALT TEGRA_MUX_VI1 TEGRA_MUX_VI1_ALT 0x0020 0 PINGROUP_REG_Y 5 7 6 8 (-1) 10 12 drive_soc_gpio23_pp4;
    PINGROUP "soc_gpio24_pp5" [TEGRA_PIN_SOC_GPIO24_PP5] TEGRA_MUX_VI0 TEGRA_MUX_SOC TEGRA_MUX_VI1 TEGRA_MUX_VI1_ALT 0x0028 0 PINGROUP_REG_Y 5 7 6 8 (-1) 10 12 drive_soc_gpio24_pp5;
    PINGROUP "soc_gpio25_pp6" [TEGRA_PIN_SOC_GPIO25_PP6] TEGRA_MUX_VI0 TEGRA_MUX_I2S5 TEGRA_MUX_VI1 TEGRA_MUX_DMIC1 0x0030 0 PINGROUP_REG_Y 5 7 6 8 (-1) 10 12 drive_soc_gpio25_pp6;
    PINGROUP "pwr_i2c_scl_pp7" [TEGRA_PIN_PWR_I2C_SCL_PP7] TEGRA_MUX_I2C5 TEGRA_MUX_RSVD1 TEGRA_MUX_RSVD2 TEGRA_MUX_RSVD3 0x0038 0 PINGROUP_REG_Y 5 7 6 8 (-1) 10 12 drive_pwr_i2c_scl_pp7;
    PINGROUP "pwr_i2c_sda_pq0" [TEGRA_PIN_PWR_I2C_SDA_PQ0] TEGRA_MUX_I2C5 TEGRA_MUX_RSVD1 TEGRA_MUX_RSVD2 TEGRA_MUX_RSVD3 0x0040 0 PINGROUP_REG_Y 5 7 6 8 (-1) 10 12 drive_pwr_i2c_sda_pq0;
    PINGROUP "soc_gpio28_pq1" [TEGRA_PIN_SOC_GPIO28_PQ1] TEGRA_MUX_VI0 TEGRA_MUX_RSVD1 TEGRA_MUX_VI1 TEGRA_MUX_RSVD3 0x0048 0 PINGROUP_REG_Y 5 7 6 8 (-1) 10 12 drive_soc_gpio28_pq1;
    PINGROUP "soc_gpio29_pq2" [TEGRA_PIN_SOC_GPIO29_PQ2] TEGRA_MUX_RSVD0 TEGRA_MUX_NV TEGRA_MUX_RSVD2 TEGRA_MUX_RSVD3 0x0050 0 PINGROUP_REG_Y 5 7 6 8 (-1) 10 12 drive_soc_gpio29_pq2;
    PINGROUP "soc_gpio30_pq3" [TEGRA_PIN_SOC_GPIO30_PQ3] TEGRA_MUX_RSVD0 TEGRA_MUX_WDT TEGRA_MUX_RSVD2 TEGRA_MUX_RSVD3 0x0058 0 PINGROUP_REG_Y 5 7 6 8 (-1) 10 12 drive_soc_gpio30_pq3;
    PINGROUP "soc_gpio31_pq4" [TEGRA_PIN_SOC_GPIO31_PQ4] TEGRA_MUX_RSVD0 TEGRA_MUX_RSVD1 TEGRA_MUX_RSVD2 TEGRA_MUX_RSVD3 0x0060 0 PINGROUP_REG_Y 5 7 6 8 (-1) 10 12 drive_soc_gpio31_pq4;
    PINGROUP "soc_gpio32_pq5" [TEGRA_PIN_SOC_GPIO32_PQ5] TEGRA_MUX_RSVD0 TEGRA_MUX_EXTPERIPH3 TEGRA_MUX_DCB TEGRA_MUX_RSVD3 0x0068 0 PINGROUP_REG_Y 5 7 6 8 (-1) 10 12 drive_soc_gpio32_pq5;
    PINGROUP "soc_gpio33_pq6" [TEGRA_PIN_SOC_GPIO33_PQ6] TEGRA_MUX_RSVD0 TEGRA_MUX_EXTPERIPH4 TEGRA_MUX_DCB TEGRA_MUX_RSVD3 0x0070 0 PINGROUP_REG_Y 5 7 6 8 (-1) 10 12 drive_soc_gpio33_pq6;
    PINGROUP "soc_gpio35_pq7" [TEGRA_PIN_SOC_GPIO35_PQ7] TEGRA_MUX_RSVD0 TEGRA_MUX_I2S5 TEGRA_MUX_DMIC1 TEGRA_MUX_RSVD3 0x0078 0 PINGROUP_REG_Y 5 7 6 8 (-1) 10 12 drive_soc_gpio35_pq7;
    PINGROUP "soc_gpio37_pr0" [TEGRA_PIN_SOC_GPIO37_PR0] TEGRA_MUX_GP TEGRA_MUX_I2S5 TEGRA_MUX_DMIC4 TEGRA_MUX_DSPK1 0x0080 0 PINGROUP_REG_Y 5 7 6 8 (-1) 10 12 drive_soc_gpio37_pr0;
    PINGROUP "soc_gpio56_pr1" [TEGRA_PIN_SOC_GPIO56_PR1] TEGRA_MUX_RSVD0 TEGRA_MUX_I2S5 TEGRA_MUX_DMIC4 TEGRA_MUX_DSPK1 0x0088 0 PINGROUP_REG_Y 5 7 6 8 (-1) 10 12 drive_soc_gpio56_pr1;
    PINGROUP "uart1_cts_pr5" [TEGRA_PIN_UART1_CTS_PR5] TEGRA_MUX_UARTA TEGRA_MUX_RSVD1 TEGRA_MUX_RSVD2 TEGRA_MUX_RSVD3 0x0090 0 PINGROUP_REG_Y (-1) 7 6 8 (-1) 10 12 drive_uart1_cts_pr5;
    PINGROUP "uart1_rts_pr4" [TEGRA_PIN_UART1_RTS_PR4] TEGRA_MUX_UARTA TEGRA_MUX_RSVD1 TEGRA_MUX_RSVD2 TEGRA_MUX_RSVD3 0x0098 0 PINGROUP_REG_Y (-1) 7 6 8 (-1) 10 12 drive_uart1_rts_pr4;
    PINGROUP "uart1_rx_pr3" [TEGRA_PIN_UART1_RX_PR3] TEGRA_MUX_UARTA TEGRA_MUX_RSVD1 TEGRA_MUX_RSVD2 TEGRA_MUX_RSVD3 0x00a0 0 PINGROUP_REG_Y (-1) 7 6 8 (-1) 10 12 drive_uart1_rx_pr3;
    PINGROUP "uart1_tx_pr2" [TEGRA_PIN_UART1_TX_PR2] TEGRA_MUX_UARTA TEGRA_MUX_RSVD1 TEGRA_MUX_RSVD2 TEGRA_MUX_RSVD3 0x00a8 0 PINGROUP_REG_Y (-1) 7 6 8 (-1) 10 12 drive_uart1_tx_pr2;
    PINGROUP "cpu_pwr_req_pi5" [TEGRA_PIN_CPU_PWR_REQ_PI5] TEGRA_MUX_RSVD0 TEGRA_MUX_RSVD1 TEGRA_MUX_RSVD2 TEGRA_MUX_RSVD3 0x4000 0 PINGROUP_REG_Y (-1) 7 6 8 (-1) 10 12 drive_cpu_pwr_req_pi5;
    PINGROUP "uart4_cts_ph6" [TEGRA_PIN_UART4_CTS_PH6] TEGRA_MUX_UARTD TEGRA_MUX_RSVD1 TEGRA_MUX_I2S7 TEGRA_MUX_RSVD3 0x4008 0 PINGROUP_REG_Y (-1) 7 6 8 (-1) 10 12 drive_uart4_cts_ph6;
    PINGROUP "uart4_rts_ph5" [TEGRA_PIN_UART4_RTS_PH5] TEGRA_MUX_UARTD TEGRA_MUX_SPI4 TEGRA_MUX_RSVD2 TEGRA_MUX_RSVD3 0x4010 0 PINGROUP_REG_Y (-1) 7 6 8 (-1) 10 12 drive_uart4_rts_ph5;
    PINGROUP "uart4_rx_ph4" [TEGRA_PIN_UART4_RX_PH4] TEGRA_MUX_UARTD TEGRA_MUX_RSVD1 TEGRA_MUX_I2S7 TEGRA_MUX_RSVD3 0x4018 0 PINGROUP_REG_Y (-1) 7 6 8 (-1) 10 12 drive_uart4_rx_ph4;
    PINGROUP "uart4_tx_ph3" [TEGRA_PIN_UART4_TX_PH3] TEGRA_MUX_UARTD TEGRA_MUX_SPI4 TEGRA_MUX_RSVD2 TEGRA_MUX_RSVD3 0x4020 0 PINGROUP_REG_Y (-1) 7 6 8 (-1) 10 12 drive_uart4_tx_ph3;
    PINGROUP "gen1_i2c_scl_pi3" [TEGRA_PIN_GEN1_I2C_SCL_PI3] TEGRA_MUX_I2C1 TEGRA_MUX_RSVD1 TEGRA_MUX_RSVD2 TEGRA_MUX_RSVD3 0x4028 0 PINGROUP_REG_Y 5 7 6 8 (-1) 10 12 drive_gen1_i2c_scl_pi3;
    PINGROUP "gen1_i2c_sda_pi4" [TEGRA_PIN_GEN1_I2C_SDA_PI4] TEGRA_MUX_I2C1 TEGRA_MUX_RSVD1 TEGRA_MUX_RSVD2 TEGRA_MUX_RSVD3 0x4030 0 PINGROUP_REG_Y 5 7 6 8 (-1) 10 12 drive_gen1_i2c_sda_pi4;
    PINGROUP "soc_gpio20_pg7" [TEGRA_PIN_SOC_GPIO20_PG7] TEGRA_MUX_RSVD0 TEGRA_MUX_SDMMC1 TEGRA_MUX_RSVD2 TEGRA_MUX_RSVD3 0x4038 0 PINGROUP_REG_Y (-1) 7 6 8 (-1) 10 12 drive_soc_gpio20_pg7;
    PINGROUP "soc_gpio21_ph0" [TEGRA_PIN_SOC_GPIO21_PH0] TEGRA_MUX_RSVD0 TEGRA_MUX_GP TEGRA_MUX_I2S7 TEGRA_MUX_RSVD3 0x4040 0 PINGROUP_REG_Y (-1) 7 6 8 (-1) 10 12 drive_soc_gpio21_ph0;
    PINGROUP "soc_gpio22_ph1" [TEGRA_PIN_SOC_GPIO22_PH1] TEGRA_MUX_RSVD0 TEGRA_MUX_RSVD1 TEGRA_MUX_I2S7 TEGRA_MUX_RSVD3 0x4048 0 PINGROUP_REG_Y (-1) 7 6 8 (-1) 10 12 drive_soc_gpio22_ph1;
    PINGROUP "soc_gpio13_pg0" [TEGRA_PIN_SOC_GPIO13_PG0] TEGRA_MUX_RSVD0 TEGRA_MUX_RSVD1 TEGRA_MUX_RSVD2 TEGRA_MUX_RSVD3 0x4050 0 PINGROUP_REG_Y (-1) 7 6 8 (-1) 10 12 drive_soc_gpio13_pg0;
    PINGROUP "soc_gpio14_pg1" [TEGRA_PIN_SOC_GPIO14_PG1] TEGRA_MUX_RSVD0 TEGRA_MUX_SPI4 TEGRA_MUX_RSVD2 TEGRA_MUX_RSVD3 0x4058 0 PINGROUP_REG_Y (-1) 7 6 8 (-1) 10 12 drive_soc_gpio14_pg1;
    PINGROUP "soc_gpio15_pg2" [TEGRA_PIN_SOC_GPIO15_PG2] TEGRA_MUX_RSVD0 TEGRA_MUX_SPI4 TEGRA_MUX_RSVD2 TEGRA_MUX_RSVD3 0x4060 0 PINGROUP_REG_Y (-1) 7 6 8 (-1) 10 12 drive_soc_gpio15_pg2;
    PINGROUP "soc_gpio16_pg3" [TEGRA_PIN_SOC_GPIO16_PG3] TEGRA_MUX_RSVD0 TEGRA_MUX_SPI4 TEGRA_MUX_RSVD2 TEGRA_MUX_RSVD3 0x4068 0 PINGROUP_REG_Y (-1) 7 6 8 (-1) 10 12 drive_soc_gpio16_pg3;
    PINGROUP "soc_gpio17_pg4" [TEGRA_PIN_SOC_GPIO17_PG4] TEGRA_MUX_RSVD0 TEGRA_MUX_CCLA TEGRA_MUX_RSVD2 TEGRA_MUX_RSVD3 0x4070 0 PINGROUP_REG_Y (-1) 7 6 8 (-1) 10 12 drive_soc_gpio17_pg4;
    PINGROUP "soc_gpio18_pg5" [TEGRA_PIN_SOC_GPIO18_PG5] TEGRA_MUX_RSVD0 TEGRA_MUX_RSVD1 TEGRA_MUX_RSVD2 TEGRA_MUX_RSVD3 0x4078 0 PINGROUP_REG_Y (-1) 7 6 8 (-1) 10 12 drive_soc_gpio18_pg5;
    PINGROUP "soc_gpio19_pg6" [TEGRA_PIN_SOC_GPIO19_PG6] TEGRA_MUX_GP TEGRA_MUX_RSVD1 TEGRA_MUX_RSVD2 TEGRA_MUX_RSVD3 0x4080 0 PINGROUP_REG_Y (-1) 7 6 8 (-1) 10 12 drive_soc_gpio19_pg6;
    PINGROUP "soc_gpio41_ph7" [TEGRA_PIN_SOC_GPIO41_PH7] TEGRA_MUX_RSVD0 TEGRA_MUX_I2S2 TEGRA_MUX_RSVD2 TEGRA_MUX_RSVD3 0x4088 0 PINGROUP_REG_Y (-1) 7 6 8 (-1) 10 12 drive_soc_gpio41_ph7;
    PINGROUP "soc_gpio42_pi0" [TEGRA_PIN_SOC_GPIO42_PI0] TEGRA_MUX_RSVD0 TEGRA_MUX_I2S2 TEGRA_MUX_RSVD2 TEGRA_MUX_RSVD3 0x4090 0 PINGROUP_REG_Y (-1) 7 6 8 (-1) 10 12 drive_soc_gpio42_pi0;
    PINGROUP "soc_gpio43_pi1" [TEGRA_PIN_SOC_GPIO43_PI1] TEGRA_MUX_RSVD0 TEGRA_MUX_I2S2 TEGRA_MUX_RSVD2 TEGRA_MUX_RSVD3 0x4098 0 PINGROUP_REG_Y (-1) 7 6 8 (-1) 10 12 drive_soc_gpio43_pi1;
    PINGROUP "soc_gpio44_pi2" [TEGRA_PIN_SOC_GPIO44_PI2] TEGRA_MUX_RSVD0 TEGRA_MUX_I2S2 TEGRA_MUX_RSVD2 TEGRA_MUX_RSVD3 0x40a0 0 PINGROUP_REG_Y (-1) 7 6 8 (-1) 10 12 drive_soc_gpio44_pi2;
    PINGROUP "soc_gpio06_ph2" [TEGRA_PIN_SOC_GPIO06_PH2] TEGRA_MUX_RSVD0 TEGRA_MUX_RSVD1 TEGRA_MUX_RSVD2 TEGRA_MUX_RSVD3 0x40a8 0 PINGROUP_REG_Y (-1) 7 6 8 (-1) 10 12 drive_soc_gpio06_ph2;
    PINGROUP "soc_gpio07_pi6" [TEGRA_PIN_SOC_GPIO07_PI6] TEGRA_MUX_GP TEGRA_MUX_RSVD1 TEGRA_MUX_RSVD2 TEGRA_MUX_RSVD3 0x40b0 0 PINGROUP_REG_Y (-1) 7 6 8 (-1) 10 12 drive_soc_gpio07_pi6;
    PINGROUP "dap4_sclk_pa4" [TEGRA_PIN_DAP4_SCLK_PA4] TEGRA_MUX_I2S4 TEGRA_MUX_RSVD1 TEGRA_MUX_RSVD2 TEGRA_MUX_RSVD3 0x2000 0 PINGROUP_REG_Y (-1) 7 6 8 (-1) 10 12 drive_dap4_sclk_pa4;
    PINGROUP "dap4_dout_pa5" [TEGRA_PIN_DAP4_DOUT_PA5] TEGRA_MUX_I2S4 TEGRA_MUX_RSVD1 TEGRA_MUX_RSVD2 TEGRA_MUX_RSVD3 0x2008 0 PINGROUP_REG_Y (-1) 7 6 8 (-1) 10 12 drive_dap4_dout_pa5;
    PINGROUP "dap4_din_pa6" [TEGRA_PIN_DAP4_DIN_PA6] TEGRA_MUX_I2S4 TEGRA_MUX_RSVD1 TEGRA_MUX_RSVD2 TEGRA_MUX_RSVD3 0x2010 0 PINGROUP_REG_Y (-1) 7 6 8 (-1) 10 12 drive_dap4_din_pa6;
    PINGROUP "dap4_fs_pa7" [TEGRA_PIN_DAP4_FS_PA7] TEGRA_MUX_I2S4 TEGRA_MUX_RSVD1 TEGRA_MUX_RSVD2 TEGRA_MUX_RSVD3 0x2018 0 PINGROUP_REG_Y (-1) 7 6 8 (-1) 10 12 drive_dap4_fs_pa7;
    PINGROUP "dap6_sclk_pa0" [TEGRA_PIN_DAP6_SCLK_PA0] TEGRA_MUX_I2S6 TEGRA_MUX_RSVD1 TEGRA_MUX_RSVD2 TEGRA_MUX_RSVD3 0x2020 0 PINGROUP_REG_Y (-1) 7 6 8 (-1) 10 12 drive_dap6_sclk_pa0;
    PINGROUP "dap6_dout_pa1" [TEGRA_PIN_DAP6_DOUT_PA1] TEGRA_MUX_I2S6 TEGRA_MUX_RSVD1 TEGRA_MUX_RSVD2 TEGRA_MUX_RSVD3 0x2028 0 PINGROUP_REG_Y (-1) 7 6 8 (-1) 10 12 drive_dap6_dout_pa1;
    PINGROUP "dap6_din_pa2" [TEGRA_PIN_DAP6_DIN_PA2] TEGRA_MUX_I2S6 TEGRA_MUX_RSVD1 TEGRA_MUX_RSVD2 TEGRA_MUX_RSVD3 0x2030 0 PINGROUP_REG_Y (-1) 7 6 8 (-1) 10 12 drive_dap6_din_pa2;
    PINGROUP "dap6_fs_pa3" [TEGRA_PIN_DAP6_FS_PA3] TEGRA_MUX_I2S6 TEGRA_MUX_RSVD1 TEGRA_MUX_RSVD2 TEGRA_MUX_RSVD3 0x2038 0 PINGROUP_REG_Y (-1) 7 6 8 (-1) 10 12 drive_dap6_fs_pa3;
    PINGROUP "soc_gpio45_pad0" [TEGRA_PIN_SOC_GPIO45_PAD0] TEGRA_MUX_RSVD0 TEGRA_MUX_I2S1 TEGRA_MUX_RSVD2 TEGRA_MUX_RSVD3 0x18000 0 PINGROUP_REG_Y (-1) 7 6 8 (-1) 10 12 drive_soc_gpio45_pad0;
    PINGROUP "soc_gpio46_pad1" [TEGRA_PIN_SOC_GPIO46_PAD1] TEGRA_MUX_RSVD0 TEGRA_MUX_I2S1 TEGRA_MUX_RSVD2 TEGRA_MUX_RSVD3 0x18008 0 PINGROUP_REG_Y (-1) 7 6 8 (-1) 10 12 drive_soc_gpio46_pad1;
    PINGROUP "soc_gpio47_pad2" [TEGRA_PIN_SOC_GPIO47_PAD2] TEGRA_MUX_RSVD0 TEGRA_MUX_I2S1 TEGRA_MUX_RSVD2 TEGRA_MUX_RSVD3 0x18010 0 PINGROUP_REG_Y (-1) 7 6 8 (-1) 10 12 drive_soc_gpio47_pad2;
    PINGROUP "soc_gpio48_pad3" [TEGRA_PIN_SOC_GPIO48_PAD3] TEGRA_MUX_RSVD0 TEGRA_MUX_I2S1 TEGRA_MUX_RSVD2 TEGRA_MUX_RSVD3 0x18018 0 PINGROUP_REG_Y (-1) 7 6 8 (-1) 10 12 drive_soc_gpio48_pad3;
    PINGROUP "soc_gpio57_pac4" [TEGRA_PIN_SOC_GPIO57_PAC4] TEGRA_MUX_RSVD0 TEGRA_MUX_I2S8 TEGRA_MUX_RSVD2 TEGRA_MUX_SDMMC1 0x18020 0 PINGROUP_REG_Y (-1) 7 6 8 (-1) 10 12 drive_soc_gpio57_pac4;
    PINGROUP "soc_gpio58_pac5" [TEGRA_PIN_SOC_GPIO58_PAC5] TEGRA_MUX_RSVD0 TEGRA_MUX_I2S8 TEGRA_MUX_RSVD2 TEGRA_MUX_SDMMC1 0x18028 0 PINGROUP_REG_Y (-1) 7 6 8 (-1) 10 12 drive_soc_gpio58_pac5;
    PINGROUP "soc_gpio59_pac6" [TEGRA_PIN_SOC_GPIO59_PAC6] TEGRA_MUX_AUD TEGRA_MUX_I2S8 TEGRA_MUX_RSVD2 TEGRA_MUX_RSVD3 0x18030 0 PINGROUP_REG_Y (-1) 7 6 8 (-1) 10 12 drive_soc_gpio59_pac6;
    PINGROUP "soc_gpio60_pac7" [TEGRA_PIN_SOC_GPIO60_PAC7] TEGRA_MUX_RSVD0 TEGRA_MUX_I2S8 TEGRA_MUX_NV TEGRA_MUX_IGPU 0x18038 0 PINGROUP_REG_Y (-1) 7 6 8 (-1) 10 12 drive_soc_gpio60_pac7;
    PINGROUP "spi5_cs0_pac3" [TEGRA_PIN_SPI5_CS0_PAC3] TEGRA_MUX_SPI5 TEGRA_MUX_I2S3 TEGRA_MUX_DMIC2 TEGRA_MUX_RSVD3 0x18040 0 PINGROUP_REG_Y (-1) 7 6 8 (-1) 10 12 drive_spi5_cs0_pac3;
    PINGROUP "spi5_miso_pac1" [TEGRA_PIN_SPI5_MISO_PAC1] TEGRA_MUX_SPI5 TEGRA_MUX_I2S3 TEGRA_MUX_DSPK0 TEGRA_MUX_RSVD3 0x18048 0 PINGROUP_REG_Y (-1) 7 6 8 (-1) 10 12 drive_spi5_miso_pac1;
    PINGROUP "spi5_mosi_pac2" [TEGRA_PIN_SPI5_MOSI_PAC2] TEGRA_MUX_SPI5 TEGRA_MUX_I2S3 TEGRA_MUX_DMIC2 TEGRA_MUX_RSVD3 0x18050 0 PINGROUP_REG_Y (-1) 7 6 8 (-1) 10 12 drive_spi5_mosi_pac2;
    PINGROUP "spi5_sck_pac0" [TEGRA_PIN_SPI5_SCK_PAC0] TEGRA_MUX_SPI5 TEGRA_MUX_I2S3 TEGRA_MUX_DSPK0 TEGRA_MUX_RSVD3 0x18058 0 PINGROUP_REG_Y (-1) 7 6 8 (-1) 10 12 drive_spi5_sck_pac0 ].

Definition tegra234_pinctrl : tegra_pinctrl_soc_data :=
  {| ngpios := NUM_GPIOS;
     groups := tegra234_groups;
     hsm_in_mux := false;
     schmitt_in_mux := true;
     drvtype_in_mux := true;
     sfsel_in_mux := true |}.

(** ** Vocabulary for the statements *)

(** The state [pmx_writel val bank reg] leaves behind. *)
Definition after_writel (val bank reg : Z) (st : tegra_pmx) : tegra_pmx :=
  {| regs := <[(u32 bank, u32 reg) := u32 val]> (regs st);
     gpio_conf := gpio_conf st;
     trace := EvReadl (u32 bank) (u32 reg)
              :: EvWritel (u32 val) (u32 bank) (u32 reg) :: trace st |}.

(** The state after one register read. *)
Definition after_readl (bank reg : Z) (st : tegra_pmx) : tegra_pmx :=
  {| regs := regs st; gpio_conf := gpio_conf st;
     trace := EvReadl (u32 bank) (u32 reg) :: trace st |}.

(** The state after one diagnostic. *)
Definition after_diag (d : diag) (st : tegra_pmx) : tegra_pmx :=
  {| regs := regs st; gpio_conf := gpio_conf st;
     trace := EvDiag d :: trace st |}.

(** The register accesses, and the register writes, recorded in a trace. *)
Definition is_access (e : event) : bool :=
  match e with
  | EvReadl _ _ | EvWritel _ _ _ => true
  | EvDiag _ => false
  end.

Definition accesses (tr : list event) : list event := List.filter is_access tr.

Definition is_write (e : event) : bool :=
  match e with
  | EvWritel _ _ _ => true
  | _ => false
  end.

Definition writes (tr : list event) : list event := List.filter is_write tr.

(** The content of the [width]-bit field at [bit] of a register value. *)
Definition field (val bit width : Z) : Z :=
  Z.land (Z.shiftr val bit) (Z.ones width).

(** The value [tegra_pinconf_group_set] writes back: the field selected by
    [mask] at [bit] cleared, then [arg] or-ed in. *)
Definition field_update (val mask bit arg : Z) : Z :=
  u32 (Z.lor (u32 (Z.land val (Z.lnot (u32 (Z.shiftl mask bit)))))
             (Z.shiftl arg bit)).

(** The value [tegra_pinctrl_set_mux] writes back when slot [i] is
    selected. *)
Definition mux_update (soc : tegra_pinctrl_soc_data) (g : tegra_pingroup)
    (val i : Z) : Z :=
  let val := u32 (Z.land val (Z.lnot (Z.shiftl 3 (mux_bit g)))) in
  let val := u32 (Z.lor val (Z.shiftl i (mux_bit g))) in
  if sfsel_in_mux soc then u32 (Z.lor val (Z.shiftl 1 (sfsel_bit g))) else val.

(** The register [tegra_pinctrl_clear_parked_bits] targets for a group:
    the mux register unless its offset is [-1], else the drive register. *)
Definition parked_target (g : tegra_pingroup) : Z * Z :=
  (u32 (if negb (mux_reg g =? -1) then mux_bank g else drv_bank g),
   u32 (if negb (mux_reg g =? -1) then mux_reg g else drv_reg g)).

(** The union of the parked bitmasks of the groups of [gs] that the pass
    processes and whose target is the register [(bank, reg)]. *)
Fixpoint parked_mask_for (gs : list tegra_pingroup) (bank reg : Z) : Z :=
  match gs with
  | [] => 0
  | g :: rest =>
      if (0 <? parked_bitmask g) && bool_decide (parked_target g = (bank, reg))
      then Z.lor (parked_bitmask g) (parked_mask_for rest bank reg)
      else parked_mask_for rest bank reg
  end.

(** Calls a client can make between a GPIO request and its release:
    function selection and group configuration. *)
Inductive pinctrl_op : Type :=
| OpSetMux (function : Z) (group : nat)
| OpGroupSet (group : nat) (configs : list pinconf).

Definition run_op (soc : tegra_pinctrl_soc_data) (op : pinctrl_op) : M unit :=
  match op with
  | OpSetMux function group =>
      tegra_pinctrl_set_mux soc function group ;; ret tt
  | OpGroupSet group configs =>
      tegra_pinconf_group_set soc group configs ;; ret tt
  end.

Fixpoint run_ops (soc : tegra_pinctrl_soc_data) (ops : list pinctrl_op)
    : M unit :=
  match ops with
  | [] => ret tt
  | op :: rest => run_op soc op ;; run_ops soc rest
  end.

(** The batch policy in the spec's words: every parameter of the list is
    resolved and applied independently, in list order; a failing parameter
    does not stop the batch, and one error is collected per failed
    parameter.  This follows the spec, not the driver; it is what
    [tegra_pinconf_group_set] is compared with. *)
Fixpoint setGroupConfig_best_effort (soc : tegra_pinctrl_soc_data)
    (g : tegra_pingroup) (configs : list pinconf) : M (list (pinconf * Z)) :=
  match configs with
  | [] => ret []
  | config :: rest =>
      let* r := tegra_pinconf_group_set_one soc g config in
      let* errs := setGroupConfig_best_effort soc g rest in
      ret (match r with
           | Some e => (config, e) :: errs
           | None => errs
           end)
  end.

(** ** Small catalogs for features the Tegra234 table does not use *)

(** A single-pin group with its mux register at [reg] of bank 0, a lock bit
    (bit 7), a pad-power bit (bit 3 of the register at [reg + 4]) and the
    given function slots and parked bitmask.  The Tegra234 table gives no
    group a lock bit or a parked bitmask. *)
Definition demo_group (nm : string) (pin : Z) (fs : list Z) (reg parked : Z)
    : tegra_pingroup :=
  {| name := nm; pins := [pin]; funcs := fs;
     mux_reg := reg; mux_bank := 0; mux_bit := 0;
     pupd_reg := reg; pupd_bank := 0; pupd_bit := 2;
     tri_reg := reg; tri_bank := 0; tri_bit := 4;
     lpbk_reg := -1; lpbk_bank := 0; lpbk_bit := -1;
     pad_reg := reg + 4; pad_bank := 0; pad_bit := 3;
     drv_reg := -1; drv_bank := 0;
     einput_bit := 6; odrain_bit := 11; lock_bit := 7; ioreset_bit := 8;
     rcv_sel_bit := 9; hsm_bit := -1; sfsel_bit := 10; schmitt_bit := 12;
     lpmd_bit := -1; drvtype_bit := 13;
     drvdn_bit := -1; drvdn_width := 0; drvup_bit := -1; drvup_width := 0;
     slwr_bit := -1; slwr_width := 0; slwf_bit := -1; slwf_width := 0;
     parked_bitmask := parked |}.

Definition demo_soc_of (gs : list tegra_pingroup) : tegra_pinctrl_soc_data :=
  {| ngpios := Z.of_nat (length gs); groups := gs;
     hsm_in_mux := false; schmitt_in_mux := true;
     drvtype_in_mux := true; sfsel_in_mux := true |}.

(** One group with four distinct functions. *)
Definition demo_soc : tegra_pinctrl_soc_data :=
  demo_soc_of [demo_group "demo" 0 [0; 1; 2; 3] 0x10 0].

(** One group whose slots 0 and 1 hold the same function. *)
Definition dup_soc : tegra_pinctrl_soc_data :=
  demo_soc_of [demo_group "dup" 0 [4; 4; 5; 6] 0x10 0].

(** Two groups parked through the same register, with bitmasks 1 and 2. *)
Definition parked_soc : tegra_pinctrl_soc_data :=
  demo_soc_of [demo_group "park_a" 0 [0; 1; 2; 3] 0x10 0x1;
               demo_group "park_b" 1 [0; 1; 2; 3] 0x10 0x2].

(** Two single-pin groups that list the same pin 5, with mux registers
    0x10 and 0x20. *)
Definition shared_pin_soc : tegra_pinctrl_soc_data :=
  demo_soc_of [demo_group "own_a" 5 [0; 1; 2; 3] 0x10 0;
               demo_group "own_b" 5 [0; 1; 2; 3] 0x20 0].

(** A state with the given register contents, an empty shadow area and an
    empty trace. *)
Definition state_of (rs : list (Z * Z * Z)) : tegra_pmx :=
  {| regs := list_to_map rs; gpio_conf := ∅; trace := [] |}.

(** A computation that leaves the GPIO shadow area as it found it. *)
Definition keeps_gpio_conf {A : Type} (c : M A) : Prop :=
  forall st a st', c st = Ret a st' -> gpio_conf st' = gpio_conf st.

(** The state a run ends in (the empty state when it has none). *)
Definition final_state {A : Type} (r : result A) : tegra_pmx :=
  match r with
  | Ret _ st => st
  | Undefined => state_of []
  end.

(** ** Vocabulary for the further properties *)

(** The argument [tegra_pinconf_group_set] ends up writing for a raw
    argument [a]: truncated to [u16], inverted for pad-power, reduced to
    its truth value on a one-bit parameter. *)
Definition set_arg (param : tegra_pinconf_param) (width a : Z) : Z :=
  let arg := u16 a in
  let arg :=
    if bool_decide (param = TEGRA_PINCONF_PARAM_PAD_POWER)
    then lnot_c arg else arg in
  if width =? 1 then lnot_c (lnot_c arg) else arg.

(** The lock check fires: the parameter is the lock, the bit reads 1 and
    the argument is zero. *)
Definition lock_refused (param : tegra_pinconf_param) (val bit a : Z) : bool :=
  bool_decide (param = TEGRA_PINCONF_PARAM_LOCK)
  && Z.testbit val bit && (u16 a =? 0).

(** What the mux round trip needs of a group: a mux register, a mux field
    inside the register, four pairwise distinct function slots and, when
    the catalog sets [sfsel_in_mux], a valid SFIO-select bit outside the
    mux field. *)
Definition mux_group_ok (soc : tegra_pinctrl_soc_data) (g : tegra_pingroup)
    : bool :=
  (0 <=? mux_reg g) && (0 <=? mux_bit g) && (mux_bit g <=? 30)
  && bool_decide (length (funcs g) = 4%nat)
  && bool_decide (NoDup (funcs g))
  && (negb (sfsel_in_mux soc)
      || ((0 <=? sfsel_bit g) && (sfsel_bit g <? 32)
          && negb (sfsel_bit g =? mux_bit g)
          && negb (sfsel_bit g =? mux_bit g + 1))).

(** The groups of a table paired with their indexes. *)
Definition indexed_groups (gs : list tegra_pingroup)
    : list (nat * tegra_pingroup) :=
  imap (fun i g => (i, g)) gs.

(** ** The function index built by [tegra_pinctrl_probe] *)

(** The names of [tegra234_functions], in the order of
    [T234_FUNCTION_TABLE]; the position of a name is its [TEGRA_MUX_]
    value. *)
Definition tegra234_functions : list string :=
  [ "gp"; "uartc"; "i2c8"; "spi2"; "i2c2"; "can1"; "can0"; "rsvd0"; "eth0";
    "eth2"; "eth1"; "dp"; "eth3"; "i2c4"; "i2c7"; "i2c9"; "eqos"; "pe2";
    "pe1"; "pe0"; "pe3"; "pe4"; "pe5"; "pe6"; "pe10"; "pe7"; "pe8"; "pe9";
    "qspi0"; "qspi1"; "qspi"; "sdmmc1"; "sce"; "soc"; "gpio"; "hdmi";
    "ufs0"; "spi3"; "spi1"; "uartb"; "uarte"; "usb"; "extperiph2";
    "extperiph1"; "i2c3"; "vi0"; "i2c5"; "uarta"; "uartd"; "i2c1"; "i2s4";
    "i2s6"; "aud"; "spi5"; "touch"; "uartj"; "rsvd1"; "wdt"; "tsc"; "dmic3";
    "led"; "vi0_alt"; "i2s5"; "nv"; "extperiph3"; "extperiph4"; "spi4";
    "ccla"; "i2s2"; "i2s1"; "i2s8"; "i2s3"; "rsvd2"; "dmic5"; "dca";
    "displayb"; "displaya"; "vi1"; "dcb"; "dmic1"; "dmic4"; "i2s7"; "dmic2";
    "dspk0"; "rsvd3"; "tsc_alt"; "istctrl"; "vi1_alt"; "dspk1"; "igpu" ]%string.

(** How the index construction can end: normally, at the [BUG_ON], or by
    reading past the four function slots of a group. *)
Inductive probe_outcome (A : Type) : Type :=
| ProbeOk (a : A)
| ProbeBug
| ProbeUndefined.
Arguments ProbeOk {A} a.
Arguments ProbeBug {A}.
Arguments ProbeUndefined {A}.

(** The slot loop [for (gfn = 0; gfn < 4; gfn++) if (g->funcs[gfn] == fn)
    break;] with [n] iterations left: the final [gfn], or [None] when a
    slot is read that the group does not have. *)
Fixpoint probe_gfn_loop (fs : list Z) (fn : Z) (gfn n : nat) : option nat :=
  match n with
  | O => Some gfn
  | S n' =>
      match fs !! gfn with
      | None => None
      | Some f =>
          if f =? fn then Some gfn else probe_gfn_loop fs fn (S gfn) n'
      end
  end.

(** The group loop for one function [fn]: [group_pins] is the part of the
    name array filled so far, [count] the function's [ngroups], [limit]
    the array size [ngroups * 4] tested by the [BUG_ON]. *)
Fixpoint probe_groups_loop (limit : nat) (fn : Z) (gs : list tegra_pingroup)
    (group_pins : list string) (count : nat)
    : probe_outcome (list string * nat) :=
  match gs with
  | [] => ProbeOk (group_pins, count)
  | g :: rest =>
      if mux_reg g =? -1
      then probe_groups_loop limit fn rest group_pins count
      else
        match probe_gfn_loop (funcs g) fn 0 4 with
        | None => ProbeUndefined
        | Some gfn =>
            if bool_decide (gfn = 4%nat)
            then probe_groups_loop limit fn rest group_pins count
            else if bool_decide (limit <= length group_pins)%nat
                 then ProbeBug
                 else probe_groups_loop limit fn rest
                        (group_pins ++ [name g]) (S count)
        end
  end.

(** The function loop, for the functions [fn], [fn + 1], ...  The
    table [soc_data->functions] is static and not [const], and
    [func->ngroups++] counts up from whatever the entry holds when the
    probe starts: [ngroups0] gives these values, one per function (all
    zero when the module has just been loaded, the counts of the previous
    probe otherwise).  The member's type is declared in
    [pinctrl-tegra234.h], which is not among the sources; the count is
    kept as a natural number.  Each function gets the position in the
    name array where its groups start ([func->groups]) and the count
    ([func->ngroups]). *)
Fixpoint probe_functions_loop (limit : nat) (gs : list tegra_pingroup)
    (fn : Z) (ngroups0 : list nat) (group_pins : list string)
    (index : list (nat * nat))
    : probe_outcome (list string * list (nat * nat)) :=
  match ngroups0 with
  | [] => ProbeOk (group_pins, index)
  | count0 :: rest =>
      match probe_groups_loop limit fn gs group_pins count0 with
      | ProbeOk (group_pins', count) =>
          probe_functions_loop limit gs (fn + 1) rest group_pins'
            (index ++ [(length group_pins, count)])
      | ProbeBug => ProbeBug
      | ProbeUndefined => ProbeUndefined
      end
  end.

(** The index construction of [tegra_pinctrl_probe] for a catalog whose
    function table holds the counts [ngroups0] when the probe starts: the
    filled name array and, per function, the start and the count of its
    groups. *)
Definition tegra_pinctrl_probe_index (soc : tegra_pinctrl_soc_data)
    (ngroups0 : list nat) : probe_outcome (list string * list (nat * nat)) :=
  probe_functions_loop (ngroups soc * 4) (groups soc) 0 ngroups0 [] [].

(** The groups of function [fn] as the pinmux core reads them through
    [tegra_pinctrl_get_func_groups]: [ngroups] names from [groups] on.
    There is no name to read past the filled part of the array. *)
Definition function_groups (r : list string * list (nat * nat)) (fn : nat)
    : option (list string) :=
  match r.2 !! fn with
  | Some (start, count) =>
      if bool_decide (start + count <= length r.1)%nat
      then Some (take count (drop start r.1))
      else None
  | None => None
  end.

(** A group offers function [fn]: it has a mux register and [fn] is one
    of its slots. *)
Definition offers (fn : Z) (g : tegra_pingroup) : bool :=
  negb (mux_reg g =? -1) && bool_decide (fn ∈ funcs g).

(** The function numbers [fn], [fn + 1], ..., [n] of them. *)
Fixpoint fn_range (fn : Z) (n : nat) : list Z :=
  match n with
  | O => []
  | S n' => fn :: fn_range (fn + 1) n'
  end.

(** The names of the groups offering each function of a range, in table
    order. *)
Definition probe_segments (gs : list tegra_pingroup) (fn : Z) (n : nat)
    : list (list string) :=
  map (fun f => map name (List.filter (offers f) gs)) (fn_range fn n).

(** Start and count of each segment when the segments are laid out one
    after the other from position [start], the count of a segment being
    its length added to the matching entry of [counts]. *)
Fixpoint index_of_segments {A : Type} (start : nat) (counts : list nat)
    (segs : list (list A)) : list (nat * nat) :=
  match counts, segs with
  | count0 :: counts', s :: rest =>
      (start, (count0 + length s)%nat)
      :: index_of_segments (start + length s) counts' rest
  | _, _ => []
  end.

(** ** Suspend and resume

    The register snapshot of [tegra_pinctrl_suspend] and its replay by
    [tegra_pinctrl_resume].  The memory resources of the platform device
    are given by their sizes in bytes, one per bank; the backup area
    [pmx->backup_regs] is a list of 32-bit words.  A bank is walked with a
    [u32 __iomem *], so word [k] of bank [i] is the register at byte
    offset [4 * k]. *)


(** [tegra_pinctrl_get_bank_size] for a bank whose resource has
    [resource_size(res) = res]. *)
Definition tegra_pinctrl_get_bank_size (res : Z) : Z := res / 4.










(** The number of words the snapshot of a list of banks takes. *)
Fixpoint snapshot_words (resources : list Z) : nat :=
  match resources with
  | [] => O
  | res :: rest =>
      (Z.to_nat (tegra_pinctrl_get_bank_size res) + snapshot_words rest)%nat
  end.

(** The backup area holds, from position [p] on, the registers of the
    banks [i], [i + 1], ... as they are in state [st0]. *)
Fixpoint holds_snapshot (st0 : tegra_pmx) (i : Z) (resources : list Z)
    (p : nat) (backup_regs : list Z) : Prop :=
  match resources with
  | [] => True
  | res :: rest =>
      let n := Z.to_nat (tegra_pinctrl_get_bank_size res) in
      (forall j, (j < n)%nat ->
         backup_regs !! (p + j)%nat = Some (reg_val st0 i (4 * Z.of_nat j))) /\
      holds_snapshot st0 (i + 1) rest (p + n) backup_regs
  end.

(** ** The debugfs views *)

(** [strchr]: the text from the first occurrence of [c] on. *)
Fixpoint strchr (s : string) (c : ascii) : option string :=
  match s with
  | EmptyString => None
  | String a rest => if Ascii.eqb a c then Some s else strchr rest c
  end.

(** [strip_prefix]: the text after the first comma; the whole text when it
    has no comma. *)
Definition strip_prefix (s : string) : string :=
  match strchr s ","%char with
  | None => s
  | Some comma =>
      match comma with
      | String _ rest => rest
      | EmptyString => EmptyString
      end
  end.

(** One line of the group dump: [property=function name] for the function
    parameter, [property=value] for the others. *)
Inductive dbg_item : Type :=
| DbgFunction (property fname : string)
| DbgValue (property : string) (val : Z).

Definition dbg_property (item : dbg_item) : string :=
  match item with
  | DbgFunction property _ => property
  | DbgValue property _ => property
  end.

(** The body of the loop of [tegra_pinconf_group_dbg_show] for one entry
    of [cfg_params]: [None] when the iteration is skipped.  [functions]
    are the names of [pmx->soc->functions]; the function index goes
    through a [u8]. *)
Definition tegra_pinconf_group_dbg_show_one (soc : tegra_pinctrl_soc_data)
    (functions : list string) (g : tegra_pingroup)
    (entry : string * tegra_pinconf_param) : M (option dbg_item) :=
  let* r := tegra_pinconf_reg soc g entry.2 false in
  match r with
  | inl _ => ret None
  | inr (bank, reg, bit, width) =>
      let* val := pmx_readl bank reg in
      let* val := c_shr 32 val bit in
      let* m := c_shl 32 1 width in
      let val := Z.land val (u32 (m - 1)) in
      if bool_decide (entry.2 = TEGRA_PINCONF_PARAM_FUNCTION) then
        match funcs g !! Z.to_nat val with
        | None => undefined
        | Some f =>
            match functions !! Z.to_nat (f mod 2 ^ 8) with
            | None => undefined
            | Some fname => ret (Some (DbgFunction (strip_prefix entry.1) fname))
            end
        end
      else ret (Some (DbgValue (strip_prefix entry.1) val))
  end.

Fixpoint tegra_pinconf_group_dbg_show_loop (soc : tegra_pinctrl_soc_data)
    (functions : list string) (g : tegra_pingroup)
    (tbl : list (string * tegra_pinconf_param)) : M (list dbg_item) :=
  match tbl with
  | [] => ret []
  | entry :: rest =>
      let* o := tegra_pinconf_group_dbg_show_one soc functions g entry in
      let* out := tegra_pinconf_group_dbg_show_loop soc functions g rest in
      ret (match o with Some item => item :: out | None => out end)
  end.

(** [tegra_pinconf_group_dbg_show]: the lines printed, in order. *)
Definition tegra_pinconf_group_dbg_show (soc : tegra_pinctrl_soc_data)
    (functions : list string) (group : nat) : M (list dbg_item) :=
  let* g := group_at soc group in
  tegra_pinconf_group_dbg_show_loop soc functions g cfg_params.

(** [tegra_pinconf_config_dbg_show]: the name and the number printed for
    one packed configuration. *)
Definition tegra_pinconf_config_dbg_show (config : pinconf) : string * Z :=
  let param := TEGRA_PINCONF_UNPACK_PARAM config in
  let arg := u16 (TEGRA_PINCONF_UNPACK_ARG config) in
  (strip_prefix (cfg_param_property cfg_params param), arg).

(** The location of a parameter on a group when the group has it. *)
Definition dbg_located (soc : tegra_pinctrl_soc_data) (g : tegra_pingroup)
    (param : tegra_pinconf_param) : option (Z * Z * Z * Z) :=
  match pinconf_switch soc g param with
  | Some (bank, reg, bit, width) =>
      if (reg <? 0) || (bit <? 0) then None else Some (bank, reg, bit, width)
  | None => None
  end.

(** What the dump needs of a group for one parameter: a known parameter
    and, when the group has it, a field inside the register; for the
    function parameter also a slot for every value of the field and a
    name for every slot. *)
Definition dbg_entry_ok (soc : tegra_pinctrl_soc_data)
    (functions : list string) (g : tegra_pingroup)
    (param : tegra_pinconf_param) : bool :=
  match pinconf_switch soc g param with
  | None => false
  | Some (bank, reg, bit, width) =>
      (reg <? 0) || (bit <? 0)
      || ((bit <? 32) && (0 <=? width) && (width <? 32)
          && (negb (bool_decide (param = TEGRA_PINCONF_PARAM_FUNCTION))
              || ((Z.to_nat (2 ^ width) <=? length (funcs g))%nat
                  && forallb (fun f => (Z.to_nat (f mod 2 ^ 8)
                                        <? length functions)%nat)
                       (funcs g))))
  end.

Definition dbg_show_ok (soc : tegra_pinctrl_soc_data)
    (functions : list string) (g : tegra_pingroup) : bool :=
  forallb (fun entry => dbg_entry_ok soc functions g entry.2) cfg_params.

Definition is_readl (e : event) : bool :=
  match e with
  | EvReadl _ _ => true
  | _ => false
  end.

(** ** Basic facts about the machine-integer helpers *)

Lemma u32_range z : 0 <= u32 z < 2 ^ 32.
Proof. unfold u32. apply Z.mod_pos_bound. lia. Qed.

Lemma u32_small z : 0 <= z < 2 ^ 32 -> u32 z = z.
Proof. intros H. unfold u32. apply Z.mod_small. exact H. Qed.

Lemma u32_idem z : u32 (u32 z) = u32 z.
Proof. apply u32_small, u32_range. Qed.

Lemma testbit_u32 z k :
  0 <= k -> Z.testbit (u32 z) k = (k <? 32) && Z.testbit z k.
Proof.
  intros Hk. unfold u32. destruct (Z.ltb_spec k 32) as [Hlt | Hge].
  - rewrite Z.mod_pow2_bits_low by lia. reflexivity.
  - rewrite Z.mod_pow2_bits_high by lia. reflexivity.
Qed.

Lemma testbit_small z n k :
  0 <= n -> 0 <= z < 2 ^ n -> n <= k -> Z.testbit z k = false.
Proof.
  intros Hn Hz Hk. rewrite <- (Z.mod_small z (2 ^ n)) by exact Hz.
  apply Z.mod_pow2_bits_high. lia.
Qed.

Lemma reg_val_range st bank reg : 0 <= reg_val st bank reg < 2 ^ 32.
Proof. apply u32_range. Qed.

Lemma reg_val_high st bank reg k :
  32 <= k -> Z.testbit (reg_val st bank reg) k = false.
Proof.
  intros Hk. apply (testbit_small _ 32); [lia | apply reg_val_range | exact Hk].
Qed.

Lemma land_u32_l v x : 0 <= v < 2 ^ 32 -> u32 (Z.land v x) = Z.land v x.
Proof.
  intros Hv. apply Z.bits_inj'. intros k Hk.
  rewrite testbit_u32 by exact Hk. rewrite Z.land_spec.
  destruct (Z.ltb_spec k 32) as [Hlt | Hge]; [reflexivity |].
  rewrite (testbit_small v 32 k) by lia. reflexivity.
Qed.

Lemma lnot_c_involutive_bool x : lnot_c (lnot_c x) = if x =? 0 then 0 else 1.
Proof. unfold lnot_c. destruct (x =? 0); reflexivity. Qed.

Lemma c_shl_ok w a n st :
  0 <= n < w -> c_shl w a n st = Ret (Z.shiftl a n) st.
Proof.
  intros [H0 H1]. unfold c_shl.
  apply Z.leb_le in H0. apply Z.ltb_lt in H1. rewrite H0, H1. reflexivity.
Qed.

Lemma c_shl_neg w a n st : n < 0 -> c_shl w a n st = Undefined.
Proof.
  intros H. unfold c_shl. apply Z.leb_gt in H. rewrite H. reflexivity.
Qed.

Lemma c_shr_ok w a n st :
  0 <= n < w -> c_shr w a n st = Ret (Z.shiftr a n) st.
Proof.
  intros [H0 H1]. unfold c_shr.
  apply Z.leb_le in H0. apply Z.ltb_lt in H1. rewrite H0, H1. reflexivity.
Qed.

(** ** Register reads after a write *)

Lemma pmx_writel_run val bank reg st :
  pmx_writel val bank reg st = Ret tt (after_writel val bank reg st).
Proof. reflexivity. Qed.

Lemma reg_val_after_writel_same val bank reg st :
  reg_val (after_writel val bank reg st) bank reg = u32 val.
Proof.
  unfold reg_val, after_writel. simpl.
  rewrite lookup_insert_eq. simpl. apply u32_idem.
Qed.

Lemma reg_val_after_writel_other val bank reg st bank' reg' :
  (u32 bank, u32 reg) <> (u32 bank', u32 reg') ->
  reg_val (after_writel val bank reg st) bank' reg' = reg_val st bank' reg'.
Proof.
  intros Hne. unfold reg_val, after_writel. simpl.
  rewrite lookup_insert_ne by exact Hne. reflexivity.
Qed.

(** ** Resolution of a parameter to a register location *)

Lemma reg_val_after_readl bank reg st bank' reg' :
  reg_val (after_readl bank reg st) bank' reg' = reg_val st bank' reg'.
Proof. reflexivity. Qed.

Lemma tegra_pinconf_reg_absent soc g param bank reg bit width st :
  pinconf_switch soc g param = Some (bank, reg, bit, width) ->
  reg < 0 \/ bit < 0 ->
  tegra_pinconf_reg soc g param true st =
  Ret (inl (- ENOTSUPP))
      (after_diag (ErrNotSupported param (cfg_param_property cfg_params param)
                     (name g)) st).
Proof.
  intros Hsw Habs. unfold tegra_pinconf_reg. rewrite Hsw.
  assert (Hb : (reg <? 0) || (bit <? 0) = true).
  { apply orb_true_iff. destruct Habs; [left | right]; apply Z.ltb_lt; lia. }
  rewrite Hb. reflexivity.
Qed.

Lemma tegra_pinconf_reg_present soc g param bank reg bit width report st :
  pinconf_switch soc g param = Some (bank, reg, bit, width) ->
  0 <= reg -> 0 <= bit ->
  tegra_pinconf_reg soc g param report st = Ret (inr (bank, reg, bit, width)) st.
Proof.
  intros Hsw Hr Hb. unfold tegra_pinconf_reg. rewrite Hsw.
  assert (Hc : (reg <? 0) || (bit <? 0) = false).
  { apply orb_false_iff. split; apply Z.ltb_ge; lia. }
  rewrite Hc. reflexivity.
Qed.

Lemma group_at_run soc group g st :
  groups soc !! group = Some g -> group_at soc group st = Ret g st.
Proof. intros H. unfold group_at. rewrite H. reflexivity. Qed.

(** ** Unsupported parameters *)

(** C7.  When the register offset or the bit position a parameter resolves
    to on a group is the absent sentinel (negative), both
    [tegra_pinconf_group_get] and [tegra_pinconf_group_set] return
    [-ENOTSUPP] for it; the register file is unchanged and the trace gains
    no register read or write (only the "not supported" diagnostic). *)
Theorem unsupported_param_touches_no_register
    soc group g param arg bank reg bit width st :
  groups soc !! group = Some g ->
  pinconf_switch soc g param = Some (bank, reg, bit, width) ->
  reg < 0 \/ bit < 0 ->
  exists st',
    tegra_pinconf_group_get soc group (TEGRA_PINCONF_PACK param arg) st
      = Ret (- ENOTSUPP, TEGRA_PINCONF_PACK param arg) st' /\
    tegra_pinconf_group_set soc group [TEGRA_PINCONF_PACK param arg] st
      = Ret (- ENOTSUPP) st' /\
    regs st' = regs st /\
    gpio_conf st' = gpio_conf st /\
    accesses (trace st') = accesses (trace st).
Proof.
  intros Hg Hsw Habs.
  exists (after_diag (ErrNotSupported param
                        (cfg_param_property cfg_params param) (name g)) st).
  split; [| split; [| repeat split]].
  - unfold tegra_pinconf_group_get, bind. rewrite (group_at_run _ _ _ _ Hg).
    cbn [TEGRA_PINCONF_UNPACK_PARAM TEGRA_PINCONF_PACK fst].
    rewrite (tegra_pinconf_reg_absent _ _ _ _ _ _ _ _ Hsw Habs). reflexivity.
  - unfold tegra_pinconf_group_set, bind. rewrite (group_at_run _ _ _ _ Hg).
    cbn [tegra_pinconf_group_set_loop]. unfold tegra_pinconf_group_set_one, bind.
    cbn [TEGRA_PINCONF_UNPACK_PARAM TEGRA_PINCONF_PACK fst].
    rewrite (tegra_pinconf_reg_absent _ _ _ _ _ _ _ _ Hsw Habs). reflexivity.
Qed.

(** The loopback parameter on [eqos_comp] (table index 50) has no bit
    position: the instance of C7 on the Tegra234 catalog. *)
Lemma unsupported_param_touches_no_register_witness :
  exists st',
    tegra_pinconf_group_get tegra234_pinctrl 50
      (TEGRA_PINCONF_PACK TEGRA_PINCONF_PARAM_LOOPBACK 1)
      {| regs := ∅; gpio_conf := ∅; trace := [] |}
      = Ret (- ENOTSUPP, TEGRA_PINCONF_PACK TEGRA_PINCONF_PARAM_LOOPBACK 1) st' /\
    tegra_pinconf_group_set tegra234_pinctrl 50
      [TEGRA_PINCONF_PACK TEGRA_PINCONF_PARAM_LOOPBACK 1]
      {| regs := ∅; gpio_conf := ∅; trace := [] |}
      = Ret (- ENOTSUPP) st' /\
    regs st' = ∅ /\
    gpio_conf st' = ∅ /\
    accesses (trace st') = [].
Proof.
  apply (unsupported_param_touches_no_register tegra234_pinctrl 50
           (PINGROUP "eqos_comp" [TEGRA_PIN_EQOS_COMP] TEGRA_MUX_EQOS
              TEGRA_MUX_RSVD1 TEGRA_MUX_RSVD2 TEGRA_MUX_RSVD3 0x15050 0
              PINGROUP_REG_N (-1) (-1) (-1) (-1) (-1) (-1) (-1) drive_eqos_comp)
           TEGRA_PINCONF_PARAM_LOOPBACK 1 0 0x15050 (-1) 1).
  - reflexivity.
  - reflexivity.
  - right. lia.
Defined.

(** ** The lock bit *)

Lemma land_bit_nonzero v k :
  0 <= k -> Z.testbit v k = true -> Z.land v (Z.shiftl 1 k) <> 0.
Proof.
  intros Hk Hb Hz.
  assert (Ht : Z.testbit (Z.land v (Z.shiftl 1 k)) k = true).
  { rewrite Z.land_spec, Hb, Z.shiftl_spec by exact Hk.
    rewrite Z.sub_diag. reflexivity. }
  rewrite Hz, Z.bits_0 in Ht. discriminate.
Qed.

(** C4.  On a group whose lock bit exists (the mux register offset and
    [lock_bit] are not the sentinel) and currently reads 1, setting the lock
    parameter to 0 returns [-EINVAL] with the "LOCK bit cannot be cleared"
    diagnostic; the driver has read the register once and written nothing:
    the register file is unchanged and the trace gains no write. *)
Theorem lock_cannot_be_cleared soc group g st :
  groups soc !! group = Some g ->
  0 <= mux_reg g ->
  0 <= lock_bit g ->
  Z.testbit (reg_val st (mux_bank g) (mux_reg g)) (lock_bit g) = true ->
  exists st',
    tegra_pinconf_group_set soc group
      [TEGRA_PINCONF_PACK TEGRA_PINCONF_PARAM_LOCK 0] st = Ret (- EINVAL) st' /\
    trace st' = EvDiag ErrLockCannotBeCleared
                :: EvReadl (u32 (mux_bank g)) (u32 (mux_reg g)) :: trace st /\
    regs st' = regs st /\
    writes (trace st') = writes (trace st).
Proof.
  intros Hg Hreg Hbit Hset.
  assert (Hlt : lock_bit g < 32).
  { destruct (Z.lt_ge_cases (lock_bit g) 32) as [H | H]; [exact H |].
    rewrite reg_val_high in Hset by exact H. discriminate. }
  exists (after_diag ErrLockCannotBeCleared
            (after_readl (mux_bank g) (mux_reg g) st)).
  split; [| repeat split].
  unfold tegra_pinconf_group_set, bind. rewrite (group_at_run _ _ _ _ Hg).
  cbn [tegra_pinconf_group_set_loop]. unfold tegra_pinconf_group_set_one, bind.
  cbn [TEGRA_PINCONF_UNPACK_PARAM TEGRA_PINCONF_UNPACK_ARG TEGRA_PINCONF_PACK
       fst snd].
  rewrite (tegra_pinconf_reg_present soc g TEGRA_PINCONF_PARAM_LOCK
             (mux_bank g) (mux_reg g) (lock_bit g) 1 true st eq_refl Hreg Hbit).
  unfold pmx_readl at 1.
  rewrite bool_decide_eq_true_2 by reflexivity.
  unfold BIT. rewrite c_shl_ok by lia. unfold ret at 1.
  rewrite bool_decide_eq_false_2 by discriminate.
  pose proof (land_bit_nonzero _ _ Hbit Hset) as Hnz.
  apply Z.eqb_neq in Hnz. rewrite Hnz. reflexivity.
Qed.

(** C4 on the demo catalog: the register at 0x10 holds 0x80, the lock bit. *)
Lemma lock_cannot_be_cleared_witness :
  exists st',
    tegra_pinconf_group_set demo_soc 0
      [TEGRA_PINCONF_PACK TEGRA_PINCONF_PARAM_LOCK 0] (state_of [(0, 0x10, 0x80)])
      = Ret (- EINVAL) st' /\
    trace st' = [EvDiag ErrLockCannotBeCleared; EvReadl 0 0x10] /\
    regs st' = {[ (0, 0x10) := 0x80 ]} /\
    writes (trace st') = [].
Proof.
  apply (lock_cannot_be_cleared demo_soc 0
           (demo_group "demo" 0 [0; 1; 2; 3] 0x10 0)
           (state_of [(0, 0x10, 0x80)])).
  - reflexivity.
  - vm_compute. discriminate.
  - vm_compute. discriminate.
  - vm_compute. reflexivity.
Defined.

(** ** Writing a configuration field *)

Lemma testbit_1 n : Z.testbit 1 n = (n =? 0).
Proof. destruct n; reflexivity. Qed.

Lemma testbit_shiftl_1 bit k :
  0 <= bit -> 0 <= k -> Z.testbit (Z.shiftl 1 bit) k = (k =? bit).
Proof.
  intros Hb Hk. rewrite Z.shiftl_spec by exact Hk. rewrite testbit_1.
  destruct (Z.eqb_spec (k - bit) 0), (Z.eqb_spec k bit); lia || reflexivity.
Qed.

Lemma land_shiftr_1 v bit :
  0 <= bit -> Z.land (Z.shiftr v bit) 1 = Z.b2z (Z.testbit v bit).
Proof.
  intros Hb. change 1 with (Z.ones 1). rewrite Z.land_ones by lia.
  change (2 ^ 1) with 2. rewrite <- Z.bit0_mod.
  rewrite Z.shiftr_spec by lia. reflexivity.
Qed.

(** Bits of a register after a one-bit field was written with [b]. *)
Lemma testbit_field_update_1 val bit b k :
  0 <= val < 2 ^ 32 -> 0 <= bit < 32 -> 0 <= k ->
  Z.testbit (field_update val 1 bit (Z.b2z b)) k =
  if k =? bit then b else Z.testbit val k.
Proof.
  intros Hv Hb Hk. unfold field_update.
  rewrite testbit_u32, Z.lor_spec, testbit_u32, Z.land_spec, Z.lnot_spec,
    testbit_u32, testbit_shiftl_1 by lia.
  rewrite (Z.shiftl_spec (Z.b2z b)) by lia.
  destruct (Z.eqb_spec k bit) as [-> | Hne].
  - rewrite Z.sub_diag. replace (bit <? 32) with true by (symmetry; apply Z.ltb_lt; lia).
    simpl. rewrite andb_false_r. destruct b; reflexivity.
  - destruct (Z.ltb_spec k 32) as [Hlt | Hge]; simpl.
    + rewrite andb_true_r.
      assert (Hz : Z.testbit (Z.b2z b) (k - bit) = false).
      { destruct (Z.lt_ge_cases (k - bit) 0) as [Hn | Hp].
        - apply Z.testbit_neg_r. exact Hn.
        - destruct b; simpl; [rewrite testbit_1 | apply Z.bits_0].
          apply Z.eqb_neq. lia. }
      rewrite Hz. apply orb_false_r.
    + symmetry. apply (testbit_small val 32); lia.
Qed.

(** A run of the loop body on a one-bit parameter that is present on the
    group and not refused by the lock check: the register is read, the bit
    is replaced by the truth value of the (possibly inverted) argument. *)
Lemma group_set_one_bool soc g param a bank reg bit st :
  pinconf_switch soc g param = Some (bank, reg, bit, 1) ->
  0 <= reg -> 0 <= bit < 32 ->
  param <> TEGRA_PINCONF_PARAM_LOCK \/ u16 a <> 0 ->
  tegra_pinconf_group_set_one soc g (TEGRA_PINCONF_PACK param a) st =
  Ret None
    (after_writel
       (field_update (reg_val st bank reg) 1 bit
          (Z.b2z (xorb (bool_decide (param = TEGRA_PINCONF_PARAM_PAD_POWER))
                       (negb (u16 a =? 0)))))
       bank reg (after_readl bank reg st)).
Proof.
  intros Hsw Hreg Hbit Hlock.
  unfold tegra_pinconf_group_set_one, bind.
  cbn [TEGRA_PINCONF_UNPACK_PARAM TEGRA_PINCONF_UNPACK_ARG TEGRA_PINCONF_PACK
       fst snd].
  rewrite (tegra_pinconf_reg_present soc g param bank reg bit 1 true st Hsw)
    by lia.
  unfold pmx_readl at 1. fold (after_readl bank reg st).
  set (st1 := after_readl bank reg st).
  set (val := reg_val st bank reg).
  set (arg := if bool_decide (param = TEGRA_PINCONF_PARAM_PAD_POWER)
              then lnot_c (u16 a) else u16 a).
  assert (Harg : lnot_c (lnot_c arg) =
                 Z.b2z (xorb (bool_decide (param = TEGRA_PINCONF_PARAM_PAD_POWER))
                             (negb (u16 a =? 0)))).
  { subst arg. unfold lnot_c.
    destruct (bool_decide (param = TEGRA_PINCONF_PARAM_PAD_POWER));
      destruct (u16 a =? 0); reflexivity. }
  assert (Hnl : bool_decide (param = TEGRA_PINCONF_PARAM_LOCK) = true ->
                negb (lnot_c arg =? 0) = false).
  { intros Hl. apply bool_decide_eq_true in Hl.
    destruct Hlock as [Hne | Hnz]; [contradiction |].
    subst arg. rewrite bool_decide_eq_false_2 by (rewrite Hl; discriminate).
    unfold lnot_c. apply Z.eqb_neq in Hnz. rewrite Hnz. reflexivity. }
  destruct (bool_decide (param = TEGRA_PINCONF_PARAM_LOCK)) eqn:Hl.
  all: [> unfold BIT; rewrite c_shl_ok by lia; rewrite (Hnl eq_refl),
            andb_false_r
        | ]; unfold ret at 1; cbv iota beta.
  all: change (1 =? 1) with true; cbv iota.
  all: rewrite c_shl_ok by lia.
  all: change (u32 (Z.shiftl 1 1 - 1)) with 1.
  all: rewrite Harg.
  all: set (b := xorb _ _).
  all: assert (Hrange : (Z.land (Z.b2z b) (u32 (Z.lnot 1)) =? 0) = true)
    by (destruct b; reflexivity).
  all: rewrite Hrange; cbv [negb].
  all: rewrite c_shl_ok by lia; rewrite c_shl_ok by lia.
  all: rewrite pmx_writel_run; reflexivity.
Qed.

Lemma group_set_single_ok soc group g config st st' :
  groups soc !! group = Some g ->
  tegra_pinconf_group_set_one soc g config st = Ret None st' ->
  tegra_pinconf_group_set soc group [config] st = Ret 0 st'.
Proof.
  intros Hg Hone. unfold tegra_pinconf_group_set, bind.
  rewrite (group_at_run _ _ _ _ Hg). cbn [tegra_pinconf_group_set_loop].
  unfold bind. rewrite Hone. reflexivity.
Qed.

Lemma u32_ones width : 0 <= width < 32 -> u32 (Z.shiftl 1 width - 1) = Z.ones width.
Proof.
  intros Hw. rewrite Z.ones_equiv, Z.shiftl_1_l, <- Z.sub_1_r.
  apply u32_small.
  assert (0 < 2 ^ width) by (apply Z.pow_pos_nonneg; lia).
  assert (2 ^ width <= 2 ^ 32) by (apply Z.pow_le_mono_r; lia).
  lia.
Qed.

(** A run of [tegra_pinconf_group_get] on a parameter present on the
    group: one register read, the field extracted, inverted for
    pad-power. *)
Lemma group_get_run soc group g param c bank reg bit width st :
  groups soc !! group = Some g ->
  pinconf_switch soc g param = Some (bank, reg, bit, width) ->
  0 <= reg -> 0 <= bit < 32 -> 0 <= width < 32 ->
  tegra_pinconf_group_get soc group (TEGRA_PINCONF_PACK param c) st =
  Ret (0, TEGRA_PINCONF_PACK param
            (if bool_decide (param = TEGRA_PINCONF_PARAM_PAD_POWER)
             then lnot_c (u16 (field (reg_val st bank reg) bit width))
             else u16 (field (reg_val st bank reg) bit width)))
      (after_readl bank reg st).
Proof.
  intros Hg Hsw Hreg Hbit Hw.
  unfold tegra_pinconf_group_get, bind. rewrite (group_at_run _ _ _ _ Hg).
  cbn [TEGRA_PINCONF_UNPACK_PARAM TEGRA_PINCONF_PACK fst].
  rewrite (tegra_pinconf_reg_present soc g param bank reg bit width true st Hsw)
    by lia.
  unfold pmx_readl at 1. rewrite c_shl_ok by lia. rewrite c_shr_ok by lia.
  rewrite u32_ones by lia. reflexivity.
Qed.

Lemma field_1 val bit :
  0 <= bit -> field val bit 1 = Z.b2z (Z.testbit val bit).
Proof. intros Hb. unfold field. apply land_shiftr_1. exact Hb. Qed.

(** ** One-bit parameters and truthy arguments *)

(** C6, as the driver has it.  On a parameter whose width on the group is
    1 and whose location is present, any argument that is nonzero as a
    [u16] is accepted: [tegra_pinconf_group_set] returns 0 (no range
    error).  The bit written is 1 for every parameter except pad-power,
    whose argument is inverted first, so that a nonzero argument writes 0.
    No other bit of the register changes. *)
Theorem one_bit_param_accepts_nonzero soc group g param a bank reg bit st :
  groups soc !! group = Some g ->
  pinconf_switch soc g param = Some (bank, reg, bit, 1) ->
  0 <= reg -> 0 <= bit < 32 ->
  u16 a <> 0 ->
  exists st',
    tegra_pinconf_group_set soc group [TEGRA_PINCONF_PACK param a] st
      = Ret 0 st' /\
    field (reg_val st' bank reg) bit 1 =
      (if bool_decide (param = TEGRA_PINCONF_PARAM_PAD_POWER) then 0 else 1) /\
    (forall k, 0 <= k -> k <> bit ->
       Z.testbit (reg_val st' bank reg) k = Z.testbit (reg_val st bank reg) k).
Proof.
  intros Hg Hsw Hreg Hbit Ha.
  eexists. split; [| split].
  - apply (group_set_single_ok _ _ _ _ _ _ Hg).
    apply (group_set_one_bool _ _ _ _ _ _ _ _ Hsw Hreg Hbit). right. exact Ha.
  - rewrite reg_val_after_writel_same. unfold field_update at 1.
    rewrite u32_idem. fold (field_update (reg_val st bank reg) 1 bit
      (Z.b2z (xorb (bool_decide (param = TEGRA_PINCONF_PARAM_PAD_POWER))
                   (negb (u16 a =? 0))))).
    rewrite field_1 by lia.
    rewrite testbit_field_update_1 by (try apply reg_val_range; lia).
    rewrite Z.eqb_refl. apply Z.eqb_neq in Ha. rewrite Ha.
    destruct (bool_decide (param = TEGRA_PINCONF_PARAM_PAD_POWER)); reflexivity.
  - intros k Hk Hne. rewrite reg_val_after_writel_same. unfold field_update at 1.
    rewrite u32_idem. fold (field_update (reg_val st bank reg) 1 bit
      (Z.b2z (xorb (bool_decide (param = TEGRA_PINCONF_PARAM_PAD_POWER))
                   (negb (u16 a =? 0))))).
    rewrite testbit_field_update_1 by (try apply reg_val_range; lia).
    apply Z.eqb_neq in Hne. rewrite Hne. reflexivity.
Qed.

(** C6 on the Tegra234 catalog: tristate (bit 4 of the mux register, one
    bit wide) on [touch_clk_pcc4] with argument 5. *)
Lemma one_bit_param_accepts_nonzero_witness :
  exists st',
    tegra_pinconf_group_set tegra234_pinctrl 0
      [TEGRA_PINCONF_PACK TEGRA_PINCONF_PARAM_TRISTATE 5] (state_of [])
      = Ret 0 st' /\
    field (reg_val st' 1 0x2000) 4 1 = 1 /\
    (forall k, 0 <= k -> k <> 4 ->
       Z.testbit (reg_val st' 1 0x2000) k
       = Z.testbit (reg_val (state_of []) 1 0x2000) k).
Proof.
  apply (one_bit_param_accepts_nonzero tegra234_pinctrl 0
           (PINGROUP "touch_clk_pcc4" [TEGRA_PIN_TOUCH_CLK_PCC4] TEGRA_MUX_GP
              TEGRA_MUX_TOUCH TEGRA_MUX_RSVD2 TEGRA_MUX_RSVD3 0x2000 1
              PINGROUP_REG_Y 5 7 6 8 (-1) 10 12 drive_touch_clk_pcc4)
           TEGRA_PINCONF_PARAM_TRISTATE 5 1 0x2000 4 (state_of [])).
  - reflexivity.
  - reflexivity.
  - lia.
  - lia.
  - vm_compute. discriminate.
Defined.

(** C6 as stated fails for pad-power.  On the demo group pad-power is bit
    3 of the register at 0x14, one bit wide.  Setting it with argument 5
    succeeds and leaves 0 in the field, where the claim has 1. *)
Lemma one_bit_param_pad_power_counterexample :
  pinconf_switch demo_soc (demo_group "demo" 0 [0; 1; 2; 3] 0x10 0)
    TEGRA_PINCONF_PARAM_PAD_POWER = Some (0, 0x14, 3, 1) /\
  (exists st',
     tegra_pinconf_group_set demo_soc 0
       [TEGRA_PINCONF_PACK TEGRA_PINCONF_PARAM_PAD_POWER 5]
       (state_of [(0, 0x14, 0x8)]) = Ret 0 st' /\
     field (reg_val st' 0 0x14) 3 1 = 0) /\
  ~ (exists st',
       tegra_pinconf_group_set demo_soc 0
         [TEGRA_PINCONF_PACK TEGRA_PINCONF_PARAM_PAD_POWER 5]
         (state_of [(0, 0x14, 0x8)]) = Ret 0 st' /\
       field (reg_val st' 0 0x14) 3 1 = 1).
Proof.
  split; [reflexivity |]. split.
  - eexists. split; [vm_compute; reflexivity | vm_compute; reflexivity].
  - intros [st' [Hrun Hfield]]. vm_compute in Hrun.
    injection Hrun as <-. vm_compute in Hfield. discriminate.
Qed.

(** ** Pad power: the inverted bit *)

(** C5, as the driver has it.  Where pad-power resolves to a register
    location, [tegra_pinconf_group_set] with raw argument [a] stores the
    inverted truth value of [a], and a following
    [tegra_pinconf_group_get] returns the truth value of [a]: 1 when [a]
    is nonzero (as a [u16]), 0 when it is zero.  The argument itself comes
    back exactly when it is 0 or 1. *)
Theorem pad_power_set_then_get soc group g a c st :
  groups soc !! group = Some g ->
  0 <= pad_reg g -> 0 <= pad_bit g < 32 ->
  exists st1 st2,
    tegra_pinconf_group_set soc group
      [TEGRA_PINCONF_PACK TEGRA_PINCONF_PARAM_PAD_POWER a] st = Ret 0 st1 /\
    Z.testbit (reg_val st1 (pad_bank g) (pad_reg g)) (pad_bit g)
      = (u16 a =? 0) /\
    tegra_pinconf_group_get soc group
      (TEGRA_PINCONF_PACK TEGRA_PINCONF_PARAM_PAD_POWER c) st1
      = Ret (0, TEGRA_PINCONF_PACK TEGRA_PINCONF_PARAM_PAD_POWER
                  (if u16 a =? 0 then 0 else 1)) st2 /\
    (a = 0 \/ a = 1 -> (if u16 a =? 0 then 0 else 1) = a).
Proof.
  intros Hg Hreg Hbit.
  assert (Hsw : pinconf_switch soc g TEGRA_PINCONF_PARAM_PAD_POWER
                = Some (pad_bank g, pad_reg g, pad_bit g, 1)) by reflexivity.
  assert (Hnl : TEGRA_PINCONF_PARAM_PAD_POWER <> TEGRA_PINCONF_PARAM_LOCK
                \/ u16 a <> 0) by (left; discriminate).
  pose proof (group_set_one_bool soc g TEGRA_PINCONF_PARAM_PAD_POWER a
                (pad_bank g) (pad_reg g) (pad_bit g) st Hsw Hreg Hbit Hnl)
    as Hone.
  rewrite bool_decide_eq_true_2 in Hone by reflexivity.
  set (st1 := after_writel _ _ _ _) in Hone.
  assert (Hstored :
            Z.testbit (reg_val st1 (pad_bank g) (pad_reg g)) (pad_bit g)
            = (u16 a =? 0)).
  { subst st1. rewrite reg_val_after_writel_same. unfold field_update at 1.
    rewrite u32_idem.
    fold (field_update (reg_val st (pad_bank g) (pad_reg g)) 1 (pad_bit g)
            (Z.b2z (xorb true (negb (u16 a =? 0))))).
    rewrite testbit_field_update_1 by (try apply reg_val_range; lia).
    rewrite Z.eqb_refl. destruct (u16 a =? 0); reflexivity. }
  exists st1, (after_readl (pad_bank g) (pad_reg g) st1).
  split; [| split; [| split]].
  - apply (group_set_single_ok _ _ _ _ _ _ Hg). exact Hone.
  - exact Hstored.
  - rewrite (group_get_run soc group g TEGRA_PINCONF_PARAM_PAD_POWER c
               (pad_bank g) (pad_reg g) (pad_bit g) 1 st1 Hg Hsw)
      by lia.
    rewrite bool_decide_eq_true_2 by reflexivity.
    rewrite field_1 by lia. rewrite Hstored.
    destruct (u16 a =? 0); reflexivity.
  - intros [-> | ->]; reflexivity.
Qed.

(** C5 on the demo group, whose pad-power bit is bit 3 of the register at
    0x14: argument 1 comes back as 1, and the stored bit is 0. *)
Lemma pad_power_set_then_get_witness :
  exists st1 st2,
    tegra_pinconf_group_set demo_soc 0
      [TEGRA_PINCONF_PACK TEGRA_PINCONF_PARAM_PAD_POWER 1]
      (state_of [(0, 0x14, 0x8)]) = Ret 0 st1 /\
    Z.testbit (reg_val st1 0 0x14) 3 = false /\
    tegra_pinconf_group_get demo_soc 0
      (TEGRA_PINCONF_PACK TEGRA_PINCONF_PARAM_PAD_POWER 0) st1
      = Ret (0, TEGRA_PINCONF_PACK TEGRA_PINCONF_PARAM_PAD_POWER 1) st2 /\
    (1 = 0 \/ 1 = 1 -> 1 = 1).
Proof.
  apply (pad_power_set_then_get demo_soc 0
           (demo_group "demo" 0 [0; 1; 2; 3] 0x10 0) 1 0
           (state_of [(0, 0x14, 0x8)])).
  - reflexivity.
  - vm_compute. discriminate.
  - split; vm_compute; [discriminate | reflexivity].
Defined.

(** C5 as stated fails for raw arguments other than 0 and 1.  On the demo
    group, setting pad-power to 5 and reading it back returns 1, not 5. *)
Lemma pad_power_roundtrip_counterexample :
  (exists st1 st2,
     tegra_pinconf_group_set demo_soc 0
       [TEGRA_PINCONF_PACK TEGRA_PINCONF_PARAM_PAD_POWER 5] (state_of [])
       = Ret 0 st1 /\
     tegra_pinconf_group_get demo_soc 0
       (TEGRA_PINCONF_PACK TEGRA_PINCONF_PARAM_PAD_POWER 0) st1
       = Ret (0, TEGRA_PINCONF_PACK TEGRA_PINCONF_PARAM_PAD_POWER 1) st2) /\
  ~ (exists st1 st2,
       tegra_pinconf_group_set demo_soc 0
         [TEGRA_PINCONF_PACK TEGRA_PINCONF_PARAM_PAD_POWER 5] (state_of [])
         = Ret 0 st1 /\
       tegra_pinconf_group_get demo_soc 0
         (TEGRA_PINCONF_PACK TEGRA_PINCONF_PARAM_PAD_POWER 0) st1
         = Ret (0, TEGRA_PINCONF_PACK TEGRA_PINCONF_PARAM_PAD_POWER 5) st2).
Proof.
  split.
  - eexists. eexists. split; [vm_compute; reflexivity | vm_compute; reflexivity].
  - intros [st1 [st2 [Hset Hget]]]. vm_compute in Hset.
    injection Hset as <-. vm_compute in Hget. discriminate.
Qed.

(** ** Function selection *)

Lemma find_func_first fs function i n :
  fs !! n = Some function ->
  (forall j, (j < n)%nat -> fs !! j <> Some function) ->
  find_func fs function i = i + Z.of_nat n.
Proof.
  revert i n. induction fs as [| f rest IH]; intros i n Hn Hfirst.
  - rewrite lookup_nil in Hn. discriminate.
  - cbn [find_func]. destruct n as [| n].
    + cbn in Hn. injection Hn as ->. rewrite Z.eqb_refl. lia.
    + destruct (Z.eqb_spec f function) as [-> | Hne].
      * exfalso. apply (Hfirst 0%nat); [lia | reflexivity].
      * rewrite (IH (i + 1) n).
        -- lia.
        -- exact Hn.
        -- intros j Hj. apply (Hfirst (S j)). lia.
Qed.

Lemma find_func_absent fs function i :
  function ∉ fs -> find_func fs function i = i + ARRAY_SIZE fs.
Proof.
  unfold ARRAY_SIZE. revert i. induction fs as [| f rest IH]; intros i Hnot.
  - cbn. lia.
  - cbn [find_func]. destruct (Z.eqb_spec f function) as [-> | Hne].
    + exfalso. apply Hnot. left.
    + rewrite IH.
      * cbn [length]. lia.
      * intros Hin. apply Hnot. right. exact Hin.
Qed.

Lemma find_func_found fs function i :
  find_func fs function i <> i + ARRAY_SIZE fs -> function ∈ fs.
Proof.
  intros Hne. destruct (decide (function ∈ fs)) as [Hin | Hnot]; [exact Hin |].
  exfalso. apply Hne. apply find_func_absent. exact Hnot.
Qed.

(** A run of [tegra_pinctrl_set_mux] that reaches the register write. *)
Lemma set_mux_run soc function group g st :
  groups soc !! group = Some g ->
  0 <= mux_reg g ->
  0 <= mux_bit g < 32 ->
  (sfsel_in_mux soc = true -> 0 <= sfsel_bit g < 32) ->
  find_func (funcs g) function 0 <> ARRAY_SIZE (funcs g) ->
  tegra_pinctrl_set_mux soc function group st =
  Ret 0 (after_writel
           (mux_update soc g (reg_val st (mux_bank g) (mux_reg g))
              (find_func (funcs g) function 0))
           (mux_bank g) (mux_reg g)
           (after_readl (mux_bank g) (mux_reg g) st)).
Proof.
  intros Hg Hreg Hbit Hsf Hfound.
  unfold tegra_pinctrl_set_mux, bind. rewrite (group_at_run _ _ _ _ Hg).
  apply Z.ltb_ge in Hreg. rewrite Hreg.
  apply Z.eqb_neq in Hfound. rewrite Hfound.
  unfold pmx_readl at 1. fold (after_readl (mux_bank g) (mux_reg g) st).
  rewrite c_shl_ok by lia. rewrite c_shl_ok by lia.
  unfold mux_update. destruct (sfsel_in_mux soc).
  - rewrite c_shl_ok by (apply Hsf; reflexivity). unfold ret at 1.
    rewrite pmx_writel_run. reflexivity.
  - unfold ret at 1. rewrite pmx_writel_run. reflexivity.
Qed.

(** The function is not one of the group's slots: [-EINVAL] after the
    [WARN_ON], and nothing else. *)
Lemma set_mux_not_in_group soc function group g st :
  groups soc !! group = Some g ->
  0 <= mux_reg g ->
  find_func (funcs g) function 0 = ARRAY_SIZE (funcs g) ->
  tegra_pinctrl_set_mux soc function group st =
  Ret (- EINVAL) (after_diag WarnFunctionNotInGroup st).
Proof.
  intros Hg Hreg Hnf.
  unfold tegra_pinctrl_set_mux, bind. rewrite (group_at_run _ _ _ _ Hg).
  apply Z.ltb_ge in Hreg. rewrite Hreg.
  apply Z.eqb_eq in Hnf. rewrite Hnf. reflexivity.
Qed.

(** With [sfsel_in_mux] set and a negative [sfsel_bit], the run reaches
    [1 << g->sfsel_bit] and has no defined result. *)
Lemma set_mux_negative_sfsel soc function group g st :
  groups soc !! group = Some g ->
  0 <= mux_reg g ->
  0 <= mux_bit g < 32 ->
  find_func (funcs g) function 0 <> ARRAY_SIZE (funcs g) ->
  sfsel_in_mux soc = true ->
  sfsel_bit g < 0 ->
  tegra_pinctrl_set_mux soc function group st = Undefined.
Proof.
  intros Hg Hreg Hbit Hfound Hsf Hneg.
  unfold tegra_pinctrl_set_mux, bind. rewrite (group_at_run _ _ _ _ Hg).
  apply Z.ltb_ge in Hreg. rewrite Hreg.
  apply Z.eqb_neq in Hfound. rewrite Hfound.
  unfold pmx_readl at 1.
  rewrite c_shl_ok by lia. rewrite c_shl_ok by lia.
  rewrite Hsf. rewrite c_shl_neg by exact Hneg. reflexivity.
Qed.

Lemma testbit_field val bit width k :
  0 <= bit -> 0 <= width -> 0 <= k ->
  Z.testbit (field val bit width) k = (k <? width) && Z.testbit val (k + bit).
Proof.
  intros Hb Hw Hk. unfold field.
  rewrite Z.land_spec, Z.shiftr_spec by exact Hk.
  rewrite Z.testbit_ones_nonneg by lia.
  destruct (k <? width); [apply andb_true_r | apply andb_false_r].
Qed.

(** The two-bit mux field of the value [tegra_pinctrl_set_mux] writes holds
    the slot index, provided the SFIO-select bit lies outside the field. *)
Lemma field_mux_update soc g val i :
  0 <= mux_bit g <= 30 ->
  (sfsel_in_mux soc = true ->
   0 <= sfsel_bit g /\ sfsel_bit g <> mux_bit g /\ sfsel_bit g <> mux_bit g + 1) ->
  0 <= i < 4 ->
  field (mux_update soc g val i) (mux_bit g) 2 = i.
Proof.
  intros Hmb Hsf Hi. apply Z.bits_inj'. intros k Hk.
  rewrite testbit_field by lia.
  destruct (Z.ltb_spec k 2) as [Hlt | Hge].
  2: { symmetry. apply (testbit_small i 2); [lia | simpl; lia | lia]. }
  rewrite andb_true_l.
  assert (Hcore :
    Z.testbit (u32 (Z.lor (u32 (Z.land val (Z.lnot (Z.shiftl 3 (mux_bit g)))))
                          (Z.shiftl i (mux_bit g)))) (k + mux_bit g)
    = Z.testbit i k).
  { rewrite testbit_u32, Z.lor_spec, testbit_u32, Z.land_spec, Z.lnot_spec,
      !Z.shiftl_spec by lia.
    replace (k + mux_bit g - mux_bit g) with k by lia.
    replace (k + mux_bit g <? 32) with true by (symmetry; apply Z.ltb_lt; lia).
    assert (H3 : Z.testbit 3 k = true).
    { assert (k = 0 \/ k = 1) as [-> | ->] by lia; reflexivity. }
    rewrite H3. simpl. rewrite andb_false_r. reflexivity. }
  unfold mux_update. destruct (sfsel_in_mux soc).
  - destruct (Hsf eq_refl) as (Hs0 & Hs1 & Hs2).
    rewrite testbit_u32, Z.lor_spec, Hcore by lia.
    rewrite testbit_shiftl_1 by lia.
    replace (k + mux_bit g <? 32) with true by (symmetry; apply Z.ltb_lt; lia).
    replace (k + mux_bit g =? sfsel_bit g) with false
      by (symmetry; apply Z.eqb_neq; lia).
    rewrite orb_false_r. reflexivity.
  - exact Hcore.
Qed.

(** C2, as the driver has it.  On a group with a mux register, a mux field
    inside the register and (when the catalog sets [sfsel_in_mux]) a valid
    SFIO-select bit outside that field, selecting the function held by
    slot [i] writes [i] into the two-bit mux field and a following
    [tegra_pinconf_group_get] of the function parameter returns [i],
    provided [i] is the first slot holding that function: the search stops
    at the first match. *)
Theorem set_mux_then_get_function soc group g i function c st :
  groups soc !! group = Some g ->
  0 <= mux_reg g ->
  0 <= mux_bit g <= 30 ->
  (sfsel_in_mux soc = true ->
   0 <= sfsel_bit g < 32 /\
   sfsel_bit g <> mux_bit g /\ sfsel_bit g <> mux_bit g + 1) ->
  (i < 4)%nat ->
  funcs g !! i = Some function ->
  (forall j, (j < i)%nat -> funcs g !! j <> Some function) ->
  exists st1 st2,
    tegra_pinctrl_set_mux soc function group st = Ret 0 st1 /\
    field (reg_val st1 (mux_bank g) (mux_reg g)) (mux_bit g) 2 = Z.of_nat i /\
    tegra_pinconf_group_get soc group
      (TEGRA_PINCONF_PACK TEGRA_PINCONF_PARAM_FUNCTION c) st1
      = Ret (0, TEGRA_PINCONF_PACK TEGRA_PINCONF_PARAM_FUNCTION (Z.of_nat i))
            st2.
Proof.
  intros Hg Hreg Hbit Hsf Hi Hslot Hfirst.
  pose proof (find_func_first (funcs g) function 0 i Hslot Hfirst) as Hfind.
  rewrite Z.add_0_l in Hfind.
  assert (Hlen : (i < length (funcs g))%nat).
  { apply lookup_lt_is_Some. exists function. exact Hslot. }
  assert (Hfound : find_func (funcs g) function 0 <> ARRAY_SIZE (funcs g)).
  { rewrite Hfind. unfold ARRAY_SIZE. lia. }
  assert (Hsf' : sfsel_in_mux soc = true -> 0 <= sfsel_bit g < 32).
  { intros H. apply Hsf. exact H. }
  pose proof (set_mux_run soc function group g st Hg Hreg ltac:(lia) Hsf' Hfound)
    as Hrun.
  rewrite Hfind in Hrun.
  set (st1 := after_writel _ _ _ _) in Hrun.
  assert (Hfield :
    field (reg_val st1 (mux_bank g) (mux_reg g)) (mux_bit g) 2 = Z.of_nat i).
  { subst st1. rewrite reg_val_after_writel_same.
    assert (Hu : u32 (mux_update soc g (reg_val st (mux_bank g) (mux_reg g))
                        (Z.of_nat i))
                 = mux_update soc g (reg_val st (mux_bank g) (mux_reg g))
                     (Z.of_nat i)).
    { unfold mux_update. destruct (sfsel_in_mux soc); apply u32_idem. }
    rewrite Hu. apply field_mux_update; [exact Hbit | | lia].
    intros H. destruct (Hsf H) as (? & ? & ?). repeat split; lia. }
  exists st1, (after_readl (mux_bank g) (mux_reg g) st1).
  split; [exact Hrun | split; [exact Hfield |]].
  rewrite (group_get_run soc group g TEGRA_PINCONF_PARAM_FUNCTION c
             (mux_bank g) (mux_reg g) (mux_bit g) 2 st1 Hg eq_refl)
    by lia.
  rewrite bool_decide_eq_false_2 by discriminate.
  rewrite Hfield. unfold u16. rewrite Z.mod_small by lia. reflexivity.
Qed.

(** C2 on the Tegra234 catalog: [touch_clk_pcc4] (table index 0), slot 1,
    function TOUCH. *)
Lemma set_mux_then_get_function_witness :
  exists st1 st2,
    tegra_pinctrl_set_mux tegra234_pinctrl TEGRA_MUX_TOUCH 0 (state_of [])
      = Ret 0 st1 /\
    field (reg_val st1 1 0x2000) 0 2 = 1 /\
    tegra_pinconf_group_get tegra234_pinctrl 0
      (TEGRA_PINCONF_PACK TEGRA_PINCONF_PARAM_FUNCTION 0) st1
      = Ret (0, TEGRA_PINCONF_PACK TEGRA_PINCONF_PARAM_FUNCTION 1) st2.
Proof.
  apply (set_mux_then_get_function tegra234_pinctrl 0
           (PINGROUP "touch_clk_pcc4" [TEGRA_PIN_TOUCH_CLK_PCC4] TEGRA_MUX_GP
              TEGRA_MUX_TOUCH TEGRA_MUX_RSVD2 TEGRA_MUX_RSVD3 0x2000 1
              PINGROUP_REG_Y 5 7 6 8 (-1) 10 12 drive_touch_clk_pcc4)
           1%nat TEGRA_MUX_TOUCH 0 (state_of [])).
  - reflexivity.
  - vm_compute. discriminate.
  - vm_compute. split; discriminate.
  - intros _. vm_compute. repeat split; discriminate.
  - lia.
  - reflexivity.
  - intros j Hj. destruct j as [| j]; [vm_compute; discriminate | lia].
Defined.

(** C2 as stated fails when two slots hold the same function.  The group
    of [dup_soc] has slots [4; 4; 5; 6]: selecting the function of slot 1
    writes 0 into the mux field and the function parameter reads back 0,
    not 1. *)
Lemma set_mux_duplicate_slot_counterexample :
  (funcs <$> groups dup_soc !! 0%nat) = Some [4; 4; 5; 6] /\
  (exists st1 st2,
     tegra_pinctrl_set_mux dup_soc 4 0 (state_of []) = Ret 0 st1 /\
     field (reg_val st1 0 0x10) 0 2 = 0 /\
     tegra_pinconf_group_get dup_soc 0
       (TEGRA_PINCONF_PACK TEGRA_PINCONF_PARAM_FUNCTION 0) st1
       = Ret (0, TEGRA_PINCONF_PACK TEGRA_PINCONF_PARAM_FUNCTION 0) st2) /\
  ~ (exists st1 st2,
       tegra_pinctrl_set_mux dup_soc 4 0 (state_of []) = Ret 0 st1 /\
       field (reg_val st1 0 0x10) 0 2 = 1 /\
       tegra_pinconf_group_get dup_soc 0
         (TEGRA_PINCONF_PACK TEGRA_PINCONF_PARAM_FUNCTION 0) st1
         = Ret (0, TEGRA_PINCONF_PACK TEGRA_PINCONF_PARAM_FUNCTION 1) st2).
Proof.
  split; [reflexivity |]. split.
  - eexists. eexists.
    split; [vm_compute; reflexivity |].
    split; [vm_compute; reflexivity | vm_compute; reflexivity].
  - intros (st1 & st2 & Hset & Hfield & _). vm_compute in Hset.
    injection Hset as <-. vm_compute in Hfield. discriminate.
Qed.

(** ** The scenario on [touch_clk_pcc4] *)

(** C3.  The first entry of [tegra234_groups] is [touch_clk_pcc4] with
    function slots GP, TOUCH, RSVD2, RSVD3.  From every state, selecting
    TOUCH returns 0 and leaves 1 in the two-bit mux field of the group's
    mux register (bank 1, offset 0x2000); selecting CAN0 returns [-EINVAL]
    at the "function not in group" check and touches no register. *)
Theorem touch_clk_pcc4_select st :
  (name <$> tegra234_groups !! 0%nat) = Some "touch_clk_pcc4"%string /\
  (funcs <$> tegra234_groups !! 0%nat)
    = Some [TEGRA_MUX_GP; TEGRA_MUX_TOUCH; TEGRA_MUX_RSVD2; TEGRA_MUX_RSVD3] /\
  (exists st1,
     tegra_pinctrl_set_mux tegra234_pinctrl TEGRA_MUX_TOUCH 0 st = Ret 0 st1 /\
     field (reg_val st1 1 0x2000) 0 2 = 1) /\
  tegra_pinctrl_set_mux tegra234_pinctrl TEGRA_MUX_CAN0 0 st
    = Ret (- EINVAL) (after_diag WarnFunctionNotInGroup st).
Proof.
  split; [reflexivity |]. split; [reflexivity |].
  pose (g := PINGROUP "touch_clk_pcc4" [TEGRA_PIN_TOUCH_CLK_PCC4] TEGRA_MUX_GP
               TEGRA_MUX_TOUCH TEGRA_MUX_RSVD2 TEGRA_MUX_RSVD3 0x2000 1
               PINGROUP_REG_Y 5 7 6 8 (-1) 10 12 drive_touch_clk_pcc4).
  assert (Hg : groups tegra234_pinctrl !! 0%nat = Some g) by reflexivity.
  split.
  - eexists. split.
    + apply (set_mux_run tegra234_pinctrl TEGRA_MUX_TOUCH 0 g st Hg).
      * vm_compute. discriminate.
      * vm_compute. split; [discriminate | reflexivity].
      * intros _. vm_compute. split; [discriminate | reflexivity].
      * vm_compute. discriminate.
    + rewrite reg_val_after_writel_same.
      change (find_func (funcs g) TEGRA_MUX_TOUCH 0) with 1.
      change (mux_bank g) with 1. change (mux_reg g) with 0x2000.
      assert (Hu : forall v, u32 (mux_update tegra234_pinctrl g v 1)
                             = mux_update tegra234_pinctrl g v 1).
      { intros v. unfold mux_update. cbn [sfsel_in_mux tegra234_pinctrl].
        apply u32_idem. }
      rewrite Hu.
      apply (field_mux_update tegra234_pinctrl g).
      * vm_compute. split; discriminate.
      * intros _. vm_compute. repeat split; discriminate.
      * lia.
  - apply (set_mux_not_in_group tegra234_pinctrl TEGRA_MUX_CAN0 0 g st Hg).
    + vm_compute. discriminate.
    + reflexivity.
Qed.

(** ** The SFIO-select shift *)

(** C10 fails on the code.  [eqos_comp], [qspi_comp] and [sdmmc1_comp]
    (table indexes 50, 91 and 94) have a mux register and [sfsel_bit = -1],
    and the catalog sets [sfsel_in_mux]: selecting the group's first
    function reaches [1 << g->sfsel_bit] with a negative count, which has
    no defined result, from every state. *)
Theorem set_mux_comp_groups_shift_undefined st :
  (name <$> tegra234_groups !! 50%nat) = Some "eqos_comp"%string /\
  (name <$> tegra234_groups !! 91%nat) = Some "qspi_comp"%string /\
  (name <$> tegra234_groups !! 94%nat) = Some "sdmmc1_comp"%string /\
  sfsel_in_mux tegra234_pinctrl = true /\
  (mux_reg <$> tegra234_groups !! 50%nat) = Some 0x15050 /\
  (mux_reg <$> tegra234_groups !! 91%nat) = Some 0xB060 /\
  (mux_reg <$> tegra234_groups !! 94%nat) = Some 0x8010 /\
  (sfsel_bit <$> tegra234_groups !! 50%nat) = Some (-1) /\
  (sfsel_bit <$> tegra234_groups !! 91%nat) = Some (-1) /\
  (sfsel_bit <$> tegra234_groups !! 94%nat) = Some (-1) /\
  tegra_pinctrl_set_mux tegra234_pinctrl TEGRA_MUX_EQOS 50 st = Undefined /\
  tegra_pinctrl_set_mux tegra234_pinctrl TEGRA_MUX_QSPI 91 st = Undefined /\
  tegra_pinctrl_set_mux tegra234_pinctrl TEGRA_MUX_SDMMC1 94 st = Undefined.
Proof.
  do 10 (split; [reflexivity |]).
  split; [| split].
  - destruct (tegra234_groups !! 50%nat) as [g |] eqn:Hg; [| discriminate].
    apply (set_mux_negative_sfsel tegra234_pinctrl _ 50 g st Hg);
      vm_compute in Hg; injection Hg as <-; vm_compute;
      try reflexivity; try discriminate; split; try discriminate; reflexivity.
  - destruct (tegra234_groups !! 91%nat) as [g |] eqn:Hg; [| discriminate].
    apply (set_mux_negative_sfsel tegra234_pinctrl _ 91 g st Hg);
      vm_compute in Hg; injection Hg as <-; vm_compute;
      try reflexivity; try discriminate; split; try discriminate; reflexivity.
  - destruct (tegra234_groups !! 94%nat) as [g |] eqn:Hg; [| discriminate].
    apply (set_mux_negative_sfsel tegra234_pinctrl _ 94 g st Hg);
      vm_compute in Hg; injection Hg as <-; vm_compute;
      try reflexivity; try discriminate; split; try discriminate; reflexivity.
Qed.

(** ** Batches of parameters *)

(** Case analysis on every test a run went through. *)
Ltac break_runs :=
  match goal with
  | H : Ret _ _ = Ret _ _ |- _ => inversion H; clear H; subst
  | H : Undefined = Ret _ _ |- _ => discriminate H
  | H : ret _ _ = Ret _ _ |- _ => unfold ret in H
  | H : undefined _ = Ret _ _ |- _ => discriminate H
  | H : context [match ?x with _ => _ end] |- _ => destruct x eqn:?
  end.

Lemma tegra_pinconf_reg_effect soc g param report st r st' :
  tegra_pinconf_reg soc g param report st = Ret r st' ->
  regs st' = regs st /\ gpio_conf st' = gpio_conf st /\
  writes (trace st') = writes (trace st) /\
  accesses (trace st') = accesses (trace st) /\
  (forall e, r = inl e -> e = - ENOTSUPP) /\
  (forall loc, r = inr loc -> st' = st).
Proof.
  unfold tegra_pinconf_reg. intros H.
  destruct (pinconf_switch soc g param) as [[[[bank reg] bit] width] |].
  - destruct ((reg <? 0) || (bit <? 0)).
    + destruct report; injection H as <- <-;
        repeat split; try reflexivity; intros ? [= <-]; reflexivity.
    + injection H as <- <-. repeat split; try reflexivity. intros ? [=].
  - injection H as <- <-. repeat split; try reflexivity;
      [intros ? [= <-]; reflexivity | intros ? [=]].
Qed.

(** An iteration that returns from the function returns a negative errno
    and has written no register. *)
Lemma group_set_one_error soc g config e st st' :
  tegra_pinconf_group_set_one soc g config st = Ret (Some e) st' ->
  e < 0 /\ regs st' = regs st /\ gpio_conf st' = gpio_conf st /\
  writes (trace st') = writes (trace st).
Proof.
  intros H. unfold tegra_pinconf_group_set_one, bind in H.
  destruct (tegra_pinconf_reg soc g (TEGRA_PINCONF_UNPACK_PARAM config) true st)
    as [[e0 | [[[bank reg] bit] width]] s |] eqn:Hreg; [| | discriminate].
  - apply tegra_pinconf_reg_effect in Hreg.
    destruct Hreg as (Hr & Hg & Hw & _ & He & _).
    injection H as <- <-. rewrite (He e0 eq_refl).
    repeat split; assumption.
  - apply tegra_pinconf_reg_effect in Hreg.
    destruct Hreg as (_ & _ & _ & _ & _ & Hs). rewrite (Hs _ eq_refl) in H.
    clear Hs s.
    unfold ret, undefined, pmx_readl, pmx_writel, writel_relaxed, BIT, c_shl,
      dev_err, emit, bind in H.
    repeat break_runs; cbn; repeat split; reflexivity.
Qed.

Lemma group_set_loop_prefix soc g pre rest st st1 :
  tegra_pinconf_group_set_loop soc g pre st = Ret 0 st1 ->
  tegra_pinconf_group_set_loop soc g (pre ++ rest) st
  = tegra_pinconf_group_set_loop soc g rest st1.
Proof.
  revert st. induction pre as [| config pre IH]; intros st Hpre.
  - cbn in Hpre. injection Hpre as ->. reflexivity.
  - cbn [app tegra_pinconf_group_set_loop] in *. unfold bind in *.
    destruct (tegra_pinconf_group_set_one soc g config st) as [[e |] s |] eqn:Hone;
      [| apply IH; exact Hpre | discriminate].
    unfold ret in Hpre. injection Hpre as -> ->.
    apply group_set_one_error in Hone. lia.
Qed.

(** C1, as the driver has it.  When the parameters of [pre] have all been
    applied (the batch [pre] returns 0, leaving [st1]) and the next
    parameter [config] fails on [st1] with error [e], the batch
    [pre ++ config :: rest] returns [e] at once: the writes of [pre] stay
    (the register file is that of [st1]), [config] writes nothing, and no
    parameter of [rest] is looked at, whatever [rest] is. *)
Theorem group_set_stops_at_first_failure
    soc group g pre config rest e st st1 st2 :
  groups soc !! group = Some g ->
  tegra_pinconf_group_set soc group pre st = Ret 0 st1 ->
  tegra_pinconf_group_set soc group [config] st1 = Ret e st2 ->
  e <> 0 ->
  tegra_pinconf_group_set soc group (pre ++ config :: rest) st = Ret e st2 /\
  regs st2 = regs st1 /\
  writes (trace st2) = writes (trace st1).
Proof.
  intros Hg Hpre Hcfg He.
  unfold tegra_pinconf_group_set, bind in *.
  rewrite (group_at_run soc group g st Hg) in Hpre |- *.
  rewrite (group_at_run soc group g st1 Hg) in Hcfg.
  rewrite (group_set_loop_prefix _ _ _ _ _ _ Hpre).
  cbn [tegra_pinconf_group_set_loop] in *. unfold bind in *.
  destruct (tegra_pinconf_group_set_one soc g config st1) as [[e' |] s |] eqn:Hone;
    cbn in Hcfg; [| | discriminate].
  - unfold ret in *. injection Hcfg as -> ->.
    apply group_set_one_error in Hone. destruct Hone as (_ & Hr & _ & Hw).
    repeat split; assumption.
  - cbn in Hcfg. unfold ret in Hcfg. injection Hcfg as <- _. contradiction.
Qed.

(** C1 on the Tegra234 catalog, group [touch_clk_pcc4]: tristate 1 is
    applied, pull 5 does not fit two bits, enable-input is never reached. *)
Lemma group_set_stops_at_first_failure_witness :
  tegra_pinconf_group_set tegra234_pinctrl 0
    ([TEGRA_PINCONF_PACK TEGRA_PINCONF_PARAM_TRISTATE 1]
     ++ TEGRA_PINCONF_PACK TEGRA_PINCONF_PARAM_PULL 5
        :: [TEGRA_PINCONF_PACK TEGRA_PINCONF_PARAM_ENABLE_INPUT 1])
    (state_of [])
  = Ret (- EINVAL)
      (after_diag (ErrTooBig (TEGRA_PINCONF_PARAM_PULL, 5) 5 2)
         (after_readl 1 0x2000
            (after_writel 16 1 0x2000 (after_readl 1 0x2000 (state_of []))))) /\
  regs (after_diag (ErrTooBig (TEGRA_PINCONF_PARAM_PULL, 5) 5 2)
          (after_readl 1 0x2000
             (after_writel 16 1 0x2000 (after_readl 1 0x2000 (state_of [])))))
  = regs (after_writel 16 1 0x2000 (after_readl 1 0x2000 (state_of []))) /\
  writes (trace (after_diag (ErrTooBig (TEGRA_PINCONF_PARAM_PULL, 5) 5 2)
                   (after_readl 1 0x2000
                      (after_writel 16 1 0x2000
                         (after_readl 1 0x2000 (state_of []))))))
  = writes (trace (after_writel 16 1 0x2000
                     (after_readl 1 0x2000 (state_of [])))).
Proof.
  apply (group_set_stops_at_first_failure tegra234_pinctrl 0
           (PINGROUP "touch_clk_pcc4" [TEGRA_PIN_TOUCH_CLK_PCC4] TEGRA_MUX_GP
              TEGRA_MUX_TOUCH TEGRA_MUX_RSVD2 TEGRA_MUX_RSVD3 0x2000 1
              PINGROUP_REG_Y 5 7 6 8 (-1) 10 12 drive_touch_clk_pcc4)).
  - reflexivity.
  - vm_compute. reflexivity.
  - vm_compute. reflexivity.
  - vm_compute. discriminate.
Defined.

(** C1 as stated fails: the batch stops at the first failing parameter.
    On [touch_clk_pcc4] with the batch tristate 1, pull 5, enable-input 1,
    the driver returns [-EINVAL] with the enable-input bit (bit 6) still 0,
    where best-effort processing would have set it and collected one
    error. *)
Lemma group_set_best_effort_counterexample :
  (exists st',
     tegra_pinconf_group_set tegra234_pinctrl 0
       [TEGRA_PINCONF_PACK TEGRA_PINCONF_PARAM_TRISTATE 1;
        TEGRA_PINCONF_PACK TEGRA_PINCONF_PARAM_PULL 5;
        TEGRA_PINCONF_PACK TEGRA_PINCONF_PARAM_ENABLE_INPUT 1] (state_of [])
     = Ret (- EINVAL) st' /\
     reg_val st' 1 0x2000 = 0x10) /\
  (exists g st'',
     tegra234_groups !! 0%nat = Some g /\
     setGroupConfig_best_effort tegra234_pinctrl g
       [TEGRA_PINCONF_PACK TEGRA_PINCONF_PARAM_TRISTATE 1;
        TEGRA_PINCONF_PACK TEGRA_PINCONF_PARAM_PULL 5;
        TEGRA_PINCONF_PACK TEGRA_PINCONF_PARAM_ENABLE_INPUT 1] (state_of [])
     = Ret [(TEGRA_PINCONF_PACK TEGRA_PINCONF_PARAM_PULL 5, - EINVAL)] st'' /\
     reg_val st'' 1 0x2000 = 0x50) /\
  ~ (exists g e st' errs st'',
       tegra234_groups !! 0%nat = Some g /\
       tegra_pinconf_group_set tegra234_pinctrl 0
         [TEGRA_PINCONF_PACK TEGRA_PINCONF_PARAM_TRISTATE 1;
          TEGRA_PINCONF_PACK TEGRA_PINCONF_PARAM_PULL 5;
          TEGRA_PINCONF_PACK TEGRA_PINCONF_PARAM_ENABLE_INPUT 1] (state_of [])
       = Ret e st' /\
       setGroupConfig_best_effort tegra234_pinctrl g
         [TEGRA_PINCONF_PACK TEGRA_PINCONF_PARAM_TRISTATE 1;
          TEGRA_PINCONF_PACK TEGRA_PINCONF_PARAM_PULL 5;
          TEGRA_PINCONF_PACK TEGRA_PINCONF_PARAM_ENABLE_INPUT 1] (state_of [])
       = Ret errs st'' /\
       reg_val st' 1 0x2000 = reg_val st'' 1 0x2000).
Proof.
  split; [| split].
  - eexists. split; [vm_compute; reflexivity | vm_compute; reflexivity].
  - eexists. eexists. split; [reflexivity |].
    split; [vm_compute; reflexivity | vm_compute; reflexivity].
  - intros (g & e & st' & errs & st'' & Hg & Hcode & Hspec & Heq).
    vm_compute in Hg. injection Hg as <-.
    vm_compute in Hcode. injection Hcode as <- <-.
    vm_compute in Hspec. injection Hspec as <- <-.
    vm_compute in Heq. discriminate.
Qed.

(** ** Parked bits *)

Lemma reg_val_after_writel val bank reg st bank' reg' :
  reg_val (after_writel val bank reg st) bank' reg' =
  if bool_decide ((u32 bank, u32 reg) = (u32 bank', u32 reg'))
  then u32 val else reg_val st bank' reg'.
Proof.
  destruct (decide ((u32 bank, u32 reg) = (u32 bank', u32 reg'))) as [He | Hne].
  - rewrite bool_decide_eq_true_2 by exact He.
    unfold reg_val, after_writel. simpl. rewrite <- He.
    rewrite lookup_insert_eq. simpl. apply u32_idem.
  - rewrite bool_decide_eq_false_2 by exact Hne.
    apply reg_val_after_writel_other. exact Hne.
Qed.

Lemma parked_target_u32 g :
  (u32 (parked_target g).1, u32 (parked_target g).2) = parked_target g.
Proof. unfold parked_target. simpl. rewrite !u32_idem. reflexivity. Qed.

(** One iteration on a group the pass processes. *)
Lemma clear_parked_bits_one_run g st :
  0 < parked_bitmask g ->
  clear_parked_bits_one g st =
  Ret tt (after_writel
            (Z.land (reg_val st (parked_target g).1 (parked_target g).2)
                    (Z.lnot (parked_bitmask g)))
            (parked_target g).1 (parked_target g).2
            (after_readl (parked_target g).1 (parked_target g).2 st)).
Proof.
  intros Hpos. unfold clear_parked_bits_one.
  apply Z.ltb_lt in Hpos. rewrite Hpos.
  unfold bind, pmx_readl at 1. rewrite pmx_writel_run.
  unfold after_writel, after_readl, parked_target. cbn [fst snd].
  rewrite !u32_idem. rewrite land_u32_l by apply reg_val_range.
  reflexivity.
Qed.

(** The whole pass: it always completes, leaves the shadow area alone, and
    every register ends as its prior value with the parked bitmasks of the
    groups targeting it cleared. *)
Lemma clear_parked_bits_loop_run gs st :
  exists st',
    clear_parked_bits_loop gs st = Ret tt st' /\
    gpio_conf st' = gpio_conf st /\
    forall bank reg,
      reg_val st' bank reg =
      Z.land (reg_val st bank reg)
             (Z.lnot (parked_mask_for gs (u32 bank) (u32 reg))).
Proof.
  revert st. induction gs as [| g rest IH]; intros st.
  - exists st. split; [reflexivity |]. split; [reflexivity |].
    intros bank reg. cbn [parked_mask_for]. change (Z.lnot 0) with (-1).
    rewrite Z.land_m1_r. reflexivity.
  - cbn [clear_parked_bits_loop parked_mask_for]. unfold bind.
    destruct (Z.ltb_spec 0 (parked_bitmask g)) as [Hpos | Hle].
    + rewrite (clear_parked_bits_one_run g st Hpos).
      set (st1 := after_writel _ _ _ _).
      destruct (IH st1) as (st' & Hrun & Hgc & Hregs).
      exists st'. split; [exact Hrun |]. split; [rewrite Hgc; reflexivity |].
      intros bank reg. rewrite Hregs. subst st1.
      rewrite reg_val_after_writel, reg_val_after_readl.
      rewrite parked_target_u32. cbn [andb].
      destruct (decide (parked_target g = (u32 bank, u32 reg))) as [He | Hne].
      * rewrite !bool_decide_eq_true_2 by exact He.
        assert (Hsame : reg_val st (parked_target g).1 (parked_target g).2
                        = reg_val st bank reg).
        { unfold reg_val. rewrite parked_target_u32, He. reflexivity. }
        rewrite Hsame. rewrite land_u32_l by apply reg_val_range.
        apply Z.bits_inj'. intros k Hk.
        rewrite !Z.land_spec, !Z.lnot_spec, Z.lor_spec by exact Hk.
        destruct (Z.testbit (reg_val st bank reg) k),
          (Z.testbit (parked_bitmask g) k),
          (Z.testbit (parked_mask_for rest (u32 bank) (u32 reg)) k);
          reflexivity.
      * rewrite !bool_decide_eq_false_2 by exact Hne. reflexivity.
    + assert (Hone : clear_parked_bits_one g st = Ret tt st).
      { unfold clear_parked_bits_one.
        replace (0 <? parked_bitmask g) with false
          by (symmetry; apply Z.ltb_ge; exact Hle).
        reflexivity. }
      rewrite Hone.
      replace (0 <? parked_bitmask g) with false
        by (symmetry; apply Z.ltb_ge; exact Hle).
      cbn [andb]. apply IH.
Qed.

Lemma parked_mask_for_covers gs g k :
  g ∈ gs -> 0 < parked_bitmask g ->
  Z.testbit (parked_bitmask g) k = true ->
  Z.testbit (parked_mask_for gs (parked_target g).1 (parked_target g).2) k
  = true.
Proof.
  intros Hin Hpos Hbit. induction gs as [| g' rest IH].
  - apply elem_of_nil in Hin. contradiction.
  - cbn [parked_mask_for]. apply elem_of_cons in Hin.
    destruct Hin as [<- | Hin].
    + apply Z.ltb_lt in Hpos. rewrite Hpos.
      rewrite bool_decide_eq_true_2 by (destruct (parked_target g); reflexivity).
      cbn [andb]. rewrite Z.lor_spec, Hbit. reflexivity.
    + destruct ((0 <? parked_bitmask g')
                && bool_decide (parked_target g'
                                = ((parked_target g).1, (parked_target g).2))).
      * rewrite Z.lor_spec, (IH Hin). apply orb_true_r.
      * apply IH. exact Hin.
Qed.

(** C8, as the driver has it.  The pass always completes.  Afterwards, for
    every group with a positive parked bitmask, the register it targets
    (mux register unless the offset is -1, else drive register) reads 0 at
    every bit of that bitmask; and every bit of every register that is in
    no parked bitmask of a group targeting that register is unchanged.
    (Bits of another group's bitmask on the same register are cleared
    too.) *)
Theorem clear_parked_bits_effect soc g st :
  g ∈ groups soc ->
  0 < parked_bitmask g ->
  exists st',
    tegra_pinctrl_clear_parked_bits soc st = Ret tt st' /\
    (forall k, 0 <= k ->
       Z.testbit (parked_bitmask g) k = true ->
       Z.testbit (reg_val st' (parked_target g).1 (parked_target g).2) k
       = false) /\
    (forall bank reg k, 0 <= k ->
       Z.testbit (parked_mask_for (groups soc) (u32 bank) (u32 reg)) k = false ->
       Z.testbit (reg_val st' bank reg) k = Z.testbit (reg_val st bank reg) k).
Proof.
  intros Hin Hpos.
  destruct (clear_parked_bits_loop_run (groups soc) st)
    as (st' & Hrun & _ & Hregs).
  exists st'. split; [exact Hrun |]. split.
  - intros k Hk Hbit. rewrite Hregs, Z.land_spec, Z.lnot_spec by exact Hk.
    pose proof (parked_target_u32 g) as Hu.
    apply (f_equal fst) in Hu as Hu1. apply (f_equal snd) in Hu as Hu2.
    cbn [fst snd] in Hu1, Hu2. rewrite Hu1, Hu2.
    rewrite (parked_mask_for_covers _ _ _ Hin Hpos Hbit). apply andb_false_r.
  - intros bank reg k Hk Hout.
    rewrite Hregs, Z.land_spec, Z.lnot_spec, Hout by exact Hk.
    apply andb_true_r.
Qed.

(** C8 on [parked_soc]: group [park_a] with bitmask 1, register 0x10
    holding 7. *)
Lemma clear_parked_bits_effect_witness :
  exists st',
    tegra_pinctrl_clear_parked_bits parked_soc (state_of [(0, 0x10, 7)])
      = Ret tt st' /\
    (forall k, 0 <= k ->
       Z.testbit 1 k = true -> Z.testbit (reg_val st' 0 0x10) k = false) /\
    (forall bank reg k, 0 <= k ->
       Z.testbit (parked_mask_for (groups parked_soc) (u32 bank) (u32 reg)) k
       = false ->
       Z.testbit (reg_val st' bank reg) k
       = Z.testbit (reg_val (state_of [(0, 0x10, 7)]) bank reg) k).
Proof.
  apply (clear_parked_bits_effect parked_soc
           (demo_group "park_a" 0 [0; 1; 2; 3] 0x10 0x1)
           (state_of [(0, 0x10, 7)])).
  - apply elem_of_cons. left. reflexivity.
  - reflexivity.
Defined.

(** C8 as stated fails when two parked groups target one register.  In
    [parked_soc] both groups target register 0x10, with bitmasks 1 and 2.
    From the value 3 the pass leaves 0: bit 1 is outside the bitmask of
    [park_a] and was 1 before, yet it is cleared. *)
Lemma clear_parked_bits_shared_register_counterexample :
  parked_target (demo_group "park_a" 0 [0; 1; 2; 3] 0x10 0x1) = (0, 0x10) /\
  Z.testbit (parked_bitmask (demo_group "park_a" 0 [0; 1; 2; 3] 0x10 0x1)) 1
    = false /\
  Z.testbit (reg_val (state_of [(0, 0x10, 3)]) 0 0x10) 1 = true /\
  (exists st',
     tegra_pinctrl_clear_parked_bits parked_soc (state_of [(0, 0x10, 3)])
       = Ret tt st' /\
     reg_val st' 0 0x10 = 0) /\
  ~ (exists st',
       tegra_pinctrl_clear_parked_bits parked_soc (state_of [(0, 0x10, 3)])
         = Ret tt st' /\
       forall k, 0 <= k ->
         Z.testbit
           (parked_bitmask (demo_group "park_a" 0 [0; 1; 2; 3] 0x10 0x1)) k
           = false ->
         Z.testbit (reg_val st' 0 0x10) k
         = Z.testbit (reg_val (state_of [(0, 0x10, 3)]) 0 0x10) k).
Proof.
  split; [reflexivity |]. split; [reflexivity |]. split; [reflexivity |].
  split.
  - eexists. split; [vm_compute; reflexivity | vm_compute; reflexivity].
  - intros (st' & Hrun & Hkeep). vm_compute in Hrun. injection Hrun as <-.
    specialize (Hkeep 1 ltac:(lia) eq_refl). vm_compute in Hkeep.
    discriminate.
Qed.

(** ** GPIO request and release *)

Lemma keeps_ret {A} (a : A) : keeps_gpio_conf (ret a).
Proof. intros st a' st' H. inversion H; subst. reflexivity. Qed.

Lemma keeps_undefined {A} : keeps_gpio_conf (@undefined A).
Proof. intros st a st' H. discriminate. Qed.

Lemma keeps_bind {A B} (c : M A) (k : A -> M B) :
  keeps_gpio_conf c -> (forall a, keeps_gpio_conf (k a)) ->
  keeps_gpio_conf (bind c k).
Proof.
  intros Hc Hk st b st' H. unfold bind in H.
  destruct (c st) as [a s |] eqn:Hcs; [| discriminate].
  rewrite (Hk a s b st' H). apply (Hc st a s Hcs).
Qed.

Lemma keeps_emit e : keeps_gpio_conf (emit e).
Proof. intros st a st' H. inversion H; subst. reflexivity. Qed.

Lemma keeps_pmx_readl bank reg : keeps_gpio_conf (pmx_readl bank reg).
Proof. intros st a st' H. inversion H; subst. reflexivity. Qed.

Lemma keeps_pmx_writel val bank reg : keeps_gpio_conf (pmx_writel val bank reg).
Proof.
  intros st a st' H. rewrite pmx_writel_run in H. inversion H; subst.
  reflexivity.
Qed.

Lemma keeps_c_shl w a n : keeps_gpio_conf (c_shl w a n).
Proof.
  unfold c_shl. destruct ((0 <=? n) && (n <? w));
    [apply keeps_ret | apply keeps_undefined].
Qed.

Lemma keeps_c_shr w a n : keeps_gpio_conf (c_shr w a n).
Proof.
  unfold c_shr. destruct ((0 <=? n) && (n <? w));
    [apply keeps_ret | apply keeps_undefined].
Qed.

Lemma keeps_group_at soc group : keeps_gpio_conf (group_at soc group).
Proof.
  unfold group_at. destruct (groups soc !! group);
    [apply keeps_ret | apply keeps_undefined].
Qed.

(** Decompose a computation built from the pieces above. *)
Ltac keeps_step :=
  match goal with
  | |- keeps_gpio_conf (ret _) => apply keeps_ret
  | |- keeps_gpio_conf undefined => apply keeps_undefined
  | |- keeps_gpio_conf (emit _) => apply keeps_emit
  | |- keeps_gpio_conf (WARN_ON _) => apply keeps_emit
  | |- keeps_gpio_conf (dev_err _) => apply keeps_emit
  | |- keeps_gpio_conf (pmx_readl _ _) => apply keeps_pmx_readl
  | |- keeps_gpio_conf (pmx_writel _ _ _) => apply keeps_pmx_writel
  | |- keeps_gpio_conf (c_shl _ _ _) => apply keeps_c_shl
  | |- keeps_gpio_conf (c_shr _ _ _) => apply keeps_c_shr
  | |- keeps_gpio_conf (BIT _) => apply keeps_c_shl
  | |- keeps_gpio_conf (group_at _ _) => apply keeps_group_at
  | |- keeps_gpio_conf (bind _ _) => apply keeps_bind; [| intros ?]
  | |- keeps_gpio_conf (match ?x with _ => _ end) => destruct x
  | |- keeps_gpio_conf (let _ := _ in _) => cbv zeta
  end.

Lemma keeps_set_mux soc function group :
  keeps_gpio_conf (tegra_pinctrl_set_mux soc function group).
Proof. unfold tegra_pinctrl_set_mux. repeat keeps_step. Qed.

Lemma keeps_pinconf_reg soc g param report :
  keeps_gpio_conf (tegra_pinconf_reg soc g param report).
Proof. unfold tegra_pinconf_reg. repeat keeps_step. Qed.

Lemma keeps_group_set_one soc g config :
  keeps_gpio_conf (tegra_pinconf_group_set_one soc g config).
Proof.
  unfold tegra_pinconf_group_set_one.
  apply keeps_bind; [apply keeps_pinconf_reg | intros r].
  repeat keeps_step.
Qed.

Lemma keeps_group_set soc group configs :
  keeps_gpio_conf (tegra_pinconf_group_set soc group configs).
Proof.
  unfold tegra_pinconf_group_set.
  apply keeps_bind; [apply keeps_group_at | intros g].
  induction configs as [| config rest IH]; cbn [tegra_pinconf_group_set_loop].
  - apply keeps_ret.
  - apply keeps_bind; [apply keeps_group_set_one | intros [e |]].
    + apply keeps_ret.
    + exact IH.
Qed.

Lemma keeps_run_ops soc ops : keeps_gpio_conf (run_ops soc ops).
Proof.
  induction ops as [| op rest IH]; cbn [run_ops].
  - apply keeps_ret.
  - apply keeps_bind; [| intros _; exact IH].
    destruct op; cbn [run_op];
      (apply keeps_bind; [| intros _; apply keeps_ret]).
    + apply keeps_set_mux.
    + apply keeps_group_set.
Qed.

Lemma find_pin_group_found soc offset g :
  groups soc !! find_pin_group (groups soc) offset 0 = Some g ->
  bool_decide (find_pin_group (groups soc) offset 0 = ngroups soc) = false.
Proof.
  intros Hg. apply bool_decide_eq_false_2. intros Heq.
  apply lookup_lt_Some in Hg. unfold ngroups in Heq. lia.
Qed.

(** A run of [tegra_pinctrl_gpio_save_config] on a pin whose group has a
    mux register: one read, the value stored under the pin number. *)
Lemma gpio_save_config_run soc offset g st :
  groups soc !! find_pin_group (groups soc) offset 0 = Some g ->
  (0 <=? mux_reg g) = true ->
  tegra_pinctrl_gpio_save_config soc offset st =
  Ret 0 {| regs := regs st;
           gpio_conf := <[offset := reg_val st (mux_bank g) (mux_reg g)]>
                          (gpio_conf st);
           trace := EvReadl (u32 (mux_bank g)) (u32 (mux_reg g)) :: trace st |}.
Proof.
  intros Hg Hreg. unfold tegra_pinctrl_gpio_save_config.
  rewrite (find_pin_group_found soc offset g Hg). unfold bind.
  rewrite (group_at_run _ _ _ _ Hg). rewrite Hreg. reflexivity.
Qed.

(** ** The search for the group of a GPIO pin *)

Lemma find_pin_group_bounds gs offset n :
  (n <= find_pin_group gs offset n <= n + length gs)%nat.
Proof.
  revert n. induction gs as [| g rest IH]; intros n; cbn [find_pin_group length].
  - lia.
  - destruct (negb (npins g =? 1)); [specialize (IH (S n)); lia |].
    destruct (offset =? nth 0 (pins g) 0); [lia |].
    specialize (IH (S n)). lia.
Qed.

Lemma single_pin_iff g offset :
  (negb (npins g =? 1) = false /\ (offset =? nth 0 (pins g) 0) = true)
  <-> pins g = [offset].
Proof.
  unfold npins. split.
  - intros [Hn Hp]. apply negb_false_iff, Z.eqb_eq in Hn. apply Z.eqb_eq in Hp.
    destruct (pins g) as [| p [| q rest]]; cbn in *; try lia.
    subst. reflexivity.
  - intros H. rewrite H. cbn. split; [reflexivity | apply Z.eqb_refl].
Qed.

(** The search started at index [n]: where it stops, what it passes over,
    and when it runs to the end. *)
Lemma find_pin_group_from gs offset n :
  (forall g, gs !! (find_pin_group gs offset n - n)%nat = Some g ->
     pins g = [offset]) /\
  (forall j g, (j < find_pin_group gs offset n - n)%nat ->
     gs !! j = Some g -> pins g <> [offset]) /\
  (find_pin_group gs offset n = (n + length gs)%nat <->
   forall g, g ∈ gs -> pins g <> [offset]).
Proof.
  revert n.
  induction gs as [| g rest IH]; intros n.
  - cbn. split; [intros g Hg; rewrite lookup_nil in Hg; discriminate |].
    split; [intros j g Hj; lia |].
    split; [intros _ g Hin; apply elem_of_nil in Hin; contradiction | lia].
  - cbn [find_pin_group length].
    destruct (decide (pins g = [offset])) as [Hyes | Hno].
    + destruct (proj2 (single_pin_iff g offset) Hyes) as [Hn Hp].
      rewrite Hn, Hp. rewrite Nat.sub_diag.
      split; [intros g' [= <-]; exact Hyes |].
      split; [intros j g' Hj; lia |].
      split; [lia |].
      intros Hall. exfalso. apply (Hall g); [left | exact Hyes].
    + assert (Hstep : (if negb (npins g =? 1)
                       then find_pin_group rest offset (S n)
                       else if offset =? nth 0 (pins g) 0 then n
                            else find_pin_group rest offset (S n))
                      = find_pin_group rest offset (S n)).
      { destruct (negb (npins g =? 1)) eqn:Hn; [reflexivity |].
        destruct (offset =? nth 0 (pins g) 0) eqn:Hp; [| reflexivity].
        exfalso. apply Hno. apply single_pin_iff. split; assumption. }
      rewrite Hstep. destruct (IH (S n)) as (IH1 & IH2 & IH3).
      pose proof (find_pin_group_bounds rest offset (S n)) as Hb.
      replace (find_pin_group rest offset (S n) - n)%nat
        with (S (find_pin_group rest offset (S n) - S n)) by lia.
      split; [intros g' Hg'; cbn in Hg'; apply IH1; exact Hg' |].
      split.
      * intros j g' Hj Hg'. destruct j as [| j].
        -- cbn in Hg'. injection Hg' as <-. exact Hno.
        -- cbn in Hg'. apply (IH2 j); [lia | exact Hg'].
      * split.
        -- intros Heq g' Hin. apply elem_of_cons in Hin.
           destruct Hin as [-> | Hin]; [exact Hno |].
           apply IH3; [lia | exact Hin].
        -- intros Hall.
           assert (find_pin_group rest offset (S n) = (S n + length rest)%nat).
           { apply IH3. intros g' Hin. apply Hall. right. exact Hin. }
           lia.
Qed.

Lemma find_pin_group_first gs offset group g :
  gs !! group = Some g ->
  pins g = [offset] ->
  (forall j gj, (j < group)%nat -> gs !! j = Some gj -> pins gj <> [offset]) ->
  find_pin_group gs offset 0 = group.
Proof.
  intros Hg Hpins Hfirst.
  pose proof (find_pin_group_from gs offset 0) as Hfrom.
  rewrite Nat.sub_0_r in Hfrom. destruct Hfrom as (Hat & Hbefore & _).
  pose proof (find_pin_group_bounds gs offset 0) as Hb.
  pose proof (lookup_lt_Some _ _ _ Hg) as Hlt.
  destruct (Nat.lt_trichotomy (find_pin_group gs offset 0) group)
    as [Hless | [Heq | Hmore]].
  - exfalso.
    destruct (lookup_lt_is_Some_2 gs (find_pin_group gs offset 0)) as [gf Hgf];
      [lia |].
    apply (Hfirst _ gf Hless Hgf). apply Hat. exact Hgf.
  - exact Heq.
  - exfalso. apply (Hbefore group g Hmore Hg). exact Hpins.
Qed.

(** C9, as the driver has it.  Let [g] be the first group of the catalog
    whose pin list is exactly [offset] (the one group the driver's search
    selects for the pin), with a mux register.  After
    [tegra_pinctrl_gpio_request_enable] on that pin (whatever it returns),
    any sequence of function selections and configuration batches that
    runs to completion, and then [tegra_pinctrl_gpio_disable_free], the
    mux register of [g] holds exactly the value it held before the
    request, all 32 bits of it. *)
Theorem gpio_release_restores_mux soc offset group g ops r st st1 st2 :
  groups soc !! group = Some g ->
  pins g = [offset] ->
  (forall j gj, (j < group)%nat -> groups soc !! j = Some gj ->
     pins gj <> [offset]) ->
  0 <= mux_reg g ->
  tegra_pinctrl_gpio_request_enable soc offset st = Ret r st1 ->
  run_ops soc ops st1 = Ret tt st2 ->
  exists st3,
    tegra_pinctrl_gpio_disable_free soc offset st2 = Ret tt st3 /\
    reg_val st3 (mux_bank g) (mux_reg g) = reg_val st (mux_bank g) (mux_reg g).
Proof.
  intros Hgroup Hpins Hfirst Hreg Hreq Hops.
  assert (Hg : groups soc !! find_pin_group (groups soc) offset 0 = Some g).
  { rewrite (find_pin_group_first _ _ _ _ Hgroup Hpins Hfirst). exact Hgroup. }
  pose proof (find_pin_group_found soc offset g Hg) as Hfound.
  apply Z.leb_le in Hreg.
  (* the request saves the register value under the pin number *)
  assert (Hsaved : gpio_conf st1 !! offset
                   = Some (reg_val st (mux_bank g) (mux_reg g))).
  { unfold tegra_pinctrl_gpio_request_enable in Hreq.
    unfold bind at 1 in Hreq.
    rewrite (gpio_save_config_run soc offset g st Hg Hreg) in Hreq.
    change (negb (0 =? 0)) with false in Hreq. cbv iota in Hreq.
    match type of Hreq with
    | ?c ?s = _ =>
        assert (Hk : keeps_gpio_conf c);
        [| rewrite (Hk s r st1 Hreq); cbn [gpio_conf];
           apply lookup_insert_eq]
    end.
    repeat keeps_step. }
  (* the intervening calls leave the shadow area alone *)
  pose proof (keeps_run_ops soc ops st1 tt st2 Hops) as Hkept.
  (* the release writes the saved value back *)
  exists (after_writel (reg_val st (mux_bank g) (mux_reg g))
            (mux_bank g) (mux_reg g) st2).
  split.
  - unfold tegra_pinctrl_gpio_disable_free, bind.
    unfold tegra_pinctrl_gpio_restore_config.
    rewrite Hfound. unfold bind. rewrite (group_at_run _ _ _ _ Hg).
    rewrite Hreg. unfold gpio_conf_load. rewrite Hkept, Hsaved.
    cbn [default]. rewrite pmx_writel_run. reflexivity.
  - rewrite reg_val_after_writel_same. apply u32_small, reg_val_range.
Qed.

(** C9 on the Tegra234 catalog: pin 201 ([touch_clk_pcc4]), whose mux
    register holds 0x441 at the request; a function selection and a
    configuration batch on the group come between request and release. *)
Lemma gpio_release_restores_mux_witness :
  exists st3,
    tegra_pinctrl_gpio_disable_free tegra234_pinctrl TEGRA_PIN_TOUCH_CLK_PCC4
      (final_state
         (run_ops tegra234_pinctrl
            [OpSetMux TEGRA_MUX_RSVD2 0;
             OpGroupSet 0 [TEGRA_PINCONF_PACK TEGRA_PINCONF_PARAM_TRISTATE 1;
                            TEGRA_PINCONF_PACK TEGRA_PINCONF_PARAM_SCHMITT 0]]
            (final_state
               (tegra_pinctrl_gpio_request_enable tegra234_pinctrl
                  TEGRA_PIN_TOUCH_CLK_PCC4 (state_of [(1, 0x2000, 0x441)])))))
      = Ret tt st3 /\
    reg_val st3 1 0x2000 = reg_val (state_of [(1, 0x2000, 0x441)]) 1 0x2000.
Proof.
  apply (gpio_release_restores_mux tegra234_pinctrl TEGRA_PIN_TOUCH_CLK_PCC4
           0%nat
           (PINGROUP "touch_clk_pcc4" [TEGRA_PIN_TOUCH_CLK_PCC4] TEGRA_MUX_GP
              TEGRA_MUX_TOUCH TEGRA_MUX_RSVD2 TEGRA_MUX_RSVD3 0x2000 1
              PINGROUP_REG_Y 5 7 6 8 (-1) 10 12 drive_touch_clk_pcc4)
           [OpSetMux TEGRA_MUX_RSVD2 0;
            OpGroupSet 0 [TEGRA_PINCONF_PACK TEGRA_PINCONF_PARAM_TRISTATE 1;
                           TEGRA_PINCONF_PACK TEGRA_PINCONF_PARAM_SCHMITT 0]]
           0 (state_of [(1, 0x2000, 0x441)])
           (final_state
              (tegra_pinctrl_gpio_request_enable tegra234_pinctrl
                 TEGRA_PIN_TOUCH_CLK_PCC4 (state_of [(1, 0x2000, 0x441)])))).
  - vm_compute. reflexivity.
  - reflexivity.
  - intros j gj Hj. lia.
  - vm_compute. discriminate.
  - vm_compute. reflexivity.
  - vm_compute. reflexivity.
Defined.

(** C9 as stated fails for a single-pin group that is not the first to
    list its pin.  In [shared_pin_soc] the groups [own_a] and [own_b] both
    have pin 5 as their only pin and both have a mux register.  The
    request for pin 5 saves the register of [own_a]; a function selection
    on [own_b] then changes the register of [own_b] from 0x441 to 0x442,
    and the release puts back the register of [own_a] only. *)
Lemma gpio_release_second_owner_counterexample :
  (exists g,
     groups shared_pin_soc !! 1%nat = Some g /\ pins g = [5] /\
     0 <= mux_reg g /\ (mux_bank g, mux_reg g) = (0, 0x20)) /\
  (exists st1 st2 st3,
     tegra_pinctrl_gpio_request_enable shared_pin_soc 5
       (state_of [(0, 0x10, 0x441); (0, 0x20, 0x441)]) = Ret 0 st1 /\
     run_ops shared_pin_soc [OpSetMux 2 1] st1 = Ret tt st2 /\
     tegra_pinctrl_gpio_disable_free shared_pin_soc 5 st2 = Ret tt st3 /\
     reg_val (state_of [(0, 0x10, 0x441); (0, 0x20, 0x441)]) 0 0x20 = 0x441 /\
     reg_val st3 0 0x20 = 0x442) /\
  ~ (exists r st1 st2 st3,
       tegra_pinctrl_gpio_request_enable shared_pin_soc 5
         (state_of [(0, 0x10, 0x441); (0, 0x20, 0x441)]) = Ret r st1 /\
       run_ops shared_pin_soc [OpSetMux 2 1] st1 = Ret tt st2 /\
       tegra_pinctrl_gpio_disable_free shared_pin_soc 5 st2 = Ret tt st3 /\
       reg_val st3 0 0x20
       = reg_val (state_of [(0, 0x10, 0x441); (0, 0x20, 0x441)]) 0 0x20).
Proof.
  split.
  - eexists. split; [reflexivity |]. split; [reflexivity |].
    split; [vm_compute; discriminate | reflexivity].
  - split.
    + eexists. eexists. eexists.
      split; [vm_compute; reflexivity |].
      split; [vm_compute; reflexivity |].
      split; [vm_compute; reflexivity |].
      split; [vm_compute; reflexivity | vm_compute; reflexivity].
    + intros (r & st1 & st2 & st3 & Hreq & Hops & Hrel & Hsame).
      vm_compute in Hreq. injection Hreq as <- <-.
      vm_compute in Hops. injection Hops as <-.
      vm_compute in Hrel. injection Hrel as <-.
      vm_compute in Hsame. discriminate.
Qed.

(** * Further properties of the driver *)

(** ** The loop body of [tegra_pinconf_group_set], case by case *)

Lemma lock_test val bit :
  0 <= bit -> negb (Z.land val (Z.shiftl 1 bit) =? 0) = Z.testbit val bit.
Proof.
  intros Hb. destruct (Z.testbit val bit) eqn:Ht.
  - pose proof (land_bit_nonzero val bit Hb Ht) as Hnz.
    apply Z.eqb_neq in Hnz. rewrite Hnz. reflexivity.
  - replace (Z.land val (Z.shiftl 1 bit)) with 0; [reflexivity |].
    symmetry. apply Z.bits_inj'. intros k Hk.
    rewrite Z.land_spec, testbit_shiftl_1, Z.bits_0 by lia.
    destruct (Z.eqb_spec k bit) as [-> | Hne].
    + rewrite Ht. reflexivity.
    + apply andb_false_r.
Qed.

Lemma range_test arg width :
  0 <= arg < 2 ^ 32 -> 0 <= width < 32 ->
  (Z.land arg (u32 (Z.lnot (Z.ones width))) =? 0) = (arg <? 2 ^ width).
Proof.
  intros Ha Hw. destruct (Z.ltb_spec arg (2 ^ width)) as [Hlt | Hge].
  - apply Z.eqb_eq. apply Z.bits_inj'. intros k Hk.
    rewrite Z.land_spec, testbit_u32, Z.lnot_spec, Z.bits_0 by exact Hk.
    destruct (Z.lt_ge_cases k width) as [Hk1 | Hk2].
    + rewrite Z.ones_spec_low by lia. simpl. rewrite andb_false_r.
      apply andb_false_r.
    + rewrite (testbit_small arg width k) by lia. reflexivity.
  - apply Z.eqb_neq. intros Hz.
    assert (Hlow : arg = Z.land arg (Z.ones width)).
    { apply Z.bits_inj'. intros k Hk. rewrite Z.land_spec.
      destruct (Z.lt_ge_cases k width) as [Hk1 | Hk2].
      - rewrite Z.ones_spec_low by lia. symmetry. apply andb_true_r.
      - rewrite Z.ones_spec_high by lia. rewrite andb_false_r.
        apply (f_equal (fun z => Z.testbit z k)) in Hz.
        rewrite Z.land_spec, testbit_u32, Z.lnot_spec, Z.bits_0 in Hz
          by exact Hk.
        rewrite Z.ones_spec_high in Hz by lia. simpl in Hz.
        destruct (Z.ltb_spec k 32) as [Hk3 | Hk3].
        + rewrite andb_true_r in Hz. exact Hz.
        + apply (testbit_small arg 32 k); lia. }
    rewrite Z.land_ones in Hlow by lia.
    pose proof (Z.mod_pos_bound arg (2 ^ width) ltac:(apply Z.pow_pos_nonneg; lia)).
    lia.
Qed.

Lemma set_arg_range param width a : 0 <= set_arg param width a < 2 ^ 32.
Proof.
  unfold set_arg, lnot_c.
  pose proof (Z.mod_pos_bound a (2 ^ 16) ltac:(lia)) as Hu.
  fold (u16 a) in Hu.
  repeat match goal with |- context [if ?b then _ else _] => destruct b end;
    lia.
Qed.

(** Every run of the loop body on a parameter that is present on the
    group: refused by the lock check, refused by the range check, or the
    field is rewritten. *)
Lemma group_set_one_cases soc g param a bank reg bit width st :
  pinconf_switch soc g param = Some (bank, reg, bit, width) ->
  0 <= reg -> 0 <= bit < 32 -> 0 <= width < 32 ->
  tegra_pinconf_group_set_one soc g (TEGRA_PINCONF_PACK param a) st =
  if lock_refused param (reg_val st bank reg) bit a
  then Ret (Some (- EINVAL))
           (after_diag ErrLockCannotBeCleared (after_readl bank reg st))
  else if set_arg param width a <? 2 ^ width
  then Ret None
           (after_writel
              (field_update (reg_val st bank reg) (Z.ones width) bit
                 (set_arg param width a))
              bank reg (after_readl bank reg st))
  else Ret (Some (- EINVAL))
           (after_diag (ErrTooBig (TEGRA_PINCONF_PACK param a)
                          (set_arg param width a) width)
              (after_readl bank reg st)).
Proof.
  intros Hsw Hreg Hbit Hw.
  unfold tegra_pinconf_group_set_one, bind.
  cbn [TEGRA_PINCONF_UNPACK_PARAM TEGRA_PINCONF_UNPACK_ARG TEGRA_PINCONF_PACK
       fst snd].
  rewrite (tegra_pinconf_reg_present soc g param bank reg bit width true st Hsw)
    by lia.
  unfold pmx_readl at 1. fold (after_readl bank reg st).
  set (st1 := after_readl bank reg st).
  set (val := reg_val st bank reg).
  unfold lock_refused.
  destruct (bool_decide (param = TEGRA_PINCONF_PARAM_LOCK)) eqn:Hl.
  - apply bool_decide_eq_true in Hl. subst param.
    rewrite bool_decide_eq_false_2 by discriminate.
    unfold BIT. rewrite c_shl_ok by lia. unfold ret at 1.
    rewrite lock_test by lia.
    assert (Hz : negb (lnot_c (u16 a) =? 0) = (u16 a =? 0)).
    { unfold lnot_c. destruct (u16 a =? 0); reflexivity. }
    rewrite Hz. cbn [andb].
    destruct (Z.testbit val bit && (u16 a =? 0)); [reflexivity |].
    assert (Hsa : set_arg TEGRA_PINCONF_PARAM_LOCK width a
                  = if width =? 1 then lnot_c (lnot_c (u16 a)) else u16 a).
    { unfold set_arg. rewrite bool_decide_eq_false_2 by discriminate.
      reflexivity. }
    pose proof (set_arg_range TEGRA_PINCONF_PARAM_LOCK width a) as Hrange.
    rewrite Hsa in *.
    set (x := if width =? 1 then lnot_c (lnot_c (u16 a)) else u16 a) in *.
    rewrite c_shl_ok by lia. rewrite u32_ones by lia.
    rewrite range_test by lia.
    destruct (x <? 2 ^ width); cbn [negb].
    + rewrite !c_shl_ok by lia. rewrite pmx_writel_run. reflexivity.
    + reflexivity.
  - cbn [andb]. unfold ret at 1. cbv iota beta.
    rewrite c_shl_ok by lia. rewrite u32_ones by lia.
    fold (set_arg param width a).
    rewrite range_test by (try apply set_arg_range; lia).
    destruct (set_arg param width a <? 2 ^ width); cbn [negb].
    + rewrite !c_shl_ok by lia. rewrite pmx_writel_run. reflexivity.
    + reflexivity.
Qed.

Lemma group_set_single soc group g config st :
  groups soc !! group = Some g ->
  tegra_pinconf_group_set soc group [config] st =
  match tegra_pinconf_group_set_one soc g config st with
  | Ret (Some e) st' => Ret e st'
  | Ret None st' => Ret 0 st'
  | Undefined => Undefined
  end.
Proof.
  intros Hg. unfold tegra_pinconf_group_set, bind.
  rewrite (group_at_run _ _ _ _ Hg). cbn [tegra_pinconf_group_set_loop].
  unfold bind.
  destruct (tegra_pinconf_group_set_one soc g config st) as [[e |] s |];
    reflexivity.
Qed.

(** Bits of the value written back by [tegra_pinconf_group_set]. *)
Lemma testbit_field_update_raw val mask bit arg k :
  0 <= k ->
  Z.testbit (field_update val mask bit arg) k =
  (k <? 32)
  && ((Z.testbit val k && negb ((k <? 32) && Z.testbit (Z.shiftl mask bit) k))
      || Z.testbit (Z.shiftl arg bit) k).
Proof.
  intros Hk. unfold field_update.
  rewrite testbit_u32, Z.lor_spec, testbit_u32, Z.land_spec, Z.lnot_spec,
    testbit_u32 by exact Hk.
  destruct (k <? 32); [| reflexivity]. reflexivity.
Qed.

Lemma testbit_field_update val width bit arg k :
  0 <= val < 2 ^ 32 -> 0 <= bit -> 0 <= width -> bit + width <= 32 ->
  0 <= arg < 2 ^ width -> 0 <= k ->
  Z.testbit (field_update val (Z.ones width) bit arg) k =
  if (bit <=? k) && (k <? bit + width)
  then Z.testbit arg (k - bit) else Z.testbit val k.
Proof.
  intros Hv Hb Hw Hfit Ha Hk. rewrite testbit_field_update_raw by exact Hk.
  rewrite !Z.shiftl_spec by exact Hk.
  destruct (Z.leb_spec bit k) as [Hge | Hlt]; cbn [andb].
  - destruct (Z.ltb_spec k (bit + width)) as [Hin | Hout].
    + rewrite Z.ones_spec_low by lia.
      replace (k <? 32) with true by (symmetry; apply Z.ltb_lt; lia).
      cbn. rewrite andb_false_r. reflexivity.
    + rewrite Z.ones_spec_high by lia.
      rewrite (testbit_small arg width (k - bit)) by lia.
      rewrite andb_false_r, orb_false_r. cbn [negb]. rewrite andb_true_r.
      destruct (Z.ltb_spec k 32) as [H32 | H32]; [reflexivity |].
      symmetry. apply (testbit_small val 32); lia.
  - rewrite !(Z.testbit_neg_r _ (k - bit)) by lia.
    rewrite andb_false_r, orb_false_r. cbn [negb]. rewrite andb_true_r.
    destruct (Z.ltb_spec k 32) as [H32 | H32]; [reflexivity |].
    symmetry. apply (testbit_small val 32); lia.
Qed.

Lemma field_of_field_update val width bit arg :
  0 <= val < 2 ^ 32 -> 0 <= bit -> 0 <= width -> bit + width <= 32 ->
  0 <= arg < 2 ^ width ->
  field (field_update val (Z.ones width) bit arg) bit width = arg.
Proof.
  intros Hv Hb Hw Hfit Ha. apply Z.bits_inj'. intros k Hk.
  rewrite testbit_field by lia.
  destruct (Z.ltb_spec k width) as [Hin | Hout]; cbn [andb].
  - rewrite testbit_field_update by lia.
    replace ((bit <=? k + bit) && (k + bit <? bit + width)) with true.
    + f_equal. lia.
    + symmetry. apply andb_true_iff. split; [apply Z.leb_le | apply Z.ltb_lt]; lia.
  - symmetry. apply (testbit_small arg width); lia.
Qed.

Lemma field_update_range val mask bit arg :
  0 <= field_update val mask bit arg < 2 ^ 32.
Proof. apply u32_range. Qed.

Lemma field_update_idem val mask bit arg :
  field_update (field_update val mask bit arg) mask bit arg
  = field_update val mask bit arg.
Proof.
  apply Z.bits_inj'. intros k Hk.
  rewrite (testbit_field_update_raw (field_update val mask bit arg)) by exact Hk.
  rewrite testbit_field_update_raw by exact Hk.
  destruct (k <? 32), (Z.testbit val k), (Z.testbit (Z.shiftl mask bit) k),
    (Z.testbit (Z.shiftl arg bit) k); reflexivity.
Qed.

Lemma set_arg_plain param width a :
  param <> TEGRA_PINCONF_PARAM_PAD_POWER ->
  0 <= a < 2 ^ 16 -> 0 <= a < 2 ^ width ->
  set_arg param width a = a.
Proof.
  intros Hp H16 Hw. unfold set_arg.
  rewrite bool_decide_eq_false_2 by exact Hp.
  unfold u16. rewrite Z.mod_small by exact H16.
  destruct (Z.eqb_spec width 1) as [-> | Hne]; [| reflexivity].
  rewrite lnot_c_involutive_bool.
  assert (a = 0 \/ a = 1) as [-> | ->] by lia; reflexivity.
Qed.

(** ** Writing a field and reading it back *)

(** X1.  For every parameter other than pad-power that is present on the
    group with its field inside the register, and every argument that fits
    the field (and is not refused by the lock check), a single-parameter
    [tegra_pinconf_group_set] returns 0, a following
    [tegra_pinconf_group_get] returns that argument, and the write changed
    no bit of the register outside the field. *)
Theorem group_set_then_get soc group g param a c bank reg bit width st :
  groups soc !! group = Some g ->
  pinconf_switch soc g param = Some (bank, reg, bit, width) ->
  param <> TEGRA_PINCONF_PARAM_PAD_POWER ->
  0 <= reg -> 0 <= bit < 32 -> 0 <= width < 32 -> bit + width <= 32 ->
  0 <= a < 2 ^ 16 -> a < 2 ^ width ->
  lock_refused param (reg_val st bank reg) bit a = false ->
  exists st1 st2,
    tegra_pinconf_group_set soc group [TEGRA_PINCONF_PACK param a] st
      = Ret 0 st1 /\
    tegra_pinconf_group_get soc group (TEGRA_PINCONF_PACK param c) st1
      = Ret (0, TEGRA_PINCONF_PACK param a) st2 /\
    (forall k, 0 <= k -> k < bit \/ bit + width <= k ->
       Z.testbit (reg_val st1 bank reg) k = Z.testbit (reg_val st bank reg) k).
Proof.
  intros Hg Hsw Hpad Hreg Hbit Hw Hfit Ha16 Haw Hlock.
  pose proof (group_set_one_cases soc g param a bank reg bit width st Hsw Hreg
                ltac:(lia) ltac:(lia)) as Hone.
  rewrite Hlock, (set_arg_plain param width a Hpad Ha16 ltac:(lia)) in Hone.
  replace (a <? 2 ^ width) with true in Hone
    by (symmetry; apply Z.ltb_lt; lia).
  set (st1 := after_writel _ _ _ _) in Hone.
  assert (Hval : reg_val st1 bank reg
                 = field_update (reg_val st bank reg) (Z.ones width) bit a).
  { subst st1. rewrite reg_val_after_writel_same.
    apply u32_small, field_update_range. }
  exists st1, (after_readl bank reg st1). split; [| split].
  - rewrite (group_set_single _ _ _ _ _ Hg), Hone. reflexivity.
  - rewrite (group_get_run soc group g param c bank reg bit width st1 Hg Hsw)
      by lia.
    rewrite bool_decide_eq_false_2 by exact Hpad.
    rewrite Hval, field_of_field_update
      by (try apply reg_val_range; lia).
    unfold u16. rewrite Z.mod_small by exact Ha16. reflexivity.
  - intros k Hk Hout. rewrite Hval.
    rewrite testbit_field_update by (try apply reg_val_range; lia).
    replace ((bit <=? k) && (k <? bit + width)) with false; [reflexivity |].
    symmetry. apply andb_false_iff.
    destruct Hout; [left; apply Z.leb_gt | right; apply Z.ltb_ge]; lia.
Qed.

(** X1 on the Tegra234 catalog: pull-down strength of [touch_clk_pcc4]
    (bits 16:12 of the drive register at 0x2004, bank 1), argument 21. *)
Lemma group_set_then_get_witness :
  exists st1 st2,
    tegra_pinconf_group_set tegra234_pinctrl 0
      [TEGRA_PINCONF_PACK TEGRA_PINCONF_PARAM_DRIVE_DOWN_STRENGTH 21]
      (state_of [(1, 0x2004, 0xffffffff)]) = Ret 0 st1 /\
    tegra_pinconf_group_get tegra234_pinctrl 0
      (TEGRA_PINCONF_PACK TEGRA_PINCONF_PARAM_DRIVE_DOWN_STRENGTH 0) st1
      = Ret (0, TEGRA_PINCONF_PACK TEGRA_PINCONF_PARAM_DRIVE_DOWN_STRENGTH 21)
            st2 /\
    (forall k, 0 <= k -> k < 12 \/ 12 + 5 <= k ->
       Z.testbit (reg_val st1 1 0x2004) k
       = Z.testbit (reg_val (state_of [(1, 0x2004, 0xffffffff)]) 1 0x2004) k).
Proof.
  apply (group_set_then_get tegra234_pinctrl 0
           (PINGROUP "touch_clk_pcc4" [TEGRA_PIN_TOUCH_CLK_PCC4] TEGRA_MUX_GP
              TEGRA_MUX_TOUCH TEGRA_MUX_RSVD2 TEGRA_MUX_RSVD3 0x2000 1
              PINGROUP_REG_Y 5 7 6 8 (-1) 10 12 drive_touch_clk_pcc4)
           TEGRA_PINCONF_PARAM_DRIVE_DOWN_STRENGTH 21 0 1 0x2004 12 5
           (state_of [(1, 0x2004, 0xffffffff)])).
  - reflexivity.
  - reflexivity.
  - discriminate.
  - lia.
  - lia.
  - lia.
  - lia.
  - lia.
  - reflexivity.
  - reflexivity.
Defined.

(** ** The range check *)

(** X2.  On a parameter whose width is not 1 and that is present on
    the group, an argument that does not fit the field makes a
    single-parameter [tegra_pinconf_group_set] return [-EINVAL] with the
    "too big" diagnostic after one register read; nothing is written. *)
Theorem group_set_out_of_range soc group g param a bank reg bit width st :
  groups soc !! group = Some g ->
  pinconf_switch soc g param = Some (bank, reg, bit, width) ->
  0 <= reg -> 0 <= bit < 32 -> 0 <= width < 32 -> width <> 1 ->
  2 ^ width <= u16 a ->
  exists st',
    tegra_pinconf_group_set soc group [TEGRA_PINCONF_PACK param a] st
      = Ret (- EINVAL) st' /\
    trace st' = EvDiag (ErrTooBig (TEGRA_PINCONF_PACK param a) (u16 a) width)
                :: EvReadl (u32 bank) (u32 reg) :: trace st /\
    regs st' = regs st.
Proof.
  intros Hg Hsw Hreg Hbit Hw Hne Hbig.
  assert (Hpad : param <> TEGRA_PINCONF_PARAM_PAD_POWER).
  { intros ->. cbn in Hsw. injection Hsw as _ _ _ Hw1. congruence. }
  assert (Hlock : param <> TEGRA_PINCONF_PARAM_LOCK).
  { intros ->. cbn in Hsw. injection Hsw as _ _ _ Hw1. congruence. }
  assert (Harg : set_arg param width a = u16 a).
  { unfold set_arg. rewrite bool_decide_eq_false_2 by exact Hpad.
    apply Z.eqb_neq in Hne. rewrite Hne. reflexivity. }
  pose proof (group_set_one_cases soc g param a bank reg bit width st Hsw Hreg
                Hbit Hw) as Hone.
  unfold lock_refused in Hone.
  rewrite bool_decide_eq_false_2 in Hone by exact Hlock. cbn [andb] in Hone.
  rewrite Harg in Hone.
  replace (u16 a <? 2 ^ width) with false in Hone
    by (symmetry; apply Z.ltb_ge; exact Hbig).
  eexists. split; [| split].
  - rewrite (group_set_single _ _ _ _ _ Hg), Hone. reflexivity.
  - reflexivity.
  - reflexivity.
Qed.

(** X2 on the Tegra234 catalog: pull is two bits wide, 5 does not fit. *)
Lemma group_set_out_of_range_witness :
  exists st',
    tegra_pinconf_group_set tegra234_pinctrl 0
      [TEGRA_PINCONF_PACK TEGRA_PINCONF_PARAM_PULL 5] (state_of [])
      = Ret (- EINVAL) st' /\
    trace st' = [EvDiag (ErrTooBig (TEGRA_PINCONF_PACK TEGRA_PINCONF_PARAM_PULL 5)
                           5 2);
                 EvReadl 1 0x2000] /\
    regs st' = ∅.
Proof.
  apply (group_set_out_of_range tegra234_pinctrl 0
           (PINGROUP "touch_clk_pcc4" [TEGRA_PIN_TOUCH_CLK_PCC4] TEGRA_MUX_GP
              TEGRA_MUX_TOUCH TEGRA_MUX_RSVD2 TEGRA_MUX_RSVD3 0x2000 1
              PINGROUP_REG_Y 5 7 6 8 (-1) 10 12 drive_touch_clk_pcc4)
           TEGRA_PINCONF_PARAM_PULL 5 1 0x2000 2 2 (state_of [])).
  - reflexivity.
  - reflexivity.
  - lia.
  - lia.
  - lia.
  - lia.
  - vm_compute. discriminate.
Defined.

(** ** The lock bit only ever goes up *)

(** X3.  On a group whose lock bit exists and reads 1, a single-parameter
    [tegra_pinconf_group_set] of the lock parameter with any argument
    always completes and leaves the lock bit reading 1: a zero argument is
    refused, a nonzero one rewrites the bit as 1. *)
Theorem lock_bit_stays_set soc group g a st :
  groups soc !! group = Some g ->
  0 <= mux_reg g ->
  0 <= lock_bit g ->
  Z.testbit (reg_val st (mux_bank g) (mux_reg g)) (lock_bit g) = true ->
  exists r st',
    tegra_pinconf_group_set soc group
      [TEGRA_PINCONF_PACK TEGRA_PINCONF_PARAM_LOCK a] st = Ret r st' /\
    Z.testbit (reg_val st' (mux_bank g) (mux_reg g)) (lock_bit g) = true.
Proof.
  intros Hg Hreg Hbit Hset.
  assert (Hlt : lock_bit g < 32).
  { destruct (Z.lt_ge_cases (lock_bit g) 32) as [H | H]; [exact H |].
    rewrite reg_val_high in Hset by exact H. discriminate. }
  pose proof (group_set_one_cases soc g TEGRA_PINCONF_PARAM_LOCK a
                (mux_bank g) (mux_reg g) (lock_bit g) 1 st eq_refl Hreg
                ltac:(lia) ltac:(lia)) as Hone.
  unfold lock_refused in Hone.
  rewrite bool_decide_eq_true_2, Hset in Hone by reflexivity.
  cbn [andb] in Hone.
  rewrite (group_set_single _ _ _ _ _ Hg), Hone.
  destruct (Z.eqb_spec (u16 a) 0) as [Hz | Hnz].
  - eexists. eexists. split; [reflexivity |]. exact Hset.
  - assert (Harg : set_arg TEGRA_PINCONF_PARAM_LOCK 1 a = 1).
    { unfold set_arg. rewrite bool_decide_eq_false_2 by discriminate.
      cbn. rewrite lnot_c_involutive_bool.
      apply Z.eqb_neq in Hnz. rewrite Hnz. reflexivity. }
    rewrite Harg. cbn.
    eexists. eexists. split; [reflexivity |].
    rewrite reg_val_after_writel_same.
    rewrite u32_small by apply field_update_range.
    change 1 with (Z.b2z true) at 2. change (Z.ones 1) with 1.
    rewrite testbit_field_update_1 by (try apply reg_val_range; lia).
    rewrite Z.eqb_refl. reflexivity.
Qed.

(** X3 on the demo group (lock bit 7, register 0x10 holding 0x80), with
    argument 0. *)
Lemma lock_bit_stays_set_witness :
  exists r st',
    tegra_pinconf_group_set demo_soc 0
      [TEGRA_PINCONF_PACK TEGRA_PINCONF_PARAM_LOCK 0]
      (state_of [(0, 0x10, 0x80)]) = Ret r st' /\
    Z.testbit (reg_val st' 0 0x10) 7 = true.
Proof.
  apply (lock_bit_stays_set demo_soc 0
           (demo_group "demo" 0 [0; 1; 2; 3] 0x10 0) 0
           (state_of [(0, 0x10, 0x80)])).
  - reflexivity.
  - vm_compute. discriminate.
  - vm_compute. discriminate.
  - vm_compute. reflexivity.
Defined.

(** ** Applying a parameter twice *)

Lemma tegra_pinconf_reg_inr_inv soc g param report st bank reg bit width st' :
  tegra_pinconf_reg soc g param report st = Ret (inr (bank, reg, bit, width)) st' ->
  pinconf_switch soc g param = Some (bank, reg, bit, width) /\
  0 <= reg /\ 0 <= bit /\ st' = st.
Proof.
  unfold tegra_pinconf_reg. intros H.
  destruct (pinconf_switch soc g param) as [[[[b r] i] w] |]; [| discriminate].
  destruct (Z.ltb_spec r 0); [destruct report; discriminate |].
  destruct (Z.ltb_spec i 0); [destruct report; discriminate |].
  cbn in H. injection H as <- <- <- <- <-. repeat split; lia.
Qed.

(** A loop body that reached the end of the body did so through defined
    shifts on a present parameter. *)
Lemma group_set_one_ok_inv soc g param a st st' :
  tegra_pinconf_group_set_one soc g (TEGRA_PINCONF_PACK param a) st
    = Ret None st' ->
  exists bank reg bit width,
    pinconf_switch soc g param = Some (bank, reg, bit, width) /\
    0 <= reg /\ 0 <= bit < 32 /\ 0 <= width < 32.
Proof.
  intros H. unfold tegra_pinconf_group_set_one, bind in H.
  cbn [TEGRA_PINCONF_UNPACK_PARAM TEGRA_PINCONF_UNPACK_ARG TEGRA_PINCONF_PACK
       fst snd] in H.
  destruct (tegra_pinconf_reg soc g param true st)
    as [[e | [[[bank reg] bit] width]] s |] eqn:Hr; try discriminate.
  apply tegra_pinconf_reg_inr_inv in Hr. destruct Hr as (Hsw & Hreg & Hbit & ->).
  exists bank, reg, bit, width. split; [exact Hsw |]. split; [exact Hreg |].
  unfold pmx_readl at 1 in H.
  match type of H with
  | match ?c ?s with _ => _ end = _ => destruct (c s) as [locked s1 |]; [| discriminate]
  end.
  destruct locked; [discriminate |].
  unfold c_shl, dev_err, emit, ret, undefined in H.
  destruct (Z.leb_spec 0 width), (Z.ltb_spec width 32); cbn in H;
    try discriminate.
  match type of H with
  | context [if negb ?b then _ else _] => destruct b; cbn in H
  end; [| discriminate].
  destruct (Z.ltb_spec bit 32); [lia |].
  replace (0 <=? bit) with true in H by (symmetry; apply Z.leb_le; lia).
  cbn in H. discriminate.
Qed.

(** X4.  A single-parameter [tegra_pinconf_group_set] that returned 0
    returns 0 again when repeated with the same parameter and argument,
    and the second run leaves the register file as the first left it. *)
Theorem group_set_twice soc group g param a st st1 :
  groups soc !! group = Some g ->
  tegra_pinconf_group_set soc group [TEGRA_PINCONF_PACK param a] st
    = Ret 0 st1 ->
  exists st2,
    tegra_pinconf_group_set soc group [TEGRA_PINCONF_PACK param a] st1
      = Ret 0 st2 /\
    regs st2 = regs st1.
Proof.
  intros Hg Hrun. rewrite (group_set_single _ _ _ _ _ Hg) in Hrun.
  destruct (tegra_pinconf_group_set_one soc g (TEGRA_PINCONF_PACK param a) st)
    as [[e |] s |] eqn:Hone; try discriminate.
  - apply group_set_one_error in Hone. injection Hrun as -> _. lia.
  - injection Hrun as ->.
    destruct (group_set_one_ok_inv _ _ _ _ _ _ Hone)
      as (bank & reg & bit & width & Hsw & Hreg & Hbit & Hw).
    rewrite (group_set_one_cases soc g param a bank reg bit width st Hsw Hreg
               Hbit Hw) in Hone.
    destruct (lock_refused param (reg_val st bank reg) bit a) eqn:Hlock;
      [discriminate |].
    destruct (set_arg param width a <? 2 ^ width) eqn:Hfit; [| discriminate].
    injection Hone as <-.
    set (v1 := field_update (reg_val st bank reg) (Z.ones width) bit
                 (set_arg param width a)).
    set (st1 := after_writel v1 bank reg (after_readl bank reg st)).
    assert (Hval : reg_val st1 bank reg = v1).
    { subst st1. rewrite reg_val_after_writel_same.
      apply u32_small, field_update_range. }
    (* the lock check does not fire the second time *)
    assert (Hlock1 : lock_refused param (reg_val st1 bank reg) bit a = false).
    { unfold lock_refused in *.
      destruct (bool_decide (param = TEGRA_PINCONF_PARAM_LOCK)) eqn:Hl;
        [| reflexivity].
      destruct (Z.eqb_spec (u16 a) 0) as [Hz | Hnz]; [| apply andb_false_r].
      cbn [andb] in *. rewrite andb_true_r in *. rewrite Hval.
      apply bool_decide_eq_true in Hl. subst param.
      cbn in Hsw. injection Hsw as _ _ _ <-.
      assert (Harg : set_arg TEGRA_PINCONF_PARAM_LOCK 1 a = Z.b2z false).
      { unfold set_arg. rewrite bool_decide_eq_false_2 by discriminate.
        rewrite Hz. reflexivity. }
      subst v1. rewrite Harg. change (Z.ones 1) with 1.
      rewrite testbit_field_update_1 by (try apply reg_val_range; lia).
      rewrite Z.eqb_refl. reflexivity. }
    exists (after_writel v1 bank reg (after_readl bank reg st1)). split.
    + rewrite (group_set_single _ _ _ _ _ Hg).
      rewrite (group_set_one_cases soc g param a bank reg bit width st1 Hsw
                 Hreg Hbit Hw).
      rewrite Hlock1, Hfit, Hval. subst v1. rewrite field_update_idem.
      reflexivity.
    + subst st1. unfold after_writel, after_readl. cbn [regs].
      apply insert_insert_eq.
Qed.

(** X4 on the Tegra234 catalog: schmitt 1 on [touch_clk_pcc4]. *)
Lemma group_set_twice_witness :
  exists st2,
    tegra_pinconf_group_set tegra234_pinctrl 0
      [TEGRA_PINCONF_PACK TEGRA_PINCONF_PARAM_SCHMITT 1]
      (final_state
         (tegra_pinconf_group_set tegra234_pinctrl 0
            [TEGRA_PINCONF_PACK TEGRA_PINCONF_PARAM_SCHMITT 1] (state_of [])))
      = Ret 0 st2 /\
    regs st2
    = regs (final_state
              (tegra_pinconf_group_set tegra234_pinctrl 0
                 [TEGRA_PINCONF_PACK TEGRA_PINCONF_PARAM_SCHMITT 1]
                 (state_of []))).
Proof.
  apply (group_set_twice tegra234_pinctrl 0
           (PINGROUP "touch_clk_pcc4" [TEGRA_PIN_TOUCH_CLK_PCC4] TEGRA_MUX_GP
              TEGRA_MUX_TOUCH TEGRA_MUX_RSVD2 TEGRA_MUX_RSVD3 0x2000 1
              PINGROUP_REG_Y 5 7 6 8 (-1) 10 12 drive_touch_clk_pcc4)
           TEGRA_PINCONF_PARAM_SCHMITT 1 (state_of [])).
  - reflexivity.
  - vm_compute. reflexivity.
Defined.

(** ** Batches compose *)

(** X5.  A batch is the sequence of its parts: when the batch [pre]
    returns 0, the batch [pre ++ rest] behaves, from the start, exactly as
    the batch [rest] run on the state [pre] left. *)
Theorem group_set_app soc group pre rest st st1 :
  tegra_pinconf_group_set soc group pre st = Ret 0 st1 ->
  tegra_pinconf_group_set soc group (pre ++ rest) st
  = tegra_pinconf_group_set soc group rest st1.
Proof.
  intros Hpre. unfold tegra_pinconf_group_set, bind in *.
  unfold group_at in *. destruct (groups soc !! group) as [g |];
    [| discriminate].
  unfold ret in *. apply group_set_loop_prefix. exact Hpre.
Qed.

Lemma group_set_app_witness :
  tegra_pinconf_group_set tegra234_pinctrl 0
    ([TEGRA_PINCONF_PACK TEGRA_PINCONF_PARAM_TRISTATE 1]
     ++ [TEGRA_PINCONF_PACK TEGRA_PINCONF_PARAM_PULL 2]) (state_of [])
  = tegra_pinconf_group_set tegra234_pinctrl 0
      [TEGRA_PINCONF_PACK TEGRA_PINCONF_PARAM_PULL 2]
      (final_state
         (tegra_pinconf_group_set tegra234_pinctrl 0
            [TEGRA_PINCONF_PACK TEGRA_PINCONF_PARAM_TRISTATE 1] (state_of []))).
Proof.
  apply (group_set_app tegra234_pinctrl 0
           [TEGRA_PINCONF_PACK TEGRA_PINCONF_PARAM_TRISTATE 1]
           [TEGRA_PINCONF_PACK TEGRA_PINCONF_PARAM_PULL 2] (state_of [])).
  vm_compute. reflexivity.
Defined.

(** ** Reading a configuration *)

(** X6.  [tegra_pinconf_group_get] only reads: whenever it returns, the
    register file and the GPIO shadow area are unchanged and the trace has
    gained no write; when it returns 0 it has read exactly one register,
    and the argument it hands back fits the parameter's field. *)
Theorem group_get_reads_only soc group param c st r config' st' :
  tegra_pinconf_group_get soc group (TEGRA_PINCONF_PACK param c) st
    = Ret (r, config') st' ->
  regs st' = regs st /\
  gpio_conf st' = gpio_conf st /\
  writes (trace st') = writes (trace st) /\
  (r = 0 ->
   exists g bank reg bit width,
     groups soc !! group = Some g /\
     pinconf_switch soc g param = Some (bank, reg, bit, width) /\
     trace st' = EvReadl (u32 bank) (u32 reg) :: trace st /\
     TEGRA_PINCONF_UNPACK_PARAM config' = param /\
     0 <= TEGRA_PINCONF_UNPACK_ARG config' < 2 ^ width).
Proof.
  intros H. unfold tegra_pinconf_group_get, bind in H.
  cbn [TEGRA_PINCONF_UNPACK_PARAM TEGRA_PINCONF_PACK fst] in H.
  unfold group_at in H. destruct (groups soc !! group) as [g |] eqn:Hg;
    [| discriminate].
  unfold ret at 1 in H.
  destruct (tegra_pinconf_reg soc g param true st)
    as [[e | [[[bank reg] bit] width]] s |] eqn:Hr; try discriminate.
  - apply tegra_pinconf_reg_effect in Hr.
    destruct Hr as (Hregs & Hgc & Hw & _ & He & _).
    injection H as <- <- <-. rewrite (He e eq_refl).
    repeat split; try assumption. intros Hz. discriminate Hz.
  - apply tegra_pinconf_reg_inr_inv in Hr.
    destruct Hr as (Hsw & Hreg & Hbit & ->).
    unfold pmx_readl at 1, c_shl, c_shr, ret, undefined in H.
    destruct (Z.leb_spec 0 width), (Z.ltb_spec width 32); cbn in H;
      try discriminate.
    destruct (Z.ltb_spec bit 32).
    2: { replace (0 <=? bit) with true in H by (symmetry; apply Z.leb_le; lia).
         cbn in H. discriminate. }
    replace (0 <=? bit) with true in H by (symmetry; apply Z.leb_le; lia).
    cbn in H. injection H as <- <- <-.
    repeat split. intros _.
    exists g, bank, reg, bit, width.
    split; [reflexivity |]. split; [exact Hsw |]. split; [reflexivity |].
    split; [reflexivity |].
    cbn [TEGRA_PINCONF_UNPACK_ARG TEGRA_PINCONF_PACK snd].
    rewrite u32_ones by lia.
    fold (field (reg_val st bank reg) bit width).
    destruct (bool_decide (param = TEGRA_PINCONF_PARAM_PAD_POWER)) eqn:Hp.
    + apply bool_decide_eq_true in Hp. subst param. cbn in Hsw.
      injection Hsw as _ _ _ <-. unfold lnot_c.
      destruct (_ =? 0); simpl; lia.
    + assert (Hf : 0 <= field (reg_val st bank reg) bit width < 2 ^ width).
      { unfold field. rewrite Z.land_ones by lia.
        apply Z.mod_pos_bound. apply Z.pow_pos_nonneg; lia. }
      unfold u16.
      pose proof (Z.mod_pos_bound (field (reg_val st bank reg) bit width)
                    (2 ^ 16) ltac:(lia)) as Hm.
      split; [lia |].
      apply Z.le_lt_trans with (field (reg_val st bank reg) bit width);
        [| lia].
      apply Z.mod_le; lia.
Qed.

(** X6 on the Tegra234 catalog: pull-up strength of [touch_clk_pcc4] read
    from a drive register holding all ones. *)
Lemma group_get_reads_only_witness :
  regs (after_readl 1 0x2004 (state_of [(1, 0x2004, 0xffffffff)]))
    = regs (state_of [(1, 0x2004, 0xffffffff)]) /\
  gpio_conf (after_readl 1 0x2004 (state_of [(1, 0x2004, 0xffffffff)]))
    = gpio_conf (state_of [(1, 0x2004, 0xffffffff)]) /\
  writes (trace (after_readl 1 0x2004 (state_of [(1, 0x2004, 0xffffffff)])))
    = writes (trace (state_of [(1, 0x2004, 0xffffffff)])) /\
  (0 = 0 ->
   exists g bank reg bit width,
     groups tegra234_pinctrl !! 0%nat = Some g /\
     pinconf_switch tegra234_pinctrl g TEGRA_PINCONF_PARAM_DRIVE_UP_STRENGTH
       = Some (bank, reg, bit, width) /\
     trace (after_readl 1 0x2004 (state_of [(1, 0x2004, 0xffffffff)]))
       = EvReadl (u32 bank) (u32 reg)
         :: trace (state_of [(1, 0x2004, 0xffffffff)]) /\
     TEGRA_PINCONF_UNPACK_PARAM
       (TEGRA_PINCONF_PACK TEGRA_PINCONF_PARAM_DRIVE_UP_STRENGTH 31)
       = TEGRA_PINCONF_PARAM_DRIVE_UP_STRENGTH /\
     0 <= TEGRA_PINCONF_UNPACK_ARG
            (TEGRA_PINCONF_PACK TEGRA_PINCONF_PARAM_DRIVE_UP_STRENGTH 31)
       < 2 ^ width).
Proof.
  apply (group_get_reads_only tegra234_pinctrl 0
           TEGRA_PINCONF_PARAM_DRIVE_UP_STRENGTH 0
           (state_of [(1, 0x2004, 0xffffffff)]) 0).
  vm_compute. reflexivity.
Defined.

(** X7.  A parameter value outside the enumeration reaches the [default:]
    branch of [tegra_pinconf_reg]: both [tegra_pinconf_group_get] and
    [tegra_pinconf_group_set] return [-ENOTSUPP] with the "Invalid config
    param" diagnostic and access no register, on every group. *)
Theorem invalid_param_not_supported soc group g code a st :
  groups soc !! group = Some g ->
  tegra_pinconf_group_get soc group
    (TEGRA_PINCONF_PACK (TEGRA_PINCONF_PARAM_OTHER code) a) st
  = Ret (- ENOTSUPP, TEGRA_PINCONF_PACK (TEGRA_PINCONF_PARAM_OTHER code) a)
        (after_diag (ErrInvalidParam (TEGRA_PINCONF_PARAM_OTHER code)) st) /\
  tegra_pinconf_group_set soc group
    [TEGRA_PINCONF_PACK (TEGRA_PINCONF_PARAM_OTHER code) a] st
  = Ret (- ENOTSUPP)
        (after_diag (ErrInvalidParam (TEGRA_PINCONF_PARAM_OTHER code)) st).
Proof.
  intros Hg. split.
  - unfold tegra_pinconf_group_get, bind. rewrite (group_at_run _ _ _ _ Hg).
    reflexivity.
  - rewrite (group_set_single _ _ _ _ _ Hg). reflexivity.
Qed.

Lemma invalid_param_not_supported_witness :
  tegra_pinconf_group_get tegra234_pinctrl 0
    (TEGRA_PINCONF_PACK (TEGRA_PINCONF_PARAM_OTHER 99) 1) (state_of [])
  = Ret (- ENOTSUPP, TEGRA_PINCONF_PACK (TEGRA_PINCONF_PARAM_OTHER 99) 1)
        (after_diag (ErrInvalidParam (TEGRA_PINCONF_PARAM_OTHER 99))
           (state_of [])) /\
  tegra_pinconf_group_set tegra234_pinctrl 0
    [TEGRA_PINCONF_PACK (TEGRA_PINCONF_PARAM_OTHER 99) 1] (state_of [])
  = Ret (- ENOTSUPP)
        (after_diag (ErrInvalidParam (TEGRA_PINCONF_PARAM_OTHER 99))
           (state_of [])).
Proof.
  apply (invalid_param_not_supported tegra234_pinctrl 0
           (PINGROUP "touch_clk_pcc4" [TEGRA_PIN_TOUCH_CLK_PCC4] TEGRA_MUX_GP
              TEGRA_MUX_TOUCH TEGRA_MUX_RSVD2 TEGRA_MUX_RSVD3 0x2000 1
              PINGROUP_REG_Y 5 7 6 8 (-1) 10 12 drive_touch_clk_pcc4)
           99 1 (state_of [])).
  reflexivity.
Defined.

(** ** Function selection: what it needs and what it leaves alone *)

Lemma testbit_shiftl_3 bit k :
  0 <= bit -> 0 <= k ->
  Z.testbit (Z.shiftl 3 bit) k = (bit <=? k) && (k <? bit + 2).
Proof.
  intros Hb Hk. rewrite Z.shiftl_spec by exact Hk.
  destruct (Z.leb_spec bit k) as [Hge | Hlt]; cbn [andb].
  - destruct (Z.ltb_spec k (bit + 2)) as [Hin | Hout].
    + assert (k - bit = 0 \/ k - bit = 1) as [-> | ->] by lia; reflexivity.
    + apply (testbit_small 3 2); simpl; lia.
  - apply Z.testbit_neg_r. lia.
Qed.

Lemma find_func_bounds fs function i :
  i <= find_func fs function i <= i + ARRAY_SIZE fs.
Proof.
  unfold ARRAY_SIZE. revert i. induction fs as [| f rest IH]; intros i.
  - cbn. lia.
  - cbn [find_func length]. destruct (f =? function); [lia |].
    specialize (IH (i + 1)). lia.
Qed.

(** What a run of [tegra_pinctrl_set_mux] that returned 0 went through,
    and the state it ended in. *)
Lemma set_mux_ok_inv soc function group g st st1 :
  groups soc !! group = Some g ->
  tegra_pinctrl_set_mux soc function group st = Ret 0 st1 ->
  0 <= mux_reg g /\ 0 <= mux_bit g < 32 /\
  (sfsel_in_mux soc = true -> 0 <= sfsel_bit g < 32) /\
  find_func (funcs g) function 0 <> ARRAY_SIZE (funcs g) /\
  st1 = after_writel
          (mux_update soc g (reg_val st (mux_bank g) (mux_reg g))
             (find_func (funcs g) function 0))
          (mux_bank g) (mux_reg g)
          (after_readl (mux_bank g) (mux_reg g) st).
Proof.
  intros Hg Hrun.
  assert (Hinv : 0 <= mux_reg g /\ 0 <= mux_bit g < 32 /\
                 (sfsel_in_mux soc = true -> 0 <= sfsel_bit g < 32) /\
                 find_func (funcs g) function 0 <> ARRAY_SIZE (funcs g)).
  { unfold tegra_pinctrl_set_mux, bind in Hrun.
    rewrite (group_at_run _ _ _ _ Hg) in Hrun.
    destruct (Z.ltb_spec (mux_reg g) 0); [discriminate |].
    destruct (Z.eqb_spec (find_func (funcs g) function 0) (ARRAY_SIZE (funcs g)));
      [discriminate |].
    unfold pmx_readl at 1, c_shl, ret, undefined in Hrun.
    destruct (Z.leb_spec 0 (mux_bit g)), (Z.ltb_spec (mux_bit g) 32);
      cbn in Hrun; try discriminate.
    repeat split; try lia;
      destruct (sfsel_in_mux soc); try discriminate;
      destruct (Z.leb_spec 0 (sfsel_bit g)), (Z.ltb_spec (sfsel_bit g) 32);
      cbn in Hrun; try discriminate; lia. }
  destruct Hinv as (Hreg & Hbit & Hsf & Hfound).
  rewrite (set_mux_run soc function group g st Hg Hreg Hbit Hsf Hfound) in Hrun.
  injection Hrun as <-.
  repeat split; try assumption; try lia; apply Hsf; assumption.
Qed.

(** X8.  On a group with its four function slots,
    [tegra_pinctrl_set_mux] returns 0 only for a group with a mux
    register and a function that is one of the group's slots.  It then
    has rewritten that one register: every bit outside the two-bit mux
    field and (when [sfsel_in_mux] is set) other than the SFIO-select bit
    is unchanged, the SFIO-select bit reads 1 when [sfsel_in_mux] is set,
    every other register and the GPIO shadow area are unchanged. *)
Theorem set_mux_effect soc function group g st st1 :
  groups soc !! group = Some g ->
  length (funcs g) = 4%nat ->
  tegra_pinctrl_set_mux soc function group st = Ret 0 st1 ->
  0 <= mux_reg g /\
  function ∈ funcs g /\
  (forall k, 0 <= k ->
     k < mux_bit g \/ mux_bit g + 2 <= k ->
     (sfsel_in_mux soc = true -> k <> sfsel_bit g) ->
     Z.testbit (reg_val st1 (mux_bank g) (mux_reg g)) k
     = Z.testbit (reg_val st (mux_bank g) (mux_reg g)) k) /\
  (sfsel_in_mux soc = true ->
   Z.testbit (reg_val st1 (mux_bank g) (mux_reg g)) (sfsel_bit g) = true) /\
  (forall bank reg,
     (u32 (mux_bank g), u32 (mux_reg g)) <> (u32 bank, u32 reg) ->
     reg_val st1 bank reg = reg_val st bank reg) /\
  gpio_conf st1 = gpio_conf st.
Proof.
  intros Hg Hlen Hrun.
  destruct (set_mux_ok_inv soc function group g st st1 Hg Hrun)
    as (Hreg & Hbit & Hsf & Hfound & ->).
  split; [exact Hreg |].
  split; [apply (find_func_found _ _ 0); rewrite Z.add_0_l; exact Hfound |].
  set (i := find_func (funcs g) function 0).
  set (val := reg_val st (mux_bank g) (mux_reg g)).
  assert (Hv : 0 <= val < 2 ^ 32) by apply reg_val_range.
  assert (Hbits : forall k, 0 <= k ->
            Z.testbit (mux_update soc g val i) k =
            (k <? 32)
            && ((Z.testbit val k && negb (Z.testbit (Z.shiftl 3 (mux_bit g)) k))
                || Z.testbit (Z.shiftl i (mux_bit g)) k
                || (sfsel_in_mux soc && (k =? sfsel_bit g)))).
  { intros k Hk. unfold mux_update. destruct (sfsel_in_mux soc) eqn:Hs.
    - rewrite testbit_u32, Z.lor_spec, testbit_u32, Z.lor_spec, testbit_u32,
        Z.land_spec, Z.lnot_spec by exact Hk.
      rewrite testbit_shiftl_1 by (try apply Hsf; lia).
      destruct (k <? 32); reflexivity.
    - rewrite testbit_u32, Z.lor_spec, testbit_u32, Z.land_spec, Z.lnot_spec
        by exact Hk.
      cbn [andb]. rewrite orb_false_r. destruct (k <? 32); reflexivity. }
  assert (Hi : 0 <= i < 4).
  { pose proof (find_func_bounds (funcs g) function 0) as Hb. fold i in Hb.
    unfold ARRAY_SIZE in *. rewrite Hlen in *. fold i in Hfound. lia. }
  assert (Hu : u32 (mux_update soc g val i) = mux_update soc g val i).
  { unfold mux_update. destruct (sfsel_in_mux soc); apply u32_idem. }
  assert (Hout_i : forall k, 0 <= k -> k < mux_bit g \/ mux_bit g + 2 <= k ->
            Z.testbit (Z.shiftl i (mux_bit g)) k = false).
  { intros k Hk Hout. rewrite Z.shiftl_spec by exact Hk.
    destruct Hout as [Hlo | Hhi].
    - apply Z.testbit_neg_r. lia.
    - apply (testbit_small i 2); simpl; lia. }
  split; [| split; [| split]].
  - intros k Hk Hout Hns. rewrite reg_val_after_writel_same, Hu.
    rewrite Hbits by exact Hk. rewrite testbit_shiftl_3 by lia.
    replace ((mux_bit g <=? k) && (k <? mux_bit g + 2)) with false
      by (symmetry; apply andb_false_iff;
          destruct Hout; [left; apply Z.leb_gt | right; apply Z.ltb_ge]; lia).
    rewrite (Hout_i k Hk Hout). cbn [negb]. rewrite andb_true_r, orb_false_r.
    assert (Hs : sfsel_in_mux soc && (k =? sfsel_bit g) = false).
    { destruct (sfsel_in_mux soc); [| reflexivity]. cbn.
      apply Z.eqb_neq. apply Hns. reflexivity. }
    rewrite Hs, orb_false_r.
    destruct (Z.ltb_spec k 32); [reflexivity |].
    symmetry. apply (testbit_small val 32); lia.
  - intros Hs. rewrite reg_val_after_writel_same, Hu.
    destruct (Hsf Hs) as [Hs0 Hs1].
    rewrite Hbits by lia. rewrite Hs, Z.eqb_refl.
    replace (sfsel_bit g <? 32) with true by (symmetry; apply Z.ltb_lt; lia).
    cbn. apply orb_true_r.
  - intros bank reg Hne. rewrite reg_val_after_writel_other by exact Hne.
    reflexivity.
  - reflexivity.
Qed.

(** X8 on the Tegra234 catalog: selecting TOUCH on [touch_clk_pcc4]. *)
Lemma set_mux_effect_witness :
  0 <= 0x2000 /\
  TEGRA_MUX_TOUCH ∈ [TEGRA_MUX_GP; TEGRA_MUX_TOUCH; TEGRA_MUX_RSVD2;
                     TEGRA_MUX_RSVD3] /\
  (forall k, 0 <= k ->
     k < 0 \/ 0 + 2 <= k ->
     (true = true -> k <> 10) ->
     Z.testbit
       (reg_val (final_state
                   (tegra_pinctrl_set_mux tegra234_pinctrl TEGRA_MUX_TOUCH 0
                      (state_of [(1, 0x2000, 0x50)]))) 1 0x2000) k
     = Z.testbit (reg_val (state_of [(1, 0x2000, 0x50)]) 1 0x2000) k) /\
  (true = true ->
   Z.testbit
     (reg_val (final_state
                 (tegra_pinctrl_set_mux tegra234_pinctrl TEGRA_MUX_TOUCH 0
                    (state_of [(1, 0x2000, 0x50)]))) 1 0x2000) 10 = true) /\
  (forall bank reg,
     (u32 1, u32 0x2000) <> (u32 bank, u32 reg) ->
     reg_val (final_state
                (tegra_pinctrl_set_mux tegra234_pinctrl TEGRA_MUX_TOUCH 0
                   (state_of [(1, 0x2000, 0x50)]))) bank reg
     = reg_val (state_of [(1, 0x2000, 0x50)]) bank reg) /\
  gpio_conf (final_state
               (tegra_pinctrl_set_mux tegra234_pinctrl TEGRA_MUX_TOUCH 0
                  (state_of [(1, 0x2000, 0x50)])))
  = gpio_conf (state_of [(1, 0x2000, 0x50)]).
Proof.
  apply (set_mux_effect tegra234_pinctrl TEGRA_MUX_TOUCH 0
           (PINGROUP "touch_clk_pcc4" [TEGRA_PIN_TOUCH_CLK_PCC4] TEGRA_MUX_GP
              TEGRA_MUX_TOUCH TEGRA_MUX_RSVD2 TEGRA_MUX_RSVD3 0x2000 1
              PINGROUP_REG_Y 5 7 6 8 (-1) 10 12 drive_touch_clk_pcc4)
           (state_of [(1, 0x2000, 0x50)])).
  - reflexivity.
  - reflexivity.
  - vm_compute. reflexivity.
Defined.

(** X9.  [tegra_pinctrl_set_mux] on a group without a mux register, or
    with a function that is in none of the group's slots, returns
    [-EINVAL] after a warning and accesses no register. *)
Theorem set_mux_rejects soc function group g st :
  groups soc !! group = Some g ->
  mux_reg g < 0 \/ function ∉ funcs g ->
  exists d,
    tegra_pinctrl_set_mux soc function group st
    = Ret (- EINVAL) (after_diag d st).
Proof.
  intros Hg Hbad.
  destruct (Z.lt_ge_cases (mux_reg g) 0) as [Hneg | Hreg].
  - exists WarnMuxRegAbsent.
    unfold tegra_pinctrl_set_mux, bind. rewrite (group_at_run _ _ _ _ Hg).
    apply Z.ltb_lt in Hneg. rewrite Hneg. reflexivity.
  - destruct Hbad as [Hneg | Hnot]; [lia |].
    exists WarnFunctionNotInGroup.
    apply (set_mux_not_in_group soc function group g st Hg Hreg).
    rewrite (find_func_absent _ _ 0 Hnot). apply Z.add_0_l.
Qed.

Lemma set_mux_rejects_witness :
  exists d,
    tegra_pinctrl_set_mux tegra234_pinctrl TEGRA_MUX_CAN0 0 (state_of [])
    = Ret (- EINVAL) (after_diag d (state_of [])).
Proof.
  apply (set_mux_rejects tegra234_pinctrl TEGRA_MUX_CAN0 0
           (PINGROUP "touch_clk_pcc4" [TEGRA_PIN_TOUCH_CLK_PCC4] TEGRA_MUX_GP
              TEGRA_MUX_TOUCH TEGRA_MUX_RSVD2 TEGRA_MUX_RSVD3 0x2000 1
              PINGROUP_REG_Y 5 7 6 8 (-1) 10 12 drive_touch_clk_pcc4)
           (state_of [])).
  - reflexivity.
  - right. vm_compute. intros Hin.
    repeat (apply elem_of_cons in Hin; destruct Hin as [Hin | Hin];
            [discriminate |]).
    apply elem_of_nil in Hin. exact Hin.
Defined.

(** ** The search for the group of a GPIO pin *)

(** X10.  The search used by the GPIO save, restore and request paths
    returns the index of the first group whose pin list is exactly the
    requested pin, and the number of groups when there is none; groups
    with several pins are never selected. *)
Theorem find_pin_group_spec gs offset :
  (forall g, gs !! find_pin_group gs offset 0 = Some g -> pins g = [offset]) /\
  (forall j g, (j < find_pin_group gs offset 0)%nat ->
     gs !! j = Some g -> pins g <> [offset]) /\
  (find_pin_group gs offset 0 = length gs <->
   forall g, g ∈ gs -> pins g <> [offset]).
Proof.
  pose proof (find_pin_group_from gs offset 0) as Hgen.
  rewrite Nat.sub_0_r in Hgen. exact Hgen.
Qed.

(** ** GPIO request and release: the edges *)

(** X11.  When no single-pin group owns the pin, the GPIO request and the
    GPIO release both stop at the "Pingroup not found" diagnostic: the
    request returns [-EINVAL], and neither accesses a register nor
    touches the shadow area. *)
Theorem gpio_pin_without_group soc offset st :
  (forall g, g ∈ groups soc -> pins g <> [offset]) ->
  tegra_pinctrl_gpio_request_enable soc offset st
    = Ret (- EINVAL) (after_diag (ErrPingroupNotFound offset) st) /\
  tegra_pinctrl_gpio_disable_free soc offset st
    = Ret tt (after_diag (ErrPingroupNotFound offset) st).
Proof.
  intros Hnone.
  assert (Hnf : bool_decide (find_pin_group (groups soc) offset 0 = ngroups soc)
                = true).
  { apply bool_decide_eq_true_2. unfold ngroups.
    apply (find_pin_group_from (groups soc) offset 0). exact Hnone. }
  split.
  - unfold tegra_pinctrl_gpio_request_enable, bind.
    unfold tegra_pinctrl_gpio_save_config. rewrite Hnf. reflexivity.
  - unfold tegra_pinctrl_gpio_disable_free, bind.
    unfold tegra_pinctrl_gpio_restore_config. rewrite Hnf. reflexivity.
Qed.

(** X11 on the Tegra234 catalog: pin 300 is no pin of the controller. *)
Lemma gpio_pin_without_group_witness :
  tegra_pinctrl_gpio_request_enable tegra234_pinctrl 300 (state_of [])
    = Ret (- EINVAL) (after_diag (ErrPingroupNotFound 300) (state_of [])) /\
  tegra_pinctrl_gpio_disable_free tegra234_pinctrl 300 (state_of [])
    = Ret tt (after_diag (ErrPingroupNotFound 300) (state_of [])).
Proof.
  apply (gpio_pin_without_group tegra234_pinctrl 300 (state_of [])).
  apply Forall_forall. apply (bool_decide_unpack _). vm_compute. exact I.
Defined.

(** X12.  On a catalog with [sfsel_in_mux], a GPIO request for a pin
    whose group has a mux register and an SFIO-select bit returns 0, saves
    the mux register value under the pin number and clears exactly the
    SFIO-select bit of the mux register. *)
Theorem gpio_request_clears_sfsel soc offset g st :
  groups soc !! find_pin_group (groups soc) offset 0 = Some g ->
  sfsel_in_mux soc = true ->
  0 <= mux_reg g ->
  0 <= sfsel_bit g < 32 ->
  exists st1,
    tegra_pinctrl_gpio_request_enable soc offset st = Ret 0 st1 /\
    gpio_conf st1 !! offset = Some (reg_val st (mux_bank g) (mux_reg g)) /\
    (forall k, 0 <= k ->
       Z.testbit (reg_val st1 (mux_bank g) (mux_reg g)) k
       = Z.testbit (reg_val st (mux_bank g) (mux_reg g)) k
         && negb (k =? sfsel_bit g)) /\
    (forall bank reg,
       (u32 (mux_bank g), u32 (mux_reg g)) <> (u32 bank, u32 reg) ->
       reg_val st1 bank reg = reg_val st bank reg).
Proof.
  intros Hg Hsf Hreg Hbit.
  assert (Hreg' : (0 <=? mux_reg g) = true) by (apply Z.leb_le; exact Hreg).
  eexists. split; [| split; [| split]].
  - unfold tegra_pinctrl_gpio_request_enable. unfold bind at 1.
    rewrite (gpio_save_config_run soc offset g st Hg Hreg').
    change (negb (0 =? 0)) with false. cbv iota. rewrite Hsf. cbn [negb].
    unfold bind at 1. rewrite (group_at_run _ _ _ _ Hg).
    replace ((mux_reg g <? 0) || (sfsel_bit g <? 0)) with false
      by (symmetry; apply orb_false_iff; split; apply Z.ltb_ge; lia).
    unfold bind, pmx_readl at 1, BIT. rewrite c_shl_ok by lia.
    rewrite pmx_writel_run. reflexivity.
  - cbn [after_writel gpio_conf]. apply lookup_insert_eq.
  - intros k Hk. rewrite reg_val_after_writel_same.
    cbn [reg_val regs]. fold (reg_val st (mux_bank g) (mux_reg g)).
    rewrite u32_idem, land_u32_l by apply reg_val_range.
    rewrite Z.land_spec, Z.lnot_spec, testbit_shiftl_1 by lia. reflexivity.
  - intros bank reg Hne. rewrite reg_val_after_writel_other by exact Hne.
    reflexivity.
Qed.

(** X12 on the Tegra234 catalog: pin 201, mux register holding 0x441. *)
Lemma gpio_request_clears_sfsel_witness :
  exists st1,
    tegra_pinctrl_gpio_request_enable tegra234_pinctrl TEGRA_PIN_TOUCH_CLK_PCC4
      (state_of [(1, 0x2000, 0x441)]) = Ret 0 st1 /\
    gpio_conf st1 !! TEGRA_PIN_TOUCH_CLK_PCC4
      = Some (reg_val (state_of [(1, 0x2000, 0x441)]) 1 0x2000) /\
    (forall k, 0 <= k ->
       Z.testbit (reg_val st1 1 0x2000) k
       = Z.testbit (reg_val (state_of [(1, 0x2000, 0x441)]) 1 0x2000) k
         && negb (k =? 10)) /\
    (forall bank reg,
       (u32 1, u32 0x2000) <> (u32 bank, u32 reg) ->
       reg_val st1 bank reg
       = reg_val (state_of [(1, 0x2000, 0x441)]) bank reg).
Proof.
  apply (gpio_request_clears_sfsel tegra234_pinctrl TEGRA_PIN_TOUCH_CLK_PCC4
           (PINGROUP "touch_clk_pcc4" [TEGRA_PIN_TOUCH_CLK_PCC4] TEGRA_MUX_GP
              TEGRA_MUX_TOUCH TEGRA_MUX_RSVD2 TEGRA_MUX_RSVD3 0x2000 1
              PINGROUP_REG_Y 5 7 6 8 (-1) 10 12 drive_touch_clk_pcc4)
           (state_of [(1, 0x2000, 0x441)])).
  - vm_compute. reflexivity.
  - reflexivity.
  - vm_compute. discriminate.
  - vm_compute. split; [discriminate | reflexivity].
Defined.

(** X13.  On a catalog with [sfsel_in_mux], a GPIO request for a pin whose
    group has a mux register but no SFIO-select bit fails with [-EINVAL]
    only after the save: the shadow entry of the pin has been overwritten
    with the current mux register value, and no register was written. *)
Theorem gpio_request_without_sfsel_bit soc offset g st :
  groups soc !! find_pin_group (groups soc) offset 0 = Some g ->
  sfsel_in_mux soc = true ->
  0 <= mux_reg g ->
  sfsel_bit g < 0 ->
  exists st1,
    tegra_pinctrl_gpio_request_enable soc offset st = Ret (- EINVAL) st1 /\
    gpio_conf st1 = <[offset := reg_val st (mux_bank g) (mux_reg g)]>
                      (gpio_conf st) /\
    regs st1 = regs st /\
    writes (trace st1) = writes (trace st).
Proof.
  intros Hg Hsf Hreg Hneg.
  assert (Hreg' : (0 <=? mux_reg g) = true) by (apply Z.leb_le; exact Hreg).
  eexists. split; [| split; [| split]].
  - unfold tegra_pinctrl_gpio_request_enable. unfold bind at 1.
    rewrite (gpio_save_config_run soc offset g st Hg Hreg').
    change (negb (0 =? 0)) with false. cbv iota. rewrite Hsf. cbn [negb].
    unfold bind at 1. rewrite (group_at_run _ _ _ _ Hg).
    replace ((mux_reg g <? 0) || (sfsel_bit g <? 0)) with true
      by (symmetry; apply orb_true_iff; right; apply Z.ltb_lt; lia).
    reflexivity.
  - reflexivity.
  - reflexivity.
  - reflexivity.
Qed.

(** X13 on the Tegra234 catalog: pin 217 is [eqos_comp], whose
    [sfsel_bit] is -1. *)
Lemma gpio_request_without_sfsel_bit_witness :
  exists st1,
    tegra_pinctrl_gpio_request_enable tegra234_pinctrl TEGRA_PIN_EQOS_COMP
      (state_of [(0, 0x15050, 0x7)]) = Ret (- EINVAL) st1 /\
    gpio_conf st1 = <[TEGRA_PIN_EQOS_COMP
                      := reg_val (state_of [(0, 0x15050, 0x7)]) 0 0x15050]>
                      (gpio_conf (state_of [(0, 0x15050, 0x7)])) /\
    regs st1 = regs (state_of [(0, 0x15050, 0x7)]) /\
    writes (trace st1) = writes (trace (state_of [(0, 0x15050, 0x7)])).
Proof.
  apply (gpio_request_without_sfsel_bit tegra234_pinctrl TEGRA_PIN_EQOS_COMP
           (PINGROUP "eqos_comp" [TEGRA_PIN_EQOS_COMP] TEGRA_MUX_EQOS
              TEGRA_MUX_RSVD1 TEGRA_MUX_RSVD2 TEGRA_MUX_RSVD3 0x15050 0
              PINGROUP_REG_N (-1) (-1) (-1) (-1) (-1) (-1) (-1) drive_eqos_comp)
           (state_of [(0, 0x15050, 0x7)])).
  - vm_compute. reflexivity.
  - reflexivity.
  - vm_compute. discriminate.
  - vm_compute. reflexivity.
Defined.


(** ** The Tegra234 catalog as a whole *)

Lemma mux_round_trip soc group g i function c st :
  groups soc !! group = Some g ->
  mux_group_ok soc g = true ->
  funcs g !! i = Some function ->
  exists st1 st2,
    tegra_pinctrl_set_mux soc function group st = Ret 0 st1 /\
    field (reg_val st1 (mux_bank g) (mux_reg g)) (mux_bit g) 2 = Z.of_nat i /\
    tegra_pinconf_group_get soc group
      (TEGRA_PINCONF_PACK TEGRA_PINCONF_PARAM_FUNCTION c) st1
      = Ret (0, TEGRA_PINCONF_PACK TEGRA_PINCONF_PARAM_FUNCTION (Z.of_nat i))
            st2.
Proof.
  intros Hg Hok Hslot. unfold mux_group_ok in Hok.
  repeat (apply andb_true_iff in Hok; destruct Hok as [Hok ?]).
  apply Z.leb_le in Hok.
  repeat match goal with
         | H : bool_decide _ = true |- _ => apply bool_decide_eq_true in H
         | H : (_ <=? _) = true |- _ => apply Z.leb_le in H
         end.
  rename H into Hsf, H0 into Hnodup, H1 into Hlen, H2 into Hmb30, H3 into Hmb0.
  assert (Hsf' : sfsel_in_mux soc = true ->
                 0 <= sfsel_bit g < 32 /\ sfsel_bit g <> mux_bit g /\
                 sfsel_bit g <> mux_bit g + 1).
  { intros Hs. rewrite Hs in Hsf. cbn in Hsf.
    repeat (apply andb_true_iff in Hsf; destruct Hsf as [Hsf ?]).
    apply Z.leb_le in Hsf.
    repeat match goal with
           | H : negb _ = true |- _ => apply negb_true_iff, Z.eqb_neq in H
           | H : (_ <? _) = true |- _ => apply Z.ltb_lt in H
           end.
    repeat split; assumption. }
  assert (Hi : (i < 4)%nat).
  { rewrite <- Hlen. apply lookup_lt_is_Some. exists function. exact Hslot. }
  assert (Hfirst : forall j, (j < i)%nat -> funcs g !! j <> Some function).
  { intros j Hj Hj'. pose proof (NoDup_lookup _ _ _ _ Hnodup Hj' Hslot). lia. }
  pose proof (find_func_first (funcs g) function 0 i Hslot Hfirst) as Hfind.
  rewrite Z.add_0_l in Hfind.
  assert (Hfound : find_func (funcs g) function 0 <> ARRAY_SIZE (funcs g)).
  { rewrite Hfind. unfold ARRAY_SIZE. lia. }
  pose proof (set_mux_run soc function group g st Hg Hok ltac:(lia)
                (fun H => proj1 (Hsf' H)) Hfound) as Hrun.
  rewrite Hfind in Hrun.
  set (st1 := after_writel _ _ _ _) in Hrun.
  assert (Hfield :
    field (reg_val st1 (mux_bank g) (mux_reg g)) (mux_bit g) 2 = Z.of_nat i).
  { subst st1. rewrite reg_val_after_writel_same.
    replace (u32 (mux_update soc g (reg_val st (mux_bank g) (mux_reg g))
                    (Z.of_nat i)))
      with (mux_update soc g (reg_val st (mux_bank g) (mux_reg g)) (Z.of_nat i))
      by (unfold mux_update; destruct (sfsel_in_mux soc); symmetry;
          apply u32_idem).
    apply field_mux_update; [lia | | lia].
    intros H. destruct (Hsf' H) as (? & ? & ?). repeat split; lia. }
  exists st1, (after_readl (mux_bank g) (mux_reg g) st1).
  split; [exact Hrun | split; [exact Hfield |]].
  rewrite (group_get_run soc group g TEGRA_PINCONF_PARAM_FUNCTION c
             (mux_bank g) (mux_reg g) (mux_bit g) 2 st1 Hg eq_refl)
    by lia.
  rewrite bool_decide_eq_false_2 by discriminate.
  rewrite Hfield. unfold u16. rewrite Z.mod_small by lia. reflexivity.
Qed.

Lemma tegra234_groups_mux_ok :
  Forall (fun g => sfsel_bit g = -1 \/ mux_group_ok tegra234_pinctrl g = true)
         tegra234_groups.
Proof. apply (bool_decide_unpack _). vm_compute. exact I. Qed.

(** X14.  On the Tegra234 catalog, for every group except the three whose
    [sfsel_bit] is -1 ([eqos_comp], [qspi_comp], [sdmmc1_comp]), every
    function slot and every state: selecting the slot's function returns
    0, leaves the slot index in the mux field, and the function parameter
    reads back the slot index. *)
Theorem tegra234_mux_round_trip group g i function c st :
  tegra234_groups !! group = Some g ->
  sfsel_bit g <> -1 ->
  funcs g !! i = Some function ->
  exists st1 st2,
    tegra_pinctrl_set_mux tegra234_pinctrl function group st = Ret 0 st1 /\
    field (reg_val st1 (mux_bank g) (mux_reg g)) (mux_bit g) 2 = Z.of_nat i /\
    tegra_pinconf_group_get tegra234_pinctrl group
      (TEGRA_PINCONF_PACK TEGRA_PINCONF_PARAM_FUNCTION c) st1
      = Ret (0, TEGRA_PINCONF_PACK TEGRA_PINCONF_PARAM_FUNCTION (Z.of_nat i))
            st2.
Proof.
  intros Hg Hsf Hslot.
  pose proof tegra234_groups_mux_ok as Hall.
  rewrite Forall_lookup in Hall. destruct (Hall group g Hg) as [Hbad | Hok].
  - contradiction.
  - apply (mux_round_trip tegra234_pinctrl group g i function c st Hg Hok Hslot).
Qed.

(** X14 at [soc_gpio60_pac7] (index 194), slot 3, function IGPU. *)
Lemma tegra234_mux_round_trip_witness :
  exists st1 st2,
    tegra_pinctrl_set_mux tegra234_pinctrl TEGRA_MUX_IGPU 194 (state_of [])
      = Ret 0 st1 /\
    field (reg_val st1 0 0x18038) 0 2 = 3 /\
    tegra_pinconf_group_get tegra234_pinctrl 194
      (TEGRA_PINCONF_PACK TEGRA_PINCONF_PARAM_FUNCTION 0) st1
      = Ret (0, TEGRA_PINCONF_PACK TEGRA_PINCONF_PARAM_FUNCTION 3) st2.
Proof.
  apply (tegra234_mux_round_trip 194
           (PINGROUP "soc_gpio60_pac7" [TEGRA_PIN_SOC_GPIO60_PAC7]
              TEGRA_MUX_RSVD0 TEGRA_MUX_I2S8 TEGRA_MUX_NV TEGRA_MUX_IGPU
              0x18038 0 PINGROUP_REG_Y (-1) 7 6 8 (-1) 10 12
              drive_soc_gpio60_pac7)
           3%nat TEGRA_MUX_IGPU 0 (state_of [])).
  - reflexivity.
  - vm_compute. discriminate.
  - reflexivity.
Defined.

Lemma tegra234_groups_distinct :
  Forall (fun p : nat * tegra_pingroup =>
            Forall (fun q : nat * tegra_pingroup =>
                      p.1 = q.1 \/
                      ((u32 (mux_bank p.2), u32 (mux_reg p.2))
                       <> (u32 (mux_bank q.2), u32 (mux_reg q.2)) /\
                       pins p.2 <> pins q.2))
                   (indexed_groups tegra234_groups))
         (indexed_groups tegra234_groups).
Proof. apply (bool_decide_unpack _). vm_compute. exact I. Qed.

Lemma indexed_groups_lookup gs i g :
  gs !! i = Some g -> (i, g) ∈ indexed_groups gs.
Proof.
  intros H. unfold indexed_groups. apply list_elem_of_lookup. exists i.
  rewrite list_lookup_imap, H. reflexivity.
Qed.

(** In a table where no other group has the pins of [g], a single-pin
    group, the GPIO search for the pin of [g] finds [g]. *)
Lemma find_pin_group_own gs group g :
  gs !! group = Some g ->
  length (pins g) = 1%nat ->
  (forall j g', gs !! j = Some g' -> j <> group -> pins g' <> pins g) ->
  gs !! find_pin_group gs (nth 0 (pins g) 0) 0 = Some g.
Proof.
  intros Hg Hone Huniq.
  assert (Hpins : pins g = [nth 0 (pins g) 0]).
  { destruct (pins g) as [| p [| q rest]]; cbn in Hone; try discriminate.
    reflexivity. }
  set (offset := nth 0 (pins g) 0) in *.
  pose proof (find_pin_group_from gs offset 0) as Hfrom.
  rewrite Nat.sub_0_r in Hfrom. destruct Hfrom as (Hat & Hbefore & Hiff).
  pose proof (find_pin_group_bounds gs offset 0) as Hb.
  destruct (gs !! find_pin_group gs offset 0) as [g0 |] eqn:Hfound.
  - destruct (decide (find_pin_group gs offset 0 = group)) as [Heq | Hne].
    + rewrite Heq in Hfound. congruence.
    + exfalso. apply (Huniq _ g0 Hfound Hne).
      rewrite (Hat g0 eq_refl). symmetry. exact Hpins.
  - exfalso. apply lookup_ge_None in Hfound.
    assert (Hend : find_pin_group gs offset 0 = length gs) by lia.
    apply (proj1 Hiff Hend g); [| exact Hpins].
    apply list_elem_of_lookup. exists group. exact Hg.
Qed.

Lemma tegra234_groups_four_slots_one_pin :
  Forall (fun g => length (funcs g) = 4%nat /\ length (pins g) = 1%nat)
         tegra234_groups.
Proof. apply (bool_decide_unpack _). vm_compute. exact I. Qed.

Lemma tegra234_groups_distinct_at group g group' g' :
  tegra234_groups !! group = Some g ->
  tegra234_groups !! group' = Some g' ->
  group <> group' ->
  (u32 (mux_bank g), u32 (mux_reg g)) <> (u32 (mux_bank g'), u32 (mux_reg g'))
  /\ pins g <> pins g'.
Proof.
  intros Hg Hg' Hne.
  pose proof tegra234_groups_distinct as Hd.
  rewrite Forall_forall in Hd.
  pose proof (Hd _ (indexed_groups_lookup _ _ _ Hg)) as Hrow.
  rewrite Forall_forall in Hrow.
  destruct (Hrow _ (indexed_groups_lookup _ _ _ Hg')) as [Heq | Hboth].
  - cbn [fst] in Heq. contradiction.
  - exact Hboth.
Qed.

(** Whatever [tegra_pinctrl_set_mux] returns, it has written at most the
    mux register of its group. *)
Lemma set_mux_other_registers soc function group g r st st1 bank reg :
  groups soc !! group = Some g ->
  tegra_pinctrl_set_mux soc function group st = Ret r st1 ->
  (u32 (mux_bank g), u32 (mux_reg g)) <> (u32 bank, u32 reg) ->
  reg_val st1 bank reg = reg_val st bank reg.
Proof.
  intros Hg Hrun Hne.
  destruct (Z.ltb_spec (mux_reg g) 0) as [Habs | Hreg].
  { unfold tegra_pinctrl_set_mux, bind in Hrun.
    rewrite (group_at_run _ _ _ _ Hg) in Hrun.
    apply Z.ltb_lt in Habs. rewrite Habs in Hrun.
    injection Hrun as <- <-. reflexivity. }
  destruct (Z.eq_dec (find_func (funcs g) function 0) (ARRAY_SIZE (funcs g)))
    as [Hnf | Hfound].
  { rewrite (set_mux_not_in_group soc function group g st Hg Hreg Hnf) in Hrun.
    injection Hrun as <- <-. reflexivity. }
  assert (Hzero : r = 0).
  { unfold tegra_pinctrl_set_mux, bind in Hrun.
    rewrite (group_at_run _ _ _ _ Hg) in Hrun.
    apply Z.ltb_ge in Hreg. rewrite Hreg in Hrun.
    apply Z.eqb_neq in Hfound. rewrite Hfound in Hrun.
    unfold pmx_readl at 1, c_shl, ret, undefined in Hrun.
    destruct ((0 <=? mux_bit g) && (mux_bit g <? 32)); [| discriminate].
    destruct (sfsel_in_mux soc).
    - destruct ((0 <=? sfsel_bit g) && (sfsel_bit g <? 32)); [| discriminate].
      rewrite pmx_writel_run in Hrun. injection Hrun as <- _. reflexivity.
    - rewrite pmx_writel_run in Hrun. injection Hrun as <- _. reflexivity. }
  subst r.
  destruct (set_mux_ok_inv soc function group g st st1 Hg Hrun)
    as (_ & _ & _ & _ & ->).
  rewrite reg_val_after_writel_other by exact Hne.
  apply reg_val_after_readl.
Qed.

(** X15.  On the Tegra234 catalog no two groups share a pin or a mux
    register.  For every group, the GPIO search for the group's pin finds
    that very group; and whatever function is selected on the group and
    whatever [tegra_pinctrl_set_mux] returns, the mux register of every
    other group is left as it was. *)
Theorem tegra234_groups_independent group g :
  tegra234_groups !! group = Some g ->
  tegra234_groups !! find_pin_group tegra234_groups (nth 0 (pins g) 0) 0
  = Some g /\
  forall group' g' function r st st1,
    tegra234_groups !! group' = Some g' ->
    group <> group' ->
    tegra_pinctrl_set_mux tegra234_pinctrl function group st = Ret r st1 ->
    reg_val st1 (mux_bank g') (mux_reg g')
    = reg_val st (mux_bank g') (mux_reg g').
Proof.
  intros Hg.
  pose proof tegra234_groups_four_slots_one_pin as Hall.
  rewrite Forall_lookup in Hall. destruct (Hall group g Hg) as [Hlen Hone].
  split.
  - apply (find_pin_group_own tegra234_groups group g Hg Hone).
    intros j gj Hj Hjne.
    apply (tegra234_groups_distinct_at j gj group g Hj Hg Hjne).
  - intros group' g' function r st st1 Hg' Hne Hrun.
    apply (set_mux_other_registers tegra234_pinctrl function group g r st st1);
      [exact Hg | exact Hrun |].
    apply (tegra234_groups_distinct_at group g group' g' Hg Hg' Hne).
Qed.

(** X15 at [eqos_comp] (index 50), one of the three groups without an
    SFIO-select bit. *)
Lemma tegra234_groups_independent_witness :
  tegra234_groups
    !! find_pin_group tegra234_groups
         (nth 0 (pins (default (demo_group "g" 0 [] 0 0)
                         (tegra234_groups !! 50%nat))) 0) 0
  = Some (default (demo_group "g" 0 [] 0 0) (tegra234_groups !! 50%nat)) /\
  forall group' g' function r st st1,
    tegra234_groups !! group' = Some g' ->
    50%nat <> group' ->
    tegra_pinctrl_set_mux tegra234_pinctrl function 50 st = Ret r st1 ->
    reg_val st1 (mux_bank g') (mux_reg g')
    = reg_val st (mux_bank g') (mux_reg g').
Proof.
  apply (tegra234_groups_independent 50
           (default (demo_group "g" 0 [] 0 0) (tegra234_groups !! 50%nat))).
  reflexivity.
Defined.

(** ** The function index built at probe time *)

Lemma probe_gfn_loop_four fs fn :
  length fs = 4%nat ->
  exists gfn,
    probe_gfn_loop fs fn 0 4 = Some gfn /\
    (bool_decide (gfn = 4%nat) = negb (bool_decide (fn ∈ fs))).
Proof.
  intros Hlen.
  destruct fs as [| a [| b [| c [| d [| e rest]]]]]; cbn in Hlen; try discriminate.
  cbn [probe_gfn_loop lookup list_lookup].
  assert (Hin : forall x, (x ∈ [a; b; c; d]) <->
                          (a = x \/ b = x \/ c = x \/ d = x)).
  { intros x. rewrite !elem_of_cons, elem_of_nil. intuition congruence. }
  destruct (Z.eqb_spec a fn) as [Ha | Ha].
  { exists 0%nat. split; [reflexivity |].
    rewrite (bool_decide_eq_true_2 (fn ∈ _)) by (apply Hin; auto). reflexivity. }
  destruct (Z.eqb_spec b fn) as [Hb | Hb].
  { exists 1%nat. split; [reflexivity |].
    rewrite (bool_decide_eq_true_2 (fn ∈ _)) by (apply Hin; auto). reflexivity. }
  destruct (Z.eqb_spec c fn) as [Hc | Hc].
  { exists 2%nat. split; [reflexivity |].
    rewrite (bool_decide_eq_true_2 (fn ∈ _)) by (apply Hin; auto). reflexivity. }
  destruct (Z.eqb_spec d fn) as [Hd | Hd].
  { exists 3%nat. split; [reflexivity |].
    rewrite (bool_decide_eq_true_2 (fn ∈ _)) by (apply Hin; auto). reflexivity. }
  exists 4%nat. split; [reflexivity |].
  rewrite (bool_decide_eq_false_2 (fn ∈ _)) by (rewrite Hin; intuition congruence).
  reflexivity.
Qed.

(** The group loop for one function, as long as the name array has room. *)
Lemma probe_groups_loop_run limit fn gs group_pins count :
  Forall (fun g => length (funcs g) = 4%nat) gs ->
  (length group_pins + length (List.filter (offers fn) gs) <= limit)%nat ->
  probe_groups_loop limit fn gs group_pins count =
  ProbeOk (group_pins ++ map name (List.filter (offers fn) gs),
           (count + length (List.filter (offers fn) gs))%nat).
Proof.
  revert group_pins count.
  induction gs as [| g rest IH]; intros group_pins count Hfour Hroom.
  - cbn. rewrite app_nil_r, Nat.add_0_r. reflexivity.
  - apply Forall_cons in Hfour. destruct Hfour as [Hg Hrest].
    assert (Hf : List.filter (offers fn) (g :: rest)
                 = if offers fn g then g :: List.filter (offers fn) rest
                   else List.filter (offers fn) rest) by reflexivity.
    rewrite Hf in *. clear Hf.
    cbn [probe_groups_loop].
    destruct (mux_reg g =? -1) eqn:Hm.
    + assert (Hoff : offers fn g = false)
        by (unfold offers; rewrite Hm; reflexivity).
      rewrite Hoff in *. apply IH; assumption.
    + destruct (probe_gfn_loop_four (funcs g) fn Hg) as (gfn & Hloop & Hdec).
      rewrite Hloop, Hdec.
      destruct (bool_decide (fn ∈ funcs g)) eqn:Hin; cbn [negb].
      * assert (Hoff : offers fn g = true)
          by (unfold offers; rewrite Hm, Hin; reflexivity).
        rewrite Hoff in *. cbn [length] in Hroom.
        rewrite bool_decide_eq_false_2 by lia.
        rewrite IH; [| exact Hrest | rewrite length_app; cbn; lia].
        cbn [map length]. rewrite <- app_assoc. cbn [app].
        f_equal. f_equal. lia.
      * assert (Hoff : offers fn g = false)
          by (unfold offers; rewrite Hm, Hin; reflexivity).
        rewrite Hoff in *. apply IH; assumption.
Qed.

Lemma probe_functions_loop_run limit gs fn ngroups0 group_pins index :
  Forall (fun g => length (funcs g) = 4%nat) gs ->
  (length group_pins
   + length (concat (probe_segments gs fn (length ngroups0))) <= limit)%nat ->
  probe_functions_loop limit gs fn ngroups0 group_pins index =
  ProbeOk (group_pins ++ concat (probe_segments gs fn (length ngroups0)),
           index ++ index_of_segments (length group_pins) ngroups0
                      (probe_segments gs fn (length ngroups0))).
Proof.
  intros Hfour. revert fn group_pins index.
  induction ngroups0 as [| count0 rest IH]; intros fn group_pins index Hroom.
  - cbn. rewrite !app_nil_r. reflexivity.
  - unfold probe_segments in *.
    cbn [probe_functions_loop length fn_range map concat index_of_segments] in *.
    rewrite length_app, length_map in Hroom.
    rewrite probe_groups_loop_run by (try exact Hfour; lia).
    rewrite IH by (rewrite length_app, length_map; lia).
    rewrite <- !app_assoc. cbn [app]. rewrite length_app, !length_map.
    reflexivity.
Qed.

Lemma fn_range_spec fn n x : x ∈ fn_range fn n <-> fn <= x < fn + Z.of_nat n.
Proof.
  revert fn. induction n as [| n IH]; intros fn; cbn [fn_range].
  - rewrite elem_of_nil. lia.
  - rewrite elem_of_cons, IH. lia.
Qed.

Lemma fn_range_NoDup fn n : NoDup (fn_range fn n).
Proof.
  revert fn. induction n as [| n IH]; intros fn; cbn [fn_range].
  - apply NoDup_nil_2.
  - apply NoDup_cons. split; [| apply IH].
    rewrite fn_range_spec. lia.
Qed.

Lemma fn_range_lookup fn n k :
  (k < n)%nat -> fn_range fn n !! k = Some (fn + Z.of_nat k).
Proof.
  revert fn k. induction n as [| n IH]; intros fn k Hk; [lia |].
  destruct k as [| k]; cbn [fn_range lookup list_lookup].
  - f_equal. lia.
  - change (fn_range (fn + 1) n !! k = Some (fn + Z.of_nat (S k))).
    rewrite IH by lia. f_equal. lia.
Qed.

Lemma fn_range_length fn n : length (fn_range fn n) = n.
Proof. revert fn. induction n as [| n IH]; intros fn; cbn; [| rewrite IH]; reflexivity. Qed.

(** Every group is counted for at most four of any list of distinct
    functions, so the segments never need more than [4 * ngroups]
    names. *)
Lemma segments_fit gs fl :
  Forall (fun g => length (funcs g) = 4%nat) gs ->
  NoDup fl ->
  (length (concat (map (fun f => map name (List.filter (offers f) gs)) fl))
   <= length gs * 4)%nat.
Proof.
  intros Hfour Hnd. induction gs as [| g rest IH].
  - cbn. induction fl as [| f fl IHf]; [cbn; lia |].
    apply NoDup_cons in Hnd. cbn [map concat]. rewrite length_app.
    cbn [length]. apply IHf. apply Hnd.
  - apply Forall_cons in Hfour. destruct Hfour as [Hg Hrest].
    specialize (IH Hrest).
    assert (Hsplit :
      (length (concat (map (fun f => map name (List.filter (offers f) (g :: rest))) fl))
       = length (List.filter (fun f => offers f g) fl)
         + length (concat (map (fun f => map name (List.filter (offers f) rest)) fl)))%nat).
    { clear. induction fl as [| f fl IHf]; [reflexivity |].
      cbn [map concat]. rewrite !length_app, IHf, !length_map.
      cbn [List.filter]. destruct (offers f g); cbn [length]; lia. }
    rewrite Hsplit. cbn [length].
    assert (Hle : (length (List.filter (fun f => offers f g) fl) <= 4)%nat).
    { rewrite <- Hg. apply submseteq_length. apply NoDup_submseteq.
      - apply NoDup_ListNoDup, List.NoDup_filter, NoDup_ListNoDup. exact Hnd.
      - intros f Hf. apply list_elem_of_In, List.filter_In in Hf.
        destruct Hf as [_ Hoff]. unfold offers in Hoff.
        apply andb_true_iff in Hoff. destruct Hoff as [_ Hoff].
        apply bool_decide_eq_true in Hoff. exact Hoff. }
    lia.
Qed.

(** Where the entry of function [k] points: its count is the count the
    table held plus the number of its groups, and its groups start at the
    position it records. *)
Lemma index_of_segments_lookup (segs : list (list string)) :
  forall counts pre idx k count0 s,
    counts !! k = Some count0 ->
    segs !! k = Some s ->
    exists start,
      (idx ++ index_of_segments (length pre) counts segs) !! (length idx + k)%nat
      = Some (start, (count0 + length s)%nat) /\
      (start + length s <= length (pre ++ concat segs))%nat /\
      take (length s) (drop start (pre ++ concat segs)) = s.
Proof.
  induction segs as [| s0 rest IH]; intros counts pre idx k count0 s Hc Hk.
  - rewrite lookup_nil in Hk. discriminate.
  - destruct counts as [| c0 counts]; [rewrite lookup_nil in Hc; discriminate |].
    destruct k as [| k].
    + cbn in Hc, Hk. injection Hc as ->. injection Hk as ->.
      exists (length pre). rewrite Nat.add_0_r. cbn [index_of_segments concat].
      rewrite lookup_app_r by lia. rewrite Nat.sub_diag.
      split; [reflexivity |]. split.
      * rewrite !length_app. lia.
      * rewrite drop_app_length. apply take_app_length.
    + cbn in Hc, Hk. cbn [concat index_of_segments].
      destruct (IH counts (pre ++ s0) (idx ++ [(length pre, (c0 + length s0)%nat)])
                  k count0 s Hc Hk) as (start & Hidx & Hfit & Hseg).
      exists start.
      rewrite <- !app_assoc in Hidx, Hfit, Hseg. cbn [app] in Hidx.
      rewrite !length_app in Hidx. cbn [length] in Hidx.
      replace (length idx + 1 + k)%nat with (length idx + S k)%nat in Hidx by lia.
      split; [exact Hidx |]. split; [exact Hfit | exact Hseg].
Qed.

Lemma index_of_segments_length (segs : list (list string)) :
  forall counts start,
    length counts = length segs ->
    length (index_of_segments start counts segs) = length counts.
Proof.
  induction segs as [| s rest IH]; intros counts start Hlen;
    destruct counts as [| c counts]; cbn in *; try lia.
  rewrite IH by lia. reflexivity.
Qed.

(** X16.  The function index built by [tegra_pinctrl_probe].  For a
    catalog whose groups all have their four function slots the
    construction never reaches its [BUG_ON] and fills at most
    [ngroups * 4] names.  The entry of function [fn] points to the names
    of the groups that have a mux register and list [fn] among their
    slots, once each, in table order; its count is the number of these
    groups added to the count the static function table held when the
    probe started.  So the group list handed out for a function is
    exactly its groups when that count was zero, as it is at the first
    probe after the module is loaded. *)
Theorem probe_index_spec soc ngroups0 :
  Forall (fun g => length (funcs g) = 4%nat) (groups soc) ->
  exists group_pins index,
    tegra_pinctrl_probe_index soc ngroups0 = ProbeOk (group_pins, index) /\
    (length group_pins <= ngroups soc * 4)%nat /\
    length index = length ngroups0 /\
    (forall fn count0, ngroups0 !! fn = Some count0 ->
       exists start,
         index !! fn
         = Some (start,
                 (count0 + length (List.filter (offers (Z.of_nat fn))
                                     (groups soc)))%nat) /\
         take (length (List.filter (offers (Z.of_nat fn)) (groups soc)))
              (drop start group_pins)
         = map name (List.filter (offers (Z.of_nat fn)) (groups soc))) /\
    (forall fn, ngroups0 !! fn = Some 0%nat ->
       function_groups (group_pins, index) fn
       = Some (map name (List.filter (offers (Z.of_nat fn)) (groups soc)))).
Proof.
  intros Hfour.
  set (n := length ngroups0).
  pose proof (segments_fit (groups soc) (fn_range 0 n) Hfour
                (fn_range_NoDup 0 n)) as Hfit.
  fold (probe_segments (groups soc) 0 n) in Hfit.
  assert (Hentry : forall fn count0, ngroups0 !! fn = Some count0 ->
            exists start,
              index_of_segments 0 ngroups0 (probe_segments (groups soc) 0 n)
                !! fn
              = Some (start,
                      (count0 + length (List.filter (offers (Z.of_nat fn))
                                          (groups soc)))%nat) /\
              (start + length (List.filter (offers (Z.of_nat fn)) (groups soc))
               <= length (concat (probe_segments (groups soc) 0 n)))%nat /\
              take (length (List.filter (offers (Z.of_nat fn)) (groups soc)))
                   (drop start (concat (probe_segments (groups soc) 0 n)))
              = map name (List.filter (offers (Z.of_nat fn)) (groups soc))).
  { intros fn count0 Hc.
    assert (Hfn : (fn < n)%nat) by (apply (lookup_lt_Some _ _ _ Hc)).
    assert (Hs : probe_segments (groups soc) 0 n !! fn
                 = Some (map name (List.filter (offers (Z.of_nat fn))
                                     (groups soc)))).
    { unfold probe_segments. rewrite list_lookup_fmap.
      rewrite fn_range_lookup by exact Hfn. reflexivity. }
    destruct (index_of_segments_lookup (probe_segments (groups soc) 0 n)
                ngroups0 [] [] fn count0 _ Hc Hs) as (start & Hidx & Hin & Hseg).
    cbn [app length Nat.add] in Hidx, Hin, Hseg.
    rewrite length_map in Hidx, Hin, Hseg.
    exists start. split; [exact Hidx |]. split; [exact Hin | exact Hseg]. }
  exists (concat (probe_segments (groups soc) 0 n)),
         (index_of_segments 0 ngroups0 (probe_segments (groups soc) 0 n)).
  split; [| split; [| split; [| split]]].
  - unfold tegra_pinctrl_probe_index.
    rewrite probe_functions_loop_run by (try exact Hfour; cbn; exact Hfit).
    reflexivity.
  - exact Hfit.
  - apply index_of_segments_length. unfold probe_segments.
    rewrite length_map. symmetry. apply fn_range_length.
  - intros fn count0 Hc.
    destruct (Hentry fn count0 Hc) as (start & Hidx & _ & Hseg).
    exists start. split; [exact Hidx | exact Hseg].
  - intros fn Hc.
    destruct (Hentry fn 0%nat Hc) as (start & Hidx & Hin & Hseg).
    unfold function_groups. cbn [fst snd]. rewrite Hidx. cbn [Nat.add].
    rewrite bool_decide_eq_true_2 by exact Hin.
    rewrite Hseg. reflexivity.
Qed.

(** X16 on the Tegra234 catalog with its 90 functions, the counts being
    zero as in the static table. *)
Lemma probe_index_spec_witness :
  exists group_pins index,
    tegra_pinctrl_probe_index tegra234_pinctrl (replicate 90 0%nat)
    = ProbeOk (group_pins, index) /\
    (length group_pins <= ngroups tegra234_pinctrl * 4)%nat /\
    length index = length (replicate 90 0%nat) /\
    (forall fn count0, replicate 90 0%nat !! fn = Some count0 ->
       exists start,
         index !! fn
         = Some (start,
                 (count0 + length (List.filter (offers (Z.of_nat fn))
                                     (groups tegra234_pinctrl)))%nat) /\
         take (length (List.filter (offers (Z.of_nat fn))
                         (groups tegra234_pinctrl)))
              (drop start group_pins)
         = map name (List.filter (offers (Z.of_nat fn))
                       (groups tegra234_pinctrl))) /\
    (forall fn, replicate 90 0%nat !! fn = Some 0%nat ->
       function_groups (group_pins, index) fn
       = Some (map name (List.filter (offers (Z.of_nat fn))
                           (groups tegra234_pinctrl)))).
Proof.
  apply (probe_index_spec tegra234_pinctrl (replicate 90 0%nat)).
  apply (bool_decide_unpack _). vm_compute. exact I.
Defined.

(** ** Suspend and resume *)


Lemma holds_snapshot_agree st0 rs : forall i p buf buf',
  (forall q, (p <= q < p + snapshot_words rs)%nat -> buf' !! q = buf !! q) ->
  holds_snapshot st0 i rs p buf -> holds_snapshot st0 i rs p buf'.
Proof.
  induction rs as [| res rest IH]; intros i p buf buf' Hagree Hholds.
  - exact I.
  - cbn [holds_snapshot snapshot_words] in *. destruct Hholds as [Hbank Hrest].
    split.
    + intros j Hj. rewrite Hagree by lia. apply Hbank. exact Hj.
    + apply (IH _ _ buf); [| exact Hrest].
      intros q Hq. apply Hagree. lia.
Qed.












(** ** The debugfs views *)

Lemma strchr_append a b c :
  strchr a c = None ->
  strchr (String.append a (String c b)) c = Some (String c b).
Proof.
  induction a as [| x a IH]; intros Hno.
  - change (String.append EmptyString (String c b)) with (String c b).
    cbn [strchr]. rewrite Ascii.eqb_refl. reflexivity.
  - change (String.append (String x a) (String c b))
      with (String x (String.append a (String c b))).
    cbn [strchr] in *.
    destruct (Ascii.eqb x c); [discriminate |]. apply IH. exact Hno.
Qed.

(** X18.  [strip_prefix] cuts at the first comma only: a text without a
    comma is returned whole, and of a text [a,b] whose part [a] has no
    comma exactly [b] is returned, further commas of [b] included. *)
Theorem strip_prefix_first_comma a b :
  strchr a ","%char = None ->
  strip_prefix a = a /\
  strip_prefix (String.append a (String ","%char b)) = b.
Proof.
  intros Hno. unfold strip_prefix. split.
  - rewrite Hno. reflexivity.
  - rewrite (strchr_append a b _ Hno). reflexivity.
Qed.

(** X18 on a property name with a second comma after the prefix. *)
Lemma strip_prefix_first_comma_witness :
  strip_prefix "nvidia"%string = "nvidia"%string /\
  strip_prefix (String.append "nvidia"%string (String ","%char "a,b"%string))
  = "a,b"%string.
Proof.
  apply (strip_prefix_first_comma "nvidia"%string "a,b"%string).
  reflexivity.
Defined.

(** X19.  The name [tegra_pinconf_config_dbg_show] prints for a packed
    configuration is the device-tree property of its parameter without the
    [nvidia,] prefix, with the argument as a [u16]; the one property never
    printed is [nvidia,io-hv], which shares its parameter with
    [nvidia,rcv-sel] listed before it.  A parameter outside the table is
    printed as [unknown]. *)
Theorem config_dbg_show_names prop param arg :
  (prop, param) ∈ cfg_params ->
  prop <> "nvidia,io-hv"%string ->
  tegra_pinconf_config_dbg_show (TEGRA_PINCONF_PACK param arg)
  = (strip_prefix prop, u16 arg) /\
  prop = String.append "nvidia,"%string (strip_prefix prop) /\
  tegra_pinconf_config_dbg_show
    (TEGRA_PINCONF_PACK TEGRA_PINCONF_PARAM_RCV_SEL arg)
  = ("rcv-sel"%string, u16 arg) /\
  forall code,
    tegra_pinconf_config_dbg_show
      (TEGRA_PINCONF_PACK (TEGRA_PINCONF_PARAM_OTHER code) arg)
    = ("unknown"%string, u16 arg).
Proof.
  intros Hin Hne.
  assert (Hall : Forall (fun e : string * tegra_pinconf_param =>
                   e.1 <> "nvidia,io-hv"%string ->
                   cfg_param_property cfg_params e.2 = e.1 /\
                   e.1 = String.append "nvidia,"%string (strip_prefix e.1))
                 cfg_params).
  { unfold cfg_params.
    repeat (apply Forall_cons; split;
            [cbn [fst snd]; intros Hp;
             first [split; reflexivity | exfalso; apply Hp; reflexivity] |]).
    apply Forall_nil_2. }
  rewrite Forall_forall in Hall. destruct (Hall _ Hin Hne) as [Hname Hpre].
  cbn [fst snd] in Hname, Hpre.
  split; [| split; [exact Hpre | split; [reflexivity | intros code; reflexivity]]].
  unfold tegra_pinconf_config_dbg_show, TEGRA_PINCONF_PACK,
    TEGRA_PINCONF_UNPACK_PARAM, TEGRA_PINCONF_UNPACK_ARG.
  cbn [fst snd]. rewrite Hname. reflexivity.
Qed.

(** X19 for the pad-power parameter with an argument beyond 16 bits. *)
Lemma config_dbg_show_names_witness :
  tegra_pinconf_config_dbg_show
    (TEGRA_PINCONF_PACK TEGRA_PINCONF_PARAM_PAD_POWER 65537)
  = (strip_prefix "nvidia,pad-power"%string, u16 65537) /\
  "nvidia,pad-power"%string
  = String.append "nvidia,"%string (strip_prefix "nvidia,pad-power"%string) /\
  tegra_pinconf_config_dbg_show
    (TEGRA_PINCONF_PACK TEGRA_PINCONF_PARAM_RCV_SEL 65537)
  = ("rcv-sel"%string, u16 65537) /\
  forall code,
    tegra_pinconf_config_dbg_show
      (TEGRA_PINCONF_PACK (TEGRA_PINCONF_PARAM_OTHER code) 65537)
    = ("unknown"%string, u16 65537).
Proof.
  apply (config_dbg_show_names "nvidia,pad-power"%string
           TEGRA_PINCONF_PARAM_PAD_POWER 65537).
  - apply (bool_decide_unpack _). vm_compute. exact I.
  - discriminate.
Defined.

Lemma reg_val_regs st st' bank reg :
  regs st' = regs st -> reg_val st' bank reg = reg_val st bank reg.
Proof. intros H. unfold reg_val. rewrite H. reflexivity. Qed.

Lemma field_range val bit width :
  0 <= val -> 0 <= width -> 0 <= field val bit width < 2 ^ width.
Proof.
  intros Hv Hw. unfold field. rewrite Z.land_ones by exact Hw.
  apply Z.mod_pos_bound. lia.
Qed.

(** One iteration of the dump on a group that has what the iteration
    needs. *)
Lemma dbg_show_one_run soc functions g prop param st :
  dbg_entry_ok soc functions g param = true ->
  match dbg_located soc g param with
  | None =>
      tegra_pinconf_group_dbg_show_one soc functions g (prop, param) st
      = Ret None st
  | Some (bank, reg, bit, width) =>
      exists item,
        tegra_pinconf_group_dbg_show_one soc functions g (prop, param) st
        = Ret (Some item) (after_readl bank reg st) /\
        dbg_property item = strip_prefix prop /\
        (param <> TEGRA_PINCONF_PARAM_FUNCTION ->
         item = DbgValue (strip_prefix prop)
                  (field (reg_val st bank reg) bit width)) /\
        (param = TEGRA_PINCONF_PARAM_FUNCTION ->
         exists f fname,
           funcs g !! Z.to_nat (field (reg_val st bank reg) bit width) = Some f /\
           functions !! Z.to_nat (f mod 2 ^ 8) = Some fname /\
           item = DbgFunction (strip_prefix prop) fname)
  end.
Proof.
  unfold dbg_entry_ok, dbg_located, tegra_pinconf_group_dbg_show_one.
  cbn [fst snd]. unfold tegra_pinconf_reg.
  destruct (pinconf_switch soc g param) as [[[[bank reg] bit] width] |];
    [| discriminate].
  destruct ((reg <? 0) || (bit <? 0)) eqn:Habs; cbn [orb].
  - intros _. reflexivity.
  - intros Hok. apply orb_false_iff in Habs. destruct Habs as [Hreg Hbit].
    apply Z.ltb_ge in Hreg, Hbit.
    apply andb_true_iff in Hok. destruct Hok as [Hok Hfn].
    apply andb_true_iff in Hok. destruct Hok as [Hok Hw32].
    apply andb_true_iff in Hok. destruct Hok as [Hb32 Hw0].
    apply Z.ltb_lt in Hb32, Hw32. apply Z.leb_le in Hw0.
    unfold bind at 1. unfold ret at 1. unfold bind at 1. unfold pmx_readl at 1.
    fold (after_readl bank reg st).
    unfold bind at 1. rewrite c_shr_ok by lia.
    unfold bind at 1. rewrite c_shl_ok by lia.
    rewrite u32_ones by lia. fold (field (reg_val st bank reg) bit width).
    pose proof (field_range (reg_val st bank reg) bit width
                  (proj1 (reg_val_range st bank reg)) Hw0) as Hfr.
    case_bool_decide as Hparam.
    + cbn [negb orb] in Hfn. apply andb_true_iff in Hfn.
      destruct Hfn as [Hslots Hnames].
      apply Nat.leb_le in Hslots.
      destruct (funcs g !! Z.to_nat (field (reg_val st bank reg) bit width))
        as [f |] eqn:Hf.
      2: { apply lookup_ge_None in Hf.
           assert (Z.to_nat (field (reg_val st bank reg) bit width)
                   < Z.to_nat (2 ^ width))%nat by (apply Z2Nat.inj_lt; lia).
           lia. }
      rewrite forallb_forall in Hnames.
      assert (Hfin : In f (funcs g)).
      { apply list_elem_of_In. apply (list_elem_of_lookup_2 _ _ _ Hf). }
      pose proof (Hnames f Hfin) as Hname. apply Nat.ltb_lt in Hname.
      destruct (functions !! Z.to_nat (f mod 2 ^ 8)) as [fname |] eqn:Hfname.
      2: { apply lookup_ge_None in Hfname. lia. }
      exists (DbgFunction (strip_prefix prop) fname).
      split; [reflexivity |]. split; [reflexivity |]. split; [congruence |].
      intros _. exists f, fname. repeat split; assumption.
    + exists (DbgValue (strip_prefix prop) (field (reg_val st bank reg) bit width)).
      split; [reflexivity |]. split; [reflexivity |].
      split; [reflexivity | congruence].
Qed.

Lemma dbg_show_loop_run soc functions g tbl : forall st,
  forallb (fun entry => dbg_entry_ok soc functions g entry.2) tbl = true ->
  exists out reads st',
    tegra_pinconf_group_dbg_show_loop soc functions g tbl st = Ret out st' /\
    regs st' = regs st /\ gpio_conf st' = gpio_conf st /\
    trace st' = reads ++ trace st /\
    forallb is_readl reads = true /\ length reads = length out /\
    map dbg_property out
    = map (fun entry => strip_prefix entry.1)
        (List.filter (fun entry => bool_decide (is_Some (dbg_located soc g entry.2)))
           tbl) /\
    (forall prop param bank reg bit width,
       (prop, param) ∈ tbl ->
       dbg_located soc g param = Some (bank, reg, bit, width) ->
       (param <> TEGRA_PINCONF_PARAM_FUNCTION ->
        DbgValue (strip_prefix prop) (field (reg_val st bank reg) bit width)
        ∈ out) /\
       (param = TEGRA_PINCONF_PARAM_FUNCTION ->
        exists f fname,
          funcs g !! Z.to_nat (field (reg_val st bank reg) bit width) = Some f /\
          functions !! Z.to_nat (f mod 2 ^ 8) = Some fname /\
          DbgFunction (strip_prefix prop) fname ∈ out)).
Proof.
  induction tbl as [| [prop0 param0] rest IH]; intros st Hok.
  - exists [], [], st. cbn. repeat split; try reflexivity.
    + intros _. apply elem_of_nil in H. contradiction.
    + intros _. apply elem_of_nil in H. contradiction.
  - cbn [forallb snd] in Hok. apply andb_true_iff in Hok.
    destruct Hok as [Hok0 Hokr].
    cbn [tegra_pinconf_group_dbg_show_loop].
    pose proof (dbg_show_one_run soc functions g prop0 param0 st Hok0) as Hone.
    cbn [List.filter snd fst].
    destruct (dbg_located soc g param0) as [[[[bank0 reg0] bit0] width0] |]
      eqn:Hloc0.
    + destruct Hone as (item & Hrun0 & Hprop0 & Hval0 & Hfun0).
      destruct (IH (after_readl bank0 reg0 st) Hokr)
        as (out & reads & st' & Hrun & Hregs & Hgc & Htr & Hrd & Hlen & Hnames & Hitems).
      exists (item :: out), (reads ++ [EvReadl (u32 bank0) (u32 reg0)]), st'.
      unfold bind at 1. rewrite Hrun0. unfold bind at 1. rewrite Hrun.
      split; [reflexivity |]. split; [exact Hregs |]. split; [exact Hgc |].
      split; [rewrite Htr, <- app_assoc; reflexivity |].
      split; [rewrite forallb_app, Hrd; reflexivity |].
      split; [rewrite length_app, Hlen; cbn; lia |].
      rewrite bool_decide_eq_true_2 by (eexists; reflexivity).
      split; [cbn [map fst]; rewrite Hprop0, Hnames; reflexivity |].
      intros prop param bank reg bit width Hin Hloc.
      apply elem_of_cons in Hin. destruct Hin as [Heq | Hin].
      * injection Heq as -> ->. rewrite Hloc0 in Hloc.
        injection Hloc as <- <- <- <-. split.
        -- intros Hnf. rewrite <- (Hval0 Hnf). apply list_elem_of_here.
        -- intros Hf. destruct (Hfun0 Hf) as (f & fname & H1 & H2 & ->).
           exists f, fname. repeat split; try assumption. apply list_elem_of_here.
      * destruct (Hitems prop param bank reg bit width Hin Hloc) as [Hv Hf].
        rewrite reg_val_after_readl in Hv, Hf. split.
        -- intros Hnf. apply list_elem_of_further. apply Hv. exact Hnf.
        -- intros Hfn. destruct (Hf Hfn) as (f & fname & H1 & H2 & H3).
           exists f, fname. repeat split; try assumption.
           apply list_elem_of_further. exact H3.
    + destruct (IH st Hokr)
        as (out & reads & st' & Hrun & Hregs & Hgc & Htr & Hrd & Hlen & Hnames & Hitems).
      exists out, reads, st'.
      unfold bind at 1. rewrite Hone. unfold bind at 1. rewrite Hrun.
      split; [reflexivity |]. split; [exact Hregs |]. split; [exact Hgc |].
      split; [exact Htr |]. split; [exact Hrd |]. split; [exact Hlen |].
      rewrite bool_decide_eq_false_2 by (intros [x Hx]; discriminate).
      split; [exact Hnames |].
      intros prop param bank reg bit width Hin Hloc.
      apply elem_of_cons in Hin. destruct Hin as [Heq | Hin].
      * injection Heq as -> ->. congruence.
      * apply (Hitems prop param bank reg bit width Hin Hloc).
Qed.

(** X20.  The group dump of debugfs only reads.  On a group whose fields
    lie inside their registers and whose function slots all have a name,
    [tegra_pinconf_group_dbg_show] is defined, changes no register and no
    shadow entry, emits no diagnostic and no write, and does exactly one
    read per line printed.  It prints one line for every entry of
    [cfg_params] the group has, in table order and without the [nvidia,]
    prefix, and none for the others; a line other than the function line
    carries the raw content of the field, pad-power included. *)
Theorem group_dbg_show_reads_only soc functions group g st :
  groups soc !! group = Some g ->
  dbg_show_ok soc functions g = true ->
  exists out reads st',
    tegra_pinconf_group_dbg_show soc functions group st = Ret out st' /\
    regs st' = regs st /\ gpio_conf st' = gpio_conf st /\
    trace st' = reads ++ trace st /\
    forallb is_readl reads = true /\ length reads = length out /\
    map dbg_property out
    = map (fun entry => strip_prefix entry.1)
        (List.filter (fun entry => bool_decide (is_Some (dbg_located soc g entry.2)))
           cfg_params) /\
    forall prop param bank reg bit width,
      (prop, param) ∈ cfg_params ->
      param <> TEGRA_PINCONF_PARAM_FUNCTION ->
      pinconf_switch soc g param = Some (bank, reg, bit, width) ->
      0 <= reg -> 0 <= bit ->
      DbgValue (strip_prefix prop) (field (reg_val st bank reg) bit width) ∈ out.
Proof.
  intros Hg Hok.
  destruct (dbg_show_loop_run soc functions g cfg_params st Hok)
    as (out & reads & st' & Hrun & Hregs & Hgc & Htr & Hrd & Hlen & Hnames & Hitems).
  exists out, reads, st'.
  split.
  { unfold tegra_pinconf_group_dbg_show. unfold bind at 1.
    rewrite (group_at_run _ _ _ _ Hg). exact Hrun. }
  do 6 (split; [assumption |]).
  intros prop param bank reg bit width Hin Hnf Hsw Hreg Hbit.
  apply (Hitems prop param bank reg bit width Hin); [| exact Hnf].
  unfold dbg_located. rewrite Hsw.
  replace ((reg <? 0) || (bit <? 0)) with false; [reflexivity |].
  symmetry. apply orb_false_iff. split; apply Z.ltb_ge; assumption.
Qed.

(** X20 on the first Tegra234 group. *)
Lemma group_dbg_show_reads_only_witness :
  exists out reads st',
    tegra_pinconf_group_dbg_show tegra234_pinctrl tegra234_functions 0
      (state_of [(1, 8192, 1029)]) = Ret out st' /\
    regs st' = regs (state_of [(1, 8192, 1029)]) /\
    gpio_conf st' = gpio_conf (state_of [(1, 8192, 1029)]) /\
    trace st' = reads ++ trace (state_of [(1, 8192, 1029)]) /\
    forallb is_readl reads = true /\ length reads = length out /\
    map dbg_property out
    = map (fun entry => strip_prefix entry.1)
        (List.filter
           (fun entry => bool_decide
              (is_Some (dbg_located tegra234_pinctrl
                          (default (demo_group "g" 0 [] 0 0) (tegra234_groups !! 0%nat))
                          entry.2)))
           cfg_params) /\
    forall prop param bank reg bit width,
      (prop, param) ∈ cfg_params ->
      param <> TEGRA_PINCONF_PARAM_FUNCTION ->
      pinconf_switch tegra234_pinctrl
        (default (demo_group "g" 0 [] 0 0) (tegra234_groups !! 0%nat)) param
      = Some (bank, reg, bit, width) ->
      0 <= reg -> 0 <= bit ->
      DbgValue (strip_prefix prop)
        (field (reg_val (state_of [(1, 8192, 1029)]) bank reg) bit width) ∈ out.
Proof.
  apply (group_dbg_show_reads_only tegra234_pinctrl tegra234_functions 0
           (default (demo_group "g" 0 [] 0 0) (tegra234_groups !! 0%nat))
           (state_of [(1, 8192, 1029)])).
  - reflexivity.
  - vm_compute. reflexivity.
Defined.

(** X21.  What debugfs shows after a function is selected: once
    [tegra_pinctrl_set_mux] has put [function] on a group, the function
    line of the group dump carries the name of that function. *)
Theorem dbg_show_after_set_mux soc functions group g i function fname st :
  groups soc !! group = Some g ->
  mux_group_ok soc g = true ->
  dbg_show_ok soc functions g = true ->
  funcs g !! i = Some function ->
  0 <= function < 2 ^ 8 ->
  functions !! Z.to_nat function = Some fname ->
  exists st1 out st2,
    tegra_pinctrl_set_mux soc function group st = Ret 0 st1 /\
    tegra_pinconf_group_dbg_show soc functions group st1 = Ret out st2 /\
    DbgFunction "func"%string fname ∈ out.
Proof.
  intros Hg Hmux Hok Hslot Hfn Hname.
  destruct (mux_round_trip soc group g i function 0 st Hg Hmux Hslot)
    as (st1 & _ & Hset & Hfield & _).
  destruct (dbg_show_loop_run soc functions g cfg_params st1 Hok)
    as (out & reads & st2 & Hrun & _ & _ & _ & _ & _ & _ & Hitems).
  exists st1, out, st2. split; [exact Hset |]. split.
  { unfold tegra_pinconf_group_dbg_show. unfold bind at 1.
    rewrite (group_at_run _ _ _ _ Hg). exact Hrun. }
  assert (Hloc : dbg_located soc g TEGRA_PINCONF_PARAM_FUNCTION
                 = Some (mux_bank g, mux_reg g, mux_bit g, 2)).
  { unfold dbg_located. cbn [pinconf_switch]. unfold mux_group_ok in Hmux.
    repeat (apply andb_true_iff in Hmux; destruct Hmux as [Hmux ?]).
    repeat match goal with
           | H : (_ <=? _) = true |- _ => apply Z.leb_le in H
           end.
    replace ((mux_reg g <? 0) || (mux_bit g <? 0)) with false; [reflexivity |].
    symmetry. apply orb_false_iff. split; apply Z.ltb_ge; assumption. }
  destruct (Hitems "nvidia,func"%string TEGRA_PINCONF_PARAM_FUNCTION
              (mux_bank g) (mux_reg g) (mux_bit g) 2) as [_ Hf];
    [apply (bool_decide_unpack _); vm_compute; exact I | exact Hloc |].
  destruct (Hf eq_refl) as (f & fname' & Hfslot & Hfname & Hin).
  rewrite Hfield, Nat2Z.id, Hslot in Hfslot. injection Hfslot as <-.
  rewrite Z.mod_small, Hname in Hfname by exact Hfn. injection Hfname as <-.
  exact Hin.
Qed.

(** X21 on the first Tegra234 group, switched to its second function, [touch]. *)
Lemma dbg_show_after_set_mux_witness :
  exists st1 out st2,
    tegra_pinctrl_set_mux tegra234_pinctrl TEGRA_MUX_TOUCH 0
      (state_of [(1, 8192, 1029)]) = Ret 0 st1 /\
    tegra_pinconf_group_dbg_show tegra234_pinctrl tegra234_functions 0 st1
    = Ret out st2 /\
    DbgFunction "func"%string "touch"%string ∈ out.
Proof.
  apply (dbg_show_after_set_mux tegra234_pinctrl tegra234_functions 0
           (default (demo_group "g" 0 [] 0 0) (tegra234_groups !! 0%nat))
           1 TEGRA_MUX_TOUCH "touch"%string (state_of [(1, 8192, 1029)])).
  - reflexivity.
  - vm_compute. reflexivity.
  - vm_compute. reflexivity.
  - reflexivity.
  - vm_compute. split; [discriminate | reflexivity].
  - reflexivity.
Defined.

Lemma tegra234_groups_dbg_show_ok :
  Forall (fun g => dbg_show_ok tegra234_pinctrl tegra234_functions g = true)
    tegra234_groups.
Proof. apply (bool_decide_unpack _). vm_compute. exact I. Qed.

(** X22.  On the Tegra234 catalog the dump is defined for every group in
    every register state: no shift leaves its type, every value of a mux
    field has a slot and every slot a function name; and it leaves the
    registers and the shadow area as they are. *)
Theorem tegra234_dbg_show_defined group st :
  (group < length tegra234_groups)%nat ->
  exists out st',
    tegra_pinconf_group_dbg_show tegra234_pinctrl tegra234_functions group st
    = Ret out st' /\
    regs st' = regs st /\ gpio_conf st' = gpio_conf st /\
    writes (trace st') = writes (trace st) /\
    (0 < length out <= length cfg_params)%nat.
Proof.
  intros Hgroup.
  destruct (lookup_lt_is_Some_2 tegra234_groups group Hgroup) as [g Hg].
  pose proof tegra234_groups_dbg_show_ok as Hall.
  rewrite Forall_lookup in Hall. pose proof (Hall group g Hg) as Hok.
  destruct (dbg_show_loop_run tegra234_pinctrl tegra234_functions g cfg_params
              st Hok)
    as (out & reads & st' & Hrun & Hregs & Hgc & Htr & Hrd & Hlen & Hnames & _).
  exists out, st'. split.
  { unfold tegra_pinconf_group_dbg_show. unfold bind at 1.
    change (groups tegra234_pinctrl) with tegra234_groups.
    unfold group_at. change (groups tegra234_pinctrl) with tegra234_groups.
    rewrite Hg. exact Hrun. }
  split; [exact Hregs |]. split; [exact Hgc |]. split.
  - rewrite Htr. unfold writes. rewrite List.filter_app.
    replace (List.filter is_write reads) with (@nil event); [reflexivity |].
    symmetry. clear -Hrd. induction reads as [| e reads IH]; [reflexivity |].
    cbn in Hrd. apply andb_true_iff in Hrd. destruct Hrd as [He Hrd].
    destruct e; try discriminate. cbn. apply IH. exact Hrd.
  - assert (Hl : length out
                 = length (List.filter
                     (fun entry => bool_decide
                        (is_Some (dbg_located tegra234_pinctrl g entry.2)))
                     cfg_params)).
    { rewrite <- (length_map dbg_property out), Hnames, length_map. reflexivity. }
    rewrite Hl. split; [| apply List.filter_length_le].
    assert (Hpos : Forall (fun g =>
              (0 < length (List.filter
                    (fun entry : string * tegra_pinconf_param => bool_decide
                       (is_Some (dbg_located tegra234_pinctrl g entry.2)))
                    cfg_params))%nat) tegra234_groups).
    { apply (bool_decide_unpack _). vm_compute. exact I. }
    rewrite Forall_lookup in Hpos. apply (Hpos group g Hg).
Qed.

(** X22 on the last group of the catalog. *)
Lemma tegra234_dbg_show_defined_witness :
  exists out st',
    tegra_pinconf_group_dbg_show tegra234_pinctrl tegra234_functions 198
      (state_of [(0, 4, 7)]) = Ret out st' /\
    regs st' = regs (state_of [(0, 4, 7)]) /\
    gpio_conf st' = gpio_conf (state_of [(0, 4, 7)]) /\
    writes (trace st') = writes (trace (state_of [(0, 4, 7)])) /\
    (0 < length out <= length cfg_params)%nat.
Proof.
  apply (tegra234_dbg_show_defined 198 (state_of [(0, 4, 7)])).
  vm_compute. lia.
Defined.

(** ** More on the parked bits *)

Lemma clear_parked_bits_loop_skip gs st :
  Forall (fun g => parked_bitmask g <= 0) gs ->
  clear_parked_bits_loop gs st = Ret tt st.
Proof.
  induction 1 as [| g rest Hg _ IH]; [reflexivity |].
  cbn [clear_parked_bits_loop]. unfold bind, clear_parked_bits_one.
  replace (0 <? parked_bitmask g) with false
    by (symmetry; apply Z.ltb_ge; exact Hg).
  exact IH.
Qed.

(** X23.  A catalog none of whose groups has a positive parked bitmask
    makes [tegra_pinctrl_clear_parked_bits] a pass without any effect: no
    register is read or written and the state, trace included, is the one
    it started from.  The Tegra234 catalog, whose entries leave
    [parked_bitmask] at zero, is such a catalog. *)
Theorem clear_parked_bits_nothing_parked soc st :
  Forall (fun g => parked_bitmask g <= 0) (groups soc) ->
  tegra_pinctrl_clear_parked_bits soc st = Ret tt st.
Proof.
  intros Hnone. unfold tegra_pinctrl_clear_parked_bits.
  apply clear_parked_bits_loop_skip. exact Hnone.
Qed.

(** X23 on the Tegra234 catalog. *)
Lemma clear_parked_bits_nothing_parked_witness :
  tegra_pinctrl_clear_parked_bits tegra234_pinctrl (state_of [(1, 8192, 1029)])
  = Ret tt (state_of [(1, 8192, 1029)]).
Proof.
  apply (clear_parked_bits_nothing_parked tegra234_pinctrl
           (state_of [(1, 8192, 1029)])).
  apply (bool_decide_unpack _). vm_compute. exact I.
Defined.

(** X24.  The pass is idempotent on the registers: run a second time, it
    completes again and every register keeps the value the first run left;
    the shadow area is never touched. *)
Theorem clear_parked_bits_twice soc st :
  exists st1 st2,
    tegra_pinctrl_clear_parked_bits soc st = Ret tt st1 /\
    tegra_pinctrl_clear_parked_bits soc st1 = Ret tt st2 /\
    gpio_conf st2 = gpio_conf st /\
    forall bank reg, reg_val st2 bank reg = reg_val st1 bank reg.
Proof.
  unfold tegra_pinctrl_clear_parked_bits.
  destruct (clear_parked_bits_loop_run (groups soc) st)
    as (st1 & Hrun1 & Hgc1 & Hregs1).
  destruct (clear_parked_bits_loop_run (groups soc) st1)
    as (st2 & Hrun2 & Hgc2 & Hregs2).
  exists st1, st2. split; [exact Hrun1 |]. split; [exact Hrun2 |].
  split; [congruence |].
  intros bank reg. rewrite Hregs2, Hregs1.
  rewrite <- Z.land_assoc, Z.land_diag. reflexivity.
Qed.
